(** * node-mysql2 packet codec: a shallow embedding and its properties

    The development follows the layout of the JavaScript sources:

    - [JS]            the fragment of the language the codec relies on
                      (numbers, strings, dynamic values, exceptions);
    - [Long]          the 64-bit integer objects of the [long] package;
    - [NodeBuffer]    the accessors of Node's [Buffer] that the codec calls;
    - [PacketParser]  lib/parsers/packet_parser.js;
    - [Packet]        lib/packets/packet.js;
    - [CastField]     lib/parsers/cast_field.js;
    - [BinaryParser]  lib/parsers/binary_parser.js.

    Definitions come first, the properties of the codec after them. *)

From Stdlib Require Import ZArith List String Ascii Bool Lia.
From Stdlib Require Import DecimalString DecimalPos DecimalN.
From stdpp Require Import base option list gmap.

Open Scope Z_scope.

(* ===================================================================== *)
(** * The JavaScript fragment                                             *)
(* ===================================================================== *)

Module JS.

(** ** Completions

    A JavaScript call either returns or throws.  [OutsideModel] marks the
    few spots where an execution leaves the fragment modelled here (the
    packet cursor stops being an integer number, a string is not a plain
    decimal literal); it is never used to stand for a value. *)

Inductive error :=
| TypeError (msg : string)
| RangeError (msg : string)
| ReferenceError (msg : string)
| Error (msg : string)
| OutsideModel (why : string).

Inductive Result (A : Type) :=
| Ok (a : A)
| Throw (e : error).
Arguments Ok {A} a.
Arguments Throw {A} e.

Definition bind {A B} (m : Result A) (k : A -> Result B) : Result B :=
  match m with
  | Ok a => k a
  | Throw e => Throw e
  end.

Definition is_Ok {A} (m : Result A) : bool :=
  match m with Ok _ => true | Throw _ => false end.

(** ** Numbers

    Every number the codec computes with is an integer-valued double, a
    NaN or an infinity.  [Fin z] is the double whose value is the integer
    [z]; arithmetic rounds to the nearest double, ties to the even
    significand, and overflows to an infinity.  The sign of zero is not
    tracked ([-0 === 0] in JavaScript). *)

Inductive number :=
| NaN
| Inf (negative : bool)
| Fin (z : Z).

(** Nearest value with a 53-bit significand, for [m >= 0]. *)
Definition round53 (m : Z) : Z :=
  let e := Z.log2 m in
  if e <? 53 then m
  else
    let sh := e - 52 in
    let q := Z.shiftr m sh in
    let r := m - Z.shiftl q sh in
    let half := Z.shiftl 1 (sh - 1) in
    let q' := if r <? half then q
              else if half <? r then q + 1
              else if Z.even q then q else q + 1 in
    Z.shiftl q' sh.

Definition of_Z (z : Z) : number :=
  let m := round53 (Z.abs z) in
  if 2 ^ 1024 <=? m then Inf (z <? 0) else Fin (Z.sgn z * m).

Definition neg (a : number) : number :=
  match a with
  | NaN => NaN
  | Inf s => Inf (negb s)
  | Fin z => Fin (- z)
  end.

Definition add (a b : number) : number :=
  match a, b with
  | NaN, _ | _, NaN => NaN
  | Inf s, Inf t => if Bool.eqb s t then Inf s else NaN
  | Inf s, Fin _ | Fin _, Inf s => Inf s
  | Fin x, Fin y => of_Z (x + y)
  end.

Definition sub (a b : number) : number := add a (neg b).

Definition mul (a b : number) : number :=
  match a, b with
  | NaN, _ | _, NaN => NaN
  | Inf s, Inf t => Inf (xorb s t)
  | Inf s, Fin z | Fin z, Inf s => if z =? 0 then NaN else Inf (xorb s (z <? 0))
  | Fin x, Fin y => of_Z (x * y)
  end.

(** The relational operators; every comparison with NaN is false. *)
Definition lt (a b : number) : bool :=
  match a, b with
  | NaN, _ | _, NaN => false
  | Inf s, Inf t => s && negb t
  | Inf s, Fin _ => s
  | Fin _, Inf t => negb t
  | Fin x, Fin y => x <? y
  end.

Definition le (a b : number) : bool :=
  match a, b with
  | NaN, _ | _, NaN => false
  | _, _ => negb (lt b a)
  end.

Definition gt (a b : number) : bool := lt b a.
Definition ge (a b : number) : bool := le b a.

(** [===] on numbers. *)
Definition num_eqb (a b : number) : bool :=
  match a, b with
  | Fin x, Fin y => x =? y
  | Inf s, Inf t => Bool.eqb s t
  | _, _ => false
  end.

(** [x | 0] and [x >>> 0] on integer-valued numbers. *)
Definition int32 (z : Z) : Z := (z + 2 ^ 31) mod 2 ^ 32 - 2 ^ 31.
Definition uint32 (z : Z) : Z := z mod 2 ^ 32.

(** ** Strings *)

Infix "+++" := String.append (at level 60, right associativity).

(** Decimal digits of a natural number, without leading zeros. *)
Definition dec (n : Z) : string :=
  NilZero.string_of_uint (N.to_uint (Z.to_N n)).

(** Decimal rendering of an integer, with a leading [-] when negative. *)
Definition dec_signed (z : Z) : string :=
  if z <? 0 then "-"%string +++ dec (- z) else dec z.

Definition code (c : ascii) : Z := Z.of_N (N_of_ascii c).
Definition char (b : Z) : ascii := ascii_of_N (Z.to_N (b mod 256)).

Definition is_digit (c : ascii) : bool := (48 <=? code c) && (code c <=? 57).

(** Value of a run of decimal digits, most significant first. *)
Fixpoint digits_value (s : string) (acc : Z) : Z :=
  match s with
  | EmptyString => acc
  | String c s' => digits_value s' (10 * acc + (code c - 48))
  end.

Fixpoint all_digits (s : string) : bool :=
  match s with
  | EmptyString => true
  | String c s' => is_digit c && all_digits s'
  end.

(** The longest prefix of decimal digits. *)
Fixpoint digit_prefix (s : string) : string :=
  match s with
  | String c s' => if is_digit c then String c (digit_prefix s') else ""%string
  | EmptyString => ""%string
  end.

Definition is_space (c : ascii) : bool :=
  (code c =? 32) || ((9 <=? code c) && (code c <=? 13)).

(** Splits an optional leading sign off a string: [true] for [-]. *)
Definition split_sign (s : string) : bool * string :=
  match s with
  | String c s' =>
      if code c =? 45 then (true, s')
      else if code c =? 43 then (false, s')
      else (false, s)
  | EmptyString => (false, s)
  end.

(** The global [parseInt(s, 10)]: an optional sign, then the longest run
    of digits; NaN when there is none.  Leading white space, which
    [parseInt] skips, is outside the model. *)
Definition parseInt10 (s : string) : Result number :=
  match s with
  | String c _ =>
      if is_space c then Throw (OutsideModel "parseInt: leading white space"%string)
      else
        let (negative, body) := split_sign s in
        match digit_prefix body with
        | EmptyString => Ok NaN
        | ds => Ok (of_Z ((if negative then -1 else 1) * digits_value ds 0))
        end
  | EmptyString => Ok NaN
  end.

(** [Number(s)] for the strings met here: the empty string is 0, an
    optionally signed, non-empty run of digits is its value. *)
Definition string_to_number (s : string) : Result number :=
  match s with
  | EmptyString => Ok (Fin 0)
  | _ =>
      let (negative, body) := split_sign s in
      match body with
      | EmptyString => Ok NaN
      | _ =>
          if all_digits body
          then Ok (of_Z ((if negative then -1 else 1) * digits_value body 0))
          else Throw (OutsideModel "Number: not a decimal integer"%string)
      end
  end.

(** *** Number.prototype.toString

    ECMAScript prints the shortest decimal that reads back as the same
    double: the least [k] such that some [s] of [k] digits has
    [s * 10^(n-k)] rounding to the number, the closest such [s], the even
    one on a tie.  [shortest v] is that [s * 10^(n-k)] for an integer
    double [v > 0]. *)

Definition reads_back (v c : Z) : bool :=
  match of_Z c with
  | Fin w => w =? v
  | _ => false
  end.

Fixpoint shortest_from (fuel : nat) (k nd v : Z) : Z :=
  match fuel with
  | O => v
  | S fuel' =>
      let p := 10 ^ (nd - k) in
      let lo := (v / p) * p in
      let hi := lo + p in
      match reads_back v lo, reads_back v hi with
      | true, true =>
          if v - lo <? hi - v then lo
          else if hi - v <? v - lo then hi
          else if Z.even (v / p) then lo else hi
      | true, false => lo
      | false, true => hi
      | false, false => shortest_from fuel' (k + 1) nd v
      end
  end.

Definition shortest (v : Z) : Z :=
  let nd := String.length (dec v) in
  shortest_from nd 1 (Z.of_nat nd) v.

Fixpoint strip_zeros_rev (rev_digits : list ascii) : list ascii :=
  match rev_digits with
  | "0"%char :: r => strip_zeros_rev r
  | _ => rev_digits
  end.

Definition significant (s : string) : string :=
  string_of_list_ascii (rev (strip_zeros_rev (rev (list_ascii_of_string s)))).

(** Rendering of a positive integer [c]: plain digits below 10^21, the
    exponential form from there on. *)
Definition render_positive (c : Z) : string :=
  if c <? 10 ^ 21 then dec c
  else
    let full := dec c in
    let e := Z.of_nat (String.length full) - 1 in
    match significant full with
    | String d EmptyString => String d ("e+"%string +++ dec e)
    | String d rest => String d ("."%string +++ rest +++ "e+"%string +++ dec e)
    | EmptyString => ""%string
    end.

Definition number_toString (x : number) : string :=
  match x with
  | NaN => "NaN"%string
  | Inf false => "Infinity"%string
  | Inf true => "-Infinity"%string
  | Fin 0 => "0"%string
  | Fin z =>
      if z <? 0 then "-"%string +++ render_positive (shortest (- z))
      else render_positive (shortest z)
  end.

(** [x.toFixed()]: the exact integer value below 10^21, [toString]
    from there on. *)
Definition number_toFixed (x : number) : string :=
  match x with
  | Fin z => if Z.abs z <? 10 ^ 21 then dec_signed z else number_toString x
  | _ => number_toString x
  end.

(** ** Dynamic values *)

(** The fields of a [Long] object. [low] and [high] are signed 32-bit. *)
Record long := mkLong { low : Z; high : Z; unsigned : bool }.

(** The arguments handed to [new Date(y, m, d, H, M, S, ms)], after
    [ToNumber].  The last argument is [micros / 1000], kept as its
    numerator. *)
Record date_args := mkDate {
  d_year : number; d_month : number; d_day : number;
  d_hours : number; d_minutes : number; d_seconds : number;
  d_micros : Z }.

Inductive value :=
| VUndefined
| VNull
| VBool (b : bool)
| VNum (n : number)
| VStr (s : string)
| VBuf (b : list Z)
| VLong (l : long)
| VDate (d : date_args)
| VInvalidDate
(** The value of a decoder that is not interpreted here (IEEE floats,
    geometry, JSON, time strings), applied to the bytes it receives. *)
| VDecoded (decoder : string) (raw : value).

(** [ToBoolean]. *)
Definition truthy (v : value) : bool :=
  match v with
  | VUndefined | VNull => false
  | VBool b => b
  | VNum NaN => false
  | VNum (Fin 0) => false
  | VNum _ => true
  | VStr EmptyString => false
  | VStr _ => true
  | _ => true
  end.

(** [a || b]. *)
Definition or_else (a b : value) : value := if truthy a then a else b.

(** [===] on the primitive values compared in the codec. *)
Definition strict_eq (a b : value) : bool :=
  match a, b with
  | VUndefined, VUndefined => true
  | VNull, VNull => true
  | VBool x, VBool y => Bool.eqb x y
  | VNum x, VNum y => num_eqb x y
  | VStr x, VStr y => String.eqb x y
  | _, _ => false
  end.

Definition type_of (v : value) : string :=
  match v with
  | VUndefined => "undefined"%string
  | VNull => "object"%string
  | VBool _ => "boolean"%string
  | VNum _ => "number"%string
  | VStr _ => "string"%string
  | _ => "object"%string
  end.

(** [ToNumber] *)
Definition to_number (v : value) : Result number :=
  match v with
  | VUndefined => Ok NaN
  | VNull => Ok (Fin 0)
  | VBool b => Ok (Fin (if b then 1 else 0))
  | VNum n => Ok n
  | VStr s => string_to_number s
  | _ => Throw (OutsideModel "ToNumber of an object"%string)
  end.

(** [a + v] for an integer number [a]: concatenation when [v] is a
    string, addition otherwise. *)
Definition plus (a : Z) (v : value) : Result value :=
  match v with
  | VStr s => Ok (VStr (dec_signed a +++ s))
  | _ =>
      match to_number v with
      | Ok n => Ok (VNum (add (Fin a) n))
      | Throw e => Throw e
      end
  end.

End JS.

Notation "'do' x <- m ; k" := (JS.bind m (fun x => k))
  (at level 10, x name, m at level 100, k at level 200).
Infix "+++" := String.append (at level 60, right associativity).

Import JS.

(* ===================================================================== *)
(** * The [long] package                                                  *)
(* ===================================================================== *)

(** [long] is a dependency of the driver, not part of it.  The four
    operations the codec calls are given by what the package documents:
    a [Long] holds the two's-complement halves of a 64-bit integer. *)
Module Long.

Definition TWO_PWR_32 : Z := 2 ^ 32.
Definition TWO_PWR_64 : Z := 2 ^ 64.

(** [new Long(low, high, unsigned)] *)
Definition make (low high : Z) (unsigned : bool) : long :=
  mkLong (int32 low) (int32 high) unsigned.

(** The integer a [Long] stands for. *)
Definition toZ (l : long) : Z :=
  if unsigned l
  then uint32 (high l) * TWO_PWR_32 + uint32 (low l)
  else high l * TWO_PWR_32 + uint32 (low l).

Definition fromBits64 (z : Z) (unsigned : bool) : long :=
  make (z mod TWO_PWR_32) (z / TWO_PWR_32) unsigned.

(** [Long.fromNumber(value, unsigned)] *)
Definition fromNumber (value : number) (unsigned : bool) : long :=
  match value with
  | NaN => make 0 0 unsigned
  | Inf s =>
      if unsigned then (if s then make 0 0 true else make (-1) (-1) true)
      else (if s then make 0 (- 2 ^ 31) false else make (-1) (2 ^ 31 - 1) false)
  | Fin v =>
      if unsigned then
        if v <? 0 then make 0 0 true
        else if TWO_PWR_64 <=? v then make (-1) (-1) true
        else fromBits64 v true
      else
        if v <=? - 2 ^ 63 then make 0 (- 2 ^ 31) false
        else if 2 ^ 63 <=? v + 1 then make (-1) (2 ^ 31 - 1) false
        else fromBits64 (v mod TWO_PWR_64) false
  end.

(** [Long.fromString(str, unsigned, 10)] on a non-empty run of decimal
    digits: the value, wrapped to 64 bits.  The empty string throws. *)
Definition fromString (str : string) (unsigned : bool) : Result long :=
  match str with
  | EmptyString => Throw (Error "empty string")
  | _ =>
      if all_digits str
      then Ok (fromBits64 (digits_value str 0 mod TWO_PWR_64) unsigned)
      else Throw (OutsideModel "Long.fromString: not a run of digits")
  end.

(** [l.toNumber()] *)
Definition toNumber (l : long) : number :=
  if unsigned l
  then add (mul (Fin (uint32 (high l))) (Fin TWO_PWR_32)) (Fin (uint32 (low l)))
  else add (mul (Fin (high l)) (Fin TWO_PWR_32)) (Fin (uint32 (low l))).

(** [l.toString()] *)
Definition toString (l : long) : string := dec_signed (toZ l).

End Long.

(** ** Method calls on dynamic values

    [invoke v m] is [v.m()] for the argument-free methods the codec
    calls.  A method the receiver does not have is [undefined], and
    calling it throws a [TypeError]. *)
Definition invoke (v : value) (method : string) : Result value :=
  match v with
  | VUndefined | VNull =>
      Throw (TypeError ("Cannot read property '" +++ method +++ "'"))
  | VLong l =>
      if String.eqb method "toNumber" then Ok (VNum (Long.toNumber l))
      else if String.eqb method "toString" then Ok (VStr (Long.toString l))
      else Throw (TypeError (method +++ " is not a function"))
  | VNum n =>
      if String.eqb method "toString" then Ok (VStr (number_toString n))
      else if String.eqb method "toFixed" then Ok (VStr (number_toFixed n))
      else Throw (TypeError (method +++ " is not a function"))
  | VStr s =>
      if String.eqb method "toString" then Ok (VStr s)
      else Throw (TypeError (method +++ " is not a function"))
  | VBool b =>
      if String.eqb method "toString"
      then Ok (VStr (if b then "true" else "false"))
      else Throw (TypeError (method +++ " is not a function"))
  | _ => Throw (OutsideModel ("method " +++ method))
  end.

(* ===================================================================== *)
(** * Node's Buffer                                                       *)
(* ===================================================================== *)

Module NodeBuffer.

(** A buffer is its bytes, each in 0..255. *)
Abbreviation t := (list Z).

Definition length (b : t) : Z := Z.of_nat (List.length b).

(** [b[i]]: [None] stands for [undefined]. *)
Definition get (b : t) (i : Z) : option Z :=
  if i <? 0 then None else b !! Z.to_nat i.

Definition value_of_byte (o : option Z) : value :=
  match o with
  | Some z => VNum (Fin z)
  | None => VUndefined
  end.

(** [ToNumber] of an indexed read. *)
Definition num_of_byte (o : option Z) : number :=
  match o with
  | Some z => Fin z
  | None => NaN
  end.

Definition out_of_range : error := RangeError "ERR_OUT_OF_RANGE".

(** Little-endian value of a byte list. *)
Fixpoint le_value (bytes : list Z) : Z :=
  match bytes with
  | [] => 0
  | b :: r => b + 256 * le_value r
  end.

(** The [n] bytes at [offset], when they all lie inside the buffer. *)
Definition bytes_at (b : t) (offset : Z) (n : nat) : Result (list Z) :=
  if (0 <=? offset) && (offset + Z.of_nat n <=? length b)
  then Ok (take n (drop (Z.to_nat offset) b))
  else Throw out_of_range.

Definition signed (bits : Z) (z : Z) : Z :=
  if z <? 2 ^ (bits - 1) then z else z - 2 ^ bits.

Definition readUInt8 (b : t) (offset : Z) : Result Z :=
  do bs <- bytes_at b offset 1; Ok (le_value bs).
Definition readInt8 (b : t) (offset : Z) : Result Z :=
  do bs <- bytes_at b offset 1; Ok (signed 8 (le_value bs)).
Definition readUInt16LE (b : t) (offset : Z) : Result Z :=
  do bs <- bytes_at b offset 2; Ok (le_value bs).
Definition readInt16LE (b : t) (offset : Z) : Result Z :=
  do bs <- bytes_at b offset 2; Ok (signed 16 (le_value bs)).
Definition readUInt32LE (b : t) (offset : Z) : Result Z :=
  do bs <- bytes_at b offset 4; Ok (le_value bs).
Definition readInt32LE (b : t) (offset : Z) : Result Z :=
  do bs <- bytes_at b offset 4; Ok (signed 32 (le_value bs)).

(** IEEE floats are not interpreted: the result names the bytes read. *)
Definition readFloatLE (b : t) (offset : Z) : Result value :=
  do bs <- bytes_at b offset 4; Ok (VDecoded "readFloatLE" (VBuf bs)).
Definition readDoubleLE (b : t) (offset : Z) : Result value :=
  do bs <- bytes_at b offset 8; Ok (VDecoded "readDoubleLE" (VBuf bs)).

(** The [n] little-endian bytes of [v]. *)
Fixpoint le_bytes (n : nat) (v : Z) : list Z :=
  match n with
  | O => []
  | S n' => v mod 256 :: le_bytes n' (v / 256)
  end.

(** Overwrites the bytes from [offset] on with [bs]. *)
Definition store (b : t) (offset : nat) (bs : list Z) : t :=
  list_inserts offset bs b.

(** The integer writers check the value and the offset. *)
Definition write_le (n : nat) (lo hi : Z) (b : t) (v offset : Z) : Result t :=
  if (v <? lo) || (hi <? v) then Throw out_of_range
  else if (0 <=? offset) && (offset + Z.of_nat n <=? length b)
  then Ok (store b (Z.to_nat offset) (le_bytes n (v mod 2 ^ (8 * Z.of_nat n))))
  else Throw out_of_range.

Definition writeUInt8 := write_le 1 0 255.
Definition writeUInt16LE := write_le 2 0 65535.
Definition writeUInt32LE := write_le 4 0 4294967295.
Definition writeInt32LE := write_le 4 (- 2147483648) 2147483647.

(** [b.slice(start, end)]: negative indices count from the end and both
    are clamped to the buffer. *)
Definition clamp_index (b : t) (i : Z) : Z :=
  if i <? 0 then Z.max (length b + i) 0 else Z.min i (length b).

Definition slice (b : t) (start end_ : Z) : t :=
  let s := clamp_index b start in
  let e := clamp_index b end_ in
  take (Z.to_nat (e - s)) (drop (Z.to_nat s) b).

(** Characters of a byte range under the two single-byte encodings. *)
Definition ascii_chars (bs : list Z) : string :=
  string_of_list_ascii (map (fun x => char (Z.land x 127)) bs).
Definition latin1_chars (bs : list Z) : string :=
  string_of_list_ascii (map char bs).

(** [b.toString('ascii', start, end)] *)
Definition toString_ascii (b : t) (start end_ : Z) : string :=
  let len := length b in
  if len <=? start then ""%string
  else
    let s := Z.max start 0 in
    let e := if len <? end_ then len else end_ in
    if e <=? s then ""%string
    else ascii_chars (take (Z.to_nat (e - s)) (drop (Z.to_nat s) b)).

End NodeBuffer.

(* ===================================================================== *)
(** * lib/parsers/packet_parser.js                                        *)
(* ===================================================================== *)

Module PacketParser.

Definition minus : Z := 45.
Definition plus : Z := 43.

(** [offset || 0] *)
Definition or_zero (offset : option Z) : Z := default 0 offset.

(** The prologue shared by the decoders that take
    [(buffer, offset, length)]: with no offset the whole buffer is
    meant, with no length the rest of it. *)
Definition arguments (buffer : NodeBuffer.t) (offset length : option Z) : Z * Z :=
  match offset with
  | None => (0, NodeBuffer.length buffer)
  | Some o =>
      match length with
      | None => (o, NodeBuffer.length buffer - o)
      | Some l => (o, l)
      end
  end.

Definition int8 (buffer : NodeBuffer.t) (offset : option Z) : Result Z :=
  NodeBuffer.readInt8 buffer (or_zero offset).
Definition uint8 (buffer : NodeBuffer.t) (offset : option Z) : option Z :=
  NodeBuffer.get buffer (or_zero offset).
Definition int16 (buffer : NodeBuffer.t) (offset : option Z) : Result Z :=
  NodeBuffer.readInt16LE buffer (or_zero offset).
Definition uint16 (buffer : NodeBuffer.t) (offset : option Z) : Result Z :=
  NodeBuffer.readUInt16LE buffer (or_zero offset).
Definition int32 (buffer : NodeBuffer.t) (offset : option Z) : Result Z :=
  NodeBuffer.readInt32LE buffer (or_zero offset).
Definition uint32 (buffer : NodeBuffer.t) (offset : option Z) : Result Z :=
  NodeBuffer.readUInt32LE buffer (or_zero offset).

Definition uint64Long (buffer : NodeBuffer.t) (offset : option Z) : Result long :=
  let offset := default 0 offset in
  do word0 <- NodeBuffer.readInt32LE buffer offset;
  do word1 <- NodeBuffer.readInt32LE buffer (4 + offset);
  Ok (Long.make word0 word1 true).

Definition int64Long (buffer : NodeBuffer.t) (offset : option Z) : Result long :=
  let offset := default 0 offset in
  do word0 <- NodeBuffer.readInt32LE buffer offset;
  do word1 <- NodeBuffer.readInt32LE buffer (4 + offset);
  Ok (Long.make word0 word1 false).

Definition uint64Number (buffer : NodeBuffer.t) (offset : option Z) : Result value :=
  do l <- uint64Long buffer offset;
  invoke (VLong l) "toNumber".

Definition int64Number (buffer : NodeBuffer.t) (offset : option Z) : Result value :=
  let offset := default 0 offset in
  do word0 <- NodeBuffer.readInt32LE buffer offset;
  do word1 <- NodeBuffer.readInt32LE buffer (4 + offset);
  if Z.land word1 2147483648 =? 0
  then Ok (VNum (add (Fin word0) (mul (Fin 4294967296) (Fin word1))))
  else invoke (VLong (Long.make word0 word1 false)) "toNumber".

Definition uint64String (buffer : NodeBuffer.t) (offset : option Z) : Result value :=
  do l <- uint64Long buffer offset;
  invoke (VLong l) "toString".

Definition int64String (buffer : NodeBuffer.t) (offset : option Z) : Result value :=
  do l <- int64Long buffer offset;
  invoke (VLong l) "toString".

(** [resNumber.toString() === resString ? resNumber : resString] *)
Definition number_if_printed_alike (resNumber resString : value) : Result value :=
  do printed <- invoke resNumber "toString";
  Ok (if strict_eq printed resString then resNumber else resString).

Definition uint64NumberIfPossible (buffer : NodeBuffer.t) (offset : option Z)
  : Result value :=
  do l <- uint64Long buffer offset;
  do long <- invoke (VLong l) "toString";
  do resNumber <- invoke long "toNumber";
  do resString <- invoke long "toString";
  number_if_printed_alike resNumber resString.

Definition int64NumberIfPossible (buffer : NodeBuffer.t) (offset : option Z)
  : Result value :=
  do l <- int64Long buffer offset;
  do long <- invoke (VLong l) "toString";
  do resNumber <- invoke long "toNumber";
  do resString <- invoke long "toString";
  number_if_printed_alike resNumber resString.

Definition float32 (buffer : NodeBuffer.t) (offset : option Z) : Result value :=
  NodeBuffer.readFloatLE buffer (or_zero offset).
Definition float64 (buffer : NodeBuffer.t) (offset : option Z) : Result value :=
  NodeBuffer.readDoubleLE buffer (or_zero offset).

(** ** Dates *)

Definition pad : string := "000000000000".

(** [str.slice(-num)] for [num > 0]: the last [num] characters. *)
Definition last_chars (num : Z) (str : string) : string :=
  let len := Z.of_nat (String.length str) in
  if len <=? num then str
  else String.substring (Z.to_nat (len - num)) (Z.to_nat num) str.

Definition leftPad (num : Z) (value : value) : Result string :=
  do s <- invoke value "toString";
  match s with
  | VStr s =>
      if num <=? Z.of_nat (String.length s) then Ok s
      else Ok (last_chars num (pad +++ s))
  | _ => Throw (OutsideModel "toString did not return a string")
  end.

(** A field read by [uint8] is truthy when it is a non-zero byte. *)
Definition set (field : option Z) : bool :=
  match field with
  | Some z => negb (z =? 0)
  | None => false
  end.

Definition dateTime (buffer : NodeBuffer.t) (offset length : option Z)
  : Result value :=
  let (offset, length) := arguments buffer offset length in
  let zero := Some 0 in
  do fields <-
    (if 3 <? length then
       do y <- uint16 buffer (Some offset);
       let m := uint8 buffer (Some (2 + offset)) in
       let d := uint8 buffer (Some (3 + offset)) in
       if 6 <? length then
         let H := uint8 buffer (Some (4 + offset)) in
         let M := uint8 buffer (Some (5 + offset)) in
         let S_ := uint8 buffer (Some (6 + offset)) in
         if 10 <? length then
           do micros <- uint32 buffer (Some (7 + offset));
           Ok (y, m, d, H, M, S_, micros)
         else Ok (y, m, d, H, M, S_, 0)
       else Ok (y, m, d, zero, zero, zero, 0)
     else Ok (0, zero, zero, zero, zero, zero, 0));
  let '(y, m, d, H, M, S_, micros) := fields in
  if negb (y =? 0) || set m || set d || set H || set M || set S_
     || negb (micros =? 0)
  then Ok (VDate (mkDate (Fin y)
                    (sub (NodeBuffer.num_of_byte m) (Fin 1))
                    (NodeBuffer.num_of_byte d)
                    (NodeBuffer.num_of_byte H)
                    (NodeBuffer.num_of_byte M)
                    (NodeBuffer.num_of_byte S_)
                    micros))
  else Ok VInvalidDate.

Definition dateTimeString (buffer : NodeBuffer.t) (offset length decimals : option Z)
  : Result value :=
  let (offset, length) := arguments buffer offset length in
  if 3 <? length then
    do y <- uint16 buffer (Some offset);
    let m := uint8 buffer (Some (2 + offset)) in
    let d := uint8 buffer (Some (4 + offset)) in
    do ys <- leftPad 4 (VNum (Fin y));
    do ms <- leftPad 2 (NodeBuffer.value_of_byte m);
    do ds <- leftPad 2 (NodeBuffer.value_of_byte d);
    let str := ys +++ "-" +++ ms +++ "-" +++ ds in
    if 6 <? length then
      let H := uint8 buffer (Some (4 + offset)) in
      let M := uint8 buffer (Some (5 + offset)) in
      let S_ := uint8 buffer (Some (6 + offset)) in
      do Hs <- leftPad 2 (NodeBuffer.value_of_byte H);
      do Ms <- leftPad 2 (NodeBuffer.value_of_byte M);
      do Ss <- leftPad 2 (NodeBuffer.value_of_byte S_);
      let str := str +++ " " +++ Hs +++ ":" +++ Ms +++ ":" +++ Ss in
      if 10 <? length then
        do microseconds <- uint32 buffer (Some (7 + offset));
        do microseconds <- leftPad 6 (VNum (Fin microseconds));
        let str := str +++ "." in
        let microseconds :=
          match decimals with
          | Some dd =>
              if negb (dd =? 0) && (dd <? Z.of_nat (String.length microseconds))
              then String.substring 0 (Z.to_nat dd) microseconds
              else microseconds
          | None => microseconds
          end in
        Ok (VStr (str +++ microseconds))
      else Ok (VStr str)
    else Ok (VStr str)
  else Ok VUndefined.

(** ** Integers in ASCII *)

(** The digit loop shared by [intAscii] and [intAsciiSmall]:
    [while (position < end) { result *= 10; result += buffer[position] - 0x30; position++ }],
    run for the [end - position] iterations it makes. *)
Fixpoint accumulate (steps : nat) (buffer : NodeBuffer.t) (position : Z)
    (result : number) : number :=
  match steps with
  | O => result
  | S steps' =>
      let result := mul result (Fin 10) in
      let result :=
        add result (sub (NodeBuffer.num_of_byte (NodeBuffer.get buffer position)) (Fin 48)) in
      accumulate steps' buffer (position + 1) result
  end.

Definition intAscii (buffer : NodeBuffer.t) (offset length : option Z) : Result value :=
  let (offset, length) := arguments buffer offset length in
  if length =? 0 then Ok (VNum NaN)
  else
    let end_ := offset + length in
    let numDigits := length in
    let position := offset in
    let isNegative :=
      match NodeBuffer.get buffer offset with
      | Some c => c =? minus
      | None => false
      end in
    let position := if isNegative then position + 1 else position in
    let numDigits := if isNegative then numDigits - 1 else numDigits in
    let isPlus :=
      match NodeBuffer.get buffer position with
      | Some c => c =? plus
      | None => false
      end in
    let position := if isPlus then position + 1 else position in
    let numDigits := if isPlus then numDigits - 1 else numDigits in
    if 16 <? numDigits then
      Ok (VStr (NodeBuffer.toString_ascii buffer offset length))
    else if (numDigits =? 16)
            && match NodeBuffer.get buffer position with
               | Some c => c =? 57
               | None => false
               end
    then
      let str := NodeBuffer.toString_ascii buffer offset length in
      do result <- parseInt10 str;
      do fixed <- invoke (VNum result) "toFixed";
      Ok (if strict_eq fixed (VStr str) then VNum result else VStr str)
    else
      let result := accumulate (Z.to_nat (end_ - position)) buffer position (Fin 0) in
      Ok (VNum (if isNegative then neg result else result)).

Definition intAsciiSmall (buffer : NodeBuffer.t) (offset length : option Z) : value :=
  let (offset, length) := arguments buffer offset length in
  let end_ := offset + length in
  if length =? 0 then VNum NaN
  else
    let isNegative :=
      match NodeBuffer.get buffer offset with
      | Some c => c =? minus
      | None => false
      end in
    let offset := if isNegative then offset + 1 else offset in
    let isPlus :=
      match NodeBuffer.get buffer offset with
      | Some c => c =? plus
      | None => false
      end in
    let offset := if isPlus then offset + 1 else offset in
    let result := accumulate (Z.to_nat (end_ - offset)) buffer offset (Fin 0) in
    VNum (if isNegative then neg result else result).

(** ** Decoders kept symbolic

    Floats in ASCII, times, geometries and JSON produce values whose
    structure plays no part below; each is recorded as the decoder's name
    applied to the bytes it was given.  [floatAscii] returns a number
    and [timeString] a string on every path; the geometry parser and
    [JSON.parse] can return [null], and do so below on the inputs
    where that takes no parsing. *)
Definition floatAscii (buffer : NodeBuffer.t) : value :=
  VDecoded "PacketParser.floatAscii" (VBuf buffer).
Definition timeString (buffer : NodeBuffer.t) : value :=
  VDecoded "PacketParser.timeString" (VBuf buffer).
Definition time (conversion : string) (buffer : NodeBuffer.t) : value :=
  VDecoded ("PacketParser._time:" +++ conversion) (VBuf buffer).

(** [geometry] returns [null] at once for a buffer of fewer than four
    bytes: [if (buffer === null || !length || length < 4) return null]. *)
Definition geometry (buffer : value) : value :=
  match buffer with
  | VBuf b =>
      if NodeBuffer.length b <? 4 then VNull
      else VDecoded "PacketParser.geometry" buffer
  | _ => VDecoded "PacketParser.geometry" buffer
  end.

(** [JSON.parse] reads the text of its argument, which for a buffer is
    its bytes in UTF-8; of the text [null] it makes [null]. *)
Definition JSON_parse (buffer : NodeBuffer.t) : value :=
  if decide (buffer = [110; 117; 108; 108]) then VNull
  else VDecoded "JSON.parse" (VBuf buffer).

Definition alwaysNull : value := VNull.

End PacketParser.

(* ===================================================================== *)
(** * lib/packets/packet.js                                               *)
(* ===================================================================== *)

Module Packet.

Record t := mk {
  sequenceId : Z;
  numPackets : Z;
  buffer : NodeBuffer.t;
  start : Z;
  offset : Z;
  end_ : Z }.

(** [new Packet(id, buffer, start, end)] *)
Definition new (id : Z) (buffer : NodeBuffer.t) (start end_ : Z) : t :=
  mk id 1 buffer start (start + 4) end_.

(** ** Methods as state transformers

    A method runs on a packet and either returns a value with the
    packet it leaves behind, or throws.  The cursor arithmetic is exact:
    buffers are far shorter than 2^53 bytes. *)
Definition M (A : Type) : Type := t -> Result (A * t).

Definition ret {A} (a : A) : M A := fun p => Ok (a, p).

Definition mbind {A B} (m : M A) (k : A -> M B) : M B :=
  fun p =>
    match m p with
    | Ok (a, p') => k a p'
    | Throw e => Throw e
    end.

Definition lift {A} (r : Result A) : M A :=
  fun p => match r with Ok a => Ok (a, p) | Throw e => Throw e end.

Definition throw {A} (e : error) : M A := fun _ => Throw e.

Definition this : M t := fun p => Ok (p, p).

(** The packet with its cursor, or its buffer, replaced. *)
Definition with_offset (p : t) (o : Z) : t :=
  mk (sequenceId p) (numPackets p) (buffer p) (start p) o (end_ p).

Definition with_buffer (p : t) (b : NodeBuffer.t) : t :=
  mk (sequenceId p) (numPackets p) b (start p) (offset p) (end_ p).

Definition set_offset (o : Z) : M unit := fun p => Ok (tt, with_offset p o).

Definition set_buffer (b : NodeBuffer.t) : M unit := fun p => Ok (tt, with_buffer p b).

Notation "'run' x <- m ; k" := (mbind m (fun x => k))
  (at level 10, x name, m at level 100, k at level 200).
Notation "'run' ' pat <- m ; k" := (mbind m (fun x => let 'pat := x in k))
  (at level 10, pat pattern, m at level 100, k at level 200).
Notation "m ;; k" := (mbind m (fun _ => k))
  (at level 100, k at level 200, right associativity).

(** [this.offset += n] *)
Definition advance (n : Z) : M unit :=
  run p <- this; set_offset (offset p + n).

(** ** Readers *)

Definition reset : M unit :=
  run p <- this; set_offset (start p + 4).

Definition length (p : t) : Z := end_ p - start p.

Definition slice (p : t) : NodeBuffer.t :=
  NodeBuffer.slice (buffer p) (start p) (end_ p).

Definition haveMoreData (p : t) : bool := offset p <? end_ p.

Definition skip (num : Z) : M unit := advance num.

(** [this.buffer[this.offset++]] *)
Definition readInt8 : M (option Z) :=
  run p <- this;
  advance 1;;
  ret (NodeBuffer.get (buffer p) (offset p)).

Definition readInt16 : M Z :=
  advance 2;;
  run p <- this;
  lift (NodeBuffer.readUInt16LE (buffer p) (offset p - 2)).

(** [b << k] for a byte read by [readInt8]; [undefined << k] is 0. *)
Definition shl (b : option Z) (k : Z) : Z :=
  match b with
  | Some z => int32 (Z.shiftl z k)
  | None => 0
  end.

Definition readInt24 : M Z :=
  run lo <- readInt16;
  run hi <- readInt8;
  ret (lo + shl hi 16).

Definition readInt32 : M Z :=
  advance 4;;
  run p <- this;
  lift (NodeBuffer.readUInt32LE (buffer p) (offset p - 4)).

Definition readSInt8 : M Z :=
  run p <- this;
  advance 1;;
  lift (NodeBuffer.readInt8 (buffer p) (offset p)).

Definition readSInt16 : M Z :=
  advance 2;;
  run p <- this;
  lift (NodeBuffer.readInt16LE (buffer p) (offset p - 2)).

Definition readSInt32 : M Z :=
  advance 4;;
  run p <- this;
  lift (NodeBuffer.readInt32LE (buffer p) (offset p - 4)).

(** The six 64-bit readers: [this.offset += 8] and the decoder of
    [PacketParser] at [this.offset - 8]. *)
Definition read64 (decoder : NodeBuffer.t -> option Z -> Result value) : M value :=
  advance 8;;
  run p <- this;
  lift (decoder (buffer p) (Some (offset p - 8))).

Definition readInt64JSNumber : M value := read64 PacketParser.uint64Number.
Definition readSInt64JSNumber : M value := read64 PacketParser.int64Number.
Definition readInt64String : M value := read64 PacketParser.uint64String.
Definition readSInt64String : M value := read64 PacketParser.int64String.
Definition readInt64 : M value := read64 PacketParser.uint64NumberIfPossible.
Definition readSInt64 : M value := read64 PacketParser.int64NumberIfPossible.

Definition peekByte (p : t) : option Z := NodeBuffer.get (buffer p) (offset p).

Definition isEOF (p : t) : bool :=
  match peekByte p with
  | Some b => (b =? 254) && (length p <? 13)
  | None => false
  end.

Definition eofStatusFlags (p : t) : Result Z :=
  NodeBuffer.readInt16LE (buffer p) (offset p + 3).

Definition eofWarningCount (p : t) : Result Z :=
  NodeBuffer.readInt16LE (buffer p) (offset p + 1).

(** [x === c] for a byte read off the buffer; false on [undefined]. *)
Definition equals (x : option Z) (c : Z) : bool :=
  match x with
  | Some b => b =? c
  | None => false
  end.

Definition readLengthCodedNumberExt (tag : option Z) (bigNumberStrings signed : bool)
  : M value :=
  if equals tag 251 then ret VNull
  else if equals tag 252 then
    run b0 <- readInt8;
    run b1 <- readInt8;
    ret (VNum (add (NodeBuffer.num_of_byte b0) (Fin (shl b1 8))))
  else if equals tag 253 then
    run b0 <- readInt8;
    run b1 <- readInt8;
    run b2 <- readInt8;
    ret (VNum (add (add (NodeBuffer.num_of_byte b0) (Fin (shl b1 8)))
                   (Fin (shl b2 16))))
  else if equals tag 254 then
    run word0 <- readInt32;
    run word1 <- readInt32;
    if word1 =? 0 then ret (VNum (Fin word0))
    else if word1 <? 2097152
    then ret (VNum (add (mul (Fin word1) (Fin 4294967296)) (Fin word0)))
    else
      let res := VLong (Long.make word0 word1 (negb signed)) in
      run resNumber <- lift (invoke res "toNumber");
      run resString <- lift (invoke res "toString");
      run res <- lift (PacketParser.number_if_printed_alike resNumber resString);
      ret (if bigNumberStrings then resString else res)
  else throw (Error "Should not reach here").

Definition readLengthCodedNumber (bigNumberStrings signed : bool) : M value :=
  run byte1 <- readInt8;
  match byte1 with
  | Some b =>
      if b <? 251 then ret (VNum (Fin b))
      else readLengthCodedNumberExt byte1 bigNumberStrings signed
  | None => readLengthCodedNumberExt byte1 bigNumberStrings signed
  end.

Definition readLengthCodedNumberSigned (bigNumberStrings : bool) : M value :=
  readLengthCodedNumber bigNumberStrings true.

Definition readFloat : M value :=
  run p <- this;
  run res <- lift (NodeBuffer.readFloatLE (buffer p) (offset p));
  advance 4;;
  ret res.

Definition readDouble : M value :=
  run p <- this;
  run res <- lift (NodeBuffer.readDoubleLE (buffer p) (offset p));
  advance 8;;
  ret res.

(** [this.offset += len] for a length that came out of a reader.  A
    length that is not an integer number turns the cursor into a string
    or a NaN, where this model stops. *)
Definition advance_by (len : value) : M Z :=
  match len with
  | VNum (Fin l) => advance l;; ret l
  | _ => throw (OutsideModel "the cursor is no longer an integer")
  end.

(** [len] defaults to the rest of the window. *)
Definition or_rest (len : value) : M value :=
  match len with
  | VUndefined => run p <- this; ret (VNum (Fin (end_ p - offset p)))
  | _ => ret len
  end.

Definition readBuffer (len : value) : M NodeBuffer.t :=
  run len <- or_rest len;
  run len <- advance_by len;
  run p <- this;
  ret (NodeBuffer.slice (buffer p) (offset p - len) (offset p)).

Definition readDateTime : M value :=
  run length <- readInt8;
  if equals length 251 then ret VNull
  else
    run length <- advance_by (NodeBuffer.value_of_byte length);
    run p <- this;
    lift (PacketParser.dateTime (buffer p) (Some (offset p - length)) (Some length)).

Definition readDateTimeString (decimals : option Z) : M value :=
  run length <- readInt8;
  run length <- advance_by (NodeBuffer.value_of_byte length);
  run p <- this;
  lift (PacketParser.dateTimeString (buffer p) (Some (offset p - length))
          (Some length) decimals).

Definition readTimeString (convertTtoMs : bool) : M value :=
  let conversion := (if convertTtoMs then "Number" else "String")%string in
  run length <- readInt8;
  run length <- advance_by (NodeBuffer.value_of_byte length);
  run p <- this;
  ret (PacketParser.time conversion
         (NodeBuffer.slice (buffer p) (offset p - length) (offset p))).

Section Decoding.

(** [StringParser.decode], the character-set layer under
    [PacketParser.decode], and [Buffer.prototype.toString()] without
    arguments are taken as given. *)
Variable decode : NodeBuffer.t -> value -> string.
Variable utf8 : NodeBuffer.t -> string.

Definition readLengthCodedString (encoding : value) : M value :=
  run len <- readLengthCodedNumber false false;
  match len with
  | VNull => ret VNull
  | _ =>
      run len <- advance_by len;
      run p <- this;
      ret (VStr (decode (NodeBuffer.slice (buffer p) (offset p - len) (offset p))
                   encoding))
  end.

Definition readLengthCodedBuffer : M value :=
  run len <- readLengthCodedNumber false false;
  match len with
  | VNull => ret VNull
  | _ => run b <- readBuffer len; ret (VBuf b)
  end.

(** [while (this.buffer[end]) end = end + 1], which stops at the first
    zero byte or at the end of the buffer. *)
Fixpoint scan (steps : nat) (b : NodeBuffer.t) (end_ : Z) : Z :=
  match steps with
  | O => end_
  | S steps' =>
      match NodeBuffer.get b end_ with
      | Some c => if c =? 0 then end_ else scan steps' b (end_ + 1)
      | None => end_
      end
  end.

Definition readNullTerminatedString (encoding : value) : M string :=
  run p <- this;
  let start := offset p in
  let end_ := scan (List.length (buffer p)) (buffer p) (offset p) in
  set_offset (end_ + 1);;
  ret (decode (NodeBuffer.slice (buffer p) start end_) encoding).

Definition readString (len encoding : value) : M string :=
  run len <- or_rest len;
  run len <- advance_by len;
  run p <- this;
  ret (decode (NodeBuffer.slice (buffer p) (offset p - len) (offset p)) encoding).

(** ** Integers in ASCII, read through the cursor *)

(** The [return] statement by which [parseInt] leaves. *)
Inductive exit :=
| ExitNull            (* len === null *)
| ExitNumber          (* Number(s), without big-number support *)
| ExitEmpty           (* len === 0 *)
| ExitDigitsGe15      (* inside [if (numDigits >= 15)] *)
| ExitDigitsGt16      (* inside [if (numDigits > 16)] *)
| ExitLoop.           (* after the digit loop *)

(** [buffer.toString('ascii', start, end)] with [end] a number. *)
Definition toString_ascii_to (b : NodeBuffer.t) (start : Z) (end_ : number) : string :=
  match end_ with
  | Fin e => NodeBuffer.toString_ascii b start e
  | Inf false => NodeBuffer.toString_ascii b start (NodeBuffer.length b)
  | _ => ""
  end.

(** [while (this.offset < end) { result *= 10; result += this.buffer[this.offset] - 48; this.offset++ }] *)
Fixpoint digits (steps : nat) (result : number) : M number :=
  match steps with
  | O => ret result
  | S steps' =>
      run p <- this;
      let result := mul result (Fin 10) in
      let result :=
        add result
          (sub (NodeBuffer.num_of_byte (NodeBuffer.get (buffer p) (offset p))) (Fin 48)) in
      advance 1;;
      digits steps' result
  end.

(** The number of iterations of the loop above. *)
Definition iterations (end_ : number) : M nat :=
  run p <- this;
  match end_ with
  | Fin e => ret (Z.to_nat (e - offset p))
  | Inf false => throw (OutsideModel "unbounded loop")
  | _ => ret O
  end.

(** [this.buffer[this.offset] === c] *)
Definition next_is (c : Z) : M bool :=
  run p <- this;
  ret (equals (peekByte p) c).

Definition parseInt (len : value) (supportBigNumbers : bool) : M (value * exit) :=
  match len with
  | VNull => ret (VNull, ExitNull)
  | _ =>
      run n <- lift (to_number len);
      if ge n (Fin 14) && negb supportBigNumbers then
        run p <- this;
        run e <- lift (plus (offset p) len);
        run e <- lift (to_number e);
        let s := toString_ascii_to (buffer p) (offset p) e in
        advance_by len;;
        run r <- lift (string_to_number s);
        ret (VNum r, ExitNumber)
      else
        run p <- this;
        let start := offset p in
        run end_ <- lift (plus (offset p) len);
        run end_ <- lift (to_number end_);
        if strict_eq len (VNum (Fin 0)) then ret (VNum (Fin 0), ExitEmpty)
        else
          run negative <- next_is PacketParser.minus;
          (if negative then advance 1 else ret tt);;
          let sign := if negative then -1 else 1 in
          run p <- this;
          let numDigits := sub end_ (Fin (offset p)) in
          run early <-
            (if supportBigNumbers then
               if ge numDigits (Fin 15) then
                 run str <- readString (VNum numDigits) (VStr "binary");
                 run result <- lift (parseInt10 str);
                 if String.eqb (number_toString result) str
                 then ret (Some (VNum (mul (Fin sign) result), ExitDigitsGe15))
                 else ret (Some (VStr (if negative then "-" +++ str else str),
                                 ExitDigitsGe15))
               else if gt numDigits (Fin 16) then
                 run str <- readString (VNum numDigits) VUndefined;
                 ret (Some (VStr (if negative then "-" +++ str else str),
                            ExitDigitsGt16))
               else ret None
             else ret None);
          match early with
          | Some r => ret r
          | None =>
              run positive <- next_is PacketParser.plus;
              (if positive then advance 1 else ret tt);;
              run steps <- iterations end_;
              run result <- digits steps (Fin 0);
              let num := mul result (Fin sign) in
              if negb supportBigNumbers then ret (VNum num, ExitLoop)
              else
                run p <- this;
                let str := toString_ascii_to (buffer p) start end_ in
                if String.eqb (number_toString num) str
                then ret (VNum num, ExitLoop)
                else ret (VStr str, ExitLoop)
          end
  end.

Definition parseIntNoBigCheck (len : value) : M value :=
  match len with
  | VNull => ret VNull
  | _ =>
      run p <- this;
      run end_ <- lift (plus (offset p) len);
      run end_ <- lift (to_number end_);
      if strict_eq len (VNum (Fin 0)) then ret (VNum (Fin 0))
      else
        run negative <- next_is PacketParser.minus;
        (if negative then advance 1 else ret tt);;
        run positive <- next_is PacketParser.plus;
        (if positive then advance 1 else ret tt);;
        run steps <- iterations end_;
        run result <- digits steps (Fin 0);
        ret (VNum (mul result (Fin (if negative then -1 else 1))))
  end.

Definition parseLengthCodedIntNoBigCheck : M value :=
  run len <- readLengthCodedNumber false false;
  parseIntNoBigCheck len.

Definition parseLengthCodedInt (supportBigNumbers : bool) : M (value * exit) :=
  run len <- readLengthCodedNumber false false;
  parseInt len supportBigNumbers.

Definition parseLengthCodedIntString : M value :=
  readLengthCodedString (VStr "binary").

(** ** Markers and error frames *)

Definition isAlt (p : t) : bool := equals (peekByte p) 254.

Definition isError (p : t) : bool := equals (peekByte p) 255.

(** The fields [asError] sets on the [Error] it returns. *)
Record error_object := mkError {
  message : string;
  code : value;
  errno : Z;
  sqlState : string;
  sqlMessage : string }.

(** The table of lib/constants/errors.js, from error number to name. *)
Variable ErrorCodeToName : gmap Z string.

(** [ErrorCodeToName[errorCode]] *)
Definition error_name (errorCode : Z) : value :=
  match ErrorCodeToName !! errorCode with
  | Some name => VStr name
  | None => VUndefined
  end.

Definition asError (encoding : value) : M error_object :=
  reset;;
  readInt8;;
  run errorCode <- readInt16;
  run marker <- next_is 35;
  run sqlState <-
    (if marker then
       skip 1;;
       run state <- readBuffer (VNum (Fin 5));
       ret (utf8 state)
     else ret ""%string);
  run message <- readString VUndefined encoding;
  ret (mkError message (error_name errorCode) errorCode sqlState message).

Definition type (p : t) : string :=
  if isEOF p then "EOF"
  else if isError p then "Error"
  else if equals (peekByte p) 0 then "maybeOK"
  else "".

End Decoding.

(** ** Writers *)

(** The integer writers of [Buffer] reject what is not a finite number
    in range. *)
Definition integer (n : number) : M Z :=
  match n with
  | Fin z => ret z
  | _ => throw NodeBuffer.out_of_range
  end.

Definition write (writer : NodeBuffer.t -> Z -> Z -> Result NodeBuffer.t)
    (n : Z) (at_ : Z) : M unit :=
  run p <- this;
  run b <- lift (writer (buffer p) n (offset p + at_));
  set_buffer b.

Definition writeInt32 (n : Z) : M unit :=
  write NodeBuffer.writeUInt32LE n 0;; advance 4.

Definition writeInt16 (n : Z) : M unit :=
  write NodeBuffer.writeUInt16LE n 0;; advance 2.

Definition writeInt8 (n : Z) : M unit :=
  write NodeBuffer.writeUInt8 n 0;; advance 1.

(** [n & 0xff] and [n >> 8] work on the 32-bit value of [n]. *)
Definition writeInt24 (n : Z) : M unit :=
  writeInt8 (Z.land (int32 n) 255);;
  writeInt16 (Z.shiftr (int32 n) 8).

(** [this.buffer[this.offset] = 0xfb], which is silent out of range. *)
Definition writeNull : M unit :=
  run p <- this;
  (if 0 <=? offset p
   then set_buffer (<[Z.to_nat (offset p) := 251]> (buffer p))
   else ret tt);;
  advance 1.

(** The [Long] chosen for [n], or [null]. *)
Definition longValue_of (n : value) : Result (option long) :=
  match n with
  | VNum x =>
      if gt x (Fin 16777215) then Ok (Some (Long.fromNumber x true)) else Ok None
  | VStr s =>
      if 8 <=? Z.of_nat (String.length s)
      then do l <- Long.fromString s true; Ok (Some l)
      else Ok None
  | VLong l => Ok (Some l)
  | VUndefined | VBool _ => Ok None
  | _ => Throw (OutsideModel "an object that is not a Long")
  end.

Definition writeLengthCodedNumber (n : value) : M unit :=
  match n with
  | VNull => writeInt8 251
  | _ =>
      run longValue <- lift (longValue_of n);
      run n <-
        match longValue with
        | Some l =>
            if (high l =? 0) && (Z.land (low l) (int32 4278190080) =? 0)
            then ret (Some (VNum (Fin (low l))))
            else
              writeInt8 254;;
              write NodeBuffer.writeInt32LE (low l) 0;;
              write NodeBuffer.writeInt32LE (high l) 4;;
              advance 8;;
              ret None
        | None => ret (Some n)
        end;
      match n with
      | None => ret tt
      | Some n =>
          run n <- lift (to_number n);
          if lt n (Fin 251) then
            run n <- integer n; writeInt8 n
          else if lt n (Fin 65536) then
            writeInt8 252;; run n <- integer n; writeInt16 n
          else if lt n (Fin 16777216) then
            writeInt8 253;; run n <- integer n; writeInt24 n
          else throw (Error "Should not reach here or Invalid integer")
      end
  end.

Definition lengthCodedNumberLength (n : number) : Z :=
  if lt n (Fin 251) then 1
  else if lt n (Fin 65536) then 3
  else if lt n (Fin 16777216) then 5
  else 9.

End Packet.

(* ===================================================================== *)
(** * Column definitions                                                  *)
(* ===================================================================== *)

(** The column types the row parsers dispatch on (lib/constants/types.js).
    [OTHER] stands for every code without a case of its own, such as
    VARCHAR or BLOB. *)
Module Types.
Inductive t :=
| DECIMAL | TINY | SHORT | LONG | FLOAT | DOUBLE | NULL | TIMESTAMP
| LONGLONG | INT24 | DATE | TIME | DATETIME | YEAR | NEWDATE | JSON
| NEWDECIMAL | GEOMETRY | OTHER (code : Z).
End Types.

(** What the parsers read off a column definition. *)
Record ColumnDefinition := mkColumn {
  col_name : string;
  col_table : string;
  col_columnType : Types.t;
  col_flags : Z;
  col_decimals : Z;
  col_encoding : value }.

(* ===================================================================== *)
(** * lib/parsers/cast_field.js                                           *)
(* ===================================================================== *)

Module CastField.

(** The cell handed to the constructor. *)
Inductive cell :=
| Undefined
| Null
| Bytes (b : NodeBuffer.t).

(** [defaultRead] is a thunk; it is kept as the completion it yields
    when called. *)
Record t := mk {
  isBinary : bool;
  column : ColumnDefinition;
  defaultRead : Result value;
  fieldBuffer : NodeBuffer.t;
  forceEncoding : value }.

Section Decoding.

Variable decode : NodeBuffer.t -> value -> string.

(** [encoding === 'binary' || encoding === null || encoding === undefined] *)
Definition passes_through (encoding : value) : bool :=
  strict_eq encoding (VStr "binary")
  || strict_eq encoding VNull
  || strict_eq encoding VUndefined.

Definition constructor (isBinary : bool) (column : ColumnDefinition)
    (encoding : value) (defaultCast : option (NodeBuffer.t -> Result value))
    (fieldBuffer : cell) : t :=
  match fieldBuffer with
  | Undefined | Null =>
      mk isBinary column (Ok PacketParser.alwaysNull) [] VNull
  | Bytes fieldBuffer =>
      match defaultCast with
      | Some defaultCast =>
          mk isBinary column (defaultCast fieldBuffer) fieldBuffer encoding
      | None =>
          if passes_through encoding
          then mk isBinary column (Ok (VBuf fieldBuffer)) fieldBuffer encoding
          else mk isBinary column (Ok (VStr (decode fieldBuffer encoding)))
                 fieldBuffer encoding
      end
  end.

(** [get encoding()] *)
Definition encoding (f : t) : value :=
  or_else (forceEncoding f) (col_encoding (column f)).

Definition run {A} (f : t) (typeCast : t -> Result value -> A) : A :=
  typeCast f (defaultRead f).

Definition toString (f : t) (encoding_ : option value) : string :=
  decode (fieldBuffer f) (default (encoding f) encoding_).

Definition string (f : t) : Result value :=
  if isBinary f then
    do value <- defaultRead f;
    match value with
    | VNull | VUndefined => Ok VNull
    | _ => invoke value "toString"
    end
  else Ok (VStr (toString f None)).

Definition buffer (f : t) : NodeBuffer.t := fieldBuffer f.

Definition geometry (f : t) : value := PacketParser.geometry (VBuf (fieldBuffer f)).

End Decoding.

End CastField.

(* ===================================================================== *)
(** * lib/parsers/binary_parser.js                                        *)
(* ===================================================================== *)

Module BinaryParser.

(** An option that may hold a callback.  A [typeCast] callback receives
    the field and the thunk [next]. *)
Inductive cast_option :=
| Unset
| Flag (b : bool)
| Function (f : CastField.t -> Result value -> Result value).

Inductive nesting :=
| Flat
| NestTables
| Separator (sep : string).

Record options := mkOptions {
  rowsAsArray : bool;
  nestTables : nesting;
  supportBigNumbers : bool;
  bigNumberStrings : bool;
  binaryCast : cast_option;
  typeCast : cast_option }.

Record config := mkConfig {
  c_supportBigNumbers : bool;
  c_bigNumberStrings : bool;
  c_dateStrings : bool;
  c_decimalNumbers : bool;
  c_binaryCast : cast_option;
  c_typeCast : cast_option }.

(** The three pieces of code [readCodeFor] returns.  The buffer
    expression is one of three; the encoding is a literal or
    [fields[i].encoding]; the default cast is the name of a decoder, or
    [null]. *)
Inductive buffer_code :=
| ReadBuffer (n : Z)             (* packet.readBuffer(n) *)
| ReadLengthCodedBuffer          (* packet.readLengthCodedBuffer() *)
| NullLiteral.                   (* null *)

Inductive encoding_code :=
| Literal (name : string)
| FieldEncoding (fieldNum : nat).

Inductive cast_code :=
| Uint8 | Int8 | Uint16 | Int16 | Uint32 | Int32
| Float32 | Float64 | AlwaysNull
| DateTimeString | DateTimeStringWith (decimals : Z) | DateTime
| TimeString | FloatAscii | Geometry | JSONParse
| Uint64Number | Int64Number | Uint64String | Int64String
| Uint64NumberIfPossible | Int64NumberIfPossible.

Record read_code := mkCode {
  buffer : buffer_code;
  encoding : encoding_code;
  defaultCast : option cast_code }.

Section Parser.

Variable decode : NodeBuffer.t -> value -> string.

(** [FieldFlags.UNSIGNED], of lib/constants/field_flags.js. *)
Variable UNSIGNED : Z.

Definition readCodeFor (field : ColumnDefinition) (fieldNum : nat)
    (options : options) (config : config) : read_code :=
  let supportBigNumbers := supportBigNumbers options || c_supportBigNumbers config in
  let bigNumberStrings := bigNumberStrings options || c_bigNumberStrings config in
  let unsigned := negb (Z.land (col_flags field) UNSIGNED =? 0) in
  let binary := Literal "binary" in
  match col_columnType field with
  | Types.TINY =>
      mkCode (ReadBuffer 1) binary (Some (if unsigned then Uint8 else Int8))
  | Types.SHORT =>
      mkCode (ReadBuffer 2) binary (Some (if unsigned then Uint16 else Int16))
  | Types.LONG | Types.INT24 =>
      mkCode (ReadBuffer 4) binary (Some (if unsigned then Uint32 else Int32))
  | Types.YEAR => mkCode (ReadBuffer 2) binary (Some Uint16)
  | Types.FLOAT => mkCode (ReadBuffer 4) binary (Some Float32)
  | Types.DOUBLE => mkCode (ReadBuffer 8) binary (Some Float64)
  | Types.NULL => mkCode NullLiteral binary (Some AlwaysNull)
  | Types.DATE | Types.DATETIME | Types.TIMESTAMP | Types.NEWDATE =>
      mkCode ReadLengthCodedBuffer binary
        (Some (if c_dateStrings config then
                 if col_decimals field =? 0 then DateTimeString
                 else DateTimeStringWith (JS.int32 (col_decimals field))
               else DateTime))
  | Types.TIME => mkCode ReadLengthCodedBuffer binary (Some TimeString)
  | Types.DECIMAL | Types.NEWDECIMAL =>
      mkCode ReadLengthCodedBuffer (Literal "ascii")
        (if c_decimalNumbers config then Some FloatAscii else None)
  | Types.GEOMETRY => mkCode ReadLengthCodedBuffer binary (Some Geometry)
  | Types.JSON => mkCode ReadLengthCodedBuffer (Literal "utf8") (Some JSONParse)
  | Types.LONGLONG =>
      mkCode (ReadBuffer 8) binary
        (Some (if negb supportBigNumbers then
                 if unsigned then Uint64Number else Int64Number
               else if bigNumberStrings then
                 if unsigned then Uint64String else Int64String
               else
                 if unsigned then Uint64NumberIfPossible else Int64NumberIfPossible))
  | Types.OTHER _ => mkCode ReadLengthCodedBuffer (FieldEncoding fieldNum) None
  end.

Definition number (r : Result Z) : Result value :=
  do z <- r; Ok (VNum (Fin z)).

(** The decoder a cast code names, called with the buffer alone. *)
Definition decoder (c : cast_code) (b : NodeBuffer.t) : Result value :=
  match c with
  | Uint8 => Ok (NodeBuffer.value_of_byte (PacketParser.uint8 b None))
  | Int8 => number (PacketParser.int8 b None)
  | Uint16 => number (PacketParser.uint16 b None)
  | Int16 => number (PacketParser.int16 b None)
  | Uint32 => number (PacketParser.uint32 b None)
  | Int32 => number (PacketParser.int32 b None)
  | Float32 => PacketParser.float32 b None
  | Float64 => PacketParser.float64 b None
  | AlwaysNull => Ok PacketParser.alwaysNull
  | DateTimeString => PacketParser.dateTimeString b None None None
  | DateTimeStringWith decimals =>
      PacketParser.dateTimeString b (Some 0) (Some decimals) None
  | DateTime => PacketParser.dateTime b None None
  | TimeString => Ok (PacketParser.timeString b)
  | FloatAscii => Ok (PacketParser.floatAscii b)
  | Geometry => Ok (PacketParser.geometry (VBuf b))
  | JSONParse => Ok (PacketParser.JSON_parse b)
  | Uint64Number => PacketParser.uint64Number b None
  | Int64Number => PacketParser.int64Number b None
  | Uint64String => PacketParser.uint64String b None
  | Int64String => PacketParser.int64String b None
  | Uint64NumberIfPossible => PacketParser.uint64NumberIfPossible b None
  | Int64NumberIfPossible => PacketParser.int64NumberIfPossible b None
  end.

(** The same call when the buffer expression may have produced [null]:
    the decoders dereference their argument, except [alwaysNull], which
    ignores it, [JSON.parse], which reads [null] as its literal, and
    [dateTimeString] called with a length of at most three, which
    returns [undefined] before it reads anything. *)
Definition call (c : cast_code) (arg : CastField.cell) : Result value :=
  match arg, c with
  | CastField.Bytes b, _ => decoder c b
  | _, AlwaysNull => Ok VNull
  | _, JSONParse => Ok VNull
  | _, DateTimeStringWith decimals =>
      if 3 <? decimals then Throw (TypeError "Cannot read property of null")
      else Ok VUndefined
  | _, _ => Throw (TypeError "Cannot read property of null")
  end.

(** Running a buffer expression on the packet. *)
Definition read (code : buffer_code) : Packet.M CastField.cell :=
  match code with
  | ReadBuffer n =>
      Packet.mbind (Packet.readBuffer (VNum (Fin n)))
        (fun b => Packet.ret (CastField.Bytes b))
  | ReadLengthCodedBuffer =>
      Packet.mbind Packet.readLengthCodedBuffer
        (fun v =>
           match v with
           | VBuf b => Packet.ret (CastField.Bytes b)
           | _ => Packet.ret CastField.Null
           end)
  | NullLiteral => Packet.ret CastField.Null
  end.

(** Where a cell is stored in the row. *)
Inductive lvalue :=
| This (key : string)
| Nested (table key : string)
| Index (i : nat).

Definition lvalue_of (options : options) (field : ColumnDefinition) (i : nat) : lvalue :=
  match nestTables options with
  | Separator sep => This (col_table field +++ sep +++ col_name field)
  | NestTables => Nested (col_table field) (col_name field)
  | Flat => if rowsAsArray options then Index i else This (col_name field)
  end.

(** What a row parser evaluates to when it is called with [new]: the
    object [this], given by the assignments made to it, in order; or
    the array [result] of [n] elements, given by the assignments made
    to its indices, the other elements being empty. *)
Inductive row :=
| RowObject (this : list (lvalue * value))
| RowArray (n : nat) (result : list (nat * value)).

(** The assignments that went to [result]. *)
Definition to_result (assigned : list (lvalue * value)) : list (nat * value) :=
  omap (fun '(place, v) =>
          match place with
          | Index i => Some (i, v)
          | _ => None
          end) assigned.

Definition returned (options : options) (n : nat) (assigned : list (lvalue * value))
  : row :=
  if rowsAsArray options then RowArray n (to_result assigned) else RowObject assigned.

Definition nullBitmapLength (fields : list ColumnDefinition) : Z :=
  (Z.of_nat (List.length fields) + 7 + 2) / 8.

(** The callback the compiled parser routes cells through, if any. *)
Definition cast_of (options : options) (config : config)
  : option (CastField.t -> Result value -> Result value) :=
  let binaryCast :=
    match binaryCast options, c_binaryCast config with
    | Unset, Unset => Unset
    | Unset, inherited => inherited
    | own, _ => own
    end in
  let typeCast :=
    match typeCast options, c_typeCast config with
    | Function f, _ => Function f
    | _, Function f => Function f
    | own, _ => own
    end in
  match binaryCast with
  | Function f => Some f
  | Flag true => match typeCast with Function f => Some f | _ => None end
  | _ => None
  end.

(** [const nullBitmaskByte<i> = packet.readInt8();], [n] times. *)
Fixpoint readBitmap (n : nat) : Packet.M (list (option Z)) :=
  match n with
  | O => Packet.ret []
  | S n' =>
      Packet.mbind Packet.readInt8 (fun b =>
      Packet.mbind (readBitmap n') (fun rest =>
      Packet.ret (b :: rest)))
  end.

(** [nullBitmaskByte<nullByteIndex> & currentFieldNullBit], as a
    condition.  A byte read past the buffer is [undefined], whose
    conjunction with anything is 0. *)
Definition isNull (bitmap : list (option Z)) (nullByteIndex : nat)
    (currentFieldNullBit : Z) : Result bool :=
  match bitmap !! nullByteIndex with
  | Some (Some byte) => Ok (negb (Z.land byte currentFieldNullBit =? 0))
  | Some None => Ok false
  | None => Throw (ReferenceError "nullBitmaskByte is not defined")
  end.

(** What the compiled parser does before the first column: the status
    byte, then one [readInt8] per byte of the null bitmap. *)
Definition prologue (fields : list ColumnDefinition) : Packet.M (list (option Z)) :=
  Packet.mbind Packet.readInt8 (fun _ =>
  readBitmap (Z.to_nat (nullBitmapLength fields))).

Section Compile.

Variables (options : options) (config : config).

(** The encoding expression, evaluated against the [fields] the
    compiled parser is called with. *)
Definition encoding_of (runtime : list ColumnDefinition) (code : encoding_code)
  : Result value :=
  match code with
  | Literal name => Ok (VStr name)
  | FieldEncoding i =>
      match runtime !! i with
      | Some field => Ok (col_encoding field)
      | None => Throw (TypeError "Cannot read property 'encoding' of undefined")
      end
  end.

(** The statement compiled for one column. *)
Definition cell (runtime : list ColumnDefinition) (i : nat) (code : read_code)
    (null : bool) : Packet.M value :=
  match cast_of options config with
  | Some cast =>
      match runtime !! i with
      | None => Packet.throw (OutsideModel "fields[i] is undefined")
      | Some column =>
          Packet.mbind (Packet.lift (encoding_of runtime (encoding code)))
            (fun encoding =>
          Packet.mbind (if null then Packet.ret CastField.Null
                        else read (buffer code))
            (fun fieldBuffer =>
          Packet.lift
            (CastField.run
               (CastField.constructor decode true column encoding
                  (option_map decoder (defaultCast code)) fieldBuffer)
               cast)))
      end
  | None =>
      if null then Packet.ret VNull
      else
        match defaultCast code with
        | Some c =>
            Packet.mbind (read (buffer code))
              (fun arg => Packet.lift (call c arg))
        | None =>
            match encoding code with
            | Literal "binary" =>
                Packet.mbind (read (buffer code))
                  (fun arg =>
                     match arg with
                     | CastField.Bytes b => Packet.ret (VBuf b)
                     | _ => Packet.ret VNull
                     end)
            | enc =>
                Packet.mbind (read (buffer code))
                  (fun arg =>
                Packet.mbind (Packet.lift (encoding_of runtime enc))
                  (fun encoding =>
                     match arg with
                     | CastField.Bytes b => Packet.ret (VStr (decode b encoding))
                     | _ => Packet.throw (OutsideModel "decode(null)")
                     end))
            end
        end
  end.

(** The loop of [compile] over the columns, with its two counters, and
    the statements it emits, run in order. *)
Fixpoint columns (runtime : list ColumnDefinition) (bitmap : list (option Z))
    (fields : list ColumnDefinition) (i : nat)
    (currentFieldNullBit : Z) (nullByteIndex : nat)
  : Packet.M (list (lvalue * value)) :=
  match fields with
  | [] => Packet.ret []
  | field :: rest =>
      let lhs := lvalue_of options field i in
      let code := readCodeFor field i options config in
      Packet.mbind
        (Packet.lift (isNull bitmap nullByteIndex currentFieldNullBit))
        (fun null =>
      Packet.mbind (cell runtime i code null) (fun v =>
      let currentFieldNullBit := currentFieldNullBit * 2 in
      let '(currentFieldNullBit, nullByteIndex) :=
        if currentFieldNullBit =? 256 then (1, S nullByteIndex)
        else (currentFieldNullBit, nullByteIndex) in
      Packet.mbind
        (columns runtime bitmap rest (S i) currentFieldNullBit nullByteIndex)
        (fun more => Packet.ret ((lhs, v) :: more))))
  end.

(** The body of the function [BinaryRow] that [compile] builds: the
    status byte and the bitmap are read, then every column is assigned,
    in order. *)
Definition BinaryRow (fields : list ColumnDefinition)
  : list ColumnDefinition -> Packet.M (list (lvalue * value)) :=
  fun runtime =>
    Packet.mbind (prologue fields) (fun bitmap =>
    columns runtime bitmap fields 0 4 0).

(** [compile(fields, options, config)] is that function, which is
    called as a constructor.  With [rowsAsArray] it starts with
    [const result = new Array(n)] and ends with [return result], so
    that [new BinaryRow(packet, fields, options)] is the array and the
    object [this] is dropped; otherwise it is [this]. *)
Definition compile (fields : list ColumnDefinition)
  : list ColumnDefinition -> Packet.M row :=
  fun runtime =>
    Packet.mbind (BinaryRow fields runtime) (fun assigned =>
    Packet.ret (returned options (List.length fields) assigned)).

End Compile.

End Parser.

End BinaryParser.

(* ===================================================================== *)
(** * Inputs and notions used to state the properties                     *)
(* ===================================================================== *)

(** The bytes of a string of 8-bit characters. *)
Definition bytes_of (s : string) : NodeBuffer.t :=
  map code (list_ascii_of_string s).

(** The bytes of [b] from index [from] up to, not including, [to]. *)
Definition range (b : NodeBuffer.t) (from to : Z) : list Z :=
  take (Z.to_nat (to - from)) (drop (Z.to_nat from) b).

(** A decoder to instantiate the character-set layer with: every byte
    becomes the character of the same code, which is what the ascii,
    latin1 and utf8 encodings all do on ASCII text. *)
Definition latin1 (b : NodeBuffer.t) (encoding : value) : string :=
  NodeBuffer.latin1_chars b.

(** Modelled from the spec: the table of lib/constants/errors.js is not
    among the sources; this is the one entry the specification quotes,
    error 1096. *)
Definition error_table : gmap Z string := {[ 1096 := "ER_NO_TABLES_USED"%string ]}.

(** The error frame [FF 48 04 '#' "28000" "Bad"] behind its header. *)
Definition error_frame : Packet.t :=
  Packet.new 1 ([12; 0; 0; 1; 255; 72; 4; 35] ++ bytes_of "28000Bad") 0 16.

(** An error frame carrying the error number 65535, which no table
    names. *)
Definition unknown_error_frame : Packet.t :=
  Packet.new 1 ([12; 0; 0; 1; 255; 255; 255; 35] ++ bytes_of "HY000Bad") 0 16.

(** ** The null bitmap of a binary row, by bit position *)

(** [ceil_div a b] is the quotient of [a] by [b], rounded up. *)
Definition ceil_div (a b : Z) : Z := (a + b - 1) / b.

(** The null bit of column [k]: bit [(k + 2) mod 8] of bitmap byte
    [(k + 2) / 8]. *)
Definition null_bit (bitmap : list (option Z)) (k : nat) : Result bool :=
  match bitmap !! ((k + 2) / 8)%nat with
  | Some (Some byte) => Ok (Z.testbit byte (Z.of_nat ((k + 2) mod 8)))
  | Some None => Ok false
  | None => Throw (ReferenceError "nullBitmaskByte is not defined")
  end.

Section RowByBits.

Variable decode : NodeBuffer.t -> value -> string.
Variable UNSIGNED : Z.
Variables (options : BinaryParser.options) (config : BinaryParser.config).

(** The row read column by column, the null bit of each looked up by
    its position. *)
Fixpoint columns_by_bit (runtime : list ColumnDefinition) (bitmap : list (option Z))
    (fields : list ColumnDefinition) (k : nat)
  : Packet.M (list (BinaryParser.lvalue * value)) :=
  match fields with
  | [] => Packet.ret []
  | field :: rest =>
      Packet.mbind (Packet.lift (null_bit bitmap k)) (fun null =>
      Packet.mbind
        (BinaryParser.cell decode options config runtime k
           (BinaryParser.readCodeFor UNSIGNED field k options config) null)
        (fun v =>
      Packet.mbind (columns_by_bit runtime bitmap rest (S k)) (fun more =>
      Packet.ret ((BinaryParser.lvalue_of options field k, v) :: more))))
  end.

End RowByBits.

(** The places the row parsers assign the columns to, counted from
    column [i]. *)
Definition places (options : BinaryParser.options) (fields : list ColumnDefinition)
    (i : nat) : list BinaryParser.lvalue :=
  imap (fun j field => BinaryParser.lvalue_of options field (i + j)) fields.

(** The decoders that never return [null] of their own: all but
    [alwaysNull], [JSON.parse] and [geometry]. *)
Definition plain_decoder (c : BinaryParser.cast_code) : bool :=
  match c with
  | BinaryParser.AlwaysNull | BinaryParser.JSONParse | BinaryParser.Geometry => false
  | _ => true
  end.

(** The column types they belong to: all but NULL, JSON and GEOMETRY. *)
Definition null_by_bitmap_only (type : Types.t) : bool :=
  match type with
  | Types.NULL | Types.JSON | Types.GEOMETRY => false
  | _ => true
  end.

(** The row of scenario S8: an unsigned TINY and a VARCHAR column, the
    second one NULL. *)
Definition col0 : ColumnDefinition :=
  mkColumn "col0" "t" Types.TINY 32 0 (VStr "binary").
Definition col1 : ColumnDefinition :=
  mkColumn "col1" "t" (Types.OTHER 253) 0 0 (VStr "utf8").
Definition row_packet : Packet.t := Packet.new 0 [3; 0; 0; 1; 0; 8; 42] 0 7.
Definition plain_options : BinaryParser.options :=
  BinaryParser.mkOptions false BinaryParser.Flat false false
    BinaryParser.Unset BinaryParser.Unset.
Definition plain_config : BinaryParser.config :=
  BinaryParser.mkConfig false false false false
    BinaryParser.Unset BinaryParser.Unset.

(** A column of type NULL, a GEOMETRY and a JSON column, and a row of
    the three with every null bit clear: no cell for the first, an
    empty cell for the second and the text [null] for the third. *)
Definition null_column : ColumnDefinition :=
  mkColumn "nothing" "t" Types.NULL 0 0 (VStr "binary").
Definition shape_column : ColumnDefinition :=
  mkColumn "shape" "t" Types.GEOMETRY 0 0 (VStr "binary").
Definition doc_column : ColumnDefinition :=
  mkColumn "doc" "t" Types.JSON 0 0 (VStr "utf8").
Definition clear_bits_row : Packet.t :=
  Packet.new 0 [8; 0; 0; 1; 0; 0; 0; 4; 110; 117; 108; 108] 0 12.

(** A cast callback that answers [x] whatever the field. *)
Definition always_x : BinaryParser.options :=
  BinaryParser.mkOptions false BinaryParser.Flat false false
    (BinaryParser.Function (fun _ _ => Ok (VStr "x"))) BinaryParser.Unset.

(** ** Length-coded integers *)

(** The narrowest of the length-coded forms that holds [n]: the value
    itself up to 250, then a tag and 2, 3 or 8 little-endian bytes. *)
Definition narrowest (n : Z) : list Z :=
  if n <? 251 then [n]
  else if n <? 65536 then 252 :: NodeBuffer.le_bytes 2 n
  else if n <? 16777216 then 253 :: NodeBuffer.le_bytes 3 n
  else 254 :: NodeBuffer.le_bytes 8 n.

(** How a caller hands [n] to the writer: a number below 2^53, its
    decimal string from there on. *)
Definition as_argument (n : Z) : value :=
  if n <? 2 ^ 53 then VNum (Fin n) else VStr (dec n).

(** [n] is the value of a double. *)
Definition representable (n : Z) : Prop := of_Z n = Fin n.

(** What reading [n] back gives: the number below 2^53; from there on
    the nearest double if it prints as the digits of [n], and the digits
    otherwise. *)
Definition read_back (n : Z) : value :=
  if n <? 2 ^ 53 then VNum (Fin n)
  else if String.eqb (number_toString (of_Z n)) (dec n) then VNum (of_Z n)
  else VStr (dec n).

(** The packet after [bs] has been written at the cursor. *)
Definition written (p : Packet.t) (bs : list Z) : Packet.t :=
  Packet.with_offset
    (Packet.with_buffer p
       (NodeBuffer.store (Packet.buffer p) (Z.to_nat (Packet.offset p)) bs))
    (Packet.offset p + Z.of_nat (List.length bs)).

(** Room for [k] more bytes at the cursor. *)
Definition room (p : Packet.t) (k : Z) : Prop :=
  0 <= Packet.offset p /\ Packet.offset p + k <= NodeBuffer.length (Packet.buffer p).

(** A packet over sixteen zero bytes, the cursor behind the header. *)
Definition blank : Packet.t := Packet.new 0 (repeat 0 16) 0 16.

(** ** Notions used in the proofs *)

(** [yields m Q]: whatever [m] returns satisfies [Q]. *)
Definition yields {A} (m : Packet.M A) (Q : A -> Prop) : Prop :=
  forall p a p', m p = Ok (a, p') -> Q a.

(** The result does not come from inside [if (numDigits > 16)]. *)
Definition not_gt16 (r : value * Packet.exit) : Prop :=
  snd r <> Packet.ExitDigitsGt16.

(** Value of a decimal numeral, most significant digit first. *)
Fixpoint uint_value (d : Decimal.uint) (acc : Z) : Z :=
  match d with
  | Decimal.Nil => acc
  | Decimal.D0 d => uint_value d (10 * acc + 0)
  | Decimal.D1 d => uint_value d (10 * acc + 1)
  | Decimal.D2 d => uint_value d (10 * acc + 2)
  | Decimal.D3 d => uint_value d (10 * acc + 3)
  | Decimal.D4 d => uint_value d (10 * acc + 4)
  | Decimal.D5 d => uint_value d (10 * acc + 5)
  | Decimal.D6 d => uint_value d (10 * acc + 6)
  | Decimal.D7 d => uint_value d (10 * acc + 7)
  | Decimal.D8 d => uint_value d (10 * acc + 8)
  | Decimal.D9 d => uint_value d (10 * acc + 9)
  end.

(** The two halves of [n] as a [Long]. *)
Definition halves (n : Z) : long :=
  mkLong (int32 (n mod 2 ^ 32)) (int32 (n / 2 ^ 32)) true.

(** The packet in which [bs] has been written, its cursor back on the
    first of them. *)
Definition rewound (p : Packet.t) (bs : list Z) : Packet.t :=
  Packet.with_offset (written p bs) (Packet.offset p).

(** ** Reading through the cursor *)

(** The readers of [Packet], from [readInt8] to [readString], with
    their arguments.  A length is a count of bytes. *)
Inductive reader :=
| ReadInt8 | ReadInt16 | ReadInt24 | ReadInt32
| ReadSInt8 | ReadSInt16 | ReadSInt32
| ReadInt64JSNumber | ReadSInt64JSNumber
| ReadInt64String | ReadSInt64String
| ReadInt64 | ReadSInt64
| ReadLengthCodedNumber (bigNumberStrings signed : bool)
| ReadFloat | ReadDouble
| ReadBuffer (len : option nat)
| ReadDateTime
| ReadDateTimeString (decimals : option Z)
| ReadTimeString (convertTtoMs : bool)
| ReadLengthCodedString (encoding : value)
| ReadLengthCodedBuffer
| ReadNullTerminatedString (encoding : value)
| ReadString (len : option nat) (encoding : value).

(** A buffer holds bytes. *)
Definition bytes (b : NodeBuffer.t) : Prop := Forall (fun x => 0 <= x < 256) b.

(** An optional length as the argument the method receives. *)
Definition length_argument (len : option nat) : value :=
  match len with
  | Some l => VNum (Fin (Z.of_nat l))
  | None => VUndefined
  end.

(** The bytes a length-coded integer occupies, by its first byte. *)
Definition tag_width (tag : Z) : option Z :=
  if tag <? 251 then Some 1
  else if tag =? 251 then Some 1
  else if tag =? 252 then Some 3
  else if tag =? 253 then Some 4
  else if tag =? 254 then Some 9
  else None.

(** The length a length-coded integer announces: the tag itself up to
    250, nothing for NULL, and the little-endian value of the bytes
    behind the tag otherwise. *)
Definition announced (b : NodeBuffer.t) (offset tag width : Z) : Z :=
  if tag <? 251 then tag
  else if tag =? 251 then 0
  else NodeBuffer.le_value (range b (offset + 1) (offset + width)).

(** The bytes up to and including the first zero byte of a list. *)
Definition terminated (bs : list Z) : option Z :=
  match list_find (fun c => c = 0) bs with
  | Some (i, _) => Some (Z.of_nat i + 1)
  | None => None
  end.

(** The number of bytes the datum at the cursor occupies on the wire,
    for each reader; [None] when there is no such datum there. *)
Definition consumed (r : reader) (p : Packet.t) : option Z :=
  let b := Packet.buffer p in
  let offset := Packet.offset p in
  match r with
  | ReadInt8 | ReadSInt8 => Some 1
  | ReadInt16 | ReadSInt16 => Some 2
  | ReadInt24 => Some 3
  | ReadInt32 | ReadSInt32 | ReadFloat => Some 4
  | ReadInt64JSNumber | ReadSInt64JSNumber | ReadInt64String | ReadSInt64String
  | ReadInt64 | ReadSInt64 | ReadDouble => Some 8
  | ReadLengthCodedNumber _ _ =>
      match NodeBuffer.get b offset with
      | Some tag => tag_width tag
      | None => None
      end
  | ReadBuffer (Some len) | ReadString (Some len) _ => Some (Z.of_nat len)
  | ReadBuffer None | ReadString None _ => Some (Packet.end_ p - offset)
  | ReadDateTime =>
      match NodeBuffer.get b offset with
      | Some length => if length =? 251 then Some 1 else Some (1 + length)
      | None => None
      end
  | ReadDateTimeString _ | ReadTimeString _ =>
      match NodeBuffer.get b offset with
      | Some length => Some (1 + length)
      | None => None
      end
  | ReadLengthCodedString _ | ReadLengthCodedBuffer =>
      match NodeBuffer.get b offset with
      | Some tag =>
          match tag_width tag with
          | Some width => Some (width + announced b offset tag width)
          | None => None
          end
      | None => None
      end
  | ReadNullTerminatedString _ => terminated (drop (Z.to_nat offset) b)
  end.

Section Readers.

Variable decode : NodeBuffer.t -> value -> string.

Definition returning {A} (m : Packet.M A) (wrap : A -> value) : Packet.M value :=
  Packet.mbind m (fun a => Packet.ret (wrap a)).

Definition integer_value (z : Z) : value := VNum (Fin z).

(** The call a reader stands for. *)
Definition exec (r : reader) : Packet.M value :=
  match r with
  | ReadInt8 => returning Packet.readInt8 NodeBuffer.value_of_byte
  | ReadInt16 => returning Packet.readInt16 integer_value
  | ReadInt24 => returning Packet.readInt24 integer_value
  | ReadInt32 => returning Packet.readInt32 integer_value
  | ReadSInt8 => returning Packet.readSInt8 integer_value
  | ReadSInt16 => returning Packet.readSInt16 integer_value
  | ReadSInt32 => returning Packet.readSInt32 integer_value
  | ReadInt64JSNumber => Packet.readInt64JSNumber
  | ReadSInt64JSNumber => Packet.readSInt64JSNumber
  | ReadInt64String => Packet.readInt64String
  | ReadSInt64String => Packet.readSInt64String
  | ReadInt64 => Packet.readInt64
  | ReadSInt64 => Packet.readSInt64
  | ReadLengthCodedNumber bigNumberStrings signed =>
      Packet.readLengthCodedNumber bigNumberStrings signed
  | ReadFloat => Packet.readFloat
  | ReadDouble => Packet.readDouble
  | ReadBuffer len => returning (Packet.readBuffer (length_argument len)) VBuf
  | ReadDateTime => Packet.readDateTime
  | ReadDateTimeString decimals => Packet.readDateTimeString decimals
  | ReadTimeString convertTtoMs => Packet.readTimeString convertTtoMs
  | ReadLengthCodedString encoding => Packet.readLengthCodedString decode encoding
  | ReadLengthCodedBuffer => Packet.readLengthCodedBuffer
  | ReadNullTerminatedString encoding =>
      returning (Packet.readNullTerminatedString decode encoding) VStr
  | ReadString len encoding =>
      returning (Packet.readString decode (length_argument len) encoding) VStr
  end.

(** A sequence of reads, each of which returns and takes its datum from
    before the end of the window. *)
Inductive reads : Packet.t -> list reader -> Packet.t -> Prop :=
| reads_nil (p : Packet.t) : reads p [] p
| reads_cons (p p1 p2 : Packet.t) (r : reader) (rs : list reader) (v : value) (w : Z) :
    exec r p = Ok (v, p1) ->
    consumed r p = Some w ->
    Packet.offset p + w <= Packet.end_ p ->
    reads p1 rs p2 ->
    reads p (r :: rs) p2.

End Readers.

(** A frame to read from: header, then [05], [2C 01], [FC 2C 01] and
    the text "ab" with its terminator. *)
Definition read_frame : Packet.t :=
  Packet.new 0 [9; 0; 0; 0; 5; 44; 1; 252; 44; 1; 97; 98; 0] 0 13.

(* ===================================================================== *)
(** * The rest of the codec                                               *)
(* ===================================================================== *)

(** More of lib/packets/packet.js and lib/parsers/packet_parser.js, the
    row parser of lib/parsers/text_parser.js, and the command of
    lib/packets/prepare_statement.js that builds a packet with them:

    - [BufferCopy]        [Buffer.prototype.copy];
    - [PacketWriters]     the writers of [Packet] that copy bytes, its
                          header, dates and [clone];
    - [PacketDates]       [Packet.parseDate];
    - [TextDecoders]      [PacketParser.dateAscii] and [PacketParser.JSON];
    - [TextParser]        lib/parsers/text_parser.js;
    - [Time]              [PacketParser._time] and its callers;
    - [PrepareStatement]  the packet of a COM_STMT_PREPARE. *)

Notation "'run' x <- m ; k" := (Packet.mbind m (fun x => k))
  (at level 10, x name, m at level 100, k at level 200).
Notation "m ;; k" := (Packet.mbind m (fun _ => k))
  (at level 100, k at level 200, right associativity).

Module BufferCopy.

(** [source.copy(target, targetStart)]: a negative start is rejected, a
    start behind the target copies nothing, and only the bytes that fit
    are copied. *)
Definition copy (source target : NodeBuffer.t) (targetStart : Z) : Result NodeBuffer.t :=
  if targetStart <? 0 then Throw NodeBuffer.out_of_range
  else Ok (NodeBuffer.store target (Z.to_nat targetStart) source).

End BufferCopy.

(* ===================================================================== *)
(** * lib/packets/packet.js: the writers of bytes                         *)
(* ===================================================================== *)

Module PacketWriters.

(** [b.copy(this.buffer, this.offset)] *)
Definition copy_here (b : NodeBuffer.t) : Packet.M unit :=
  run p <- Packet.this;
  run buffer <- Packet.lift (BufferCopy.copy b (Packet.buffer p) (Packet.offset p));
  Packet.set_buffer buffer.

(** [this.buffer.length && buf.copy(this.buffer, this.offset)] *)
Definition copy_if_any (buf : NodeBuffer.t) : Packet.M unit :=
  run p <- Packet.this;
  if NodeBuffer.length (Packet.buffer p) =? 0 then Packet.ret tt
  else copy_here buf.

Definition writeBuffer (b : NodeBuffer.t) : Packet.M unit :=
  copy_here b;;
  Packet.advance (NodeBuffer.length b).

Definition writeLengthCodedBuffer (b : NodeBuffer.t) : Packet.M unit :=
  Packet.writeLengthCodedNumber (VNum (Fin (NodeBuffer.length b)));;
  copy_here b;;
  Packet.advance (NodeBuffer.length b).

Section Encoding.

(** [StringParser.encode], the character-set layer under
    [PacketParser.encode], is taken as given. *)
Variable encode : string -> value -> NodeBuffer.t.

Definition writeNullTerminatedString (s : string) (encoding : value) : Packet.M unit :=
  let buf := encode s encoding in
  copy_if_any buf;;
  Packet.advance (NodeBuffer.length buf);;
  Packet.writeInt8 0.

Definition writeString (s : value) (encoding : value) : Packet.M unit :=
  match s with
  | VNull => Packet.writeInt8 251
  | VStr s =>
      if (String.length s =? 0)%nat then Packet.ret tt
      else
        let buf := encode s encoding in
        copy_if_any buf;;
        Packet.advance (NodeBuffer.length buf)
  | VUndefined => Packet.throw (TypeError "Cannot read property 'length' of undefined")
  | _ => Packet.throw (OutsideModel "writeString of a value that is not a string")
  end.

Definition writeLengthCodedString (s : string) (encoding : value) : Packet.M unit :=
  let buf := encode s encoding in
  Packet.writeLengthCodedNumber (VNum (Fin (NodeBuffer.length buf)));;
  copy_if_any buf;;
  Packet.advance (NodeBuffer.length buf).

Definition lengthCodedStringLength (str : string) (encoding : value) : Z :=
  let buf := encode str encoding in
  let slen := NodeBuffer.length buf in
  Packet.lengthCodedNumberLength (Fin slen) + slen.

End Encoding.

(** What the getters of a valid [Date] return, in local time. *)
Record date := mkFields {
  getFullYear : Z;
  getMonth : Z;
  getDate : Z;
  getHours : Z;
  getMinutes : Z;
  getSeconds : Z;
  getMilliseconds : Z }.

Definition writeDate (d : date) : Packet.M unit :=
  Packet.write NodeBuffer.writeUInt8 11 0;;
  Packet.write NodeBuffer.writeUInt16LE (getFullYear d) 1;;
  Packet.write NodeBuffer.writeUInt8 (getMonth d + 1) 3;;
  Packet.write NodeBuffer.writeUInt8 (getDate d) 4;;
  Packet.write NodeBuffer.writeUInt8 (getHours d) 5;;
  Packet.write NodeBuffer.writeUInt8 (getMinutes d) 6;;
  Packet.write NodeBuffer.writeUInt8 (getSeconds d) 7;;
  Packet.write NodeBuffer.writeUInt32LE (getMilliseconds d * 1000) 8;;
  Packet.advance 12.


Definition clone (p : Packet.t) : Packet.t :=
  Packet.new (Packet.sequenceId p) (Packet.buffer p) (Packet.start p) (Packet.end_ p).

End PacketWriters.

(* ===================================================================== *)
(** ** lib/packets/packet.js: dates in text                               *)
(* ===================================================================== *)

Module PacketDates.

Section Decoding.

Variable decode : NodeBuffer.t -> value -> string.

(** [new Date(y, m, d)], the time of day being midnight. *)
Definition new_Date (y m d : number) : value :=
  VDate (mkDate y m d (Fin 0) (Fin 0) (Fin 0) 0).

Definition parseDate : Packet.M value :=
  run strLen <- Packet.readLengthCodedNumber false false;
  match strLen with
  | VNull => Packet.ret VNull
  | _ =>
      if negb (strict_eq strLen (VNum (Fin 10))) then
        (* we expect only YYYY-MM-DD here *)
        Packet.ret VInvalidDate
      else
        run y <- Packet.parseInt decode (VNum (Fin 4)) false;
        Packet.advance 1;;
        run m <- Packet.parseInt decode (VNum (Fin 2)) false;
        Packet.advance 1;;
        run d <- Packet.parseInt decode (VNum (Fin 2)) false;
        run y <- Packet.lift (to_number (fst y));
        run m <- Packet.lift (to_number (fst m));
        run d <- Packet.lift (to_number (fst d));
        Packet.ret (new_Date y (sub m (Fin 1)) d)
  end.

End Decoding.

End PacketDates.

(* ===================================================================== *)
(** ** lib/parsers/packet_parser.js: decoders of text cells               *)
(* ===================================================================== *)

(** The decoders that lib/parsers/text_parser.js calls with
    [(buffer, offset, length)], beside [intAscii] and [intAsciiSmall]. *)
Module TextDecoders.

(** [new Date(y, m, d, H, M, S, numerator / 1000)].  A last argument
    that is not finite makes the date invalid. *)
Definition new_Date (y m d H M S_ : number) (numerator : number) : value :=
  match numerator with
  | Fin micros => VDate (mkDate y m d H M S_ micros)
  | _ => VInvalidDate
  end.

Definition dateAscii (buffer : NodeBuffer.t) (offset length : option Z)
  : Result value :=
  let (offset, length) := PacketParser.arguments buffer offset length in
  let field (at_ : Z) (len : Z) : Result number :=
    to_number (PacketParser.intAsciiSmall buffer (Some at_) (Some len)) in
  let zero := Fin 0 in
  do fields <-
    (if 9 <? length then
       do y <- field offset 4;
       do m <- field (5 + offset) 2;
       do d <- field (8 + offset) 2;
       if 18 <? length then
         do H <- field (11 + offset) 2;
         do M <- field (14 + offset) 2;
         do S_ <- field (17 + offset) 2;
         if 20 <? length then
           let microseconds :=
             PacketParser.intAsciiSmall buffer (Some (20 + offset)) (Some (length - 20)) in
           do padded <- PacketParser.leftPad 6 microseconds;
           do numerator <- string_to_number padded;
           Ok (y, m, d, H, M, S_, numerator)
         else Ok (y, m, d, H, M, S_, zero)
       else Ok (y, m, d, zero, zero, zero, zero)
     else Ok (zero, zero, zero, zero, zero, zero, zero));
  let '(y, m, d, H, M, S_, numerator) := fields in
  Ok (new_Date y m d H M S_ numerator).

(** Wraps [JSON.parse], which is taken as given: [parse] is what it
    returns or throws on the text of a buffer.  In
    [buffer.slice(offset, length)] an argument left out stands for the
    start and for the end of the buffer. *)
Definition JSON (parse : NodeBuffer.t -> Result value)
    (buffer : NodeBuffer.t) (offset length : option Z) : Result value :=
  match offset, length with
  | None, None => parse buffer
  | _, _ =>
      parse (NodeBuffer.slice buffer (default 0 offset)
               (default (NodeBuffer.length buffer) length))
  end.

End TextDecoders.

(* ===================================================================== *)
(** ** lib/parsers/text_parser.js                                         *)
(* ===================================================================== *)

Module TextParser.

(** The default cast [readCodeFor] names, or [null]. *)
Inductive cast_code :=
| IntAsciiSmall | IntAscii | FloatAscii | AlwaysNull | DateAscii | Geometry | JSON.

(** The buffer expression is [packet.readLengthCodedBuffer()] for every
    column; what varies is the encoding and the default cast. *)
Record read_code := mkCode {
  encoding : BinaryParser.encoding_code;
  defaultCast : option cast_code }.

Section Parser.

Variable decode : NodeBuffer.t -> value -> string.

(** [PacketParser.floatAscii], [PacketParser.geometry] and [JSON.parse]
    are taken as given. *)
Variable floatAscii : NodeBuffer.t -> option Z -> option Z -> Result value.
Variable geometry : NodeBuffer.t -> option Z -> option Z -> Result value.
Variable parse : NodeBuffer.t -> Result value.

Definition readCodeFor (field : ColumnDefinition) (fieldNum : nat)
    (options : BinaryParser.options) (config : BinaryParser.config) : read_code :=
  let ascii := BinaryParser.Literal "ascii" in
  match col_columnType field with
  | Types.TINY | Types.SHORT | Types.LONG | Types.INT24 | Types.YEAR =>
      mkCode ascii (Some IntAsciiSmall)
  | Types.LONGLONG =>
      mkCode ascii
        (if BinaryParser.supportBigNumbers options || BinaryParser.c_supportBigNumbers config
         then
           if BinaryParser.bigNumberStrings options || BinaryParser.c_bigNumberStrings config
           then None
           else Some IntAscii
         else Some IntAsciiSmall)
  | Types.FLOAT | Types.DOUBLE => mkCode ascii (Some FloatAscii)
  | Types.NULL => mkCode (BinaryParser.Literal "binary") (Some AlwaysNull)
  | Types.DATE | Types.NEWDATE | Types.DATETIME | Types.TIMESTAMP =>
      mkCode ascii (if BinaryParser.c_dateStrings config then None else Some DateAscii)
  | Types.TIME => mkCode ascii None
  | Types.DECIMAL | Types.NEWDECIMAL =>
      mkCode ascii (if BinaryParser.c_decimalNumbers config then Some FloatAscii else None)
  | Types.GEOMETRY => mkCode (BinaryParser.Literal "binary") (Some Geometry)
  | Types.JSON => mkCode (BinaryParser.Literal "utf8") (Some JSON)
  | Types.OTHER _ => mkCode (BinaryParser.FieldEncoding fieldNum) None
  end.

(** The decoder a cast code names, with the arguments it is called
    with. *)
Definition decoder (c : cast_code) (buffer : NodeBuffer.t) (offset length : option Z)
  : Result value :=
  match c with
  | IntAsciiSmall => Ok (PacketParser.intAsciiSmall buffer offset length)
  | IntAscii => PacketParser.intAscii buffer offset length
  | FloatAscii => floatAscii buffer offset length
  | AlwaysNull => Ok PacketParser.alwaysNull
  | DateAscii => TextDecoders.dateAscii buffer offset length
  | Geometry => geometry buffer offset length
  | JSON => TextDecoders.JSON parse buffer offset length
  end.

Definition castField (column : ColumnDefinition) (encoding : value)
    (typeCast : CastField.t -> Result value -> Result value)
    (defaultCast : option cast_code) (fieldBuffer : CastField.cell) : Result value :=
  CastField.run
    (CastField.constructor decode false column encoding
       (option_map (fun c b => decoder c b None None) defaultCast) fieldBuffer)
    typeCast.

(** Accelerated version of [castField] for when [typeCast === true]. *)
Definition textField (encoding : value) (defaultCast : option cast_code)
  : Packet.M value :=
  run length <- Packet.readLengthCodedNumber false false;
  match length with
  | VNull => Packet.ret VNull
  | _ =>
      match defaultCast with
      | Some c =>
          match length with
          | VNum (Fin len) =>
              run p <- Packet.this;
              run value <-
                Packet.lift (decoder c (Packet.buffer p) (Some (Packet.offset p)) (Some len));
              Packet.advance len;;
              Packet.ret value
          | _ => Packet.throw (OutsideModel "the length is no longer an integer")
          end
      | None =>
          run buffer <- Packet.readBuffer length;
          if CastField.passes_through encoding then Packet.ret (VBuf buffer)
          else Packet.ret (VStr (decode buffer encoding))
      end
  end.

Section Compile.

Variables (options : BinaryParser.options) (config : BinaryParser.config).

(** [options.typeCast], after the global [typeCast] has been taken up
    where the query gives none. *)
Definition cast : BinaryParser.cast_option :=
  match BinaryParser.typeCast options with
  | BinaryParser.Unset => BinaryParser.c_typeCast config
  | own => own
  end.

(** The statement compiled for one column. *)
Definition cell (runtime : list ColumnDefinition) (i : nat) (field : ColumnDefinition)
  : Packet.M value :=
  match cast with
  | BinaryParser.Flag false => Packet.readLengthCodedBuffer
  | BinaryParser.Function f =>
      let code := readCodeFor field i options config in
      match runtime !! i with
      | None => Packet.throw (OutsideModel "fields[i] is undefined")
      | Some column =>
          run encoding <-
            Packet.lift (BinaryParser.encoding_of runtime (encoding code));
          run v <- Packet.readLengthCodedBuffer;
          let fieldBuffer :=
            match v with
            | VBuf b => CastField.Bytes b
            | _ => CastField.Null
            end in
          Packet.lift (castField column encoding f (defaultCast code) fieldBuffer)
      end
  | _ =>
      let code := readCodeFor field i options config in
      run encoding <- Packet.lift (BinaryParser.encoding_of runtime (encoding code));
      textField encoding (defaultCast code)
  end.

(** The loop of [compile] over the columns and the statements it emits,
    run in order. *)
Fixpoint columns (runtime : list ColumnDefinition) (fields : list ColumnDefinition)
    (i : nat) : Packet.M (list (BinaryParser.lvalue * value)) :=
  match fields with
  | [] => Packet.ret []
  | field :: rest =>
      let lhs := BinaryParser.lvalue_of options field i in
      run v <- cell runtime i field;
      run more <- columns runtime rest (S i);
      Packet.ret ((lhs, v) :: more)
  end.

(** The body of the function [TextRow] that [compile] builds: every
    column is assigned, in order. *)
Definition TextRow (fields : list ColumnDefinition)
  : list ColumnDefinition -> Packet.M (list (BinaryParser.lvalue * value)) :=
  fun runtime => columns runtime fields 0.

(** [compile(fields, options, config)] is that function, which is
    called as a constructor.  With [rowsAsArray] it starts with
    [const result = new Array(n)] and ends with [return result], so
    that [new TextRow(packet, fields, options)] is the array and the
    object [this] is dropped; otherwise it is [this]. *)
Definition compile (fields : list ColumnDefinition)
  : list ColumnDefinition -> Packet.M BinaryParser.row :=
  fun runtime =>
    run assigned <- TextRow fields runtime;
    Packet.ret (BinaryParser.returned options (List.length fields) assigned).

End Compile.

End Parser.

End TextParser.

(* ===================================================================== *)
(** ** lib/parsers/packet_parser.js: times                                *)
(* ===================================================================== *)

Module Time.

(** The first argument of [_time]: the constructor [String], the
    constructor [Number], or anything else. *)
Inductive conversion := ToString | ToNumber | Another.

(** An element of [[...].join(':')]: [undefined] and [null] give the
    empty string. *)
Definition joined (v : value) : Result string :=
  match v with
  | VUndefined | VNull => Ok EmptyString
  | VStr s => Ok s
  | VNum n => Ok (number_toString n)
  | _ => Throw (OutsideModel "join of an object")
  end.

Definition _time (conversion : conversion) (buffer : NodeBuffer.t)
    (offset length : option Z) : Result value :=
  let (offset, length) := PacketParser.arguments buffer offset length in
  (* 'isNegative' flag byte *)
  let sign :=
    if negb (length =? 0) && PacketParser.set (PacketParser.uint8 buffer (Some offset))
    then -1 else 1 in
  let zero := VNum (Fin 0) in
  do fields <-
    (if 7 <? length then
       do d <- PacketParser.uint32 buffer (Some (1 + offset));
       let H := NodeBuffer.value_of_byte (PacketParser.uint8 buffer (Some (5 + offset))) in
       let M := NodeBuffer.value_of_byte (PacketParser.uint8 buffer (Some (6 + offset))) in
       let S_ := NodeBuffer.value_of_byte (PacketParser.uint8 buffer (Some (7 + offset))) in
       if 11 <? length then
         do microseconds <- PacketParser.uint32 buffer (Some (8 + offset));
         Ok (d, H, M, S_, microseconds)
       else Ok (d, H, M, S_, 0)
     else Ok (0, zero, zero, zero, 0));
  let '(d, H, M, S_, microseconds) := fields in
  match conversion with
  | ToString =>
      do hours <-
        (if negb (d =? 0) then
           do h <- to_number H; Ok (VNum (add (mul (Fin d) (Fin 24)) h))
         else Ok H);
      do hours <- joined hours;
      do minutes <- PacketParser.leftPad 2 M;
      do seconds <- PacketParser.leftPad 2 S_;
      do fraction <-
        (if negb (microseconds =? 0) then
           do padded <- PacketParser.leftPad 6 (VNum (Fin microseconds));
           Ok ("." +++ padded)
         else Ok EmptyString);
      Ok (VStr ((if sign =? -1 then "-" else EmptyString)
                +++ (hours +++ ":" +++ minutes +++ ":" +++ seconds) +++ fraction))
  | ToNumber =>
      do H <- to_number H;
      do M <- to_number M;
      do S_ <- to_number S_;
      let H := add H (mul (Fin d) (Fin 24)) in
      let M := add M (mul H (Fin 60)) in
      let S_ := add S_ (mul M (Fin 60)) in
      let ms := mul S_ (Fin 1000) in
      let ms := add ms (Fin (JS.int32 (Z.quot microseconds 1000))) in
      Ok (VNum (mul (Fin sign) ms))
  | Another => Throw (Error "Invalid conversion in PacketParser._time")
  end.

(** Read MySQL time from binary buffer as String. *)
Definition timeString (buffer : NodeBuffer.t) (offset length : option Z) : Result value :=
  _time ToString buffer offset length.

(** [Packet.readTimeString], with the decoder it calls. *)
Definition readTimeString (convertTtoMs : bool) : Packet.M value :=
  let conversion := if convertTtoMs then ToNumber else ToString in
  run length <- Packet.readInt8;
  run length <- Packet.advance_by (NodeBuffer.value_of_byte length);
  run p <- Packet.this;
  Packet.lift (_time conversion (Packet.buffer p) (Some (Packet.offset p - length))
                 (Some length)).

End Time.

(* ===================================================================== *)
(** ** lib/packets/prepare_statement.js                                   *)
(* ===================================================================== *)

Module PrepareStatement.

Section Command.

Variable encode : string -> value -> NodeBuffer.t.

(** The table of lib/constants/charset_encodings.js, the code
    [CommandCodes.STMT_PREPARE], and [Buffer.allocUnsafe], whose bytes
    are whatever the memory held, are taken as given. *)
Variable CharsetToEncoding : Z -> value.
Variable STMT_PREPARE : Z.
Variable allocUnsafe : Z -> NodeBuffer.t.

Record t := mk {
  query : string;
  charsetNumber : Z;
  encoding : value }.

Definition constructor (sql : string) (charsetNumber : Z) : t :=
  mk sql charsetNumber (CharsetToEncoding charsetNumber).


End Command.

End PrepareStatement.

(* ===================================================================== *)
(** * Notions used to state the further properties                        *)
(* ===================================================================== *)

(** The four widths of the integer writers and readers of [Packet]. *)
Inductive width := Int8 | Int16 | Int24 | Int32.

Definition octets (w : width) : nat :=
  match w with Int8 => 1 | Int16 => 2 | Int24 => 3 | Int32 => 4 end.

Definition writeInt (w : width) : Z -> Packet.M unit :=
  match w with
  | Int8 => Packet.writeInt8
  | Int16 => Packet.writeInt16
  | Int24 => Packet.writeInt24
  | Int32 => Packet.writeInt32
  end.

Definition readInt (w : width) : Packet.M value :=
  match w with
  | Int8 => returning Packet.readInt8 NodeBuffer.value_of_byte
  | Int16 => returning Packet.readInt16 integer_value
  | Int24 => returning Packet.readInt24 integer_value
  | Int32 => returning Packet.readInt32 integer_value
  end.

(** The signed readers; there is none of 24 bits. *)
Definition readSInt (w : width) : option (Packet.M Z) :=
  match w with
  | Int8 => Some Packet.readSInt8
  | Int16 => Some Packet.readSInt16
  | Int24 => None
  | Int32 => Some Packet.readSInt32
  end.

(** The two's-complement reading of an unsigned [n] of [k] octets. *)
Definition twos_complement (k : nat) (n : Z) : Z :=
  if n <? 2 ^ (8 * Z.of_nat k - 1) then n else n - 2 ^ (8 * Z.of_nat k).

(** The bytes [bs] lie in [b] from index [o] on. *)
Definition lies_at (b : NodeBuffer.t) (o : Z) (bs : list Z) : Prop :=
  0 <= o /\ take (List.length bs) (drop (Z.to_nat o) b) = bs.

(** The text of an integer: an optional [-], then decimal digits; and
    the integer it denotes. *)
Definition integer_text (negative : bool) (digits : string) : string :=
  if negative then String "-" digits else digits.

Definition integer_of (negative : bool) (digits : string) : Z :=
  (if negative then -1 else 1) * digits_value digits 0.

(** A packet whose payload is the text [-123]. *)
Definition minus_123 : Packet.t := Packet.new 0 ([4; 0; 0; 0] ++ bytes_of "-123") 0 8.

(** A packet whose payload is the zero-filled text [007]. *)
Definition zero_filled : Packet.t := Packet.new 0 ([3; 0; 0; 0] ++ bytes_of "007") 0 7.

(** Packets whose payload is an integer of 64 bits: 2^64 - 1, and
    2^31. *)
Definition all_ones : Packet.t := Packet.new 0 ([8; 0; 0; 0] ++ repeat 255 8) 0 12.
Definition bit_31 : Packet.t :=
  Packet.new 0 [8; 0; 0; 0; 0; 0; 0; 128; 0; 0; 0; 0] 0 12.

(** The blank packet with its cursor at the end of the buffer. *)
Definition full : Packet.t := Packet.with_offset blank 16.

(** The bytes of a list before its first zero byte; all of them when
    there is none. *)
Fixpoint before_zero (bs : list Z) : list Z :=
  match bs with
  | [] => []
  | c :: rest => if c =? 0 then [] else c :: before_zero rest
  end.

(** A packet whose buffer ends in the middle of a string: the payload
    [ab] has no terminator. *)
Definition unterminated : Packet.t := Packet.new 0 [2; 0; 0; 0; 97; 98] 0 6.

(** An EOF packet with 65535 warnings and the status flags 0x8002. *)
Definition eof_frame : Packet.t := Packet.new 5 [5; 0; 0; 5; 254; 255; 255; 2; 128] 0 9.

(** The integer column types of the binary protocol: the octets of a
    cell, and whether it is read as unsigned whatever the flags say. *)
Definition integer_cell (type : Types.t) : option (nat * bool) :=
  match type with
  | Types.TINY => Some (1%nat, false)
  | Types.SHORT => Some (2%nat, false)
  | Types.LONG | Types.INT24 => Some (4%nat, false)
  | Types.YEAR => Some (2%nat, true)
  | _ => None
  end.

(** The column types of dates with a time of day or without. *)
Definition date_type (type : Types.t) : bool :=
  match type with
  | Types.DATE | Types.DATETIME | Types.TIMESTAMP | Types.NEWDATE => true
  | _ => false
  end.

(** Columns and rows for the examples: a signed SMALLINT, a
    DATETIME(3), and a BIGINT. *)
Definition smallint_column : ColumnDefinition :=
  mkColumn "n" "t" Types.SHORT 0 0 (VStr "binary").
Definition smallint_cell : Packet.t := Packet.new 0 [2; 0; 0; 0; 254; 255] 0 6.
Definition datetime3_column : ColumnDefinition :=
  mkColumn "at" "t" Types.DATETIME 128 3 (VStr "binary").
Definition bigint_column : ColumnDefinition :=
  mkColumn "id" "t" Types.LONGLONG 32 0 (VStr "binary").
Definition big_numbers : BinaryParser.options :=
  BinaryParser.mkOptions false BinaryParser.Flat true false
    BinaryParser.Unset BinaryParser.Unset.
Definition date_strings : BinaryParser.config :=
  BinaryParser.mkConfig false false true false
    BinaryParser.Unset BinaryParser.Unset.
Definition bigint_cell : Packet.t := Packet.new 0 [8; 0; 0; 0; 1; 0; 0; 0; 0; 0; 0; 0] 0 12.

(** An encoder to instantiate the character-set layer with: every
    character becomes the byte of the same code. *)
Definition latin1_bytes (s : string) (encoding : value) : NodeBuffer.t := bytes_of s.

(** The twelve bytes of a date on the wire: the length 11, the year in
    two bytes, month (from 1), day, hours, minutes and seconds in one
    byte each, and the microseconds in four bytes. *)
Definition date_bytes (d : PacketWriters.date) : list Z :=
  [11] ++ NodeBuffer.le_bytes 2 (PacketWriters.getFullYear d)
  ++ [PacketWriters.getMonth d + 1; PacketWriters.getDate d; PacketWriters.getHours d;
      PacketWriters.getMinutes d; PacketWriters.getSeconds d]
  ++ NodeBuffer.le_bytes 4 (PacketWriters.getMilliseconds d * 1000).

(** The fields of a [Date] that [writeDate] can put on the wire. *)
Definition wire_date (d : PacketWriters.date) : Prop :=
  0 <= PacketWriters.getFullYear d <= 65535
  /\ 0 <= PacketWriters.getMonth d <= 11
  /\ 1 <= PacketWriters.getDate d <= 31
  /\ 0 <= PacketWriters.getHours d <= 23
  /\ 0 <= PacketWriters.getMinutes d <= 59
  /\ 0 <= PacketWriters.getSeconds d <= 59
  /\ 0 <= PacketWriters.getMilliseconds d <= 999.

Definition new_year_2020 : PacketWriters.date :=
  PacketWriters.mkFields 2020 0 1 0 0 0 0.

Definition year_70000 : PacketWriters.date :=
  PacketWriters.mkFields 70000 0 1 0 0 0 0.

(** The text of a date as [parseDate] expects it: its length, ten, then
    four, two and two digits with a byte between them. *)
Definition date_text (y : string) (s1 : Z) (m : string) (s2 : Z) (d : string) : list Z :=
  [10] ++ bytes_of y ++ [s1] ++ bytes_of m ++ [s2] ++ bytes_of d.

Definition zero_date : list Z := date_text "0000" 45 "00" 45 "00".

Definition short_date : list Z := [8] ++ bytes_of "20-01-02".

(** A cell of a text row on the wire: the byte FB for NULL, and
    otherwise the length of its bytes, length-coded, then the bytes. *)
Definition text_cell (c : option NodeBuffer.t) : list Z :=
  match c with
  | None => [251]
  | Some b => narrowest (NodeBuffer.length b) ++ b
  end.

Definition text_row (cells : list (option NodeBuffer.t)) : list Z :=
  concat (map text_cell cells).

(** The cell as a buffer or [null]. *)
Definition raw_cell (c : option NodeBuffer.t) : value :=
  match c with
  | None => VNull
  | Some b => VBuf b
  end.

(** A connection with [typeCast: false], a stand-in for the decoders
    that are taken as given, and a text row of the columns [col0] and
    [col1]: the text [42] and NULL. *)
Definition no_type_cast : BinaryParser.config :=
  BinaryParser.mkConfig false false false false
    BinaryParser.Unset (BinaryParser.Flag false).

Definition uninterpreted (name : string) (b : NodeBuffer.t) (offset length : option Z)
  : Result value :=
  Ok (VDecoded name (VBuf b)).

Definition symbolic_parse (b : NodeBuffer.t) : Result value :=
  Ok (PacketParser.JSON_parse b).

Definition text_row_packet : Packet.t :=
  Packet.new 0 ([4; 0; 0; 0] ++ text_row [Some (bytes_of "42"); None]) 0 8.

(** The text parser goes through [textField] when [typeCast] is left
    out or [true]. *)
Definition default_cast (c : BinaryParser.cast_option) : Prop :=
  c = BinaryParser.Unset \/ c = BinaryParser.Flag true.

(** A text row of the column [col1] alone: the text [ab]. *)
Definition varchar_packet : Packet.t :=
  Packet.new 0 ([3; 0; 0; 0] ++ text_cell (Some (bytes_of "ab"))) 0 7.

(** The columns whose text cells are read as integers by the default
    cast: the integer types up to 32 bits and YEAR, and BIGINT unless
    big numbers are to come out as strings. *)
Definition integer_column (options : BinaryParser.options) (config : BinaryParser.config)
    (type : Types.t) : bool :=
  match type with
  | Types.TINY | Types.SHORT | Types.LONG | Types.INT24 | Types.YEAR => true
  | Types.LONGLONG =>
      negb ((BinaryParser.supportBigNumbers options || BinaryParser.c_supportBigNumbers config)
            && (BinaryParser.bigNumberStrings options
                || BinaryParser.c_bigNumberStrings config))
  | _ => false
  end.

(** A text row of the column [smallint_column] alone: the text [-12]. *)
Definition smallint_text : Packet.t :=
  Packet.new 0 ([4; 0; 0; 0] ++ text_cell (Some (bytes_of "-12"))) 0 8.

(** The text of a date, of a time of day and of a fraction of seconds,
    as the server sends them: [YYYY-MM-DD], [ HH:MM:SS] and [.ffffff]. *)
Definition date_chars (y m d : string) : list Z :=
  bytes_of y ++ [45] ++ bytes_of m ++ [45] ++ bytes_of d.

Definition time_chars (H M S_ : string) : list Z :=
  [32] ++ bytes_of H ++ [58] ++ bytes_of M ++ [58] ++ bytes_of S_.

Definition fraction_chars (f : string) : list Z := [46] ++ bytes_of f.

(** [s] is made of [k] decimal digits. *)
Definition digits_of (k : nat) (s : string) : Prop :=
  all_digits s = true /\ String.length s = k.

(** A DATETIME(3) column of a text row, and the cell
    [2020-01-02 03:04:05.500]. *)
Definition datetime3_text : Packet.t :=
  Packet.new 0
    ([24; 0; 0; 0]
     ++ text_cell (Some (date_chars "2020" "01" "02" ++ time_chars "03" "04" "05"
                         ++ fraction_chars "500")))
    0 28.

(** A JSON column of a text row, and the cell [{"a":1}]. *)
Definition json_column : ColumnDefinition :=
  mkColumn "doc" "t" Types.JSON 0 0 (VStr "utf8").

Definition json_text : Packet.t :=
  Packet.new 0 ([8; 0; 0; 0] ++ text_cell (Some [123; 34; 97; 34; 58; 49; 125])) 0 12.

(** [n] written in at least [k] decimal digits. *)
Fixpoint zeros (k : nat) : string :=
  match k with
  | O => EmptyString
  | S k' => String "0" (zeros k')
  end.

Definition padded (k : nat) (n : Z) : string :=
  zeros (k - String.length (dec n)) +++ dec n.

(** A TIME value of the binary protocol: the sign, the days in four
    bytes, hours, minutes and seconds, and the microseconds in four
    bytes, which the server leaves out when they are zero. *)
Definition time_bytes (negative : bool) (d H M S_ : Z) (us : option Z) : list Z :=
  [if negative then 1 else 0] ++ NodeBuffer.le_bytes 4 d ++ [H; M; S_]
  ++ match us with
     | Some us => NodeBuffer.le_bytes 4 us
     | None => []
     end.

(** Its text, [-h:mm:ss.uuuuuu], and its milliseconds. *)
Definition time_text (negative : bool) (d H M S_ : Z) (us : option Z) : string :=
  (if negative then "-" else EmptyString)
  +++ (dec (d * 24 + H) +++ ":" +++ padded 2 M +++ ":" +++ padded 2 S_)
  +++ (if default 0 us =? 0 then EmptyString else "." +++ padded 6 (default 0 us)).

Definition time_ms (negative : bool) (d H M S_ : Z) (us : option Z) : Z :=
  (if negative then -1 else 1)
  * ((((d * 24 + H) * 60 + M) * 60 + S_) * 1000 + default 0 us / 1000).

(** Fields that fit their bytes, the days being few enough for the
    milliseconds to be exact. *)
Definition time_fields (d H M S_ : Z) (us : option Z) : Prop :=
  0 <= d < 65536 /\ 0 <= H <= 255 /\ 0 <= M <= 255 /\ 0 <= S_ <= 255
  /\ 0 <= default 0 us < 2 ^ 32.

(** The TIME cell -34 days 22:59:59.000500, and the empty one. *)
Definition time_cell : Packet.t :=
  Packet.new 0
    ([13; 0; 0; 0; 12] ++ time_bytes true 34 22 59 59 (Some 500)) 0 17.

Definition empty_time_cell : Packet.t := Packet.new 0 [1; 0; 0; 0; 0] 0 5.


(** The row that [new TextRow] or [new BinaryRow] is when the columns
    were given [values]: the object with the values at the places of
    their columns; with [rowsAsArray] the array of the values; and with
    [rowsAsArray] and [nestTables] at once an array with nothing in it,
    the values having gone to the object that is dropped. *)
Definition row_of (options : BinaryParser.options) (fields : list ColumnDefinition)
    (values : list value) : BinaryParser.row :=
  if BinaryParser.rowsAsArray options then
    match BinaryParser.nestTables options with
    | BinaryParser.Flat =>
        BinaryParser.RowArray (List.length fields) (imap (fun i v => (i, v)) values)
    | _ => BinaryParser.RowArray (List.length fields) []
    end
  else BinaryParser.RowObject (zip (places options fields 0) values).

(** Options with [rowsAsArray], and with [nestTables] as well. *)
Definition as_array : BinaryParser.options :=
  BinaryParser.mkOptions true BinaryParser.Flat false false
    BinaryParser.Unset BinaryParser.Unset.

Definition as_array_nested : BinaryParser.options :=
  BinaryParser.mkOptions true BinaryParser.NestTables false false
    BinaryParser.Unset BinaryParser.Unset.

(* ===================================================================== *)
(** * Properties                                                          *)
(* ===================================================================== *)

(** ** The 64-bit readers *)

Lemma invoke_string_toNumber (s : string) :
  invoke (VStr s) "toNumber" = Throw (TypeError "toNumber is not a function").
Proof. reflexivity. Qed.

Lemma ifPossible_throws (r : Result long) (v : value) :
  (do l <- r;
   do long <- invoke (VLong l) "toString";
   do resNumber <- invoke long "toNumber";
   do resString <- invoke long "toString";
   PacketParser.number_if_printed_alike resNumber resString) <> Ok v.
Proof. destruct r as [l|e]; cbn; discriminate. Qed.

(** C1. The two default 64-bit readers do not return on any input: the
    value they call [toNumber] on is already the decimal string, which
    has no such method.  On the eight bytes of the integer 1 both throw
    a TypeError; on every buffer and offset neither yields a value. *)
Theorem C1_ifPossible_readers_never_return :
  PacketParser.uint64NumberIfPossible [1; 0; 0; 0; 0; 0; 0; 0] None
    = Throw (TypeError "toNumber is not a function")
  /\ PacketParser.int64NumberIfPossible [1; 0; 0; 0; 0; 0; 0; 0] None
    = Throw (TypeError "toNumber is not a function")
  /\ (forall buffer offset v,
        PacketParser.uint64NumberIfPossible buffer offset <> Ok v)
  /\ (forall buffer offset v,
        PacketParser.int64NumberIfPossible buffer offset <> Ok v).
Proof.
  repeat split; try reflexivity; intros buffer offset v.
  - apply ifPossible_throws.
  - apply ifPossible_throws.
Qed.

(** ** Binary dates *)

(** C7. On the seven bytes of 2020-01-02 03:04:05 the two decoders
    disagree on the day: [dateTime] builds its date from the byte at +3,
    [dateTimeString] renders the byte at +4, which is the hour. *)
Theorem C7_dateTimeString_reads_day_at_4 :
  let buffer := [228; 7; 1; 2; 3; 4; 5] in
  PacketParser.dateTime buffer None None
    = Ok (VDate (mkDate (Fin 2020) (Fin 0) (Fin 2) (Fin 3) (Fin 4) (Fin 5) 0))
  /\ PacketParser.dateTimeString buffer None None None
    = Ok (VStr "2020-01-03 03:04:05").
Proof. split; reflexivity. Qed.

(** ** Integers in ASCII *)

(** C4. Inside a larger buffer [intAscii] cuts its string results at
    index [length] instead of [offset + length].  The sixteen digits
    9007199254740993 at offset 2 come back as the number 90071992547409,
    and the seventeen digits 90071992547409921 as a string of fifteen;
    at offset 0 the same digits give the strings the rule asks for. *)
Theorem C4_intAscii_at_nonzero_offset :
  PacketParser.intAscii (bytes_of "xx9007199254740993") (Some 2) (Some 16)
    = Ok (VNum (Fin 90071992547409))
  /\ PacketParser.intAscii (bytes_of "xx90071992547409921") (Some 2) (Some 17)
    = Ok (VStr "900719925474099")
  /\ PacketParser.intAscii (bytes_of "9007199254740993") (Some 0) (Some 16)
    = Ok (VStr "9007199254740993")
  /\ PacketParser.intAscii (bytes_of "90071992547409921") (Some 0) (Some 17)
    = Ok (VStr "90071992547409921").
Proof. repeat split; vm_compute; reflexivity. Qed.

(** ** Cast fields *)

Section CastFieldProperties.

Variable decode : NodeBuffer.t -> value -> string.

Lemma or_else_null (v : value) : or_else VNull v = v.
Proof. reflexivity. Qed.

(** C9, as the code has it.  Over a null or undefined cell the thunk
    [defaultRead] returns null and the forced encoding is null; the
    [encoding] property then falls back to the encoding of the column. *)
Theorem C9_null_cell (isBinary : bool) (column : ColumnDefinition)
    (encoding : value) (defaultCast : option (NodeBuffer.t -> Result value)) :
  let over cell :=
    CastField.constructor decode isBinary column encoding defaultCast cell in
  (CastField.defaultRead (over CastField.Null) = Ok VNull
   /\ CastField.forceEncoding (over CastField.Null) = VNull
   /\ CastField.encoding (over CastField.Null) = col_encoding column)
  /\ (CastField.defaultRead (over CastField.Undefined) = Ok VNull
      /\ CastField.forceEncoding (over CastField.Undefined) = VNull
      /\ CastField.encoding (over CastField.Undefined) = col_encoding column).
Proof. cbn. repeat split. Qed.

End CastFieldProperties.

(** C9 fails as stated: over a null cell of a utf8 column the
    [encoding] property is ["utf8"], not null. *)
Lemma C9_encoding_not_null :
  CastField.encoding
    (CastField.constructor (fun _ _ => EmptyString) false
       (mkColumn "c" "t" (Types.OTHER 253) 0 0 (VStr "utf8"))
       (VStr "utf8") None CastField.Null)
  <> VNull.
Proof. cbn. discriminate. Qed.

(** ** Reasoning about packet methods *)

Lemma mbind_Ok {A B} (m : Packet.M A) (k : A -> Packet.M B) p b p' :
  Packet.mbind m k p = Ok (b, p') ->
  exists a p1, m p = Ok (a, p1) /\ k a p1 = Ok (b, p').
Proof.
  unfold Packet.mbind. destruct (m p) as [[a p1]|e]; [|discriminate].
  intros H. exists a, p1. split; [reflexivity|exact H].
Qed.

Lemma ret_Ok {A} (a b : A) p p' :
  Packet.ret a p = Ok (b, p') -> a = b /\ p = p'.
Proof. unfold Packet.ret. intros H. injection H as -> ->. split; reflexivity. Qed.

Lemma yields_bind {A B} (m : Packet.M A) (k : A -> Packet.M B) Q :
  (forall a, yields (k a) Q) -> yields (Packet.mbind m k) Q.
Proof.
  intros Hk p b p' H. apply mbind_Ok in H as (a & p1 & _ & H).
  exact (Hk a p1 b p' H).
Qed.

Lemma yields_bind_with {A B} (m : Packet.M A) (k : A -> Packet.M B) P Q :
  yields m P -> (forall a, P a -> yields (k a) Q) -> yields (Packet.mbind m k) Q.
Proof.
  intros Hm Hk p b p' H. apply mbind_Ok in H as (a & p1 & Ha & H).
  exact (Hk a (Hm _ _ _ Ha) p1 b p' H).
Qed.

Lemma yields_ret {A} (a : A) (Q : A -> Prop) : Q a -> yields (Packet.ret a) Q.
Proof. intros Ha p b p' H. apply ret_Ok in H as [<- _]. exact Ha. Qed.

Lemma yields_if {A} (c : bool) (m1 m2 : Packet.M A) Q :
  yields m1 Q -> yields m2 Q -> yields (if c then m1 else m2) Q.
Proof. destruct c; auto. Qed.

(** ** The digit-count branches of [parseInt] *)

(** A number above 16 is at least 15, whatever it is. *)
Lemma gt_16_ge_15 (x : number) : gt x (Fin 16) = true -> ge x (Fin 15) = true.
Proof.
  destruct x as [|s|z]; cbn; try discriminate.
  - destruct s; cbn; congruence.
  - intros H. apply Z.ltb_lt in H. apply negb_true_iff, Z.ltb_ge. lia.
Qed.

Ltac step_yields :=
  first
    [ apply yields_ret; cbn; try discriminate
    | apply yields_if
    | apply yields_bind; intros ? ].

Section ParseIntBranches.

Variable decode : NodeBuffer.t -> value -> string.

Lemma parseInt_not_gt16 (len : value) (supportBigNumbers : bool) :
  yields (Packet.parseInt decode len supportBigNumbers) not_gt16.
Proof.
  unfold Packet.parseInt.
  destruct len; try (apply yields_ret; cbn; discriminate).
  all: apply yields_bind; intros ?; apply yields_if; [repeat step_yields|].
  all: do 3 (apply yields_bind; intros ?).
  all: apply yields_if; [repeat step_yields|].
  all: do 3 (apply yields_bind; intros ?).
  all: apply yields_bind_with with
         (P := fun early => forall r, early = Some r -> not_gt16 r).
  all: try (intros [r|] Hr; [apply yields_ret; auto | repeat step_yields;
        destruct supportBigNumbers; cbn; repeat step_yields]).
  all: destruct supportBigNumbers; [|apply yields_ret; discriminate].
  all: match goal with |- context [ge ?nd (Fin 15)] =>
         destruct (ge nd (Fin 15)) eqn:Hge;
         [| destruct (gt nd (Fin 16)) eqn:Hgt;
            [apply gt_16_ge_15 in Hgt; congruence | apply yields_ret; discriminate]]
       end.
  all: repeat (apply yields_bind; intros ?).
  all: apply yields_if; apply yields_ret; intros r [= <-]; cbn; discriminate.
Qed.

(** C10. No run of [parseInt] returns from inside [if (numDigits > 16)]:
    with big-number support the test [numDigits >= 15] comes first and its
    branch always returns or throws, and a number that fails it is not
    above 16.  The same holds for [parseLengthCodedInt], which only calls
    [parseInt]. *)
Theorem C10_gt16_branch_unreachable (len : value) (supportBigNumbers : bool)
    (p p' : Packet.t) (v : value) :
  Packet.parseInt decode len supportBigNumbers p
    <> Ok ((v, Packet.ExitDigitsGt16), p')
  /\ Packet.parseLengthCodedInt decode supportBigNumbers p
    <> Ok ((v, Packet.ExitDigitsGt16), p').
Proof.
  split; intros H.
  - apply parseInt_not_gt16 in H. apply H. reflexivity.
  - unfold Packet.parseLengthCodedInt in H.
    apply mbind_Ok in H as (a & p1 & _ & H).
    apply parseInt_not_gt16 in H. apply H. reflexivity.
Qed.

End ParseIntBranches.

(** ** Stepping the readers *)

Lemma mbind_eq {A B} (m : Packet.M A) (k : A -> Packet.M B) p a p1 :
  m p = Ok (a, p1) -> Packet.mbind m k p = k a p1.
Proof. unfold Packet.mbind. intros ->. reflexivity. Qed.

Lemma with_offset_same p o o' : o = o' -> Packet.with_offset p o = Packet.with_offset p o'.
Proof. intros ->. reflexivity. Qed.

Lemma with_offset_twice p o o' :
  Packet.with_offset (Packet.with_offset p o) o' = Packet.with_offset p o'.
Proof. reflexivity. Qed.

(** Normalises the packet a run of steps has reached. *)
Ltac packet_simpl :=
  unfold Packet.peekByte;
  rewrite ?with_offset_twice;
  cbn [Packet.offset Packet.with_offset Packet.with_buffer Packet.buffer
       Packet.start Packet.end_ Packet.sequenceId Packet.numPackets].

Lemma length_nonneg (b : NodeBuffer.t) : 0 <= NodeBuffer.length b.
Proof. unfold NodeBuffer.length. lia. Qed.

Lemma slice_range (b : NodeBuffer.t) (from to : Z) :
  0 <= from <= to -> to <= NodeBuffer.length b ->
  NodeBuffer.slice b from to = range b from to.
Proof.
  intros H1 H2. unfold NodeBuffer.slice, NodeBuffer.clamp_index, range.
  destruct (Z.ltb_spec from 0), (Z.ltb_spec to 0); try lia.
  rewrite !Z.min_l by lia. reflexivity.
Qed.

Lemma bytes_at_range (b : NodeBuffer.t) (offset : Z) (n : nat) :
  0 <= offset -> offset + Z.of_nat n <= NodeBuffer.length b ->
  NodeBuffer.bytes_at b offset n = Ok (range b offset (offset + Z.of_nat n)).
Proof.
  intros H1 H2. unfold NodeBuffer.bytes_at, range.
  destruct (Z.leb_spec 0 offset), (Z.leb_spec (offset + Z.of_nat n) (NodeBuffer.length b));
    try lia.
  cbn. do 3 f_equal. lia.
Qed.

Lemma readInt8_step (p : Packet.t) :
  Packet.readInt8 p
  = Ok (NodeBuffer.get (Packet.buffer p) (Packet.offset p),
        Packet.with_offset p (Packet.offset p + 1)).
Proof. reflexivity. Qed.

Lemma readInt16_step (p : Packet.t) :
  0 <= Packet.offset p ->
  Packet.offset p + 2 <= NodeBuffer.length (Packet.buffer p) ->
  Packet.readInt16 p
  = Ok (NodeBuffer.le_value (range (Packet.buffer p) (Packet.offset p) (Packet.offset p + 2)),
        Packet.with_offset p (Packet.offset p + 2)).
Proof.
  intros H1 H2. unfold Packet.readInt16, Packet.mbind, Packet.lift, NodeBuffer.readUInt16LE.
  cbn. rewrite bytes_at_range by (cbn; lia). cbn.
  replace (Packet.offset p + 2 - 2) with (Packet.offset p) by lia.
  reflexivity.
Qed.

Lemma readBuffer_step (p : Packet.t) (len : Z) :
  Packet.readBuffer (VNum (Fin len)) p
  = Ok (NodeBuffer.slice (Packet.buffer p) (Packet.offset p) (Packet.offset p + len),
        Packet.with_offset p (Packet.offset p + len)).
Proof.
  unfold Packet.readBuffer. cbn.
  replace (Packet.offset p + len - len) with (Packet.offset p) by lia.
  reflexivity.
Qed.

Section ErrorFrames.

Variable decode : NodeBuffer.t -> value -> string.
Variable utf8 : NodeBuffer.t -> string.
Variable ErrorCodeToName : gmap Z string.

Lemma readString_rest_step (p : Packet.t) (encoding : value) :
  Packet.readString decode VUndefined encoding p
  = Ok (decode (NodeBuffer.slice (Packet.buffer p) (Packet.offset p) (Packet.end_ p)) encoding,
        Packet.with_offset p (Packet.end_ p)).
Proof.
  unfold Packet.readString. cbn.
  replace (Packet.offset p + (Packet.end_ p - Packet.offset p)) with (Packet.end_ p) by lia.
  replace (Packet.end_ p - (Packet.end_ p - Packet.offset p)) with (Packet.offset p) by lia.
  reflexivity.
Qed.

(** C6, as the code has it.  On a frame whose window holds the field
    count, the error number and, behind a [#], the five bytes of the SQL
    state, [asError] returns: the error number read little-endian from
    the two bytes after the first; the SQL state decoded from the five
    bytes after the marker, or the empty string without one; the rest
    of the window, decoded under [encoding], as [message] and
    [sqlMessage]; and as [code] the entry of the error table, which is
    [undefined] when the table has none. *)
Theorem C6_asError (encoding : value) (p : Packet.t) :
  let b := Packet.buffer p in
  let s := Packet.start p in
  let marker :=
    match NodeBuffer.get b (s + 7) with Some c => c =? 35 | None => false end in
  0 <= s ->
  s + 7 <= Packet.end_ p <= NodeBuffer.length b ->
  (marker = true -> s + 13 <= Packet.end_ p) ->
  exists e,
    Packet.asError decode utf8 ErrorCodeToName encoding p
      = Ok (e, Packet.with_offset p (Packet.end_ p))
    /\ Packet.errno e = NodeBuffer.le_value (range b (s + 5) (s + 7))
    /\ Packet.code e =
         match ErrorCodeToName !! Packet.errno e with
         | Some name => VStr name
         | None => VUndefined
         end
    /\ Packet.sqlState e =
         (if marker then utf8 (range b (s + 8) (s + 13)) else EmptyString)
    /\ Packet.message e =
         decode (range b (if marker then s + 13 else s + 7) (Packet.end_ p)) encoding
    /\ Packet.sqlMessage e = Packet.message e.
Proof.
  intros b s marker Hs Hend Hmark.
  unfold Packet.asError.
  erewrite mbind_eq; [|reflexivity].
  erewrite mbind_eq; [|apply readInt8_step].
  erewrite mbind_eq; [|apply readInt16_step; cbn; fold s b; lia].
  erewrite mbind_eq; [|reflexivity].
  unfold Packet.equals. packet_simpl. fold b s.
  replace (s + 4 + 1) with (s + 5) by lia.
  replace (s + 5 + 2) with (s + 7) by lia.
  fold marker.
  destruct marker eqn:Hm.
  - specialize (Hmark eq_refl). cbv beta iota.
    erewrite mbind_eq;
      [|erewrite mbind_eq; [|reflexivity];
        erewrite mbind_eq; [|apply readBuffer_step]; reflexivity].
    erewrite mbind_eq; [|apply readString_rest_step].
    packet_simpl. fold b.
    replace (s + 7 + 1) with (s + 8) by lia.
    replace (s + 8 + 5) with (s + 13) by lia.
    rewrite !slice_range by lia.
    eexists. split; [reflexivity|]. cbn. repeat split; reflexivity.
  - cbv beta iota.
    erewrite mbind_eq; [|reflexivity].
    erewrite mbind_eq; [|apply readString_rest_step].
    packet_simpl. fold b.
    rewrite !slice_range by lia.
    eexists. split; [reflexivity|]. cbn. repeat split; reflexivity.
Qed.

End ErrorFrames.

(** The frame of scenario S7 decodes as the theorem says. *)
Lemma C6_asError_on_S7 :
  exists e,
    Packet.asError latin1 NodeBuffer.latin1_chars error_table (VStr "utf8") error_frame
      = Ok (e, Packet.with_offset error_frame 16)
    /\ Packet.errno e = 1096
    /\ Packet.code e = VStr "ER_NO_TABLES_USED"
    /\ Packet.sqlState e = "28000"%string
    /\ Packet.message e = "Bad"%string
    /\ Packet.sqlMessage e = "Bad"%string.
Proof.
  destruct (C6_asError latin1 NodeBuffer.latin1_chars error_table (VStr "utf8") error_frame)
    as (e & Hrun & Herrno & Hcode & Hstate & Hmsg & Hsql).
  - vm_compute. discriminate.
  - vm_compute. split; discriminate.
  - intros _. vm_compute. discriminate.
  - exists e. split; [exact Hrun|].
    rewrite Hsql, Hmsg, Hstate, Hcode, Herrno. vm_compute. repeat split.
Defined.

(** C6 fails as stated: for an error number the table does not know,
    [code] is [undefined], not the number. *)
Lemma C6_unknown_errno_code_undefined :
  exists e p',
    Packet.asError latin1 NodeBuffer.latin1_chars error_table (VStr "utf8")
      unknown_error_frame = Ok (e, p')
    /\ Packet.errno e = 65535
    /\ error_table !! 65535 = None
    /\ Packet.code e = VUndefined
    /\ Packet.code e <> VNum (Fin (Packet.errno e)).
Proof.
  eexists; eexists. split; [vm_compute; reflexivity|].
  cbn. repeat split. discriminate.
Qed.

(** ** The null bitmap of binary rows *)

Lemma land_pow2_testbit (byte : Z) (j : Z) :
  0 <= j -> negb (Z.land byte (2 ^ j) =? 0) = Z.testbit byte j.
Proof.
  intros Hj. destruct (Z.testbit byte j) eqn:Hb.
  - apply negb_true_iff, Z.eqb_neq. intros H0.
    assert (Z.testbit (Z.land byte (2 ^ j)) j = true) as Ht.
    { rewrite Z.land_spec, Hb, Z.pow2_bits_true by lia. reflexivity. }
    rewrite H0, Z.bits_0 in Ht. discriminate.
  - apply negb_false_iff, Z.eqb_eq. apply Z.bits_inj'. intros m Hm.
    rewrite Z.land_spec, Z.bits_0.
    destruct (Z.eq_dec j m) as [<-|Hne].
    + rewrite Hb. reflexivity.
    + rewrite Z.pow2_bits_false by lia. apply andb_false_r.
Qed.

Lemma isNull_null_bit (bitmap : list (option Z)) (k : nat) :
  BinaryParser.isNull bitmap ((k + 2) / 8)%nat (2 ^ Z.of_nat ((k + 2) mod 8))
  = null_bit bitmap k.
Proof.
  unfold BinaryParser.isNull, null_bit.
  destruct (bitmap !! ((k + 2) / 8)%nat) as [[byte|]|]; try reflexivity.
  rewrite land_pow2_testbit by lia. reflexivity.
Qed.

(** The two counters of the loop after a column: the bit doubles and
    wraps from 128 to 1, stepping to the next byte. *)
Lemma next_null_bit (k : nat) :
  (if 2 ^ Z.of_nat ((k + 2) mod 8) * 2 =? 256
   then (1, S ((k + 2) / 8))
   else (2 ^ Z.of_nat ((k + 2) mod 8) * 2, ((k + 2) / 8)%nat))
  = (2 ^ Z.of_nat ((S k + 2) mod 8), ((S k + 2) / 8)%nat).
Proof.
  assert (Hk : (S k + 2 = (k + 2) + 1)%nat) by lia. rewrite Hk.
  pose proof (Nat.div_mod_eq (k + 2) 8) as Hd.
  pose proof (Nat.mod_upper_bound (k + 2) 8 ltac:(lia)) as Hm.
  set (q := ((k + 2) / 8)%nat) in *. set (r := ((k + 2) mod 8)%nat) in *.
  clearbody q r.
  destruct (Nat.eq_dec r 7%nat) as [Hr|Hr].
  - rewrite Hr. cbn [Z.of_nat]. change (2 ^ Z.pos 7 * 2 =? 256) with true. cbv iota.
    assert (((k + 2 + 1) mod 8 = 0)%nat) as ->.
    { replace (k + 2 + 1)%nat with (0 + (q + 1) * 8)%nat by lia.
      rewrite Nat.Div0.mod_add. reflexivity. }
    assert (((k + 2 + 1) / 8 = S q)%nat) as ->.
    { replace (k + 2 + 1)%nat with (0 + (q + 1) * 8)%nat by lia.
      rewrite Nat.div_add by lia. cbn. lia. }
    reflexivity.
  - assert (((k + 2 + 1) mod 8 = r + 1)%nat) as ->.
    { replace (k + 2 + 1)%nat with ((r + 1) + q * 8)%nat by lia.
      rewrite Nat.Div0.mod_add. apply Nat.mod_small. lia. }
    assert (((k + 2 + 1) / 8 = q)%nat) as ->.
    { replace (k + 2 + 1)%nat with ((r + 1) + q * 8)%nat by lia.
      rewrite Nat.div_add by lia. rewrite Nat.div_small by lia. lia. }
    assert (2 ^ Z.of_nat r * 2 = 2 ^ Z.of_nat (r + 1)) as ->.
    { rewrite Nat2Z.inj_add, Z.pow_add_r by lia. reflexivity. }
    assert ((2 ^ Z.of_nat (r + 1) =? 256) = false) as ->; [|reflexivity].
    apply Z.eqb_neq. intros H.
    assert (Hcases : (r = 0 \/ r = 1 \/ r = 2 \/ r = 3 \/ r = 4 \/ r = 5 \/ r = 6)%nat)
      by (clear - Hm Hr; lia).
    clear - H Hcases.
    destruct Hcases as [->|[->|[->|[->|[->|[->| ->]]]]]]; cbn in H; lia.
Qed.

Lemma mbind_ext {A B} (m : Packet.M A) (k1 k2 : A -> Packet.M B) p :
  (forall a p1, k1 a p1 = k2 a p1) -> Packet.mbind m k1 p = Packet.mbind m k2 p.
Proof. intros H. unfold Packet.mbind. destruct (m p) as [[a p1]|e]; auto. Qed.

Lemma mbind_cong {A B} (m1 m2 : Packet.M A) (k : A -> Packet.M B) p :
  m1 p = m2 p -> Packet.mbind m1 k p = Packet.mbind m2 k p.
Proof. intros H. unfold Packet.mbind. rewrite H. reflexivity. Qed.

Lemma readBitmap_step (n : nat) (p : Packet.t) :
  BinaryParser.readBitmap n p
  = Ok (map (fun j => NodeBuffer.get (Packet.buffer p) (Packet.offset p + Z.of_nat j))
          (seq 0 n),
        Packet.with_offset p (Packet.offset p + Z.of_nat n)).
Proof.
  revert p. induction n as [|n IH]; intros p.
  - cbn. unfold Packet.ret. rewrite Z.add_0_r. destruct p; reflexivity.
  - cbn [BinaryParser.readBitmap].
    erewrite mbind_eq; [|apply readInt8_step].
    erewrite mbind_eq; [|apply IH].
    unfold Packet.ret. packet_simpl. f_equal. f_equal.
    + cbn [seq map]. f_equal; [f_equal; lia|].
      rewrite <- seq_shift, map_map. apply map_ext. intros j. f_equal. lia.
    + apply with_offset_same. lia.
Qed.

Lemma places_cons (options : BinaryParser.options) (field : ColumnDefinition)
    (fields : list ColumnDefinition) (i : nat) :
  places options (field :: fields) i
  = BinaryParser.lvalue_of options field i :: places options fields (S i).
Proof.
  unfold places. rewrite imap_cons. f_equal.
  - f_equal. lia.
  - apply imap_ext. intros j f _. cbn. f_equal. lia.
Qed.

(** Takes a completion apart, along the binds and tests it is made of. *)
Ltac split_completion :=
  repeat match goal with
    | H : Ok _ = Ok _ |- _ => injection H as H; subst
    | H : Throw _ = Ok _ |- _ => discriminate H
    | H : context [JS.bind ?m _] |- _ =>
        let r := fresh "r" in destruct m as [r|]; cbn [JS.bind] in H
    | H : context [if ?c then _ else _] |- _ => destruct c
    | H : context [match ?x with _ => _ end] |- _ => destruct x
    end.

Lemma invoke_long_not_null (l : long) (method : string) (v : value) :
  invoke (VLong l) method = Ok v -> v <> VNull.
Proof.
  unfold invoke. intros H. split_completion; discriminate.
Qed.

Lemma dateTimeString_not_null (b : NodeBuffer.t) (offset length decimals : option Z)
    (v : value) :
  PacketParser.dateTimeString b offset length decimals = Ok v -> v <> VNull.
Proof.
  unfold PacketParser.dateTimeString. destruct (PacketParser.arguments _ _ _) as [o l].
  intros H. split_completion; discriminate.
Qed.

Lemma dateTime_not_null (b : NodeBuffer.t) (offset length : option Z) (v : value) :
  PacketParser.dateTime b offset length = Ok v -> v <> VNull.
Proof.
  unfold PacketParser.dateTime. destruct (PacketParser.arguments _ _ _) as [o l].
  intros H.
  destruct (if 3 <? l then _ else _) as [[[[[[[y m] d] hh] mm] ss] us]|];
    cbn [JS.bind] in H; [|discriminate].
  destruct (_ || _); injection H as <-; discriminate.
Qed.

Lemma number_not_null (r : Result Z) (v : value) :
  BinaryParser.number r = Ok v -> v <> VNull.
Proof. unfold BinaryParser.number. destruct r; cbn; intros [= <-]; discriminate. Qed.

Lemma long_method_not_null (r : Result long) (method : string) (v : value) :
  (do l <- r; invoke (VLong l) method) = Ok v -> v <> VNull.
Proof.
  destruct r as [l|]; cbn [JS.bind]; [apply invoke_long_not_null|discriminate].
Qed.

Lemma decoder_not_null (c : BinaryParser.cast_code) (b : NodeBuffer.t) (v : value) :
  plain_decoder c = true -> BinaryParser.decoder c b = Ok v -> v <> VNull.
Proof.
  intros Hc H. destruct c; try discriminate Hc; cbn [BinaryParser.decoder] in H.
  - injection H as <-. destruct (PacketParser.uint8 b None); discriminate.
  - apply number_not_null in H. exact H.
  - apply number_not_null in H. exact H.
  - apply number_not_null in H. exact H.
  - apply number_not_null in H. exact H.
  - apply number_not_null in H. exact H.
  - unfold PacketParser.float32, NodeBuffer.readFloatLE in H.
    destruct (NodeBuffer.bytes_at _ _ _); cbn [JS.bind] in H; [|discriminate].
    injection H as <-. discriminate.
  - unfold PacketParser.float64, NodeBuffer.readDoubleLE in H.
    destruct (NodeBuffer.bytes_at _ _ _); cbn [JS.bind] in H; [|discriminate].
    injection H as <-. discriminate.
  - apply dateTimeString_not_null in H. exact H.
  - apply dateTimeString_not_null in H. exact H.
  - apply dateTime_not_null in H. exact H.
  - injection H as <-. discriminate.
  - injection H as <-. discriminate.
  - apply long_method_not_null in H. exact H.
  - unfold PacketParser.int64Number in H.
    destruct (NodeBuffer.readInt32LE b (default 0 None)) as [word0|];
      cbn [JS.bind] in H; [|discriminate].
    destruct (NodeBuffer.readInt32LE b (4 + default 0 None)) as [word1|];
      cbn [JS.bind] in H; [|discriminate].
    destruct (Z.land word1 2147483648 =? 0).
    + injection H as <-. discriminate.
    + apply invoke_long_not_null in H. exact H.
  - apply long_method_not_null in H. exact H.
  - apply long_method_not_null in H. exact H.
  - destruct (ifPossible_throws _ _ H).
  - destruct (ifPossible_throws _ _ H).
Qed.

Section BinaryRows.

Variable decode : NodeBuffer.t -> value -> string.
Variable UNSIGNED : Z.
Variables (options : BinaryParser.options) (config : BinaryParser.config).

Lemma call_not_null (c : BinaryParser.cast_code) (arg : CastField.cell) (v : value) :
  plain_decoder c = true -> BinaryParser.call c arg = Ok v -> v <> VNull.
Proof.
  intros Hc H. destruct arg as [| |b]; [| |exact (decoder_not_null c b v Hc H)];
    (destruct c; try discriminate Hc; try discriminate H;
     cbn [BinaryParser.call] in H; destruct (3 <? decimals); [discriminate|];
     injection H as <-; discriminate).
Qed.

(** Without a cast callback, a column whose bit is clear and whose
    type is not NULL, JSON or GEOMETRY is not assigned [null]. *)
Lemma cell_not_null (runtime : list ColumnDefinition) (field : ColumnDefinition)
    (k : nat) (q q' : Packet.t) (v : value) :
  BinaryParser.cast_of options config = None ->
  null_by_bitmap_only (col_columnType field) = true ->
  BinaryParser.cell decode options config runtime k
    (BinaryParser.readCodeFor UNSIGNED field k options config) false q = Ok (v, q') ->
  v <> VNull.
Proof.
  intros Hcast Htype. unfold BinaryParser.cell. rewrite Hcast.
  assert (Hcall : forall c code,
            plain_decoder c = true ->
            Packet.mbind (BinaryParser.read code)
              (fun arg => Packet.lift (BinaryParser.call c arg)) q = Ok (v, q') ->
            v <> VNull).
  { intros c code Hc H. apply mbind_Ok in H as (arg & q1 & _ & H).
    unfold Packet.lift in H.
    destruct (BinaryParser.call c arg) as [w|] eqn:Hw; [|discriminate].
    injection H as <- <-. exact (call_not_null c arg w Hc Hw). }
  assert (Hdecode : forall code encoding,
            Packet.mbind (BinaryParser.read code)
              (fun arg =>
                 Packet.mbind (Packet.lift (BinaryParser.encoding_of runtime encoding))
                   (fun encoding =>
                      match arg with
                      | CastField.Bytes b => Packet.ret (VStr (decode b encoding))
                      | _ => Packet.throw (OutsideModel "decode(null)")
                      end)) q = Ok (v, q') ->
            v <> VNull).
  { intros code encoding H. apply mbind_Ok in H as (arg & q1 & _ & H).
    apply mbind_Ok in H as (enc & q2 & _ & H).
    destruct arg; try discriminate H. injection H as <- <-. discriminate. }
  unfold BinaryParser.readCodeFor.
  destruct (col_columnType field); try discriminate Htype;
    cbn [BinaryParser.defaultCast BinaryParser.encoding BinaryParser.buffer];
    repeat match goal with
      | |- context [if ?b then _ else _] => destruct b
      end;
    first [apply Hdecode | apply Hcall; reflexivity].
Qed.

Lemma columns_by_position (runtime : list ColumnDefinition) (bitmap : list (option Z))
    (fields : list ColumnDefinition) (k : nat) (p : Packet.t) :
  BinaryParser.columns decode UNSIGNED options config runtime bitmap fields k
    (2 ^ Z.of_nat ((k + 2) mod 8)) ((k + 2) / 8)%nat p
  = columns_by_bit decode UNSIGNED options config runtime bitmap fields k p.
Proof.
  revert k p. induction fields as [|field rest IH]; intros k p; [reflexivity|].
  cbn [BinaryParser.columns columns_by_bit].
  rewrite isNull_null_bit.
  apply mbind_ext. intros null p1.
  apply mbind_ext. intros v p2.
  rewrite next_null_bit.
  apply mbind_cong, IH.
Qed.

Lemma bitmap_covers_columns (n k : nat) :
  (k < n)%nat -> ((k + 2) / 8 < Z.to_nat ((Z.of_nat n + 7 + 2) / 8))%nat.
Proof.
  intros Hk.
  assert (Z.of_nat ((k + 2) / 8) < (Z.of_nat n + 7 + 2) / 8); [|lia].
  rewrite Nat2Z.inj_div. apply Z.div_lt_upper_bound; [lia|].
  pose proof (Z.mul_div_le (Z.of_nat (k + 2)) 8 ltac:(lia)).
  pose proof (Z.mod_pos_bound (Z.of_nat n + 7 + 2) 8 ltac:(lia)).
  pose proof (Z.div_mod (Z.of_nat n + 7 + 2) 8 ltac:(lia)).
  lia.
Qed.

(** What a row read column by column has assigned, without a cast
    callback: the places of the columns, in order; [null] where the bit
    is set; and, for the types other than NULL, JSON and GEOMETRY,
    nowhere else. *)
Lemma columns_by_bit_assigned (runtime : list ColumnDefinition)
    (bitmap : list (option Z)) (fields : list ColumnDefinition) (k : nat)
    (p p' : Packet.t) (assigned : list (BinaryParser.lvalue * value)) :
  BinaryParser.cast_of options config = None ->
  columns_by_bit decode UNSIGNED options config runtime bitmap fields k p
  = Ok (assigned, p') ->
  map fst assigned = places options fields k
  /\ forall j field v,
       fields !! j = Some field -> map snd assigned !! j = Some v ->
       (null_bit bitmap (k + j) = Ok true -> v = VNull)
       /\ (null_by_bitmap_only (col_columnType field) = true ->
           v = VNull -> null_bit bitmap (k + j) = Ok true).
Proof.
  intros Hcast. revert k p assigned.
  induction fields as [|field rest IH]; intros k p assigned H.
  - injection H as <- <-. split; [reflexivity|]. intros j f v Hj. discriminate Hj.
  - cbn [columns_by_bit] in H.
    apply mbind_Ok in H as (null & p1 & Hnull & H).
    apply mbind_Ok in H as (w & p2 & Hcell & H).
    apply mbind_Ok in H as (more & p3 & Hmore & H).
    injection H as <- <-.
    unfold Packet.lift in Hnull.
    destruct (null_bit bitmap k) as [bit|] eqn:Hbit; [|discriminate].
    injection Hnull as <- <-.
    destruct (IH _ _ _ Hmore) as [Hplaces Hrest].
    split; [rewrite places_cons; cbn [map fst]; f_equal; exact Hplaces|].
    intros [|j] f v Hf Hv; cbn in Hf, Hv.
    + injection Hf as <-. injection Hv as <-. rewrite Nat.add_0_r, Hbit.
      split.
      * intros [= ->]. unfold BinaryParser.cell in Hcell. rewrite Hcast in Hcell.
        injection Hcell as <- _. reflexivity.
      * intros Htype ->. destruct bit; [reflexivity|].
        destruct (cell_not_null runtime field k p p2 VNull Hcast Htype Hcell eq_refl).
    + replace (k + S j)%nat with (S k + j)%nat by lia. exact (Hrest j f v Hf Hv).
Qed.

(** C5, as the code has it.  The compiled parser reads the status byte
    and then [(n + 9) / 8] bitmap bytes, rounded down, before any
    column.  From there the row is the one read column by column with
    the null bit of column [k] taken at bit [(k + 2) mod 8] of bitmap
    byte [(k + 2) / 8], a byte the bitmap always has.  Without a cast
    callback a column whose bit is set is assigned [null] and consumes
    nothing; and in the row the parser returns, column [k] is [null]
    when its bit is set and, for the types other than NULL, JSON and
    GEOMETRY, only then. *)
Theorem C5_binary_row (fields runtime : list ColumnDefinition) (p : Packet.t) :
  let n := Z.of_nat (List.length fields) in
  let bitmap :=
    map (fun j => NodeBuffer.get (Packet.buffer p) (Packet.offset p + 1 + Z.of_nat j))
      (seq 0 (Z.to_nat ((n + 9) / 8))) in
  let cells := Packet.with_offset p (Packet.offset p + 1 + (n + 9) / 8) in
  BinaryParser.prologue fields p = Ok (bitmap, cells)
  /\ BinaryParser.BinaryRow decode UNSIGNED options config fields runtime p
     = columns_by_bit decode UNSIGNED options config runtime bitmap fields 0 cells
  /\ (forall k, (k < List.length fields)%nat ->
        exists byte, bitmap !! ((k + 2) / 8)%nat = Some byte
          /\ null_bit bitmap k
             = Ok (match byte with
                   | Some b => Z.testbit b (Z.of_nat ((k + 2) mod 8))
                   | None => false
                   end))
  /\ (BinaryParser.cast_of options config = None ->
      (forall k code q,
         BinaryParser.cell decode options config runtime k code true q = Ok (VNull, q))
      /\ forall assigned p',
           BinaryParser.BinaryRow decode UNSIGNED options config fields runtime p
           = Ok (assigned, p') ->
           BinaryParser.compile decode UNSIGNED options config fields runtime p
           = Ok (BinaryParser.returned options (List.length fields) assigned, p')
           /\ map fst assigned = places options fields 0
           /\ forall k field v,
                fields !! k = Some field -> map snd assigned !! k = Some v ->
                (null_bit bitmap k = Ok true -> v = VNull)
                /\ (null_by_bitmap_only (col_columnType field) = true ->
                    v = VNull -> null_bit bitmap k = Ok true)).
Proof.
  intros n bitmap cells.
  assert (Hpro : BinaryParser.prologue fields p = Ok (bitmap, cells)).
  { unfold BinaryParser.prologue.
    erewrite mbind_eq; [|apply readInt8_step].
    rewrite readBitmap_step. packet_simpl.
    unfold BinaryParser.nullBitmapLength. fold n.
    replace (n + 7 + 2) with (n + 9) by lia.
    unfold cells. f_equal. f_equal.
    apply with_offset_same. pose proof (Z.div_pos (n + 9) 8). lia. }
  assert (Hrow : BinaryParser.BinaryRow decode UNSIGNED options config fields runtime p
                 = columns_by_bit decode UNSIGNED options config runtime bitmap
                     fields 0 cells).
  { unfold BinaryParser.BinaryRow.
    erewrite mbind_eq; [|exact Hpro].
    apply (columns_by_position runtime bitmap fields 0). }
  split; [exact Hpro|]. split; [exact Hrow|]. split.
  - intros k Hk.
    assert (Hlen : ((k + 2) / 8 < List.length bitmap)%nat).
    { unfold bitmap. rewrite length_map, length_seq.
      replace (n + 9) with (n + 7 + 2) by lia.
      apply bitmap_covers_columns, Hk. }
    destruct (lookup_lt_is_Some_2 _ _ Hlen) as [byte Hbyte].
    exists byte. split; [exact Hbyte|].
    unfold null_bit. rewrite Hbyte. destruct byte; reflexivity.
  - intros Hcast. split.
    + intros k code q. unfold BinaryParser.cell. rewrite Hcast. reflexivity.
    + intros assigned p' Hassigned. split.
      * unfold BinaryParser.compile. erewrite mbind_eq; [|exact Hassigned].
        reflexivity.
      * rewrite Hrow in Hassigned.
        exact (columns_by_bit_assigned runtime bitmap fields 0 cells p' assigned
                 Hcast Hassigned).
Qed.

End BinaryRows.

(** The row of scenario S8, through the theorem: one bitmap byte,
    [0x08]; the first column is decoded from the payload, the second is
    null. *)
Lemma C5_binary_row_on_S8 :
  BinaryParser.cast_of plain_options plain_config = None
  /\ BinaryParser.prologue [col0; col1] row_packet
     = Ok ([Some 8], Packet.with_offset row_packet 6)
  /\ BinaryParser.compile latin1 32 plain_options plain_config
       [col0; col1] [col0; col1] row_packet
     = Ok (BinaryParser.RowObject
             [(BinaryParser.This "col0", VNum (Fin 42));
              (BinaryParser.This "col1", VNull)],
           Packet.with_offset row_packet 7)
  /\ null_bit [Some 8] 0 = Ok false
  /\ null_bit [Some 8] 1 = Ok true
  /\ (VNum (Fin 42) = VNull -> null_bit [Some 8] 0 = Ok true)
  /\ BinaryParser.cell latin1 plain_options plain_config [col0; col1] 1%nat
       (BinaryParser.readCodeFor 32 col1 1 plain_options plain_config) true
       (Packet.with_offset row_packet 7)
     = Ok (VNull, Packet.with_offset row_packet 7).
Proof.
  assert (Hcast : BinaryParser.cast_of plain_options plain_config = None)
    by reflexivity.
  assert (Hassigned : BinaryParser.BinaryRow latin1 32 plain_options plain_config
                        [col0; col1] [col0; col1] row_packet
                      = Ok ([(BinaryParser.This "col0", VNum (Fin 42));
                             (BinaryParser.This "col1", VNull)],
                            Packet.with_offset row_packet 7))
    by (vm_compute; reflexivity).
  destruct (C5_binary_row latin1 32 plain_options plain_config
              [col0; col1] [col0; col1] row_packet)
    as (Hpro & Hrow & Hbits & Hrows).
  destruct (Hrows Hcast) as [Hnull Hreturned].
  destruct (Hreturned _ _ Hassigned) as (Hcompile & Hplaces & Hcolumns).
  split; [exact Hcast|].
  split; [exact Hpro|].
  split; [exact Hcompile|].
  split; [reflexivity|]. split; [reflexivity|].
  split; [exact (proj2 (Hcolumns 0%nat col0 (VNum (Fin 42)) eq_refl eq_refl) eq_refl)|].
  apply Hnull.
Defined.

(** C5 fails as stated, in three ways.  With two columns [(n + 9) / 8]
    rounded up is 2, but the parser reads one bitmap byte, so that the
    first cell is the byte right after it.  A column of type NULL, a
    GEOMETRY column with an empty cell and a JSON column with the text
    [null] are assigned [null] though their bits are clear.  And with a
    cast callback a column whose bit is set is assigned what the
    callback returns. *)
Lemma C5_fails_as_stated :
  (ceil_div (2 + 9) 8 = 2
   /\ exists bitmap cells,
        BinaryParser.prologue [col0; col1] row_packet = Ok (bitmap, cells)
        /\ List.length bitmap = 1%nat
        /\ Packet.offset cells = Packet.offset row_packet + 1 + 1
        /\ Packet.offset cells <> Packet.offset row_packet + 1 + ceil_div (2 + 9) 8)
  /\ (BinaryParser.prologue [null_column; shape_column; doc_column] clear_bits_row
      = Ok ([Some 0], Packet.with_offset clear_bits_row 6)
      /\ null_bit [Some 0] 0 = Ok false
      /\ null_bit [Some 0] 1 = Ok false
      /\ null_bit [Some 0] 2 = Ok false
      /\ BinaryParser.compile latin1 32 plain_options plain_config
           [null_column; shape_column; doc_column]
           [null_column; shape_column; doc_column] clear_bits_row
         = Ok (BinaryParser.RowObject
                 [(BinaryParser.This "nothing", VNull);
                  (BinaryParser.This "shape", VNull);
                  (BinaryParser.This "doc", VNull)],
               Packet.with_offset clear_bits_row 12))
  /\ (BinaryParser.prologue [col0; col1] row_packet
      = Ok ([Some 8], Packet.with_offset row_packet 6)
      /\ null_bit [Some 8] 1 = Ok true
      /\ BinaryParser.compile latin1 32 always_x plain_config
           [col0; col1] [col0; col1] row_packet
         = Ok (BinaryParser.RowObject
                 [(BinaryParser.This "col0", VStr "x");
                  (BinaryParser.This "col1", VStr "x")],
               Packet.with_offset row_packet 7)).
Proof.
  split; [|split].
  - split; [reflexivity|].
    eexists; eexists. split; [vm_compute; reflexivity|].
    cbn. repeat split. discriminate.
  - repeat split; vm_compute; reflexivity.
  - repeat split; vm_compute; reflexivity.
Qed.


(** ** Decimal strings *)

Lemma digits_value_uint (d : Decimal.uint) (acc : Z) :
  digits_value (NilEmpty.string_of_uint d) acc = uint_value d acc.
Proof. revert acc. induction d; intros acc; cbn; try apply IHd; reflexivity. Qed.

Lemma all_digits_uint (d : Decimal.uint) :
  all_digits (NilEmpty.string_of_uint d) = true.
Proof. induction d; cbn; auto. Qed.

Lemma of_uint_acc_value (d : Decimal.uint) (acc : positive) :
  Z.pos (Pos.of_uint_acc d acc) = uint_value d (Z.pos acc).
Proof.
  revert acc. induction d; intros acc; cbn [Pos.of_uint_acc uint_value];
    try rewrite IHd; try reflexivity; f_equal; lia.
Qed.

Lemma of_uint_value (d : Decimal.uint) :
  Z.of_N (Pos.of_uint d) = uint_value d 0.
Proof.
  induction d; cbn [Pos.of_uint uint_value]; try exact IHd; try reflexivity;
    cbn [Z.of_N]; rewrite of_uint_acc_value; reflexivity.
Qed.

Lemma NilZero_NilEmpty (d : Decimal.uint) :
  d <> Decimal.Nil -> NilZero.string_of_uint d = NilEmpty.string_of_uint d.
Proof. destruct d; intros H; try reflexivity. congruence. Qed.

Lemma to_uint_nonnil (n : N) : N.to_uint n <> Decimal.Nil.
Proof.
  destruct n as [|p]; cbn; [discriminate|].
  apply DecimalPos.Unsigned.to_uint_nonnil.
Qed.

Lemma dec_all_digits (n : Z) : all_digits (dec n) = true.
Proof.
  unfold dec. rewrite NilZero_NilEmpty by apply to_uint_nonnil.
  apply all_digits_uint.
Qed.

Lemma dec_value (n : Z) : 0 <= n -> digits_value (dec n) 0 = n.
Proof.
  intros Hn. unfold dec. rewrite NilZero_NilEmpty by apply to_uint_nonnil.
  rewrite digits_value_uint, <- of_uint_value.
  change (Pos.of_uint (N.to_uint (Z.to_N n))) with (N.of_uint (N.to_uint (Z.to_N n))).
  rewrite DecimalN.Unsigned.of_to. lia.
Qed.

Lemma is_digit_range (c : ascii) : is_digit c = true -> 0 <= code c - 48 <= 9.
Proof. unfold is_digit. intros H. apply andb_true_iff in H as [H1 H2]. lia. Qed.

Lemma digits_value_bound (s : string) (acc : Z) :
  all_digits s = true -> 0 <= acc ->
  0 <= digits_value s acc < (acc + 1) * 10 ^ Z.of_nat (String.length s).
Proof.
  revert acc. induction s as [|c s IH]; intros acc Hs Hacc.
  - cbn. lia.
  - cbn [all_digits] in Hs. apply andb_true_iff in Hs as [Hc Hs].
    apply is_digit_range in Hc.
    cbn [digits_value String.length]. specialize (IH (10 * acc + (code c - 48)) Hs).
    rewrite Nat2Z.inj_succ, Z.pow_succ_r by lia.
    assert (0 < 10 ^ Z.of_nat (String.length s)) by (apply Z.pow_pos_nonneg; lia).
    nia.
Qed.

(** A number of at least eight digits prints with at least eight
    characters. *)
Lemma dec_length (n : Z) : 10 ^ 7 <= n -> (8 <= String.length (dec n))%nat.
Proof.
  intros Hn.
  pose proof (digits_value_bound (dec n) 0 (dec_all_digits n) ltac:(lia)) as Hb.
  rewrite dec_value in Hb by lia.
  destruct (Nat.le_gt_cases 8 (String.length (dec n))) as [H|H]; [exact H|].
  assert (10 ^ Z.of_nat (String.length (dec n)) <= 10 ^ 7)
    by (apply Z.pow_le_mono_r; lia).
  lia.
Qed.

(** ** Exact doubles *)

Lemma round53_small (m : Z) : 0 <= m <= 2 ^ 53 -> round53 m = m.
Proof.
  intros Hm. unfold round53.
  destruct (Z.ltb_spec (Z.log2 m) 53) as [H|H]; [reflexivity|].
  assert (m = 2 ^ 53) as ->; [|reflexivity].
  assert (2 ^ 53 <= m); [|lia].
  destruct (Z.log2_spec m) as [Hl _]; [|].
  - destruct (Z.le_gt_cases m 0); [|lia].
    assert (m = 0) as -> by lia. cbn in H. lia.
  - etransitivity; [|exact Hl]. apply Z.pow_le_mono_r; lia.
Qed.

Lemma of_Z_exact (z : Z) : - 2 ^ 53 <= z <= 2 ^ 53 -> of_Z z = Fin z.
Proof.
  intros Hz. unfold of_Z. rewrite round53_small by lia.
  destruct (Z.leb_spec (2 ^ 1024) (Z.abs z)) as [H|H].
  - assert (2 ^ 53 < 2 ^ 1024) by (apply Z.pow_lt_mono_r; lia). lia.
  - f_equal. lia.
Qed.

(** A 53-bit integer shifted left is a double. *)
Lemma round53_shifted (a k : Z) :
  0 <= a < 2 ^ 53 -> 0 <= k -> round53 (a * 2 ^ k) = a * 2 ^ k.
Proof.
  intros Ha Hk. unfold round53. cbv zeta.
  destruct (Z.ltb_spec (Z.log2 (a * 2 ^ k)) 53) as [H|H]; [reflexivity|].
  assert (Hpos : 0 < a).
  { destruct (Z.eq_dec a 0) as [->|]; [|lia].
    rewrite Z.mul_0_l in H. change (Z.log2 0) with 0 in H. lia. }
  rewrite Z.log2_mul_pow2 in * by lia.
  assert (Hla : Z.log2 a < 53) by (apply Z.log2_lt_pow2; lia).
  set (sh := k + Z.log2 a - 52) in *.
  assert (Hsh : 0 < sh <= k) by (unfold sh; lia).
  assert (Hq : Z.shiftl (Z.shiftr (a * 2 ^ k) sh) sh = a * 2 ^ k).
  { assert (Hsplit : a * 2 ^ k = (a * 2 ^ (k - sh)) * 2 ^ sh).
    { rewrite <- Z.mul_assoc, <- Z.pow_add_r by lia. do 2 f_equal. lia. }
    rewrite Z.shiftr_div_pow2, Z.shiftl_mul_pow2 by lia.
    rewrite Hsplit at 1. rewrite Z.div_mul by (apply Z.pow_nonzero; lia).
    symmetry. exact Hsplit. }
  rewrite Hq, Z.sub_diag.
  assert (0 < Z.shiftl 1 (sh - 1)).
  { rewrite Z.shiftl_mul_pow2 by lia. apply Z.mul_pos_pos; [lia|].
    apply Z.pow_pos_nonneg; lia. }
  destruct (Z.ltb_spec 0 (Z.shiftl 1 (sh - 1))); [|lia].
  exact Hq.
Qed.

Lemma toNumber_unsigned (w0 w1 : Z) :
  0 <= w0 < 2 ^ 32 -> 0 <= w1 < 2 ^ 32 ->
  Long.toNumber (Long.make w0 w1 true) = of_Z (w1 * 2 ^ 32 + w0)
  /\ Long.toString (Long.make w0 w1 true) = dec (w1 * 2 ^ 32 + w0).
Proof.
  intros H0 H1.
  assert (Hu : forall w, 0 <= w < 2 ^ 32 -> uint32 (int32 w) = w).
  { intros w Hw. unfold uint32, int32.
    rewrite Zminus_mod_idemp_l.
    replace (w + 2 ^ 31 - 2 ^ 31) with w by lia. apply Z.mod_small. lia. }
  unfold Long.toNumber, Long.toString, Long.toZ, Long.make.
  cbn [unsigned high low]. rewrite !Hu by lia.
  split.
  - assert (Hmul : mul (Fin w1) (Fin Long.TWO_PWR_32) = Fin (w1 * 2 ^ 32)).
    { unfold mul, of_Z, Long.TWO_PWR_32. cbv zeta.
      rewrite Z.abs_eq by nia. rewrite round53_shifted by lia.
      destruct (Z.leb_spec (2 ^ 1024) (w1 * 2 ^ 32)) as [H|H].
      - assert (2 ^ 32 * 2 ^ 32 < 2 ^ 1024) by (vm_compute; reflexivity). nia.
      - f_equal. destruct (Z.eq_dec w1 0) as [->|]; [reflexivity|].
        rewrite Z.sgn_pos by nia. lia. }
    rewrite Hmul. reflexivity.
  - unfold dec_signed, Long.TWO_PWR_32.
    destruct (Z.ltb_spec (w1 * 2 ^ 32 + w0) 0); [lia|reflexivity].
Qed.

(** ** Bytes written and read back *)

Lemma le_bytes_length (k : nat) (v : Z) : List.length (NodeBuffer.le_bytes k v) = k.
Proof. revert v. induction k; intros v; cbn; auto. Qed.

Lemma le_bytes_app (a b : nat) (v : Z) :
  NodeBuffer.le_bytes (a + b) v
  = NodeBuffer.le_bytes a v ++ NodeBuffer.le_bytes b (v / 256 ^ Z.of_nat a).
Proof.
  revert v. induction a as [|a IH]; intros v.
  - cbn. rewrite Z.div_1_r. reflexivity.
  - cbn [Nat.add NodeBuffer.le_bytes app]. rewrite IH. do 2 f_equal.
    rewrite Nat2Z.inj_succ, Z.pow_succ_r, Z.div_div by lia. reflexivity.
Qed.

Lemma le_bytes_mod (k : nat) (v : Z) :
  NodeBuffer.le_bytes k (v mod 256 ^ Z.of_nat k) = NodeBuffer.le_bytes k v.
Proof.
  revert v. induction k as [|k IH]; intros v; [reflexivity|].
  cbn [NodeBuffer.le_bytes].
  rewrite Nat2Z.inj_succ, Z.pow_succ_r by lia.
  assert (0 < 256 ^ Z.of_nat k) by (apply Z.pow_pos_nonneg; lia).
  rewrite Z.rem_mul_r by lia.
  f_equal.
  - rewrite (Z.mul_comm 256), Z.mod_add by lia. apply Z.mod_mod. lia.
  - rewrite (Z.mul_comm 256), Z.div_add by lia.
    rewrite Z.div_small by (apply Z.mod_pos_bound; lia).
    rewrite Z.add_0_l. apply IH.
Qed.

Lemma le_value_le_bytes (k : nat) (v : Z) :
  NodeBuffer.le_value (NodeBuffer.le_bytes k v) = v mod 256 ^ Z.of_nat k.
Proof.
  revert v. induction k as [|k IH]; intros v.
  - cbn. rewrite Z.mod_1_r. reflexivity.
  - cbn [NodeBuffer.le_bytes NodeBuffer.le_value]. rewrite IH.
    rewrite Nat2Z.inj_succ, Z.pow_succ_r by lia.
    assert (0 < 256 ^ Z.of_nat k) by (apply Z.pow_pos_nonneg; lia).
    rewrite Z.rem_mul_r by lia. reflexivity.
Qed.

(** Eight bytes are the low word, then the high word. *)
Lemma le_bytes_8 (n : Z) :
  NodeBuffer.le_bytes 8 n
  = NodeBuffer.le_bytes 4 (n mod 2 ^ 32) ++ NodeBuffer.le_bytes 4 (n / 2 ^ 32).
Proof.
  change 8%nat with (4 + 4)%nat. rewrite le_bytes_app.
  change (256 ^ Z.of_nat 4) with (2 ^ 32).
  rewrite <- (le_bytes_mod 4 n) at 1. reflexivity.
Qed.

Lemma store_length (b : NodeBuffer.t) (o : nat) (bs : list Z) :
  NodeBuffer.length (NodeBuffer.store b o bs) = NodeBuffer.length b.
Proof. unfold NodeBuffer.length, NodeBuffer.store. rewrite length_inserts. reflexivity. Qed.

(** A byte of what was just stored. *)
Lemma get_stored (b : NodeBuffer.t) (off : Z) (bs : list Z) (i : nat) :
  0 <= off -> off + Z.of_nat (List.length bs) <= NodeBuffer.length b ->
  (i < List.length bs)%nat ->
  NodeBuffer.get (NodeBuffer.store b (Z.to_nat off) bs) (off + Z.of_nat i) = bs !! i.
Proof.
  intros Hoff Hroom Hi. unfold NodeBuffer.get, NodeBuffer.store, NodeBuffer.length in *.
  destruct (Z.ltb_spec (off + Z.of_nat i) 0); [lia|].
  rewrite list_lookup_inserts by lia. f_equal. lia.
Qed.

(** A range of what was just stored. *)
Lemma range_stored (b : NodeBuffer.t) (off : Z) (bs : list Z) (a k : nat) :
  0 <= off -> off + Z.of_nat (List.length bs) <= NodeBuffer.length b ->
  (a + k <= List.length bs)%nat ->
  range (NodeBuffer.store b (Z.to_nat off) bs)
    (off + Z.of_nat a) (off + Z.of_nat a + Z.of_nat k)
  = take k (drop a bs).
Proof.
  intros Hoff Hroom Hak. unfold range, NodeBuffer.store, NodeBuffer.length in *.
  replace (Z.to_nat (off + Z.of_nat a + Z.of_nat k - (off + Z.of_nat a))) with k by lia.
  apply list_eq. intros i.
  destruct (Nat.lt_ge_cases i k) as [Hi|Hi].
  - rewrite !lookup_take_lt, !lookup_drop by lia.
    rewrite list_lookup_inserts by lia. f_equal. lia.
  - rewrite !lookup_take_ge by lia. reflexivity.
Qed.

Lemma write_le_step (k : nat) (lo hi : Z) (b : NodeBuffer.t) (v off : Z) :
  lo <= v <= hi -> 0 <= off -> off + Z.of_nat k <= NodeBuffer.length b ->
  NodeBuffer.write_le k lo hi b v off
  = Ok (NodeBuffer.store b (Z.to_nat off)
          (NodeBuffer.le_bytes k (v mod 2 ^ (8 * Z.of_nat k)))).
Proof.
  intros Hv Hoff Hroom. unfold NodeBuffer.write_le.
  destruct (Z.ltb_spec v lo), (Z.ltb_spec hi v); try lia.
  destruct (Z.leb_spec 0 off), (Z.leb_spec (off + Z.of_nat k) (NodeBuffer.length b));
    try lia.
  reflexivity.
Qed.

Lemma written_written (p : Packet.t) (xs ys : list Z) :
  0 <= Packet.offset p ->
  written (written p xs) ys = written p (xs ++ ys).
Proof.
  intros Hoff. unfold written. packet_simpl.
  unfold Packet.with_offset, Packet.with_buffer. cbn.
  f_equal.
  - unfold NodeBuffer.store. rewrite list_inserts_app_l. f_equal. lia.
  - rewrite length_app. lia.
Qed.

Lemma room_written (p : Packet.t) (bs : list Z) (k : Z) :
  room p (Z.of_nat (List.length bs) + k) -> room (written p bs) k.
Proof.
  unfold room, written. packet_simpl. rewrite store_length. lia.
Qed.

Lemma write_step (k : nat) (lo hi v at_ : Z) (p : Packet.t) :
  lo <= v <= hi -> 0 <= Packet.offset p + at_ ->
  Packet.offset p + at_ + Z.of_nat k <= NodeBuffer.length (Packet.buffer p) ->
  Packet.write (NodeBuffer.write_le k lo hi) v at_ p
  = Ok (tt, Packet.with_buffer p
              (NodeBuffer.store (Packet.buffer p) (Z.to_nat (Packet.offset p + at_))
                 (NodeBuffer.le_bytes k (v mod 2 ^ (8 * Z.of_nat k))))).
Proof.
  intros Hv H0 H1. unfold Packet.write, Packet.mbind, Packet.this, Packet.lift.
  rewrite write_le_step by assumption. reflexivity.
Qed.

Lemma writeInt8_step (p : Packet.t) (v : Z) :
  0 <= v <= 255 -> room p 1 ->
  Packet.writeInt8 v p = Ok (tt, written p [v]).
Proof.
  intros Hv [H0 H1]. unfold Packet.writeInt8, NodeBuffer.writeUInt8.
  erewrite mbind_eq; [|apply write_step; cbn; lia].
  unfold written. cbn.
  change (2 ^ (8 * Z.of_nat 1)) with 256.
  rewrite Z.add_0_r, !(Z.mod_small v 256) by lia. reflexivity.
Qed.

Lemma writeInt16_step (p : Packet.t) (v : Z) :
  0 <= v <= 65535 -> room p 2 ->
  Packet.writeInt16 v p = Ok (tt, written p (NodeBuffer.le_bytes 2 v)).
Proof.
  intros Hv [H0 H1]. unfold Packet.writeInt16, NodeBuffer.writeUInt16LE.
  erewrite mbind_eq; [|apply write_step; cbn; lia].
  unfold written.
  change (2 ^ (8 * Z.of_nat 2)) with 65536. rewrite (Z.mod_small v) by lia.
  rewrite Z.add_0_r. reflexivity.
Qed.

Lemma readInt32_step (p : Packet.t) :
  0 <= Packet.offset p ->
  Packet.offset p + 4 <= NodeBuffer.length (Packet.buffer p) ->
  Packet.readInt32 p
  = Ok (NodeBuffer.le_value (range (Packet.buffer p) (Packet.offset p) (Packet.offset p + 4)),
        Packet.with_offset p (Packet.offset p + 4)).
Proof.
  intros H1 H2. unfold Packet.readInt32, Packet.mbind, Packet.lift, NodeBuffer.readUInt32LE.
  cbn. rewrite bytes_at_range by (cbn; lia). cbn.
  replace (Packet.offset p + 4 - 4) with (Packet.offset p) by lia.
  reflexivity.
Qed.

(** ** Writing a length-coded integer *)

Lemma lt_Fin (a b : Z) : lt (Fin a) (Fin b) = (a <? b).
Proof. reflexivity. Qed.

Lemma int32_small (z : Z) : - 2 ^ 31 <= z < 2 ^ 31 -> int32 z = z.
Proof. intros H. unfold int32. rewrite Z.mod_small by lia. lia. Qed.

Lemma int32_mod (z : Z) : int32 z mod 2 ^ 32 = z mod 2 ^ 32.
Proof.
  unfold int32. rewrite Zminus_mod_idemp_l. f_equal. lia.
Qed.

Lemma int32_range (z : Z) : - 2 ^ 31 <= int32 z <= 2 ^ 31 - 1.
Proof.
  unfold int32. pose proof (Z.mod_pos_bound (z + 2 ^ 31) (2 ^ 32) ltac:(lia)). lia.
Qed.

(** No bit from 24 up: the value fits three bytes. *)
Lemma land_high_bits (x : Z) : Z.land x (- 16777216) = 0 -> 0 <= x < 16777216.
Proof.
  intros H.
  change (- 16777216) with (Z.lnot (Z.ones 24)) in H.
  change (Z.land x (Z.lnot (Z.ones 24))) with (Z.ldiff x (Z.ones 24)) in H.
  rewrite Z.ldiff_ones_r in H by lia.
  rewrite Z.shiftr_div_pow2, Z.shiftl_mul_pow2 in H by lia.
  change (2 ^ 24) with 16777216 in H.
  pose proof (Z.div_mod x 16777216 ltac:(lia)).
  pose proof (Z.mod_pos_bound x 16777216 ltac:(lia)).
  lia.
Qed.

Lemma writeLengthCodedNumber_small (p : Packet.t) (n : Z) :
  room p 9 -> 0 <= n < 16777216 ->
  Packet.writeLengthCodedNumber (VNum (Fin n)) p = Ok (tt, written p (narrowest n)).
Proof.
  intros Hroom Hn. unfold Packet.writeLengthCodedNumber, Packet.longValue_of, gt.
  rewrite lt_Fin.
  destruct (Z.ltb_spec 16777215 n) as [?|_]; [lia|].
  erewrite mbind_eq; [|reflexivity].
  erewrite mbind_eq; [|reflexivity]. cbv beta iota.
  erewrite mbind_eq; [|reflexivity].
  cbv beta iota. rewrite !lt_Fin. unfold narrowest.
  destruct (Z.ltb_spec n 251).
  - erewrite mbind_eq; [|reflexivity].
    apply writeInt8_step; [lia|]. destruct Hroom. split; lia.
  - destruct (Z.ltb_spec n 65536).
    + erewrite mbind_eq; [|apply writeInt8_step; [lia|destruct Hroom; split; lia]].
      erewrite mbind_eq; [|reflexivity].
      rewrite writeInt16_step; [|lia|apply room_written; destruct Hroom; split; cbn; lia].
      rewrite written_written by apply Hroom. reflexivity.
    + destruct (Z.ltb_spec n 16777216); [|lia].
      erewrite mbind_eq; [|apply writeInt8_step; [lia|destruct Hroom; split; lia]].
      erewrite mbind_eq; [|reflexivity].
      unfold Packet.writeInt24.
      rewrite int32_small by lia.
      change 255 with (Z.ones 8). rewrite Z.land_ones, Z.shiftr_div_pow2 by lia.
      change (2 ^ 8) with 256.
      assert (0 <= n mod 256 < 256) by (apply Z.mod_pos_bound; lia).
      assert (0 <= n / 256 < 65536)
        by (split; [apply Z.div_pos; lia|apply Z.div_lt_upper_bound; lia]).
      erewrite mbind_eq;
        [|apply writeInt8_step; [lia|apply room_written; destruct Hroom; split; cbn; lia]].
      rewrite writeInt16_step;
        [|lia|do 2 apply room_written; destruct Hroom; split; cbn; lia].
      rewrite !written_written; [reflexivity|apply Hroom|].
      unfold written. packet_simpl. destruct Hroom. lia.
Qed.

Lemma longValue_of_wide (n : Z) :
  16777216 <= n < 2 ^ 64 ->
  Packet.longValue_of (as_argument n) = Ok (Some (halves n)).
Proof.
  intros Hn. unfold as_argument.
  destruct (Z.ltb_spec n (2 ^ 53)).
  - unfold Packet.longValue_of, gt. rewrite lt_Fin.
    destruct (Z.ltb_spec 16777215 n); [|lia].
    unfold Long.fromNumber.
    destruct (Z.ltb_spec n 0); [lia|].
    unfold Long.TWO_PWR_64. destruct (Z.leb_spec (2 ^ 64) n); [lia|].
    reflexivity.
  - unfold Packet.longValue_of.
    pose proof (dec_length n ltac:(lia)) as Hlen.
    destruct (Z.leb_spec 8 (Z.of_nat (String.length (dec n)))); [|lia].
    unfold Long.fromString.
    destruct (dec n) eqn:Hdec; [cbn in Hlen; lia|]. rewrite <- Hdec.
    rewrite dec_all_digits, dec_value by lia.
    unfold Long.TWO_PWR_64. rewrite (Z.mod_small n) by lia.
    reflexivity.
Qed.

Lemma halves_wide (n : Z) :
  16777216 <= n < 2 ^ 64 ->
  (high (halves n) =? 0) && (Z.land (low (halves n)) (int32 4278190080) =? 0) = false.
Proof.
  intros Hn. cbn [halves high low].
  apply andb_false_iff.
  destruct (Z.eqb_spec (int32 (n / 2 ^ 32)) 0) as [Hh|]; [right|left; reflexivity].
  apply Z.eqb_neq. intros Hl.
  change (int32 4278190080) with (- 16777216) in Hl.
  apply land_high_bits in Hl.
  assert (Hq : 0 <= n / 2 ^ 32 < 2 ^ 32)
    by (split; [apply Z.div_pos; lia|apply Z.div_lt_upper_bound; lia]).
  assert (n / 2 ^ 32 = 0).
  { pose proof (int32_mod (n / 2 ^ 32)) as Hm. rewrite Hh in Hm.
    rewrite (Z.mod_small (n / 2 ^ 32)) in Hm by lia.
    rewrite Z.mod_0_l in Hm by lia. lia. }
  assert (Hsmall : n mod 2 ^ 32 = n).
  { pose proof (Z.div_mod n (2 ^ 32) ltac:(lia)). lia. }
  rewrite Hsmall in Hl.
  pose proof (Z.mod_pos_bound n (2 ^ 32) ltac:(lia)).
  pose proof (int32_mod n) as Hm.
  rewrite (Z.mod_small (int32 n)), (Z.mod_small n) in Hm; lia.
Qed.

Lemma writeLengthCodedNumber_wide (p : Packet.t) (n : Z) :
  room p 9 -> 16777216 <= n < 2 ^ 64 ->
  Packet.writeLengthCodedNumber (as_argument n) p = Ok (tt, written p (narrowest n)).
Proof.
  intros Hroom Hn.
  assert (Hnarrow : narrowest n
            = [254] ++ (NodeBuffer.le_bytes 4 (n mod 2 ^ 32)
                        ++ NodeBuffer.le_bytes 4 (n / 2 ^ 32))).
  { unfold narrowest.
    destruct (Z.ltb_spec n 251), (Z.ltb_spec n 65536), (Z.ltb_spec n 16777216); try lia.
    rewrite le_bytes_8. reflexivity. }
  assert (Hq : 0 <= n / 2 ^ 32 < 2 ^ 32)
    by (split; [apply Z.div_pos; lia|apply Z.div_lt_upper_bound; lia]).
  pose proof (longValue_of_wide n Hn) as Hlv.
  pose proof (halves_wide n Hn) as Hwide.
  pose proof (int32_range (n mod 2 ^ 32)) as Hlow.
  pose proof (int32_range (n / 2 ^ 32)) as Hhigh.
  destruct Hroom as [Hoff Hroom].
  assert (Hbody :
    Packet.mbind (Packet.lift (Packet.longValue_of (as_argument n)))
      (fun longValue =>
         Packet.mbind
           match longValue with
           | Some l =>
               if (high l =? 0) && (Z.land (low l) (int32 4278190080) =? 0)
               then Packet.ret (Some (VNum (Fin (low l))))
               else
                 Packet.mbind (Packet.writeInt8 254) (fun _ =>
                 Packet.mbind (Packet.write NodeBuffer.writeInt32LE (low l) 0) (fun _ =>
                 Packet.mbind (Packet.write NodeBuffer.writeInt32LE (high l) 4) (fun _ =>
                 Packet.mbind (Packet.advance 8) (fun _ => Packet.ret None))))
           | None => Packet.ret (Some (as_argument n))
           end
           (fun n0 =>
              match n0 with
              | None => Packet.ret tt
              | Some n1 =>
                  Packet.mbind (Packet.lift (to_number n1)) (fun n2 =>
                  if lt n2 (Fin 251)
                  then Packet.mbind (Packet.integer n2) Packet.writeInt8
                  else if lt n2 (Fin 65536)
                  then Packet.mbind (Packet.writeInt8 252) (fun _ =>
                       Packet.mbind (Packet.integer n2) Packet.writeInt16)
                  else if lt n2 (Fin 16777216)
                  then Packet.mbind (Packet.writeInt8 253) (fun _ =>
                       Packet.mbind (Packet.integer n2) Packet.writeInt24)
                  else Packet.throw (Error "Should not reach here or Invalid integer"))
              end)) p
    = Ok (tt, written p (narrowest n))).
  { rewrite Hlv.
    erewrite mbind_eq; [|reflexivity].
    cbv beta iota. rewrite Hwide. cbn [halves high low].
    erewrite mbind_eq.
    2:{ erewrite mbind_eq; [|apply writeInt8_step; [lia|split; lia]].
        erewrite mbind_eq;
          [|apply write_step; unfold written; packet_simpl;
            rewrite ?store_length; cbn [List.length]; lia].
        erewrite mbind_eq;
          [|apply write_step; unfold written; packet_simpl;
            rewrite ?store_length; cbn [List.length]; lia].
        erewrite mbind_eq; [|reflexivity].
        reflexivity. }
    cbv beta iota. unfold Packet.ret. f_equal. f_equal.
    rewrite Hnarrow, <- written_written by lia.
    change (2 ^ (8 * Z.of_nat 4)) with (2 ^ 32).
    rewrite !int32_mod, Z.mod_mod, (Z.mod_small (n / 2 ^ 32)) by lia.
    unfold written. packet_simpl.
    unfold Packet.with_offset, Packet.with_buffer.
    cbn -[NodeBuffer.le_bytes Z.add Z.of_nat Z.to_nat].
    f_equal.
    unfold NodeBuffer.store. rewrite list_inserts_app_l, le_bytes_length.
    rewrite Z.add_0_r. f_equal. lia. }
  unfold Packet.writeLengthCodedNumber.
  unfold as_argument in *. destruct (n <? 2 ^ 53); exact Hbody.
Qed.

(** ** Reading a length-coded integer back *)

Lemma readInt8_written (p : Packet.t) (bs : list Z) (i : nat) :
  room p (Z.of_nat (List.length bs)) -> (i < List.length bs)%nat ->
  Packet.readInt8 (Packet.with_offset (written p bs) (Packet.offset p + Z.of_nat i))
  = Ok (bs !! i, Packet.with_offset (written p bs) (Packet.offset p + Z.of_nat (S i))).
Proof.
  intros [H0 H1] Hi. rewrite readInt8_step. unfold written. packet_simpl.
  rewrite get_stored by assumption.
  do 2 f_equal. apply with_offset_same. lia.
Qed.

Lemma readInt32_written (p : Packet.t) (bs : list Z) (i : nat) :
  room p (Z.of_nat (List.length bs)) -> (i + 4 <= List.length bs)%nat ->
  Packet.readInt32 (Packet.with_offset (written p bs) (Packet.offset p + Z.of_nat i))
  = Ok (NodeBuffer.le_value (take 4 (drop i bs)),
        Packet.with_offset (written p bs) (Packet.offset p + Z.of_nat (i + 4))).
Proof.
  intros [H0 H1] Hi. rewrite readInt32_step.
  - unfold written. packet_simpl.
    replace (Packet.offset p + Z.of_nat i + 4)
      with (Packet.offset p + Z.of_nat i + Z.of_nat 4) by lia.
    rewrite range_stored by assumption.
    do 2 f_equal. apply with_offset_same. lia.
  - unfold written. packet_simpl. lia.
  - unfold written. packet_simpl. rewrite store_length. lia.
Qed.

Lemma written_end (p : Packet.t) (bs : list Z) (k : nat) :
  k = List.length bs ->
  Packet.with_offset (written p bs) (Packet.offset p + Z.of_nat k) = written p bs.
Proof. intros ->. reflexivity. Qed.

Lemma shl_byte (b k : Z) :
  0 <= b < 256 -> 0 <= k <= 16 -> Packet.shl (Some b) k = b * 2 ^ k.
Proof.
  intros Hb Hk. unfold Packet.shl. rewrite Z.shiftl_mul_pow2 by lia.
  apply int32_small.
  assert (0 < 2 ^ k <= 2 ^ 16) by (split; [apply Z.pow_pos_nonneg|apply Z.pow_le_mono_r]; lia).
  change (2 ^ 16) with 65536 in *. nia.
Qed.

Lemma readLengthCodedNumber_narrowest (p : Packet.t) (n : Z) :
  room p 9 -> 0 <= n < 2 ^ 64 ->
  Packet.readLengthCodedNumber false false (rewound p (narrowest n))
  = Ok (read_back n, written p (narrowest n)).
Proof.
  intros Hroom Hn. unfold rewound.
  destruct Hroom as [Hoff Hroom].
  assert (Hlen : (List.length (narrowest n) <= 9)%nat).
  { unfold narrowest. destruct (n <? 251), (n <? 65536), (n <? 16777216); cbn; lia. }
  assert (Hr : room p (Z.of_nat (List.length (narrowest n)))) by (split; lia).
  assert (Hpos : (0 < List.length (narrowest n))%nat).
  { unfold narrowest. destruct (n <? 251), (n <? 65536), (n <? 16777216); cbn; lia. }
  unfold Packet.readLengthCodedNumber.
  replace (Packet.offset p) with (Packet.offset p + Z.of_nat 0) at 1 by lia.
  erewrite mbind_eq; [|apply readInt8_written; assumption].
  revert Hr Hlen Hpos. unfold narrowest, read_back.
  destruct (Z.ltb_spec n 251) as [H251|H251].
  { intros Hr _ _. cbn [lookup list_lookup].
    destruct (Z.ltb_spec n 251); [|lia].
    destruct (Z.ltb_spec n (2 ^ 53)); [|lia].
    unfold Packet.ret. rewrite written_end by reflexivity. reflexivity. }
  destruct (Z.ltb_spec n 65536) as [H16|H16].
  { intros Hr _ _. cbn [lookup list_lookup]. change (252 <? 251) with false. cbv iota.
    unfold Packet.readLengthCodedNumberExt.
    change (Packet.equals (Some 252) 251) with false.
    change (Packet.equals (Some 252) 252) with true. cbv iota.
    erewrite mbind_eq; [|apply readInt8_written; [assumption|cbn; lia]].
    erewrite mbind_eq; [|apply readInt8_written; [assumption|cbn; lia]].
    cbn [lookup list_lookup NodeBuffer.le_bytes NodeBuffer.num_of_byte].
    assert (0 <= n mod 256 < 256) by (apply Z.mod_pos_bound; lia).
    assert (0 <= n / 256 < 256)
      by (split; [apply Z.div_pos; lia|apply Z.div_lt_upper_bound; lia]).
    rewrite (Z.mod_small (n / 256)) by lia.
    rewrite shl_byte by lia. unfold add.
    change (2 ^ 8) with 256.
    assert (Hn' : n mod 256 + n / 256 * 256 = n)
      by (pose proof (Z.div_mod n 256 ltac:(lia)); lia).
    rewrite Hn', of_Z_exact by lia.
    destruct (Z.ltb_spec n (2 ^ 53)); [|lia].
    unfold Packet.ret. rewrite written_end by reflexivity. reflexivity. }
  destruct (Z.ltb_spec n 16777216) as [H24|H24].
  { intros Hr _ _. cbn [lookup list_lookup]. change (253 <? 251) with false. cbv iota.
    unfold Packet.readLengthCodedNumberExt.
    change (Packet.equals (Some 253) 251) with false.
    change (Packet.equals (Some 253) 252) with false.
    change (Packet.equals (Some 253) 253) with true. cbv iota.
    erewrite mbind_eq; [|apply readInt8_written; [assumption|cbn; lia]].
    erewrite mbind_eq; [|apply readInt8_written; [assumption|cbn; lia]].
    erewrite mbind_eq; [|apply readInt8_written; [assumption|cbn; lia]].
    cbn [lookup list_lookup NodeBuffer.le_bytes NodeBuffer.num_of_byte].
    assert (0 <= n mod 256 < 256) by (apply Z.mod_pos_bound; lia).
    assert (0 <= n / 256 mod 256 < 256) by (apply Z.mod_pos_bound; lia).
    assert (0 <= n / 256 / 256 < 256).
    { rewrite Z.div_div by lia.
      split; [apply Z.div_pos; lia|apply Z.div_lt_upper_bound; lia]. }
    rewrite (Z.mod_small (n / 256 / 256)) by lia.
    rewrite !shl_byte by lia. unfold add.
    change (2 ^ 8) with 256. change (2 ^ 16) with 65536.
    rewrite of_Z_exact by lia.
    assert (Hn' : n mod 256 + n / 256 mod 256 * 256 + n / 256 / 256 * 65536 = n).
    { pose proof (Z.div_mod n 256 ltac:(lia)).
      pose proof (Z.div_mod (n / 256) 256 ltac:(lia)). lia. }
    rewrite Hn', of_Z_exact by lia.
    destruct (Z.ltb_spec n (2 ^ 53)); [|lia].
    unfold Packet.ret. rewrite written_end by reflexivity. reflexivity. }
  intros Hr _ _. cbn [lookup list_lookup]. change (254 <? 251) with false. cbv iota.
  unfold Packet.readLengthCodedNumberExt.
  change (Packet.equals (Some 254) 251) with false.
  change (Packet.equals (Some 254) 252) with false.
  change (Packet.equals (Some 254) 253) with false.
  change (Packet.equals (Some 254) 254) with true. cbv iota.
  rewrite le_bytes_8 in *.
  assert (Hq : 0 <= n / 2 ^ 32 < 2 ^ 32)
    by (split; [apply Z.div_pos; lia|apply Z.div_lt_upper_bound; lia]).
  assert (Hm : 0 <= n mod 2 ^ 32 < 2 ^ 32) by (apply Z.mod_pos_bound; lia).
  assert (Hsum : n / 2 ^ 32 * 2 ^ 32 + n mod 2 ^ 32 = n)
    by (pose proof (Z.div_mod n (2 ^ 32) ltac:(lia)); lia).
  erewrite mbind_eq;
    [|apply readInt32_written; [assumption|cbn [List.length]; rewrite length_app, !le_bytes_length; lia]].
  erewrite mbind_eq;
    [|apply (readInt32_written p _ 5); [assumption|cbn [List.length]; rewrite length_app, !le_bytes_length; lia]].
  assert (Hw0 : NodeBuffer.le_value
            (take 4 (drop 1 (254 :: NodeBuffer.le_bytes 4 (n mod 2 ^ 32)
                                    ++ NodeBuffer.le_bytes 4 (n / 2 ^ 32))))
          = n mod 2 ^ 32).
  { cbn [skipn]. rewrite drop_0, take_app_length' by (rewrite le_bytes_length; reflexivity).
    rewrite le_value_le_bytes. change (256 ^ Z.of_nat 4) with (2 ^ 32).
    apply Z.mod_small. lia. }
  assert (Hw1 : NodeBuffer.le_value
            (take 4 (drop 5 (254 :: NodeBuffer.le_bytes 4 (n mod 2 ^ 32)
                                    ++ NodeBuffer.le_bytes 4 (n / 2 ^ 32))))
          = n / 2 ^ 32).
  { change (drop 5 (254 :: ?l)) with (drop 4 l).
    rewrite drop_app_length' by (rewrite le_bytes_length; reflexivity).
    rewrite take_ge by (rewrite le_bytes_length; lia).
    rewrite le_value_le_bytes. change (256 ^ Z.of_nat 4) with (2 ^ 32).
    apply Z.mod_small. lia. }
  rewrite Hw0, Hw1.
  rewrite written_end
    by (cbn [List.length]; rewrite length_app, !le_bytes_length; reflexivity).
  destruct (Z.eqb_spec (n / 2 ^ 32) 0) as [H0|H0].
  { assert (Hsmall : n mod 2 ^ 32 = n) by lia.
    destruct (Z.ltb_spec n (2 ^ 53)); [|lia].
    rewrite Hsmall. reflexivity. }
  destruct (Z.ltb_spec (n / 2 ^ 32) 2097152) as [H21|H21].
  { assert (n < 2 ^ 53) by (change (2 ^ 53) with (2097152 * 2 ^ 32); nia).
    destruct (Z.ltb_spec n (2 ^ 53)); [|lia].
    unfold mul, add. change 4294967296 with (2 ^ 32).
    rewrite of_Z_exact by nia. rewrite Hsum, of_Z_exact by lia. reflexivity. }
  assert (2 ^ 53 <= n) by (change (2 ^ 53) with (2097152 * 2 ^ 32); nia).
  destruct (Z.ltb_spec n (2 ^ 53)); [lia|].
  destruct (toNumber_unsigned (n mod 2 ^ 32) (n / 2 ^ 32) Hm Hq) as [HtoN HtoS].
  rewrite Hsum in HtoN, HtoS.
  change (negb false) with true.
  erewrite mbind_eq; [|reflexivity].
  erewrite mbind_eq; [|reflexivity].
  rewrite HtoN, HtoS.
  erewrite mbind_eq; [|reflexivity].
  reflexivity.
Qed.

Lemma writeLengthCodedNumber_narrowest (p : Packet.t) (n : Z) :
  room p 9 -> 0 <= n < 2 ^ 64 ->
  Packet.writeLengthCodedNumber (as_argument n) p = Ok (tt, written p (narrowest n)).
Proof.
  intros Hroom Hn. destruct (Z.lt_ge_cases n 16777216).
  - replace (as_argument n) with (VNum (Fin n)).
    + apply writeLengthCodedNumber_small; [assumption|lia].
    + unfold as_argument. destruct (Z.ltb_spec n (2 ^ 53)); [reflexivity|lia].
  - apply writeLengthCodedNumber_wide; [assumption|lia].
Qed.

(** ** The round trip *)

(** C2, as the code has it.  Written into a packet with nine bytes of
    room, a non-negative integer below 2^64 (a number below 2^53, its
    decimal string from there on) takes the narrowest length-coded form
    that holds it, the 8-byte form behind [0xFE] exactly when it exceeds
    [0xFFFFFF].  Read back from the same position, something is
    returned and the cursor is behind the form: the number [n] when [n]
    is below 2^53, or when [n] is the value of a double that prints as
    the digits of [n]; the decimal string of [n] when the double nearest
    to [n] prints otherwise. *)
Theorem C2_length_coded_round_trip (p : Packet.t) (n : Z) :
  room p 9 -> 0 <= n < 2 ^ 64 ->
  Packet.writeLengthCodedNumber (as_argument n) p = Ok (tt, written p (narrowest n))
  /\ (exists v,
        Packet.readLengthCodedNumber false false (rewound p (narrowest n))
        = Ok (v, written p (narrowest n))
        /\ (n < 2 ^ 53 -> v = VNum (Fin n))
        /\ (representable n -> number_toString (Fin n) = dec n -> v = VNum (Fin n))
        /\ (2 ^ 53 <= n -> number_toString (of_Z n) <> dec n -> v = VStr (dec n)))
  /\ (head (narrowest n) = Some 254 <-> 16777215 < n).
Proof.
  intros Hroom Hn. split; [|split].
  - apply writeLengthCodedNumber_narrowest; assumption.
  - exists (read_back n).
    split; [apply readLengthCodedNumber_narrowest; assumption|].
    unfold read_back. destruct (Z.ltb_spec n (2 ^ 53)) as [Hsmall|Hlarge].
    + split; [reflexivity|]. split; [|lia].
      intros Hdouble Hprinted. reflexivity.
    + split; [lia|]. split.
      * intros Hdouble Hprinted. rewrite Hdouble, Hprinted, String.eqb_refl.
        reflexivity.
      * intros _ Hprinted.
        destruct (String.eqb_spec (number_toString (of_Z n)) (dec n)) as [Heq|_];
          [contradiction|reflexivity].
  - unfold narrowest.
    destruct (Z.ltb_spec n 251), (Z.ltb_spec n 65536), (Z.ltb_spec n 16777216);
      cbn; split; intros H'; try lia; try congruence.
    injection H' as ->. lia.
Qed.

(** The theorem at 300, whose form is [FC 2C 01]; at 2^53 + 1, which
    comes back as its decimal string; and at 10^18, the value of a
    double that prints as its digits, which comes back as the number. *)
Lemma C2_round_trip_examples :
  (Packet.writeLengthCodedNumber (VNum (Fin 300)) blank
     = Ok (tt, written blank [252; 44; 1])
   /\ Packet.readLengthCodedNumber false false (rewound blank [252; 44; 1])
     = Ok (VNum (Fin 300), written blank [252; 44; 1]))
  /\ (Packet.writeLengthCodedNumber (VStr "9007199254740993") blank
        = Ok (tt, written blank [254; 1; 0; 0; 0; 0; 0; 32; 0])
      /\ Packet.readLengthCodedNumber false false
           (rewound blank [254; 1; 0; 0; 0; 0; 0; 32; 0])
        = Ok (VStr "9007199254740993", written blank [254; 1; 0; 0; 0; 0; 0; 32; 0]))
  /\ (Packet.writeLengthCodedNumber (VStr "1000000000000000000") blank
        = Ok (tt, written blank [254; 0; 0; 100; 167; 179; 182; 224; 13])
      /\ Packet.readLengthCodedNumber false false
           (rewound blank [254; 0; 0; 100; 167; 179; 182; 224; 13])
        = Ok (VNum (Fin (10 ^ 18)),
              written blank [254; 0; 0; 100; 167; 179; 182; 224; 13])).
Proof.
  assert (Hroom : room blank 9) by (split; vm_compute; discriminate).
  split; [|split].
  - destruct (C2_length_coded_round_trip blank 300 Hroom)
      as (Hw & (v & Hr & Hsmall & _) & _); [lia|].
    split; [exact Hw|]. rewrite <- (Hsmall ltac:(lia)). exact Hr.
  - destruct (C2_length_coded_round_trip blank 9007199254740993 Hroom)
      as (Hw & (v & Hr & _ & _ & Hstring) & _); [lia|].
    split; [exact Hw|].
    assert (Hv : v = VStr (dec 9007199254740993))
      by (apply Hstring; [lia|vm_compute; discriminate]).
    rewrite Hv in Hr. exact Hr.
  - destruct (C2_length_coded_round_trip blank (10 ^ 18) Hroom)
      as (Hw & (v & Hr & _ & Hdouble & _) & _); [lia|].
    split; [exact Hw|].
    assert (Hv : v = VNum (Fin (10 ^ 18)))
      by (apply Hdouble; vm_compute; reflexivity).
    rewrite Hv in Hr. exact Hr.
Defined.

(** C2 fails as stated: 2^63 is the value of a double, yet it is read
    back as its decimal string, because that double prints as
    9223372036854776000. *)
Lemma C2_representable_yet_string :
  representable (2 ^ 63)
  /\ number_toString (of_Z (2 ^ 63)) = "9223372036854776000"%string
  /\ exists p1 p2,
       Packet.writeLengthCodedNumber (VStr "9223372036854775808") blank = Ok (tt, p1)
       /\ Packet.readLengthCodedNumber false false
            (Packet.with_offset p1 (Packet.offset blank))
          = Ok (VStr "9223372036854775808", p2)
       /\ VStr "9223372036854775808" <> VNum (Fin (2 ^ 63)).
Proof.
  split; [vm_compute; reflexivity|].
  split; [vm_compute; reflexivity|].
  eexists; eexists.
  split; [vm_compute; reflexivity|].
  split; [vm_compute; reflexivity|discriminate].
Qed.

(** Between the two lies what the theorem leaves open: 2^62 + 96 is
    not the value of a double, but the double nearest to it, 2^62,
    prints as 4611686018427388000, the digits of 2^62 + 96; it is read
    back as the number 2^62. *)
Remark length_coded_number_loses_digits :
  ~ representable (2 ^ 62 + 96)
  /\ number_toString (of_Z (2 ^ 62 + 96)) = dec (2 ^ 62 + 96)
  /\ Packet.writeLengthCodedNumber (VStr "4611686018427388000") blank
     = Ok (tt, written blank [254; 96; 0; 0; 0; 0; 0; 0; 64])
  /\ Packet.readLengthCodedNumber false false
       (rewound blank [254; 96; 0; 0; 0; 0; 0; 0; 64])
     = Ok (VNum (Fin (2 ^ 62)), written blank [254; 96; 0; 0; 0; 0; 0; 0; 64]).
Proof.
  split; [vm_compute; discriminate|].
  split; [vm_compute; reflexivity|].
  split; vm_compute; reflexivity.
Qed.

(** ** The length helper *)

(** C3.  For a number below 2^53 written where nine bytes fit, the
    writer advances the cursor by the length of the narrowest form: 1,
    3, 4 or 9 bytes.  [lengthCodedNumberLength] returns that length
    except for the three-byte form behind [0xFD], from 65536 to
    16777215, where it answers 5 for the 4 bytes written. *)
Theorem C3_lengthCodedNumberLength_three_byte_form (p : Packet.t) (n : Z) :
  room p 9 -> 0 <= n < 2 ^ 53 ->
  exists p1,
    Packet.writeLengthCodedNumber (VNum (Fin n)) p = Ok (tt, p1)
    /\ Packet.offset p1 - Packet.offset p = Z.of_nat (List.length (narrowest n))
    /\ Packet.lengthCodedNumberLength (Fin n)
       = if (65536 <=? n) && (n <? 16777216)
         then Packet.offset p1 - Packet.offset p + 1
         else Packet.offset p1 - Packet.offset p.
Proof.
  intros Hroom Hn. exists (written p (narrowest n)).
  pose proof (writeLengthCodedNumber_narrowest p n Hroom ltac:(lia)) as Hw.
  split.
  { rewrite <- Hw. unfold as_argument.
    destruct (Z.ltb_spec n (2 ^ 53)); [reflexivity|lia]. }
  split.
  { unfold written. packet_simpl. lia. }
  unfold written. packet_simpl.
  unfold Packet.lengthCodedNumberLength, narrowest. rewrite !lt_Fin.
  destruct (Z.ltb_spec n 251), (Z.ltb_spec n 65536), (Z.ltb_spec n 16777216),
    (Z.leb_spec 65536 n); try lia; cbn [andb List.length NodeBuffer.le_bytes]; lia.
Qed.

(** At 65536 the helper answers 5 and the writer emits [FD 00 00 01]. *)
Lemma C3_at_65536 :
  exists p1,
    Packet.writeLengthCodedNumber (VNum (Fin 65536)) blank = Ok (tt, p1)
    /\ Packet.buffer p1 = [0; 0; 0; 0; 253; 0; 0; 1; 0; 0; 0; 0; 0; 0; 0; 0]
    /\ Packet.offset p1 - Packet.offset blank = 4
    /\ Packet.lengthCodedNumberLength (Fin 65536) = 5.
Proof.
  assert (Hroom : room blank 9) by (split; vm_compute; discriminate).
  destruct (C3_lengthCodedNumberLength_three_byte_form blank 65536 Hroom)
    as (p1 & Hw & Hadv & Hlen); [lia|].
  exists p1. split; [exact Hw|].
  split; [|split; [exact Hadv|reflexivity]].
  assert (Hp1 : Ok (tt, p1) = Packet.writeLengthCodedNumber (VNum (Fin 65536)) blank)
    by (symmetry; exact Hw).
  vm_compute in Hp1. injection Hp1 as ->. reflexivity.
Defined.

(** ** The cursor stays in the window *)

Lemma this_Ok (p q p1 : Packet.t) : Packet.this p = Ok (q, p1) -> q = p /\ p1 = p.
Proof. unfold Packet.this. intros [= <- <-]. split; reflexivity. Qed.

Lemma lift_Ok {A} (r : Result A) (p p1 : Packet.t) (a : A) :
  Packet.lift r p = Ok (a, p1) -> r = Ok a /\ p1 = p.
Proof. unfold Packet.lift. destruct r; [intros [= <- <-]; split; reflexivity|discriminate]. Qed.

Lemma set_offset_Ok (o : Z) (p p1 : Packet.t) (u : unit) :
  Packet.set_offset o p = Ok (u, p1) -> p1 = Packet.with_offset p o.
Proof. unfold Packet.set_offset. intros [= _ <-]. reflexivity. Qed.

Lemma advance_Ok (k : Z) (p p1 : Packet.t) (u : unit) :
  Packet.advance k p = Ok (u, p1) -> p1 = Packet.with_offset p (Packet.offset p + k).
Proof. unfold Packet.advance. cbn. intros [= _ <-]. reflexivity. Qed.

Lemma throw_Ok {A} (e : error) (p p1 : Packet.t) (a : A) :
  Packet.throw e p = Ok (a, p1) -> False.
Proof. discriminate. Qed.

(** Takes a successful run of a method apart, step by step. *)
Ltac invert_step :=
  match goal with
  | H : Packet.mbind _ _ _ = Ok _ |- _ =>
      let a := fresh "a" in let q := fresh "q" in let Hq := fresh "Hq" in
      apply mbind_Ok in H as (a & q & Hq & H)
  | H : returning _ _ _ = Ok _ |- _ => unfold returning in H
  | H : Packet.ret _ _ = Ok _ |- _ => apply ret_Ok in H as [? ?]
  | H : Packet.this _ = Ok _ |- _ => apply this_Ok in H as [? ?]
  | H : Packet.lift _ _ = Ok _ |- _ => apply lift_Ok in H as [? ?]
  | H : Packet.set_offset _ _ = Ok _ |- _ => apply set_offset_Ok in H
  | H : Packet.advance _ _ = Ok _ |- _ => apply advance_Ok in H
  | H : Packet.throw _ _ = Ok _ |- _ => destruct (throw_Ok _ _ _ _ H)
  | H : Packet.readInt8 _ = Ok _ |- _ => rewrite readInt8_step in H; injection H as ? ?
  | H : Packet.advance_by (VNum (Fin _)) _ = Ok _ |- _ => cbn [Packet.advance_by] in H
  end.

Ltac invert_run := repeat (invert_step; subst).

(** Closes a goal stating where the cursor has come to. *)
Ltac cursor :=
  rewrite ?with_offset_twice; packet_simpl; try apply with_offset_same; try lia.

Lemma readInt16_Ok p z p1 :
  Packet.readInt16 p = Ok (z, p1) -> p1 = Packet.with_offset p (Packet.offset p + 2).
Proof. unfold Packet.readInt16. intros H. invert_run. reflexivity. Qed.

Lemma readInt32_Ok p z p1 :
  Packet.readInt32 p = Ok (z, p1) -> p1 = Packet.with_offset p (Packet.offset p + 4).
Proof. unfold Packet.readInt32. intros H. invert_run. reflexivity. Qed.

Lemma read64_Ok decoder p v p1 :
  Packet.read64 decoder p = Ok (v, p1) -> p1 = Packet.with_offset p (Packet.offset p + 8).
Proof. unfold Packet.read64. intros H. invert_run. reflexivity. Qed.

Section Window.

Variable decode : NodeBuffer.t -> value -> string.

Lemma fixed_width_readers (r : reader) (p p1 : Packet.t) (v : value) (w : Z) :
  match r with
  | ReadInt8 | ReadInt16 | ReadInt24 | ReadInt32 | ReadSInt8 | ReadSInt16 | ReadSInt32
  | ReadInt64JSNumber | ReadSInt64JSNumber | ReadInt64String | ReadSInt64String
  | ReadInt64 | ReadSInt64 | ReadFloat | ReadDouble => True
  | _ => False
  end ->
  exec decode r p = Ok (v, p1) -> consumed r p = Some w ->
  p1 = Packet.with_offset p (Packet.offset p + w) /\ 0 <= w.
Proof.
  intros Hr Hexec Hw.
  destruct r; try contradiction; cbn in Hw; injection Hw as <-;
    (split; [|lia]); cbn [exec] in Hexec.
  - invert_run. reflexivity.
  - invert_run. apply readInt16_Ok in Hq. subst. reflexivity.
  - unfold Packet.readInt24 in Hexec. invert_run.
    apply readInt16_Ok in Hq0. subst. cursor.
  - invert_run. apply readInt32_Ok in Hq. subst. reflexivity.
  - unfold Packet.readSInt8 in Hexec. invert_run. reflexivity.
  - unfold Packet.readSInt16 in Hexec. invert_run. reflexivity.
  - unfold Packet.readSInt32 in Hexec. invert_run. reflexivity.
  - eapply read64_Ok, Hexec.
  - eapply read64_Ok, Hexec.
  - eapply read64_Ok, Hexec.
  - eapply read64_Ok, Hexec.
  - eapply read64_Ok, Hexec.
  - eapply read64_Ok, Hexec.
  - unfold Packet.readFloat in Hexec. invert_run. reflexivity.
  - unfold Packet.readDouble in Hexec. invert_run. reflexivity.
Qed.


(** *** Length-coded integers *)

Lemma get_byte (b : NodeBuffer.t) (i x : Z) :
  bytes b -> NodeBuffer.get b i = Some x -> 0 <= x < 256.
Proof.
  unfold bytes, NodeBuffer.get. intros Hb Hx.
  destruct (i <? 0); [discriminate|].
  rewrite Forall_lookup in Hb. exact (Hb _ _ Hx).
Qed.

Lemma get_in_range (b : NodeBuffer.t) (i : Z) :
  0 <= i < NodeBuffer.length b -> exists x, NodeBuffer.get b i = Some x.
Proof.
  intros Hi. unfold NodeBuffer.get, NodeBuffer.length in *.
  destruct (Z.ltb_spec i 0); [lia|].
  apply lookup_lt_is_Some_2. lia.
Qed.

Lemma range_cons (b : NodeBuffer.t) (from to x : Z) :
  0 <= from < to -> NodeBuffer.get b from = Some x ->
  range b from to = x :: range b (from + 1) to.
Proof.
  intros Hft Hx. unfold range, NodeBuffer.get in *.
  destruct (Z.ltb_spec from 0); [lia|].
  rewrite (drop_S _ _ _ Hx).
  replace (Z.to_nat (to - from)) with (S (Z.to_nat (to - (from + 1)))) by lia.
  cbn [take]. do 3 f_equal. lia.
Qed.

Lemma range_empty (b : NodeBuffer.t) (from : Z) : range b from from = [].
Proof. unfold range. rewrite Z.sub_diag. reflexivity. Qed.

Lemma range_bytes (b : NodeBuffer.t) (from to : Z) : bytes b -> bytes (range b from to).
Proof.
  unfold bytes, range. intros Hb.
  apply Forall_take, Forall_drop, Hb.
Qed.

Lemma range_length (b : NodeBuffer.t) (from to : Z) :
  0 <= from <= to -> to <= NodeBuffer.length b ->
  List.length (range b from to) = Z.to_nat (to - from).
Proof.
  intros H1 H2. unfold range, NodeBuffer.length in *.
  rewrite length_take, length_drop. lia.
Qed.

Lemma range_split (b : NodeBuffer.t) (from mid to : Z) :
  0 <= from <= mid -> mid <= to ->
  range b from to = range b from mid ++ range b mid to.
Proof.
  intros H1 H2. unfold range.
  replace (Z.to_nat (to - from))
    with (Z.to_nat (mid - from) + Z.to_nat (to - mid))%nat by lia.
  rewrite <- take_take_drop, drop_drop. do 3 f_equal. lia.
Qed.

Lemma le_value_bound (bs : list Z) :
  bytes bs -> 0 <= NodeBuffer.le_value bs < 256 ^ Z.of_nat (List.length bs).
Proof.
  unfold bytes. induction 1 as [|x bs Hx _ IH].
  - cbn. lia.
  - cbn [NodeBuffer.le_value List.length]. rewrite Nat2Z.inj_succ, Z.pow_succ_r by lia.
    lia.
Qed.

Lemma le_value_app (xs ys : list Z) :
  NodeBuffer.le_value (xs ++ ys)
  = NodeBuffer.le_value xs + 256 ^ Z.of_nat (List.length xs) * NodeBuffer.le_value ys.
Proof.
  induction xs as [|x xs IH].
  - cbn. lia.
  - cbn [app NodeBuffer.le_value List.length]. rewrite IH.
    rewrite Nat2Z.inj_succ, Z.pow_succ_r by lia. lia.
Qed.


Lemma tag_width_cases (tag w : Z) :
  tag_width tag = Some w ->
  (tag < 251 /\ w = 1) \/ (tag = 251 /\ w = 1) \/ (tag = 252 /\ w = 3)
  \/ (tag = 253 /\ w = 4) \/ (tag = 254 /\ w = 9).
Proof.
  unfold tag_width.
  destruct (Z.ltb_spec tag 251); [intros [= <-]; lia|].
  destruct (Z.eqb_spec tag 251); [intros [= <-]; lia|].
  destruct (Z.eqb_spec tag 252); [intros [= <-]; lia|].
  destruct (Z.eqb_spec tag 253); [intros [= <-]; lia|].
  destruct (Z.eqb_spec tag 254); [intros [= <-]; lia|discriminate].
Qed.

(** Where [readLengthCodedNumber] leaves the cursor. *)
Lemma readLengthCodedNumber_Ok (bigNumberStrings signed : bool) (p p1 : Packet.t) (v : value) :
  Packet.readLengthCodedNumber bigNumberStrings signed p = Ok (v, p1) ->
  exists tag w,
    NodeBuffer.get (Packet.buffer p) (Packet.offset p) = Some tag
    /\ tag_width tag = Some w
    /\ p1 = Packet.with_offset p (Packet.offset p + w).
Proof.
  unfold Packet.readLengthCodedNumber. intros H. invert_run.
  destruct (NodeBuffer.get (Packet.buffer p) (Packet.offset p)) as [tag|] eqn:Htag.
  2:{ unfold Packet.readLengthCodedNumberExt in H. cbn in H. discriminate. }
  exists tag. unfold tag_width.
  destruct (Z.ltb_spec tag 251).
  { invert_run. exists 1. repeat split. }
  unfold Packet.readLengthCodedNumberExt, Packet.equals in H.
  destruct (Z.eqb_spec tag 251).
  { invert_run. exists 1. repeat split. }
  destruct (Z.eqb_spec tag 252).
  { invert_run. exists 3. repeat split. cursor. }
  destruct (Z.eqb_spec tag 253).
  { invert_run. exists 4. repeat split. cursor. }
  destruct (Z.eqb_spec tag 254); [|discriminate].
  exists 9. split; [reflexivity|]. split; [reflexivity|].
  apply mbind_Ok in H as (word0 & q0 & Hq0 & H).
  apply mbind_Ok in H as (word1 & q1 & Hq1 & H).
  apply readInt32_Ok in Hq0, Hq1. subst q0 q1.
  destruct (word1 =? 0); [invert_run; cursor|].
  destruct (word1 <? 2097152); [invert_run; cursor|].
  invert_run. cursor.
Qed.

(** What [readLengthCodedNumber] returns when the integer lies inside
    the buffer and is below 2^53: null for the NULL tag, the announced
    number otherwise. *)
Lemma readLengthCodedNumber_value (bigNumberStrings signed : bool) (p p1 : Packet.t)
    (v : value) (tag w : Z) :
  let b := Packet.buffer p in
  let offset := Packet.offset p in
  bytes b -> 0 <= offset ->
  NodeBuffer.get b offset = Some tag -> tag_width tag = Some w ->
  offset + w <= NodeBuffer.length b ->
  announced b offset tag w < 2 ^ 53 ->
  Packet.readLengthCodedNumber bigNumberStrings signed p = Ok (v, p1) ->
  0 <= announced b offset tag w
  /\ v = if tag =? 251 then VNull else VNum (Fin (announced b offset tag w)).
Proof.
  intros b offset Hb Hoff Htag Hw Hin Hsmall H.
  pose proof (get_byte _ _ _ Hb Htag) as Hbyte.
  unfold Packet.readLengthCodedNumber in H. invert_run. fold b offset in H.
  rewrite Htag in H. unfold announced in *.
  apply tag_width_cases in Hw as [[Ht ->]|[[-> ->]|[[-> ->]|[[-> ->]|[-> ->]]]]].
  - destruct (Z.ltb_spec tag 251); [|lia]. invert_run.
    destruct (Z.eqb_spec tag 251); [lia|]. split; [lia|reflexivity].
  - cbn in H. invert_run. split; [cbn; lia|reflexivity].
  - cbn [Z.ltb Z.compare Pos.compare Pos.compare_cont Z.eqb Pos.eqb] in *.
    unfold Packet.readLengthCodedNumberExt, Packet.equals in H.
    cbn [Z.eqb Pos.eqb] in H. invert_run. packet_simpl. fold b offset.
    destruct (get_in_range b (offset + 1) ltac:(lia)) as [x Hx].
    destruct (get_in_range b (offset + 1 + 1) ltac:(lia)) as [y Hy].
    pose proof (get_byte _ _ _ Hb Hx). pose proof (get_byte _ _ _ Hb Hy).
    rewrite Hx, Hy. cbn [NodeBuffer.num_of_byte]. rewrite shl_byte by lia.
    rewrite (range_cons b (offset + 1) (offset + 3) x) by (try lia; exact Hx).
    rewrite (range_cons b (offset + 1 + 1) (offset + 3) y) by (try lia; exact Hy).
    replace (offset + 1 + 1 + 1) with (offset + 3) by lia. rewrite range_empty.
    cbn [NodeBuffer.le_value]. unfold add. change (2 ^ 8) with 256.
    rewrite of_Z_exact by lia. split; [lia|]. do 2 f_equal. lia.
  - cbn [Z.ltb Z.compare Pos.compare Pos.compare_cont Z.eqb Pos.eqb] in *.
    unfold Packet.readLengthCodedNumberExt, Packet.equals in H.
    cbn [Z.eqb Pos.eqb] in H. invert_run. packet_simpl. fold b offset.
    destruct (get_in_range b (offset + 1) ltac:(lia)) as [x Hx].
    destruct (get_in_range b (offset + 1 + 1) ltac:(lia)) as [y Hy].
    destruct (get_in_range b (offset + 1 + 1 + 1) ltac:(lia)) as [z Hz].
    pose proof (get_byte _ _ _ Hb Hx). pose proof (get_byte _ _ _ Hb Hy).
    pose proof (get_byte _ _ _ Hb Hz).
    rewrite Hx, Hy, Hz. cbn [NodeBuffer.num_of_byte]. rewrite !shl_byte by lia.
    rewrite (range_cons b (offset + 1) (offset + 4) x) by (try lia; exact Hx).
    rewrite (range_cons b (offset + 1 + 1) (offset + 4) y) by (try lia; exact Hy).
    rewrite (range_cons b (offset + 1 + 1 + 1) (offset + 4) z) by (try lia; exact Hz).
    replace (offset + 1 + 1 + 1 + 1) with (offset + 4) by lia. rewrite range_empty.
    cbn [NodeBuffer.le_value]. unfold add. change (2 ^ 8) with 256.
    change (2 ^ 16) with 65536.
    rewrite of_Z_exact by lia. rewrite of_Z_exact by lia.
    split; [lia|]. do 2 f_equal. lia.
  - cbn [Z.ltb Z.compare Pos.compare Pos.compare_cont Z.eqb Pos.eqb] in *.
    unfold Packet.readLengthCodedNumberExt, Packet.equals in H.
    cbn [Z.eqb Pos.eqb] in H.
    apply mbind_Ok in H as (word0 & q0 & Hq0 & H).
    apply mbind_Ok in H as (word1 & q1 & Hq1 & H).
    rewrite readInt32_step in Hq0 by (packet_simpl; fold b offset; lia).
    injection Hq0 as <- <-.
    rewrite readInt32_step in Hq1 by (packet_simpl; fold b offset; lia).
    injection Hq1 as <- <-.
    packet_simpl. fold b offset. packet_simpl. fold b offset.
    replace (offset + 1 + 4) with (offset + 5) in * by lia.
    replace (offset + 5 + 4) with (offset + 9) in * by lia.
    rewrite (range_split b (offset + 1) (offset + 5) (offset + 9)) in * by lia.
    rewrite le_value_app in *.
    rewrite range_length in * by lia.
    replace (Z.to_nat (offset + 5 - (offset + 1))) with 4%nat in * by lia.
    change (256 ^ Z.of_nat 4) with (2 ^ 32) in *.
    pose proof (le_value_bound _ (range_bytes b (offset + 1) (offset + 5) Hb)) as H0.
    pose proof (le_value_bound _ (range_bytes b (offset + 5) (offset + 9) Hb)) as H1.
    rewrite range_length in H0, H1 by lia.
    replace (Z.to_nat (offset + 5 - (offset + 1))) with 4%nat in * by lia.
    replace (Z.to_nat (offset + 9 - (offset + 5))) with 4%nat in * by lia.
    change (256 ^ Z.of_nat 4) with (2 ^ 32) in *.
    subst b. set (b := Packet.buffer p) in *.
    set (word0 := NodeBuffer.le_value (range b (offset + 1) (offset + 5))) in *.
    set (word1 := NodeBuffer.le_value (range b (offset + 5) (offset + 9))) in *.
    clearbody word0 word1.
    change (254 =? 251) with false. cbv iota.
    split; [lia|]. revert H.
    destruct (Z.eqb_spec word1 0) as [Hz|Hz].
    { intros H. cbv beta iota in H. invert_run. do 2 f_equal. lia. }
    destruct (Z.ltb_spec word1 2097152) as [H21|H21].
    { intros H. cbv beta iota in H. invert_run.
      unfold mul, add. change 4294967296 with (2 ^ 32).
      rewrite of_Z_exact by nia. rewrite of_Z_exact by nia.
      do 2 f_equal. lia. }
    exfalso. change (2 ^ 53) with (2097152 * 2 ^ 32) in Hsmall. nia.
Qed.

Lemma announced_nonneg (b : NodeBuffer.t) (offset tag w : Z) :
  bytes b -> NodeBuffer.get b offset = Some tag -> 0 <= announced b offset tag w.
Proof.
  intros Hb Htag. pose proof (get_byte _ _ _ Hb Htag). unfold announced.
  destruct (tag <? 251); [lia|]. destruct (tag =? 251); [lia|].
  apply le_value_bound, range_bytes, Hb.
Qed.

(** *** Strings up to a zero byte *)

Lemma scan_finds (steps : nat) (b : NodeBuffer.t) (offset : Z) (i : nat) :
  0 <= offset ->
  b !! (Z.to_nat offset + i)%nat = Some 0 ->
  (forall j y, (j < i)%nat -> b !! (Z.to_nat offset + j)%nat = Some y -> y <> 0) ->
  (i < steps)%nat ->
  Packet.scan steps b offset = offset + Z.of_nat i.
Proof.
  revert offset i. induction steps as [|steps IH]; intros offset i Hoff Hzero Hbefore Hi;
    [lia|].
  cbn [Packet.scan]. unfold NodeBuffer.get.
  destruct (Z.ltb_spec offset 0); [lia|].
  destruct i as [|i].
  - rewrite Nat.add_0_r in Hzero. rewrite Hzero. cbn. lia.
  - destruct (b !! Z.to_nat offset) as [c|] eqn:Hc.
    + assert (c <> 0) by (apply (Hbefore 0%nat c); [lia|rewrite Nat.add_0_r; exact Hc]).
      destruct (Z.eqb_spec c 0); [contradiction|].
      rewrite (IH (offset + 1) i); [lia|lia| | |lia].
      * replace (Z.to_nat (offset + 1) + i)%nat with (Z.to_nat offset + S i)%nat by lia.
        exact Hzero.
      * intros j y Hj Hy. apply (Hbefore (S j) y); [lia|].
        replace (Z.to_nat offset + S j)%nat with (Z.to_nat (offset + 1) + j)%nat by lia.
        exact Hy.
    + apply lookup_ge_None in Hc. apply lookup_lt_Some in Hzero. lia.
Qed.

Lemma scan_terminated (b : NodeBuffer.t) (offset w : Z) :
  0 <= offset -> terminated (drop (Z.to_nat offset) b) = Some w ->
  Packet.scan (List.length b) b offset + 1 = offset + w.
Proof.
  intros Hoff. unfold terminated.
  destruct (list_find _ _) as [[i x]|] eqn:Hfind; [|discriminate].
  intros [= <-]. apply list_find_Some in Hfind as (Hi & -> & Hbefore).
  rewrite lookup_drop in Hi.
  rewrite (scan_finds _ b offset i); [lia|assumption|exact Hi| |].
  - intros j y Hj Hy. apply (Hbefore j y); [|exact Hj].
    rewrite lookup_drop. exact Hy.
  - apply lookup_lt_Some in Hi. lia.
Qed.

(** *** Every reader *)

(** A read that returns, of a datum that ends before the end of the
    window, moves the cursor by the length of the datum and nothing
    else. *)
Lemma exec_advances (r : reader) (p p1 : Packet.t) (v : value) (w : Z) :
  bytes (Packet.buffer p) ->
  NodeBuffer.length (Packet.buffer p) < 2 ^ 53 ->
  0 <= Packet.offset p <= Packet.end_ p ->
  Packet.end_ p <= NodeBuffer.length (Packet.buffer p) ->
  exec decode r p = Ok (v, p1) ->
  consumed r p = Some w ->
  Packet.offset p + w <= Packet.end_ p ->
  p1 = Packet.with_offset p (Packet.offset p + w) /\ 0 <= w.
Proof.
  intros Hb Hmax Hoff Hend Hexec Hw Hin.
  destruct r.
  1-13, 15-16: refine (fixed_width_readers _ p p1 v w _ Hexec Hw); exact I.
  - (* readLengthCodedNumber *)
    cbn [exec] in Hexec. apply readLengthCodedNumber_Ok in Hexec as (tag & w' & Htag & Hw' & ->).
    cbn [consumed] in Hw. rewrite Htag, Hw' in Hw. injection Hw as <-.
    split; [reflexivity|]. apply tag_width_cases in Hw'. lia.
  - (* readBuffer *)
    cbn [exec] in Hexec. unfold returning, Packet.readBuffer, Packet.or_rest in Hexec.
    destruct len as [l|]; cbn [length_argument consumed] in *; injection Hw as <-;
      unfold Packet.advance_by in Hexec; invert_run; split; try lia; cursor.
  - (* readDateTime *)
    cbn [exec] in Hexec. unfold Packet.readDateTime in Hexec.
    apply mbind_Ok in Hexec as (length & q & Hq & Hexec).
    rewrite readInt8_step in Hq. injection Hq as <- <-.
    cbn [consumed] in Hw.
    destruct (NodeBuffer.get (Packet.buffer p) (Packet.offset p)) as [l|] eqn:Hl;
      [|discriminate].
    pose proof (get_byte _ _ _ Hb Hl).
    cbn [Packet.equals] in Hexec. destruct (l =? 251).
    + injection Hw as <-. invert_run. split; [reflexivity|lia].
    + injection Hw as <-. cbn [NodeBuffer.value_of_byte Packet.advance_by] in Hexec.
      invert_run. split; [cursor|lia].
  - (* readDateTimeString *)
    cbn [exec] in Hexec. unfold Packet.readDateTimeString in Hexec.
    apply mbind_Ok in Hexec as (length & q & Hq & Hexec).
    rewrite readInt8_step in Hq. injection Hq as <- <-.
    cbn [consumed] in Hw.
    destruct (NodeBuffer.get (Packet.buffer p) (Packet.offset p)) as [l|] eqn:Hl;
      [|discriminate].
    pose proof (get_byte _ _ _ Hb Hl). injection Hw as <-.
    cbn [NodeBuffer.value_of_byte Packet.advance_by] in Hexec.
    invert_run. split; [cursor|lia].
  - (* readTimeString *)
    cbn [exec] in Hexec. unfold Packet.readTimeString in Hexec.
    apply mbind_Ok in Hexec as (length & q & Hq & Hexec).
    rewrite readInt8_step in Hq. injection Hq as <- <-.
    cbn [consumed] in Hw.
    destruct (NodeBuffer.get (Packet.buffer p) (Packet.offset p)) as [l|] eqn:Hl;
      [|discriminate].
    pose proof (get_byte _ _ _ Hb Hl). injection Hw as <-.
    cbn [NodeBuffer.value_of_byte Packet.advance_by] in Hexec.
    invert_run. split; [cursor|lia].
  - (* readLengthCodedString *)
    cbn [exec] in Hexec. unfold Packet.readLengthCodedString in Hexec.
    apply mbind_Ok in Hexec as (len & q & Hq & Hexec).
    pose proof Hq as Hq'.
    apply readLengthCodedNumber_Ok in Hq' as (tag & w' & Htag & Hw' & ->).
    cbn [consumed] in Hw. rewrite Htag, Hw' in Hw. injection Hw as <-.
    pose proof (announced_nonneg _ (Packet.offset p) tag w' Hb Htag) as Hnn.
    assert (Hw1 : 1 <= w') by (apply tag_width_cases in Hw'; lia).
    destruct (readLengthCodedNumber_value false false p _ len tag w' Hb ltac:(lia) Htag Hw'
                ltac:(lia) ltac:(lia) Hq) as [_ ->].
    unfold announced in *.
    destruct (Z.eqb_spec tag 251) as [Heq|Hne].
    + rewrite Heq in *.
      cbn [Z.ltb Z.compare Pos.compare Pos.compare_cont] in *.
      invert_run. split; [cursor|lia].
    + cbn [Packet.advance_by] in Hexec. invert_run. split; [cursor|lia].
  - (* readLengthCodedBuffer *)
    cbn [exec] in Hexec. unfold Packet.readLengthCodedBuffer in Hexec.
    apply mbind_Ok in Hexec as (len & q & Hq & Hexec).
    pose proof Hq as Hq'.
    apply readLengthCodedNumber_Ok in Hq' as (tag & w' & Htag & Hw' & ->).
    cbn [consumed] in Hw. rewrite Htag, Hw' in Hw. injection Hw as <-.
    pose proof (announced_nonneg _ (Packet.offset p) tag w' Hb Htag) as Hnn.
    assert (Hw1 : 1 <= w') by (apply tag_width_cases in Hw'; lia).
    destruct (readLengthCodedNumber_value false false p _ len tag w' Hb ltac:(lia) Htag Hw'
                ltac:(lia) ltac:(lia) Hq) as [_ ->].
    unfold announced in *.
    destruct (Z.eqb_spec tag 251) as [Heq|Hne].
    + rewrite Heq in *.
      cbn [Z.ltb Z.compare Pos.compare Pos.compare_cont] in *.
      invert_run. split; [cursor|lia].
    + unfold Packet.readBuffer, Packet.or_rest in Hexec.
      cbv beta iota in Hexec. invert_run. split; [cursor|lia].
  - (* readNullTerminatedString *)
    cbn [exec] in Hexec. unfold returning, Packet.readNullTerminatedString in Hexec.
    cbn [consumed] in Hw.
    pose proof (scan_terminated (Packet.buffer p) (Packet.offset p) w ltac:(lia) Hw)
      as Hscan.
    invert_run.
    split; [cursor|].
    assert (Packet.offset p <= Packet.scan (List.length (Packet.buffer p))
                                 (Packet.buffer p) (Packet.offset p)); [|lia].
    unfold terminated in Hw.
    destruct (list_find _ _) as [[i x]|]; [|discriminate]. injection Hw as <-. lia.
  - (* readString *)
    cbn [exec] in Hexec. unfold returning, Packet.readString, Packet.or_rest in Hexec.
    destruct len as [l|]; cbn [length_argument consumed] in *; injection Hw as <-;
      unfold Packet.advance_by in Hexec; invert_run; split; try lia; cursor.
Qed.

(** *** Sequences of reads *)

(** What a sequence of reads keeps true of a packet. *)
Lemma reads_window (p p' : Packet.t) (rs : list reader) :
  bytes (Packet.buffer p) ->
  NodeBuffer.length (Packet.buffer p) < 2 ^ 53 ->
  0 <= Packet.start p <= Packet.offset p ->
  Packet.offset p <= Packet.end_ p <= NodeBuffer.length (Packet.buffer p) ->
  reads decode p rs p' ->
  Packet.buffer p' = Packet.buffer p
  /\ Packet.start p' = Packet.start p
  /\ Packet.end_ p' = Packet.end_ p
  /\ Packet.start p <= Packet.offset p' <= Packet.end_ p.
Proof.
  intros Hb Hmax Hstart Hend Hreads. induction Hreads as [p|p p1 p2 r rs v w Hexec Hw Hin _ IH].
  - repeat split; lia.
  - destruct (exec_advances r p p1 v w Hb Hmax ltac:(lia) ltac:(lia) Hexec Hw Hin)
      as [-> Hnn].
    revert IH. packet_simpl. intros IH.
    destruct IH as (-> & -> & -> & IH); try assumption; try lia.
    repeat split; lia.
Qed.

(** C8.  Take a packet made over a window of a buffer of bytes, with
    [0 <= start], [start + 4 <= end] and [end] inside the buffer, and
    any sequence of reads that return, each of a datum that ends before
    [end].  The packet is then still over the same window and its
    cursor lies between [start] and [end]; and any further read that
    returns, of a datum that ends before [end], moves the cursor by
    exactly the number of bytes of that datum. *)
Theorem C8_cursor_stays_in_window (id : Z) (buffer : NodeBuffer.t) (start end_ : Z)
    (rs : list reader) (p' : Packet.t) :
  bytes buffer ->
  NodeBuffer.length buffer < 2 ^ 53 ->
  0 <= start ->
  start + 4 <= end_ <= NodeBuffer.length buffer ->
  reads decode (Packet.new id buffer start end_) rs p' ->
  start <= Packet.offset p' <= end_
  /\ (Packet.buffer p' = buffer /\ Packet.start p' = start /\ Packet.end_ p' = end_)
  /\ (forall r v p'' w,
        exec decode r p' = Ok (v, p'') ->
        consumed r p' = Some w ->
        Packet.offset p' + w <= end_ ->
        Packet.offset p'' = Packet.offset p' + w
        /\ start <= Packet.offset p'' <= end_).
Proof.
  intros Hb Hmax Hstart Hend Hreads.
  apply reads_window in Hreads; cbn [Packet.new Packet.buffer Packet.start Packet.offset
                                       Packet.end_] in *; try assumption; try lia.
  destruct Hreads as (Hbuf & Hs & He & Hoff).
  split; [exact Hoff|]. split; [repeat split; assumption|].
  intros r v p'' w Hexec Hw Hin.
  destruct (exec_advances r p' p'' v w) as [-> Hnn];
    rewrite ?Hbuf, ?Hs, ?He; try assumption; try lia.
  packet_simpl. lia.
Qed.

End Window.

(** Four reads on a thirteen-byte frame: a byte, a 16-bit integer, a
    length-coded integer and a null-terminated string take the cursor
    from 4 to 5, 7, 10 and 13. *)
Lemma C8_on_a_frame :
  exists p',
    reads latin1 read_frame
      [ReadInt8; ReadInt16; ReadLengthCodedNumber false false;
       ReadNullTerminatedString (VStr "utf8")] p'
    /\ Packet.offset p' = 13
    /\ 0 <= Packet.offset p' <= 13.
Proof.
  assert (Hreads : reads latin1 read_frame
            [ReadInt8; ReadInt16; ReadLengthCodedNumber false false;
             ReadNullTerminatedString (VStr "utf8")]
            (Packet.with_offset read_frame 13)).
  { eapply reads_cons;
      [vm_compute; reflexivity|vm_compute; reflexivity|vm_compute; discriminate|].
    eapply reads_cons;
      [vm_compute; reflexivity|vm_compute; reflexivity|vm_compute; discriminate|].
    eapply reads_cons;
      [vm_compute; reflexivity|vm_compute; reflexivity|vm_compute; discriminate|].
    eapply reads_cons;
      [vm_compute; reflexivity|vm_compute; reflexivity|vm_compute; discriminate|].
    apply reads_nil. }
  exists (Packet.with_offset read_frame 13).
  split; [exact Hreads|]. split; [reflexivity|].
  apply (C8_cursor_stays_in_window latin1 0
           [9; 0; 0; 0; 5; 44; 1; 252; 44; 1; 97; 98; 0] 0 13
           [ReadInt8; ReadInt16; ReadLengthCodedNumber false false;
            ReadNullTerminatedString (VStr "utf8")]
           (Packet.with_offset read_frame 13)).
  - repeat constructor; lia.
  - vm_compute. reflexivity.
  - lia.
  - vm_compute. split; discriminate.
  - exact Hreads.
Defined.

(** ** The scenarios of the specification, on the model *)

(** S1, S2, S3: the one-byte form, NULL and the three-byte form. *)
Example length_coded_scenarios :
  Packet.readLengthCodedNumber false false (Packet.new 0 [1; 0; 0; 0; 5] 0 5)
    = Ok (VNum (Fin 5), Packet.with_offset (Packet.new 0 [1; 0; 0; 0; 5] 0 5) 5)
  /\ Packet.readLengthCodedNumber false false (Packet.new 0 [1; 0; 0; 0; 251] 0 5)
    = Ok (VNull, Packet.with_offset (Packet.new 0 [1; 0; 0; 0; 251] 0 5) 5)
  /\ Packet.readLengthCodedNumber false false
       (Packet.new 0 [4; 0; 0; 0; 253; 16; 39; 0] 0 8)
    = Ok (VNum (Fin 10000),
          Packet.with_offset (Packet.new 0 [4; 0; 0; 0; 253; 16; 39; 0] 0 8) 8).
Proof. repeat split. Qed.

(** S4 at offset 0: the boundary of the exact integers. *)
Example intAscii_boundary :
  PacketParser.intAscii (bytes_of "9007199254740992") None None
    = Ok (VNum (Fin 9007199254740992))
  /\ PacketParser.intAscii (bytes_of "9007199254740993") None None
    = Ok (VStr "9007199254740993")
  /\ PacketParser.intAscii (bytes_of "90071992547409921") None None
    = Ok (VStr "90071992547409921")
  /\ PacketParser.intAscii (bytes_of "-123") None None = Ok (VNum (Fin (-123)))
  /\ PacketParser.intAscii [] None None = Ok (VNum NaN).
Proof. repeat split; vm_compute; reflexivity. Qed.

(** S5: an eleven-byte DATETIME behind its length byte. *)
Example readDateTime_scenario :
  Packet.readDateTime
    (Packet.new 0 [12; 0; 0; 0; 11; 228; 7; 1; 2; 3; 4; 5; 64; 66; 15; 0] 0 16)
  = Ok (VDate (mkDate (Fin 2020) (Fin 0) (Fin 2) (Fin 3) (Fin 4) (Fin 5) 1000000),
        Packet.with_offset
          (Packet.new 0 [12; 0; 0; 0; 11; 228; 7; 1; 2; 3; 4; 5; 64; 66; 15; 0] 0 16)
          16).
Proof. reflexivity. Qed.

(** Seventeen digits leave [parseInt] through the branch of
    [numDigits >= 15], three digits through the loop. *)
Example parseInt_exits :
  (exists p',
     Packet.parseInt latin1 (VNum (Fin 17)) true
       (Packet.new 0 ([0; 0; 0; 0] ++ bytes_of "90071992547409921") 0 21)
     = Ok ((VStr "90071992547409921", Packet.ExitDigitsGe15), p'))
  /\ (exists p',
        Packet.parseInt latin1 (VNum (Fin 3)) true
          (Packet.new 0 ([0; 0; 0; 0] ++ bytes_of "-12") 0 7)
        = Ok ((VNum (Fin (-12)), Packet.ExitLoop), p')).
Proof. split; eexists; vm_compute; reflexivity. Qed.

(* ===================================================================== *)
(** * Further properties of the codec                                     *)
(* ===================================================================== *)

(** ** Integers of a fixed width *)

Lemma bytes_at_written (k : nat) (p : Packet.t) (bs : list Z) :
  room p (Z.of_nat (List.length bs)) -> (k <= List.length bs)%nat ->
  NodeBuffer.bytes_at (Packet.buffer (written p bs)) (Packet.offset p) k
  = Ok (take k bs).
Proof.
  intros [H0 H1] Hk. rewrite bytes_at_range.
  - replace (Packet.offset p) with (Packet.offset p + Z.of_nat 0) at 1 2 by lia.
    unfold written. packet_simpl.
    rewrite range_stored by (assumption || lia). rewrite drop_0. reflexivity.
  - assumption.
  - unfold written. packet_simpl. rewrite store_length. lia.
Qed.

Lemma le_value_bytes_small (k : nat) (n : Z) :
  0 <= n < 256 ^ Z.of_nat k -> NodeBuffer.le_value (NodeBuffer.le_bytes k n) = n.
Proof. intros H. rewrite le_value_le_bytes. apply Z.mod_small. exact H. Qed.

Lemma take_all {A} (l : list A) (k : nat) : k = List.length l -> take k l = l.
Proof. intros ->. apply firstn_all. Qed.

Lemma writeInt32_step (p : Packet.t) (v : Z) :
  0 <= v <= 4294967295 -> room p 4 ->
  Packet.writeInt32 v p = Ok (tt, written p (NodeBuffer.le_bytes 4 v)).
Proof.
  intros Hv [H0 H1]. unfold Packet.writeInt32, NodeBuffer.writeUInt32LE.
  erewrite mbind_eq; [|apply write_step; cbn; lia].
  unfold written.
  change (2 ^ (8 * Z.of_nat 4)) with 4294967296. rewrite (Z.mod_small v) by lia.
  rewrite Z.add_0_r. reflexivity.
Qed.

Lemma writeInt24_step (p : Packet.t) (v : Z) :
  0 <= v < 16777216 -> room p 3 ->
  Packet.writeInt24 v p = Ok (tt, written p (NodeBuffer.le_bytes 3 v)).
Proof.
  intros Hv Hroom. unfold Packet.writeInt24.
  rewrite int32_small by lia.
  change 255 with (Z.ones 8). rewrite Z.land_ones by lia.
  rewrite Z.shiftr_div_pow2 by lia. change (2 ^ 8) with 256.
  assert (0 <= v mod 256 < 256) by (apply Z.mod_pos_bound; lia).
  assert (0 <= v / 256 < 65536)
    by (split; [apply Z.div_pos; lia|apply Z.div_lt_upper_bound; lia]).
  erewrite mbind_eq; [|apply writeInt8_step; [lia|destruct Hroom; split; lia]].
  rewrite writeInt16_step.
  - rewrite written_written by (destruct Hroom; lia). reflexivity.
  - lia.
  - apply room_written. cbn. exact Hroom.
Qed.

Lemma rewound_offset (p : Packet.t) (bs : list Z) :
  Packet.offset (rewound p bs) = Packet.offset p.
Proof. reflexivity. Qed.

Lemma rewound_buffer (p : Packet.t) (bs : list Z) :
  Packet.buffer (rewound p bs) = Packet.buffer (written p bs).
Proof. reflexivity. Qed.

Lemma rewound_forward (p : Packet.t) (bs : list Z) (k : nat) :
  k = List.length bs ->
  Packet.with_offset (rewound p bs) (Packet.offset p + Z.of_nat k) = written p bs.
Proof. intros ->. reflexivity. Qed.

(** A little-endian read of all of [bs] at the place it was written. *)
Lemma read_le_rewound (k : nat) (p : Packet.t) (bs : list Z)
    (reader : NodeBuffer.t -> Z -> Result Z) (view : Z -> Z) :
  (forall b o, reader b o = do xs <- NodeBuffer.bytes_at b o k; Ok (view (NodeBuffer.le_value xs))) ->
  room p (Z.of_nat k) -> List.length bs = k ->
  (Packet.mbind (Packet.advance (Z.of_nat k)) (fun _ =>
   Packet.mbind Packet.this (fun q =>
   Packet.lift (reader (Packet.buffer q) (Packet.offset q - Z.of_nat k))))) (rewound p bs)
  = Ok (view (NodeBuffer.le_value bs), written p bs).
Proof.
  intros Hreader Hroom Hlen.
  cbv beta iota delta [Packet.mbind Packet.advance Packet.this Packet.set_offset Packet.lift].
  unfold rewound. packet_simpl. rewrite Hreader.
  replace (Packet.offset p + Z.of_nat k - Z.of_nat k) with (Packet.offset p) by lia.
  rewrite bytes_at_written by (rewrite ?Hlen; (assumption || lia)).
  rewrite take_all by (symmetry; exact Hlen). cbn.
  rewrite <- Hlen. reflexivity.
Qed.

(** X1. Round trip of the integer writers.  An integer that fits in the
    octets of its width is written little-endian, the cursor moving by
    as many bytes; read at the same place by the reader of that width it
    comes back unchanged, and by the signed reader of that width as its
    two's complement. *)
Theorem fixed_width_round_trip (w : width) (p : Packet.t) (n : Z) :
  room p (Z.of_nat (octets w)) -> 0 <= n < 256 ^ Z.of_nat (octets w) ->
  let bs := NodeBuffer.le_bytes (octets w) n in
  writeInt w n p = Ok (tt, written p bs)
  /\ readInt w (rewound p bs) = Ok (VNum (Fin n), written p bs)
  /\ (forall readS, readSInt w = Some readS ->
        readS (rewound p bs) = Ok (twos_complement (octets w) n, written p bs)).
Proof.
  intros Hroom Hn bs.
  assert (Hlen : List.length bs = octets w) by apply le_bytes_length.
  assert (Hval : NodeBuffer.le_value bs = n) by (apply le_value_bytes_small; exact Hn).
  destruct w; cbn [octets writeInt readInt readSInt] in *.
  - (* 8 bits *)
    change (256 ^ Z.of_nat 1) with 256 in Hn.
    assert (Hbs : bs = [n]) by (subst bs; cbn; rewrite Z.mod_small by lia; reflexivity).
    repeat split.
    + rewrite Hbs. apply writeInt8_step; [lia|exact Hroom].
    + unfold returning. erewrite mbind_eq; [|apply readInt8_step].
      rewrite rewound_offset, rewound_buffer. unfold Packet.ret.
      replace (Packet.offset p) with (Packet.offset p + Z.of_nat 0) at 1 by lia.
      unfold written at 1. packet_simpl.
      rewrite get_stored by (rewrite ?Hlen; cbn; destruct Hroom; lia).
      rewrite Hbs. reflexivity.
    + intros readS [= <-]. unfold Packet.readSInt8.
      cbv beta iota delta [Packet.mbind Packet.advance Packet.this Packet.set_offset Packet.lift].
      unfold rewound. packet_simpl. unfold NodeBuffer.readInt8.
      rewrite bytes_at_written by (rewrite ?Hlen; (assumption || lia)).
      rewrite take_all by (symmetry; exact Hlen). cbn [JS.bind].
      rewrite Hval. reflexivity.
  - (* 16 bits *)
    change (256 ^ Z.of_nat 2) with 65536 in Hn.
    repeat split.
    + apply writeInt16_step; [lia|exact Hroom].
    + unfold returning, Packet.readInt16.
      erewrite mbind_eq;
        [|apply (read_le_rewound 2 p bs NodeBuffer.readUInt16LE (fun z => z));
          [reflexivity|exact Hroom|exact Hlen]].
      rewrite Hval. reflexivity.
    + intros readS [= <-]. unfold Packet.readSInt16.
      pose proof (read_le_rewound 2 p bs NodeBuffer.readInt16LE (NodeBuffer.signed 16)
                    (fun _ _ => eq_refl) Hroom Hlen) as H.
      rewrite Hval in H. exact H.
  - (* 24 bits *)
    change (256 ^ Z.of_nat 3) with 16777216 in Hn.
    repeat split.
    + apply writeInt24_step; [lia|exact Hroom].
    + unfold returning, Packet.readInt24.
      assert (Hsplit : bs = NodeBuffer.le_bytes 2 n ++ [n / 65536]).
      { subst bs. rewrite (le_bytes_app 2 1). f_equal.
        change (256 ^ Z.of_nat 2) with 65536. cbn. f_equal.
        apply Z.mod_small.
        split; [apply Z.div_pos; lia|apply Z.div_lt_upper_bound; lia]. }
      destruct Hroom as [H0 H1].
      erewrite mbind_eq.
      2:{ erewrite mbind_eq.
          2:{ rewrite readInt16_step.
              - reflexivity.
              - exact H0.
              - rewrite rewound_buffer, rewound_offset. unfold written. packet_simpl.
                rewrite store_length. lia. }
          erewrite mbind_eq; [|apply readInt8_step]. reflexivity. }
      unfold Packet.ret. packet_simpl. rewrite !rewound_offset, !rewound_buffer.
      unfold written at 1 2. packet_simpl.
      pose proof (range_stored (Packet.buffer p) (Packet.offset p) bs 0 2 H0) as Hr.
      replace (Packet.offset p + Z.of_nat 0 + Z.of_nat 2) with (Packet.offset p + 2)
        in Hr by lia.
      replace (Packet.offset p + Z.of_nat 0) with (Packet.offset p) in Hr by lia.
      rewrite Hr by (rewrite ?Hlen; cbn; lia).
      pose proof (get_stored (Packet.buffer p) (Packet.offset p) bs 2 H0) as Hg.
      replace (Packet.offset p + Z.of_nat 2) with (Packet.offset p + 2) in Hg by lia.
      rewrite Hg by (rewrite ?Hlen; cbn; lia).
      rewrite Hsplit at 1 2. rewrite drop_0.
      rewrite take_app_length' by (symmetry; apply le_bytes_length).
      rewrite lookup_app_r by (rewrite le_bytes_length; lia).
      rewrite le_bytes_length. cbn [lookup list_lookup Nat.sub].
      rewrite le_value_le_bytes. change (256 ^ Z.of_nat 2) with 65536.
      assert (0 <= n / 65536 < 256)
        by (split; [apply Z.div_pos; lia|apply Z.div_lt_upper_bound; lia]).
      rewrite shl_byte by lia. change (2 ^ 16) with 65536.
      replace (n mod 65536 + n / 65536 * 65536) with n
        by (pose proof (Z.div_mod n 65536); lia).
      do 2 f_equal. unfold rewound, written. cursor.
    + intros readS [=].
  - (* 32 bits *)
    change (256 ^ Z.of_nat 4) with 4294967296 in Hn.
    repeat split.
    + apply writeInt32_step; [lia|exact Hroom].
    + unfold returning, Packet.readInt32.
      erewrite mbind_eq;
        [|apply (read_le_rewound 4 p bs NodeBuffer.readUInt32LE (fun z => z));
          [reflexivity|exact Hroom|exact Hlen]].
      rewrite Hval. reflexivity.
    + intros readS [= <-]. unfold Packet.readSInt32.
      pose proof (read_le_rewound 4 p bs NodeBuffer.readInt32LE (NodeBuffer.signed 32)
                    (fun _ _ => eq_refl) Hroom Hlen) as H.
      rewrite Hval in H. exact H.
Qed.

(** The 16-bit value 65535 on the blank packet: two bytes FF FF, read
    back as 65535 and, signed, as -1. *)
Lemma fixed_width_round_trip_of_65535 :
  Packet.writeInt16 65535 blank = Ok (tt, written blank [255; 255])
  /\ returning Packet.readInt16 integer_value (rewound blank [255; 255])
     = Ok (VNum (Fin 65535), written blank [255; 255])
  /\ Packet.readSInt16 (rewound blank [255; 255]) = Ok (-1, written blank [255; 255]).
Proof.
  destruct (fixed_width_round_trip Int16 blank 65535) as (Hw & Hr & Hs).
  - split; vm_compute; discriminate.
  - split; vm_compute; [discriminate|reflexivity].
  - split; [exact Hw|split; [exact Hr|exact (Hs _ eq_refl)]].
Defined.

(** ** Printing exact integers *)

Lemma round53_lower (m : Z) : 2 ^ 53 <= m -> 2 ^ 53 <= round53 m.
Proof.
  intros Hm. unfold round53. cbv zeta.
  assert (Hlog : 53 <= Z.log2 m) by (apply Z.log2_le_pow2; lia).
  destruct (Z.ltb_spec (Z.log2 m) 53) as [H|_]; [lia|].
  set (sh := Z.log2 m - 52).
  assert (Hsh : 0 < sh) by (unfold sh; lia).
  set (q := Z.shiftr m sh).
  assert (Hq : 2 ^ 52 <= q).
  { unfold q. rewrite Z.shiftr_div_pow2 by lia.
    apply Z.div_le_lower_bound; [apply Z.pow_pos_nonneg; lia|].
    rewrite Z.mul_comm, <- Z.pow_add_r by lia.
    replace (52 + sh) with (Z.log2 m) by (unfold sh; lia).
    apply Z.log2_spec. lia. }
  assert (Hpow : 2 <= 2 ^ sh).
  { change 2 with (2 ^ 1) at 1. apply Z.pow_le_mono_r; lia. }
  assert (Hshift : forall x, q <= x -> 2 ^ 53 <= Z.shiftl x sh).
  { intros x Hx. rewrite Z.shiftl_mul_pow2 by lia.
    change (2 ^ 53) with (2 ^ 52 * 2). nia. }
  repeat match goal with
         | |- context [if ?c then _ else _] => destruct c
         end; apply Hshift; lia.
Qed.

Lemma reads_back_below (v c : Z) :
  0 <= c <= 2 ^ 53 -> reads_back v c = (c =? v).
Proof. intros Hc. unfold reads_back. rewrite of_Z_exact by lia. reflexivity. Qed.

Lemma reads_back_above (v c : Z) :
  0 <= v < 2 ^ 53 -> v < c -> reads_back v c = false.
Proof.
  intros Hv Hc. destruct (Z.le_gt_cases c (2 ^ 53)) as [Hle|Hgt].
  - rewrite reads_back_below by lia. apply Z.eqb_neq. lia.
  - unfold reads_back, of_Z. cbv zeta. rewrite Z.abs_eq by lia.
    pose proof (round53_lower c ltac:(lia)) as Hr.
    destruct (2 ^ 1024 <=? round53 c); [reflexivity|].
    rewrite Z.sgn_pos by lia. apply Z.eqb_neq. lia.
Qed.

Lemma shortest_from_exact (fuel : nat) (k nd v : Z) :
  0 < v < 2 ^ 53 -> shortest_from fuel k nd v = v.
Proof.
  intros Hv. revert k. induction fuel as [|fuel IH]; intros k; [reflexivity|].
  cbn [shortest_from]. cbv zeta.
  set (p := 10 ^ (nd - k)).
  assert (Hp : 0 <= p) by (apply Z.pow_nonneg; lia).
  clearbody p.
  assert (Hlo : 0 <= v / p * p <= v).
  { destruct (Z.eq_dec p 0) as [->|Hne]; [rewrite Z.mul_0_r; lia|].
    pose proof (Z.mul_div_le v p ltac:(lia)).
    pose proof (Z.div_pos v p ltac:(lia) ltac:(lia)). nia. }
  remember (v / p * p) as lo eqn:Elo.
  rewrite (reads_back_below v lo) by lia.
  assert (Hhi : lo + p = 0 \/ v < lo + p).
  { destruct (Z.eq_dec p 0) as [Hp0|Hp0].
    - left. subst lo. rewrite Hp0, Z.mul_0_r. reflexivity.
    - right. pose proof (Z.mod_pos_bound v p ltac:(lia)).
      pose proof (Z.div_mod v p Hp0). subst lo. lia. }
  assert (Hback : reads_back v (lo + p) = false).
  { destruct Hhi as [->|Hhi].
    - rewrite reads_back_below by lia. apply Z.eqb_neq. lia.
    - apply reads_back_above; lia. }
  rewrite Hback.
  destruct (Z.eqb_spec lo v) as [Heq|Hne]; [exact Heq|apply IH].
Qed.

Lemma number_toString_exact (z : Z) :
  - 2 ^ 53 < z < 2 ^ 53 -> number_toString (Fin z) = dec_signed z.
Proof.
  intros Hz. unfold number_toString, dec_signed, shortest.
  assert (Hbig : 2 ^ 53 < 10 ^ 21) by (vm_compute; reflexivity).
  destruct z as [|z|z]; [reflexivity| |].
  - destruct (Z.ltb_spec (Z.pos z) 0); [lia|].
    rewrite shortest_from_exact by lia.
    unfold render_positive.
    destruct (Z.ltb_spec (Z.pos z) (10 ^ 21)); [reflexivity|lia].
  - destruct (Z.ltb_spec (Z.neg z) 0); [|lia].
    rewrite shortest_from_exact by lia.
    unfold render_positive.
    destruct (Z.ltb_spec (- Z.neg z) (10 ^ 21)); [reflexivity|lia].
Qed.

(** ** Bytes lying in a buffer *)

Lemma lies_at_length (b : NodeBuffer.t) (o : Z) (bs : list Z) :
  lies_at b o bs -> o + Z.of_nat (List.length bs) <= NodeBuffer.length b \/ bs = [].
Proof.
  intros [Ho Hbs]. destruct bs as [|x bs]; [right; reflexivity|left].
  assert (Hlen : List.length (take (List.length (x :: bs)) (drop (Z.to_nat o) b))
                 = List.length (x :: bs)) by (rewrite Hbs; reflexivity).
  rewrite length_take, length_drop in Hlen. unfold NodeBuffer.length.
  cbn [List.length] in *. lia.
Qed.

Lemma lies_at_get (b : NodeBuffer.t) (o : Z) (bs : list Z) (i : nat) (x : Z) :
  lies_at b o bs -> bs !! i = Some x -> NodeBuffer.get b (o + Z.of_nat i) = Some x.
Proof.
  intros [Ho Hbs] Hi. unfold NodeBuffer.get.
  destruct (Z.ltb_spec (o + Z.of_nat i) 0); [lia|].
  rewrite <- Hbs in Hi.
  apply lookup_take_Some in Hi as [Hi _]. rewrite lookup_drop in Hi.
  rewrite <- Hi. f_equal. lia.
Qed.

Lemma lies_at_head (b : NodeBuffer.t) (o x : Z) (bs : list Z) :
  lies_at b o (x :: bs) -> NodeBuffer.get b o = Some x.
Proof.
  intros H. replace o with (o + Z.of_nat 0) by lia.
  eapply lies_at_get; [exact H|reflexivity].
Qed.

Lemma lies_at_app (b : NodeBuffer.t) (o : Z) (xs ys : list Z) :
  lies_at b o (xs ++ ys) ->
  lies_at b o xs /\ lies_at b (o + Z.of_nat (List.length xs)) ys.
Proof.
  intros [Ho H]. rewrite length_app in H.
  assert (H1 : take (List.length xs) (drop (Z.to_nat o) b) = xs).
  { apply (f_equal (take (List.length xs))) in H.
    rewrite take_take, take_app_length in H.
    etransitivity; [|exact H]. f_equal. lia. }
  repeat split; [exact Ho|exact H1|lia|].
  apply (f_equal (drop (List.length xs))) in H.
  rewrite drop_app_length, skipn_firstn_comm, drop_drop in H.
  etransitivity; [|exact H].
  f_equal; [lia|f_equal; lia].
Qed.

Lemma lies_at_tail (b : NodeBuffer.t) (o x : Z) (bs : list Z) :
  lies_at b o (x :: bs) -> lies_at b (o + 1) bs.
Proof. intros H. apply (lies_at_app b o [x] bs) in H as [_ H]. exact H. Qed.

Lemma lies_at_range (b : NodeBuffer.t) (o : Z) (bs : list Z) :
  lies_at b o bs -> range b o (o + Z.of_nat (List.length bs)) = bs.
Proof.
  intros [Ho H]. unfold range. etransitivity; [|exact H]. f_equal. lia.
Qed.

Lemma lies_at_written (p : Packet.t) (bs : list Z) :
  room p (Z.of_nat (List.length bs)) ->
  lies_at (Packet.buffer (written p bs)) (Packet.offset p) bs.
Proof.
  intros [H0 H1]. split; [exact H0|].
  pose proof (range_stored (Packet.buffer p) (Packet.offset p) bs 0 (List.length bs) H0 H1)
    as Hr.
  unfold range in Hr. rewrite drop_0, firstn_all in Hr.
  unfold written. packet_simpl. etransitivity; [|apply Hr; lia].
  f_equal; [lia|f_equal; lia].
Qed.

(** ** Integers in ASCII *)

Lemma bytes_of_length (s : string) : List.length (bytes_of s) = String.length s.
Proof.
  unfold bytes_of. rewrite length_map. induction s as [|c s IH]; [reflexivity|].
  cbn. rewrite IH. reflexivity.
Qed.

Lemma digit_step (acc c : Z) :
  0 <= acc -> 10 * acc + 10 <= 2 ^ 53 -> 0 <= c - 48 <= 9 ->
  add (mul (Fin acc) (Fin 10)) (sub (Fin c) (Fin 48)) = Fin (10 * acc + (c - 48)).
Proof.
  intros Hacc Hbound Hc.
  assert (H1 : mul (Fin acc) (Fin 10) = Fin (acc * 10))
    by (unfold mul; apply of_Z_exact; lia).
  assert (H2 : sub (Fin c) (Fin 48) = Fin (c - 48))
    by (unfold sub, neg, add; rewrite of_Z_exact by lia; f_equal; lia).
  rewrite H1, H2. unfold add. rewrite of_Z_exact by lia. f_equal. lia.
Qed.

Lemma accumulate_digits (s : string) (b : NodeBuffer.t) (o acc : Z) :
  lies_at b o (bytes_of s) -> all_digits s = true ->
  0 <= acc -> (acc + 1) * 10 ^ Z.of_nat (String.length s) <= 2 ^ 53 ->
  PacketParser.accumulate (String.length s) b o (Fin acc) = Fin (digits_value s acc).
Proof.
  revert o acc. induction s as [|c s IH]; intros o acc Hlies Hdigits Hacc Hbound;
    [reflexivity|].
  cbn [String.length PacketParser.accumulate digits_value all_digits] in *.
  apply andb_true_iff in Hdigits as [Hc Hs].
  apply is_digit_range in Hc.
  rewrite (lies_at_head b o (code c) (bytes_of s) Hlies).
  cbn [NodeBuffer.num_of_byte].
  rewrite Nat2Z.inj_succ, Z.pow_succ_r in Hbound by lia.
  assert (Hpow : 1 <= 10 ^ Z.of_nat (String.length s))
    by (pose proof (Z.pow_pos_nonneg 10 (Z.of_nat (String.length s))); lia).
  rewrite digit_step by nia.
  apply IH.
  - apply (lies_at_tail b o (code c)). exact Hlies.
  - exact Hs.
  - lia.
  - nia.
Qed.

Lemma digits_accumulate (steps : nat) (r : number) (p : Packet.t) :
  Packet.digits steps r p
  = Ok (PacketParser.accumulate steps (Packet.buffer p) (Packet.offset p) r,
        Packet.with_offset p (Packet.offset p + Z.of_nat steps)).
Proof.
  revert r p. induction steps as [|steps IH]; intros r p.
  - replace (Packet.offset p + Z.of_nat 0) with (Packet.offset p) by lia.
    destruct p; reflexivity.
  - cbn [Packet.digits PacketParser.accumulate].
    cbv beta iota delta [Packet.mbind Packet.this Packet.advance Packet.set_offset].
    rewrite IH. packet_simpl. do 2 f_equal. apply with_offset_same. lia.
Qed.

Lemma ascii_chars_text (s : string) :
  Forall (fun x => 0 <= x < 128) (bytes_of s) ->
  NodeBuffer.ascii_chars (bytes_of s) = s.
Proof.
  unfold NodeBuffer.ascii_chars, bytes_of. induction s as [|c s IH]; intros H;
    [reflexivity|].
  cbn in *. inversion H as [|x l Hc Hs]; subst.
  f_equal.
  - fold (code c) in *. unfold char. change 127 with (Z.ones 7).
    rewrite Z.land_ones by lia. change (2 ^ 7) with 128.
    rewrite (Z.mod_small (code c) 128), (Z.mod_small (code c) 256) by lia.
    unfold code. rewrite N2Z.id. apply ascii_N_embedding.
  - apply (f_equal list_ascii_of_string) in IH; [|exact Hs].
    rewrite list_ascii_of_string_of_list_ascii in IH.
    rewrite IH. rewrite string_of_list_ascii_of_string. reflexivity.
Qed.

Lemma toString_ascii_lies (b : NodeBuffer.t) (o : Z) (s : string) :
  lies_at b o (bytes_of s) -> s <> EmptyString ->
  Forall (fun x => 0 <= x < 128) (bytes_of s) ->
  NodeBuffer.toString_ascii b o (o + Z.of_nat (String.length s)) = s.
Proof.
  intros Hlies Hne Hascii.
  pose proof (lies_at_length _ _ _ Hlies) as [Hlen|Hnil].
  2:{ destruct s; [contradiction|discriminate]. }
  rewrite bytes_of_length in Hlen.
  assert (0 < Z.of_nat (String.length s)) by (destruct s; [contradiction|cbn; lia]).
  destruct Hlies as [Ho Hbs]. rewrite bytes_of_length in Hbs.
  unfold NodeBuffer.toString_ascii. cbv zeta.
  destruct (Z.leb_spec (NodeBuffer.length b) o); [lia|].
  destruct (Z.ltb_spec (NodeBuffer.length b) (o + Z.of_nat (String.length s))); [lia|].
  rewrite Z.max_l by lia.
  destruct (Z.leb_spec (o + Z.of_nat (String.length s)) o); [lia|].
  replace (Z.to_nat (o + Z.of_nat (String.length s) - o)) with (String.length s) by lia.
  rewrite Hbs. apply ascii_chars_text. exact Hascii.
Qed.

Lemma first_digit (ds : string) :
  all_digits ds = true -> (1 <= String.length ds)%nat ->
  exists c ds', ds = String c ds' /\ 48 <= code c <= 57.
Proof.
  intros Hd Hlen. destruct ds as [|c ds']; [cbn in Hlen; lia|].
  exists c, ds'. split; [reflexivity|].
  cbn in Hd. apply andb_true_iff in Hd as [Hc _].
  apply is_digit_range in Hc. lia.
Qed.

Lemma digits_are_ascii (ds : string) :
  all_digits ds = true -> Forall (fun x => 0 <= x < 128) (bytes_of ds).
Proof.
  induction ds as [|c ds IH]; intros H; [constructor|].
  cbn in H. apply andb_true_iff in H as [Hc Hs].
  apply is_digit_range in Hc. constructor; [lia|apply IH; exact Hs].
Qed.

Lemma integer_text_ascii (negative : bool) (ds : string) :
  all_digits ds = true ->
  Forall (fun x => 0 <= x < 128) (bytes_of (integer_text negative ds)).
Proof.
  intros H. destruct negative; cbn.
  - constructor; [vm_compute; split; [discriminate|reflexivity]|apply digits_are_ascii; exact H].
  - apply digits_are_ascii; exact H.
Qed.

(** [Number(s)] on the text of an integer. *)
Lemma string_to_number_integer (negative : bool) (ds : string) :
  all_digits ds = true -> (1 <= String.length ds)%nat ->
  string_to_number (integer_text negative ds)
  = Ok (of_Z (integer_of negative ds)).
Proof.
  intros Hd Hlen. destruct (first_digit ds Hd Hlen) as (c & ds' & -> & Hc).
  unfold integer_of. destruct negative; cbn [integer_text].
  - unfold string_to_number, split_sign.
    change (code "-" =? 45) with true. cbv beta iota. rewrite Hd. reflexivity.
  - unfold string_to_number, split_sign.
    destruct (Z.eqb_spec (code c) 45); [lia|].
    destruct (Z.eqb_spec (code c) 43); [lia|].
    rewrite Hd. reflexivity.
Qed.

(** The sign and digit scan that the four parsers share, on the text of
    an integer of at most fifteen digits. *)
Lemma scan_integer (negative : bool) (ds : string) (b : NodeBuffer.t) (o : Z) :
  all_digits ds = true -> (1 <= String.length ds <= 15)%nat ->
  lies_at b o (bytes_of (integer_text negative ds)) ->
  let o1 := if negative then o + 1 else o in
  (exists c, NodeBuffer.get b o = Some c /\ (c =? 45) = negative)
  /\ (exists d, NodeBuffer.get b o1 = Some d /\ 48 <= d <= 57)
  /\ PacketParser.accumulate (String.length ds) b o1 (Fin 0) = Fin (digits_value ds 0)
  /\ 0 <= digits_value ds 0 < 10 ^ 15
  /\ Z.of_nat (String.length (integer_text negative ds))
     = o1 - o + Z.of_nat (String.length ds).
Proof.
  intros Hd Hlen Hlies o1.
  destruct (first_digit ds Hd ltac:(lia)) as (c & ds' & Hds & Hc).
  assert (Hpow : 10 ^ Z.of_nat (String.length ds) <= 10 ^ 15)
    by (apply Z.pow_le_mono_r; lia).
  assert (Hval : 0 <= digits_value ds 0 < 10 ^ 15).
  { pose proof (digits_value_bound ds 0 Hd ltac:(lia)). lia. }
  assert (Hlies1 : lies_at b o1 (bytes_of ds)).
  { destruct negative; cbn [integer_text] in Hlies; subst o1.
    - apply (lies_at_tail b o (code "-")). exact Hlies.
    - exact Hlies. }
  assert (Hfirst : NodeBuffer.get b o1 = Some (code c)).
  { rewrite Hds in Hlies1. apply (lies_at_head b o1 (code c) (bytes_of ds')). exact Hlies1. }
  repeat split.
  - destruct negative; cbn [integer_text] in Hlies; subst o1.
    + exists 45. split; [|reflexivity].
      apply (lies_at_head b o 45 (bytes_of ds)). exact Hlies.
    + exists (code c). split; [exact Hfirst|]. apply Z.eqb_neq. lia.
  - exists (code c). split; [exact Hfirst|lia].
  - apply accumulate_digits; [exact Hlies1|exact Hd|lia|].
    change (2 ^ 53) with 9007199254740992. change (10 ^ 15) with 1000000000000000 in Hpow.
    lia.
  - lia.
  - lia.
  - destruct negative; subst o1; cbn [integer_text String.length]; lia.
Qed.

Ltac finish_integer :=
  match goal with
  | |- Ok (_, Packet.with_offset _ ?x) = Ok (_, Packet.with_offset _ ?y) =>
      replace x with y by lia
  end;
  repeat (f_equal; []); lia.

Section AsciiIntegers.

Variable decode : NodeBuffer.t -> value -> string.

(** X2. The four parsers of integers in ASCII agree and are exact up to
    fifteen digits.  On a text made of an optional [-] and one to
    fifteen decimal digits, found at the cursor, [intAsciiSmall],
    [intAscii], [parseIntNoBigCheck] and [parseInt] without big-number
    support all return the integer it denotes; the two methods of
    [Packet] leave the cursor behind the text. *)
Theorem ascii_integers_exact (negative : bool) (ds : string) (p : Packet.t) :
  let text := integer_text negative ds in
  let len := Z.of_nat (String.length text) in
  let n := VNum (Fin (integer_of negative ds)) in
  all_digits ds = true -> (1 <= String.length ds <= 15)%nat ->
  lies_at (Packet.buffer p) (Packet.offset p) (bytes_of text) ->
  NodeBuffer.length (Packet.buffer p) < 2 ^ 53 ->
  PacketParser.intAsciiSmall (Packet.buffer p) (Some (Packet.offset p)) (Some len) = n
  /\ PacketParser.intAscii (Packet.buffer p) (Some (Packet.offset p)) (Some len) = Ok n
  /\ Packet.parseIntNoBigCheck (VNum (Fin len)) p
     = Ok (n, Packet.with_offset p (Packet.offset p + len))
  /\ exists how,
       Packet.parseInt decode (VNum (Fin len)) false p
       = Ok ((n, how), Packet.with_offset p (Packet.offset p + len)).
Proof.
  intros text len n Hd Hlen Hlies Hshort.
  destruct (scan_integer negative ds _ _ Hd Hlen Hlies)
    as ((c & Hc & Hneg) & (d & Hd1 & Hdrange) & Hacc & Hval & Htext).
  fold text in Htext. fold len in Htext.
  set (b := Packet.buffer p) in *. set (o := Packet.offset p) in *.
  set (o1 := if negative then o + 1 else o) in *.
  assert (Hlen0 : 0 < len) by (destruct negative; subst o1; lia).
  assert (Hsteps : Z.to_nat (o + len - o1) = String.length ds) by lia.
  assert (Hsigned : (if negative then neg (Fin (digits_value ds 0)) else Fin (digits_value ds 0))
                    = Fin (integer_of negative ds)).
  { unfold integer_of. destruct negative; cbn [neg]; f_equal; lia. }
  assert (Hplus : (d =? 43) = false) by (apply Z.eqb_neq; lia).
  assert (Hbig : 10 ^ 15 < 2 ^ 53) by (vm_compute; reflexivity).
  assert (Hend : o + len <= NodeBuffer.length b).
  { destruct (lies_at_length _ _ _ Hlies) as [H|H].
    - rewrite bytes_of_length in H. exact H.
    - apply (f_equal (@List.length Z)) in H. rewrite bytes_of_length in H.
      fold text in H. cbn in H. lia. }
  assert (Ho : 0 <= o) by (destruct Hlies; assumption).
  split; [|split; [|split]].
  - (* intAsciiSmall *)
    unfold PacketParser.intAsciiSmall, PacketParser.arguments. cbv zeta.
    destruct (Z.eqb_spec len 0); [lia|].
    fold b o. rewrite Hc. unfold PacketParser.minus, PacketParser.plus. rewrite Hneg.
    fold o1. rewrite Hd1, Hplus, Hsteps, Hacc. unfold n. f_equal. exact Hsigned.
  - (* intAscii *)
    unfold PacketParser.intAscii, PacketParser.arguments. cbv zeta.
    destruct (Z.eqb_spec len 0); [lia|].
    fold b o. rewrite Hc. unfold PacketParser.minus, PacketParser.plus. rewrite Hneg.
    fold o1. rewrite Hd1, Hplus.
    assert (Hnum : (if negative then len - 1 else len) = Z.of_nat (String.length ds))
      by (destruct negative; subst o1; lia).
    rewrite Hnum.
    destruct (Z.ltb_spec 16 (Z.of_nat (String.length ds))); [lia|].
    destruct (Z.eqb_spec (Z.of_nat (String.length ds)) 16); [lia|].
    cbn [andb]. rewrite Hsteps, Hacc. unfold n. do 2 f_equal. exact Hsigned.
  - (* parseIntNoBigCheck *)
    unfold Packet.parseIntNoBigCheck.
    cbv beta iota delta [Packet.mbind Packet.this Packet.lift Packet.ret Packet.next_is
      Packet.iterations Packet.advance Packet.set_offset Packet.peekByte
      plus to_number add strict_eq num_eqb].
    fold b o. rewrite of_Z_exact by lia. cbv beta iota.
    destruct (Z.eqb_spec len 0); [lia|].
    fold b o. rewrite Hc. cbn [Packet.equals].
    unfold PacketParser.minus, PacketParser.plus. rewrite Hneg.
    destruct negative; cbv beta iota; packet_simpl; fold b o; subst o1;
      rewrite Hd1; cbn [Packet.equals]; rewrite Hplus; cbv beta iota; packet_simpl;
      rewrite digits_accumulate; packet_simpl; fold b o;
      rewrite Hsteps, Hacc; unfold mul; rewrite of_Z_exact by lia;
      unfold n, integer_of;
      finish_integer.
  - (* parseInt *)
    unfold Packet.parseInt.
    cbv beta iota delta [Packet.mbind Packet.this Packet.lift Packet.ret Packet.next_is
      Packet.iterations Packet.advance Packet.set_offset Packet.peekByte Packet.advance_by
      plus to_number add strict_eq num_eqb ge le lt negb andb Packet.toString_ascii_to].
    destruct (Z.ltb_spec len 14) as [Hfew|Hmany]; cbv beta iota;
      fold b o; rewrite of_Z_exact by lia; cbv beta iota.
    + destruct (Z.eqb_spec len 0); [lia|].
      fold b o. rewrite Hc. cbn [Packet.equals].
      unfold PacketParser.minus, PacketParser.plus. rewrite Hneg.
      exists Packet.ExitLoop.
      destruct negative; cbv beta iota; packet_simpl; fold b o; subst o1;
        rewrite Hd1; cbn [Packet.equals]; rewrite Hplus; cbv beta iota; packet_simpl;
        rewrite digits_accumulate; packet_simpl; fold b o;
        rewrite Hsteps, Hacc; unfold mul; rewrite of_Z_exact by lia;
        unfold n, integer_of;
        finish_integer.
    + exists Packet.ExitNumber. fold b o.
      unfold len at 1. rewrite toString_ascii_lies;
        [|exact Hlies|destruct negative; [discriminate|]|apply integer_text_ascii; exact Hd].
      * unfold text. rewrite string_to_number_integer by (assumption || lia).
        rewrite of_Z_exact by (unfold integer_of; destruct negative; lia).
        reflexivity.
      * destruct ds; [cbn in Hlen; lia|discriminate].
Qed.

End AsciiIntegers.

(** The text [-123] behind a packet header. *)
Lemma ascii_integers_exact_on_minus_123 :
  PacketParser.intAsciiSmall (Packet.buffer minus_123) (Some 4) (Some 4) = VNum (Fin (-123))
  /\ PacketParser.intAscii (Packet.buffer minus_123) (Some 4) (Some 4)
     = Ok (VNum (Fin (-123)))
  /\ Packet.parseIntNoBigCheck (VNum (Fin 4)) minus_123
     = Ok (VNum (Fin (-123)), Packet.with_offset minus_123 8)
  /\ exists how,
       Packet.parseInt latin1 (VNum (Fin 4)) false minus_123
       = Ok ((VNum (Fin (-123)), how), Packet.with_offset minus_123 8).
Proof.
  apply (ascii_integers_exact latin1 true "123" minus_123).
  - reflexivity.
  - cbn. lia.
  - split; [vm_compute; discriminate|reflexivity].
  - vm_compute. reflexivity.
Defined.

Section EmptyAndBig.

Variable decode : NodeBuffer.t -> value -> string.

(** An empty text and a NULL length.  On a text of no bytes the two
    decoders of [PacketParser] answer NaN, whereas the two methods of
    [Packet] answer 0; on a NULL length both methods answer [null].  In
    each case the packet is left as it was. *)
Remark empty_integer_text (b : NodeBuffer.t) (o : Z) (p : Packet.t)
    (supportBigNumbers : bool) :
  PacketParser.intAscii b (Some o) (Some 0) = Ok (VNum NaN)
  /\ PacketParser.intAsciiSmall b (Some o) (Some 0) = VNum NaN
  /\ PacketParser.intAscii [] None None = Ok (VNum NaN)
  /\ PacketParser.intAsciiSmall [] None None = VNum NaN
  /\ Packet.parseInt decode (VNum (Fin 0)) supportBigNumbers p
     = Ok ((VNum (Fin 0), Packet.ExitEmpty), p)
  /\ Packet.parseIntNoBigCheck (VNum (Fin 0)) p = Ok (VNum (Fin 0), p)
  /\ Packet.parseInt decode VNull supportBigNumbers p = Ok ((VNull, Packet.ExitNull), p)
  /\ Packet.parseIntNoBigCheck VNull p = Ok (VNull, p).
Proof.
  repeat split.
Qed.

(** X4. With big-number support [parseInt] answers a number only for a
    canonical text.  On an optional [-] and one to fourteen digits it
    returns the integer when the text is exactly the decimal rendering
    of that integer, and the text itself otherwise, as for leading
    zeros or [-0]; the cursor ends behind the text. *)
Theorem parseInt_big_numbers (negative : bool) (ds : string) (p : Packet.t) :
  let text := integer_text negative ds in
  let len := Z.of_nat (String.length text) in
  let n := integer_of negative ds in
  all_digits ds = true -> (1 <= String.length ds <= 14)%nat ->
  lies_at (Packet.buffer p) (Packet.offset p) (bytes_of text) ->
  NodeBuffer.length (Packet.buffer p) < 2 ^ 53 ->
  Packet.parseInt decode (VNum (Fin len)) true p
  = Ok ((if String.eqb (dec_signed n) text then VNum (Fin n) else VStr text,
         Packet.ExitLoop),
        Packet.with_offset p (Packet.offset p + len)).
Proof.
  intros text len n Hd Hlen Hlies Hshort.
  destruct (scan_integer negative ds _ _ Hd ltac:(lia) Hlies)
    as ((c & Hc & Hneg) & (d & Hd1 & Hdrange) & Hacc & Hval & Htext).
  fold text in Htext. fold len in Htext.
  set (b := Packet.buffer p) in *. set (o := Packet.offset p) in *.
  set (o1 := if negative then o + 1 else o) in *.
  assert (Hlen0 : 0 < len) by (destruct negative; subst o1; lia).
  assert (Hsteps : Z.to_nat (o + len - o1) = String.length ds) by lia.
  assert (Hplus : (d =? 43) = false) by (apply Z.eqb_neq; lia).
  assert (Hbig : 10 ^ 15 < 2 ^ 53) by (vm_compute; reflexivity).
  assert (Hend : o + len <= NodeBuffer.length b).
  { destruct (lies_at_length _ _ _ Hlies) as [H|H].
    - rewrite bytes_of_length in H. exact H.
    - apply (f_equal (@List.length Z)) in H. rewrite bytes_of_length in H.
      fold text in H. cbn in H. lia. }
  assert (Ho : 0 <= o) by (destruct Hlies; assumption).
  assert (Hstr : NodeBuffer.toString_ascii b o (o + len) = text).
  { unfold len. apply toString_ascii_lies; [exact Hlies| |apply integer_text_ascii; exact Hd].
    unfold text. destruct negative; [discriminate|].
    destruct ds; [cbn in Hlen; lia|discriminate]. }
  unfold Packet.parseInt.
  cbv beta iota delta [Packet.mbind Packet.this Packet.lift Packet.ret Packet.next_is
    Packet.iterations Packet.advance Packet.set_offset Packet.peekByte Packet.advance_by
    plus to_number add sub neg strict_eq num_eqb ge gt le lt negb andb
    Packet.toString_ascii_to].
  destruct (len <? 14); cbv beta iota.
  all: fold b o; rewrite of_Z_exact by lia; cbv beta iota.
  all: destruct (Z.eqb_spec len 0); [lia|].
  all: fold b o; rewrite Hc; cbn [Packet.equals];
    unfold PacketParser.minus, PacketParser.plus; rewrite Hneg.
  all: destruct negative; cbv beta iota; packet_simpl; fold b o; subst o1;
    rewrite (of_Z_exact (o + len + - _)) by lia; cbv beta iota;
    (match goal with
     | |- context [?x <? 15] => destruct (Z.ltb_spec x 15); [|lia]
     end);
    (match goal with
     | |- context [16 <? ?x] => destruct (Z.ltb_spec 16 x); [lia|]
     end);
    cbv beta iota; packet_simpl; fold b o;
    rewrite Hd1; cbn [Packet.equals]; rewrite Hplus; cbv beta iota; packet_simpl;
    rewrite digits_accumulate; packet_simpl; fold b o;
    rewrite Hsteps, Hacc; unfold mul; rewrite of_Z_exact by lia;
    rewrite Hstr; rewrite number_toString_exact by lia;
    unfold n, integer_of.
  all: rewrite ?(Z.mul_comm (digits_value ds 0));
    destruct (String.eqb _ _); cbv beta;
    (match goal with
     | |- Ok (_, Packet.with_offset _ ?x) = Ok (_, Packet.with_offset _ ?y) =>
         replace x with y by lia
     end); reflexivity.
Qed.

End EmptyAndBig.

(** The zero-filled [007] comes back as a string. *)
Lemma parseInt_big_numbers_on_007 :
  Packet.parseInt latin1 (VNum (Fin 3)) true zero_filled
  = Ok ((VStr "007", Packet.ExitLoop), Packet.with_offset zero_filled 7).
Proof.
  apply (parseInt_big_numbers latin1 false "007" zero_filled).
  - reflexivity.
  - cbn. lia.
  - split; [vm_compute; discriminate|reflexivity].
  - vm_compute. reflexivity.
Defined.

(** ** Integers of 64 bits *)

Lemma of_Z_shifted (a : Z) : - 2 ^ 53 < a < 2 ^ 53 -> of_Z (a * 2 ^ 32) = Fin (a * 2 ^ 32).
Proof.
  intros Ha. unfold of_Z. cbv zeta.
  rewrite Z.abs_mul, (Z.abs_eq (2 ^ 32)) by lia.
  rewrite round53_shifted by lia.
  destruct (Z.leb_spec (2 ^ 1024) (Z.abs a * 2 ^ 32)) as [H|H].
  - assert (2 ^ 53 * 2 ^ 32 < 2 ^ 1024) by (vm_compute; reflexivity). nia.
  - f_equal. rewrite Z.sgn_mul, (Z.sgn_pos (2 ^ 32)) by lia.
    rewrite Z.mul_1_r. destruct a as [|a|a]; cbn [Z.sgn Z.abs]; lia.
Qed.

Lemma int32_signed (w : Z) : 0 <= w < 2 ^ 32 -> int32 (NodeBuffer.signed 32 w) = w - (if w <? 2 ^ 31 then 0 else 2 ^ 32).
Proof.
  intros Hw. unfold NodeBuffer.signed. change (2 ^ (32 - 1)) with (2 ^ 31).
  destruct (Z.ltb_spec w (2 ^ 31)); rewrite int32_small by lia; lia.
Qed.

Lemma uint32_int32 (w : Z) : uint32 (int32 w) = w mod 2 ^ 32.
Proof. apply int32_mod. Qed.

Lemma sign_bit (w : Z) :
  0 <= w < 2 ^ 32 ->
  (Z.land (NodeBuffer.signed 32 w) 2147483648 =? 0) = (w <? 2 ^ 31).
Proof.
  intros Hw. change 2147483648 with (2 ^ 31).
  pose proof (land_pow2_testbit (NodeBuffer.signed 32 w) 31 ltac:(lia)) as H.
  apply (f_equal negb) in H. rewrite negb_involutive in H. rewrite H.
  unfold NodeBuffer.signed. change (2 ^ (32 - 1)) with (2 ^ 31).
  destruct (Z.ltb_spec w (2 ^ 31)) as [Hlt|Hge].
  - rewrite (proj2 (Z.testbit_false w 31 ltac:(lia))); [reflexivity|].
    rewrite Z.div_small by lia. reflexivity.
  - rewrite (proj2 (Z.testbit_true (w - 2 ^ 32) 31 ltac:(lia))); [reflexivity|].
    replace (w - 2 ^ 32) with (w - 2 ^ 31 + (-1) * 2 ^ 31) by lia.
    rewrite Z.div_add by lia. rewrite Z.div_small by lia. reflexivity.
Qed.

(** The two words of an integer of 64 bits lying in a buffer. *)
Lemma read_words (b : NodeBuffer.t) (o v : Z) :
  lies_at b o (NodeBuffer.le_bytes 8 v) -> 0 <= v < 2 ^ 64 ->
  NodeBuffer.readInt32LE b o = Ok (NodeBuffer.signed 32 (v mod 2 ^ 32))
  /\ NodeBuffer.readInt32LE b (4 + o) = Ok (NodeBuffer.signed 32 (v / 2 ^ 32)).
Proof.
  intros Hlies Hv.
  assert (Hlen : o + 8 <= NodeBuffer.length b).
  { destruct (lies_at_length _ _ _ Hlies) as [H|H]; [|discriminate].
    rewrite le_bytes_length in H. lia. }
  rewrite le_bytes_8 in Hlies. apply lies_at_app in Hlies as [H0 H1].
  rewrite le_bytes_length in H1.
  assert (Ho : 0 <= o) by (destruct H0; assumption).
  assert (Hlo : 0 <= v mod 2 ^ 32 < 2 ^ 32) by (apply Z.mod_pos_bound; lia).
  assert (Hhi : 0 <= v / 2 ^ 32 < 2 ^ 32).
  { split; [apply Z.div_pos; lia|apply Z.div_lt_upper_bound; lia]. }
  apply lies_at_range in H0, H1. rewrite le_bytes_length in H0, H1.
  unfold NodeBuffer.readInt32LE. split.
  - rewrite bytes_at_range by lia. cbn [JS.bind].
    replace (o + Z.of_nat 4) with (o + Z.of_nat 4) by lia. rewrite H0.
    rewrite le_value_bytes_small by (cbn; lia). reflexivity.
  - rewrite bytes_at_range by lia. cbn [JS.bind].
    replace (4 + o) with (o + Z.of_nat 4) by lia. rewrite H1.
    rewrite le_value_bytes_small by (cbn; lia). reflexivity.
Qed.

Lemma int32_of_signed (w : Z) :
  0 <= w < 2 ^ 32 -> int32 (NodeBuffer.signed 32 w) = int32 w.
Proof.
  intros Hw. rewrite int32_signed by lia. unfold int32.
  destruct (Z.ltb_spec w (2 ^ 31)).
  - rewrite !Z.mod_small by lia. lia.
  - replace (w + 2 ^ 31) with (w - 2 ^ 31 + 1 * 2 ^ 32) by lia.
    rewrite Z.mod_add by lia. rewrite Z.mod_small by lia. lia.
Qed.

Lemma make_signed (w0 w1 : Z) (u : bool) :
  0 <= w0 < 2 ^ 32 -> 0 <= w1 < 2 ^ 32 ->
  Long.make (NodeBuffer.signed 32 w0) (NodeBuffer.signed 32 w1) u = Long.make w0 w1 u.
Proof.
  intros H0 H1. unfold Long.make.
  rewrite (int32_of_signed w0), (int32_of_signed w1) by lia. reflexivity.
Qed.

Lemma read64_step (decoder : NodeBuffer.t -> option Z -> Result value) (p : Packet.t) :
  Packet.read64 decoder p
  = match decoder (Packet.buffer p) (Some (Packet.offset p)) with
    | Ok v => Ok (v, Packet.with_offset p (Packet.offset p + 8))
    | Throw e => Throw e
    end.
Proof.
  unfold Packet.read64.
  cbv beta iota delta [Packet.mbind Packet.advance Packet.this Packet.set_offset Packet.lift].
  packet_simpl. replace (Packet.offset p + 8 - 8) with (Packet.offset p) by lia.
  reflexivity.
Qed.

Lemma invoke_long_toNumber (l : long) :
  invoke (VLong l) "toNumber" = Ok (VNum (Long.toNumber l)).
Proof. reflexivity. Qed.

Lemma invoke_long_toString (l : long) :
  invoke (VLong l) "toString" = Ok (VStr (Long.toString l)).
Proof. reflexivity. Qed.

Lemma words_of (v : Z) :
  0 <= v < 2 ^ 64 ->
  0 <= v mod 2 ^ 32 < 2 ^ 32 /\ 0 <= v / 2 ^ 32 < 2 ^ 32
  /\ v = v / 2 ^ 32 * 2 ^ 32 + v mod 2 ^ 32.
Proof.
  intros Hv. repeat split.
  - apply Z.mod_pos_bound; lia.
  - apply Z.mod_pos_bound; lia.
  - apply Z.div_pos; lia.
  - apply Z.div_lt_upper_bound; lia.
  - pose proof (Z.div_mod v (2 ^ 32)). lia.
Qed.

(** X5. The unsigned readers of 64 bits.  On the eight little-endian
    bytes of [v], [readInt64String] returns the decimal digits of [v],
    for every [v] below 2^64, and [readInt64JSNumber] returns the
    double nearest to [v], which is [v] itself up to 2^53; both move
    the cursor by eight. *)
Theorem unsigned_64_bit_readers (p : Packet.t) (v : Z) :
  lies_at (Packet.buffer p) (Packet.offset p) (NodeBuffer.le_bytes 8 v) ->
  0 <= v < 2 ^ 64 ->
  let p' := Packet.with_offset p (Packet.offset p + 8) in
  Packet.readInt64String p = Ok (VStr (dec v), p')
  /\ Packet.readInt64JSNumber p = Ok (VNum (of_Z v), p')
  /\ (v <= 2 ^ 53 -> Packet.readInt64JSNumber p = Ok (VNum (Fin v), p')).
Proof.
  intros Hlies Hv p'.
  destruct (read_words _ _ _ Hlies Hv) as [H0 H1].
  destruct (words_of v Hv) as (Hlo & Hhi & Hsplit).
  destruct (toNumber_unsigned (v mod 2 ^ 32) (v / 2 ^ 32) Hlo Hhi) as [Hnum Hstr].
  rewrite <- Hsplit in Hnum, Hstr.
  assert (Hstring : Packet.readInt64String p = Ok (VStr (dec v), p')).
  { unfold Packet.readInt64String. rewrite read64_step.
    unfold PacketParser.uint64String, PacketParser.uint64Long.
    cbv beta iota zeta delta [from_option id]. rewrite H0, H1. cbn [JS.bind].
    rewrite make_signed by assumption. rewrite invoke_long_toString, Hstr. reflexivity. }
  assert (Hnumber : Packet.readInt64JSNumber p = Ok (VNum (of_Z v), p')).
  { unfold Packet.readInt64JSNumber. rewrite read64_step.
    unfold PacketParser.uint64Number, PacketParser.uint64Long.
    cbv beta iota zeta delta [from_option id]. rewrite H0, H1. cbn [JS.bind].
    rewrite make_signed by assumption. rewrite invoke_long_toNumber, Hnum. reflexivity. }
  split; [exact Hstring|split; [exact Hnumber|]].
  intros Hsmall. rewrite Hnumber, of_Z_exact by lia. reflexivity.
Qed.

(** X6. The signed readers of 64 bits.  On the eight little-endian
    bytes of [v], [readSInt64String] returns the decimal rendering of
    the two's complement of [v].  [readSInt64JSNumber] returns the
    double nearest to it when [v] is negative as a signed integer, or
    when bit 31 of [v] is clear; a non-negative [v] with bit 31 set
    comes back 2^32 too small, the low word being read as signed. *)
Theorem signed_64_bit_readers (p : Packet.t) (v : Z) :
  lies_at (Packet.buffer p) (Packet.offset p) (NodeBuffer.le_bytes 8 v) ->
  0 <= v < 2 ^ 64 ->
  let p' := Packet.with_offset p (Packet.offset p + 8) in
  Packet.readSInt64String p = Ok (VStr (dec_signed (twos_complement 8 v)), p')
  /\ Packet.readSInt64JSNumber p
     = Ok (VNum (of_Z (if v <? 2 ^ 63
                       then if v mod 2 ^ 32 <? 2 ^ 31 then v else v - 2 ^ 32
                       else v - 2 ^ 64)), p').
Proof.
  intros Hlies Hv p'.
  destruct (read_words _ _ _ Hlies Hv) as [H0 H1].
  destruct (words_of v Hv) as (Hlo & Hhi & Hsplit).
  set (w0 := v mod 2 ^ 32) in *. set (w1 := v / 2 ^ 32) in *.
  assert (Hsign : (v <? 2 ^ 63) = (w1 <? 2 ^ 31)).
  { destruct (Z.ltb_spec v (2 ^ 63)), (Z.ltb_spec w1 (2 ^ 31)); try reflexivity; lia. }
  split.
  - unfold Packet.readSInt64String. rewrite read64_step.
    unfold PacketParser.int64String, PacketParser.int64Long.
    cbv beta iota zeta delta [from_option id]. rewrite H0, H1. cbn [JS.bind].
    rewrite make_signed by assumption. rewrite invoke_long_toString.
    unfold Long.toString, Long.toZ, Long.make. cbn [unsigned high low].
    rewrite uint32_int32, (Z.mod_small w0) by lia.
    rewrite <- (int32_of_signed w1), int32_signed by lia.
    unfold twos_complement. change (2 ^ (8 * Z.of_nat 8 - 1)) with (2 ^ 63).
    change (2 ^ (8 * Z.of_nat 8)) with (2 ^ 64). rewrite Hsign.
    unfold Long.TWO_PWR_32.
    replace ((w1 - (if w1 <? 2 ^ 31 then 0 else 2 ^ 32)) * 2 ^ 32 + w0)
      with (if w1 <? 2 ^ 31 then v else v - 2 ^ 64)
      by (clearbody w0 w1; destruct (w1 <? 2 ^ 31); lia).
    reflexivity.
  - unfold Packet.readSInt64JSNumber. rewrite read64_step.
    unfold PacketParser.int64Number. cbv beta iota zeta delta [from_option id]. rewrite H0, H1. cbn [JS.bind].
    rewrite sign_bit by assumption. rewrite Hsign.
    destruct (Z.ltb_spec w1 (2 ^ 31)) as [Hpos|Hneg].
    + unfold NodeBuffer.signed at 2. change (2 ^ (32 - 1)) with (2 ^ 31).
      destruct (Z.ltb_spec w1 (2 ^ 31)); [|lia].
      unfold mul. rewrite (Z.mul_comm 4294967296 w1).
      change 4294967296 with (2 ^ 32). rewrite of_Z_shifted by lia.
      unfold add, NodeBuffer.signed. change (2 ^ (32 - 1)) with (2 ^ 31).
      replace ((if w0 <? 2 ^ 31 then w0 else w0 - 2 ^ 32) + w1 * 2 ^ 32)
        with (if w0 <? 2 ^ 31 then v else v - 2 ^ 32)
        by (clearbody w0 w1; destruct (w0 <? 2 ^ 31); lia).
      reflexivity.
    + rewrite make_signed by assumption. rewrite invoke_long_toNumber.
      unfold Long.toNumber, Long.make. cbn [unsigned high low].
      rewrite uint32_int32, (Z.mod_small w0) by lia.
      rewrite <- (int32_of_signed w1), int32_signed by lia.
      destruct (Z.ltb_spec w1 (2 ^ 31)); [lia|].
      unfold mul, Long.TWO_PWR_32. rewrite of_Z_shifted by lia.
      unfold add.
      replace ((w1 - 2 ^ 32) * 2 ^ 32 + w0) with (v - 2 ^ 64) by (clearbody w0 w1; lia).
      reflexivity.
Qed.

(** 2^64 - 1 is printed exactly and read as the double 2^64. *)
Lemma unsigned_64_bit_readers_on_all_ones :
  Packet.readInt64String all_ones
    = Ok (VStr "18446744073709551615", Packet.with_offset all_ones 12)
  /\ Packet.readInt64JSNumber all_ones
     = Ok (VNum (Fin 18446744073709551616), Packet.with_offset all_ones 12).
Proof.
  destruct (unsigned_64_bit_readers all_ones (2 ^ 64 - 1)) as (Hs & Hn & _).
  - split; [vm_compute; discriminate|reflexivity].
  - split; vm_compute; [discriminate|reflexivity].
  - split; [exact Hs|exact Hn].
Defined.

(** 2^31 is printed as 2147483648 and read as the number -2147483648. *)
Lemma signed_64_bit_readers_on_bit_31 :
  Packet.readSInt64String bit_31
    = Ok (VStr "2147483648", Packet.with_offset bit_31 12)
  /\ Packet.readSInt64JSNumber bit_31
     = Ok (VNum (Fin (-2147483648)), Packet.with_offset bit_31 12).
Proof.
  destruct (signed_64_bit_readers bit_31 (2 ^ 31)) as (Hs & Hn).
  - split; [vm_compute; discriminate|reflexivity].
  - split; vm_compute; [discriminate|reflexivity].
  - split; [exact Hs|exact Hn].
Defined.

(** ** The NULL marker and the limits of length-coded integers *)

Lemma with_buffer_id (p : Packet.t) : Packet.with_buffer p (Packet.buffer p) = p.
Proof. destruct p; reflexivity. Qed.

Lemma with_offset_id (p : Packet.t) : Packet.with_offset p (Packet.offset p) = p.
Proof. destruct p; reflexivity. Qed.

Lemma writeNull_step (p : Packet.t) :
  0 <= Packet.offset p ->
  Packet.writeNull p
  = Ok (tt, Packet.with_offset
              (Packet.with_buffer p
                 (<[Z.to_nat (Packet.offset p) := 251]> (Packet.buffer p)))
              (Packet.offset p + 1)).
Proof.
  intros H. unfold Packet.writeNull.
  cbv beta iota delta [Packet.mbind Packet.this Packet.advance Packet.set_offset
                       Packet.set_buffer].
  destruct (Z.leb_spec 0 (Packet.offset p)); [|lia]. reflexivity.
Qed.

(** X7. The NULL marker.  Where a byte fits at the cursor, [writeNull],
    [writeInt8(0xfb)] and [writeLengthCodedNumber(null)] all store the
    byte FB and move the cursor by one, and [readLengthCodedNumber]
    reads it back as [null].  With the cursor at or behind the end of
    the buffer, [writeNull] still moves the cursor and returns, the
    buffer unchanged, while [writeInt8] throws a [RangeError]. *)
Theorem null_marker (p : Packet.t) (bigNumberStrings signed : bool) :
  0 <= Packet.offset p ->
  if Packet.offset p <? NodeBuffer.length (Packet.buffer p) then
    Packet.writeNull p = Ok (tt, written p [251])
    /\ Packet.writeInt8 251 p = Ok (tt, written p [251])
    /\ Packet.writeLengthCodedNumber VNull p = Ok (tt, written p [251])
    /\ Packet.readLengthCodedNumber bigNumberStrings signed (rewound p [251])
       = Ok (VNull, written p [251])
  else
    Packet.writeNull p = Ok (tt, Packet.with_offset p (Packet.offset p + 1))
    /\ Packet.writeInt8 251 p = Throw NodeBuffer.out_of_range
    /\ Packet.writeLengthCodedNumber VNull p = Throw NodeBuffer.out_of_range.
Proof.
  intros Ho.
  destruct (Z.ltb_spec (Packet.offset p) (NodeBuffer.length (Packet.buffer p))) as [Hin|Hout].
  - assert (Hroom : room p 1) by (split; lia).
    assert (Hw : Packet.writeInt8 251 p = Ok (tt, written p [251]))
      by (apply writeInt8_step; [lia|exact Hroom]).
    split; [|split; [exact Hw|split; [exact Hw|]]].
    + rewrite writeNull_step by exact Ho. unfold written, NodeBuffer.store.
      reflexivity.
    + unfold Packet.readLengthCodedNumber.
      erewrite mbind_eq; [|apply readInt8_step].
      rewrite rewound_offset, rewound_buffer.
      rewrite (lies_at_head _ _ 251 [] (lies_at_written p [251] Hroom)).
      reflexivity.
  - split; [|split].
    + rewrite writeNull_step by exact Ho.
      rewrite list_insert_ge by (unfold NodeBuffer.length in Hout; lia).
      rewrite with_buffer_id. reflexivity.
    + unfold Packet.writeInt8, Packet.write, NodeBuffer.writeUInt8, NodeBuffer.write_le.
      cbv beta iota delta [Packet.mbind Packet.this Packet.lift].
      cbn [orb Z.ltb Z.compare]. change (251 <? 0) with false. change (255 <? 251) with false.
      cbn [orb].
      destruct (Z.leb_spec 0 (Packet.offset p + 0)); [|lia].
      destruct (Z.leb_spec (Packet.offset p + 0 + Z.of_nat 1)
                  (NodeBuffer.length (Packet.buffer p))); [lia|].
      reflexivity.
    + unfold Packet.writeLengthCodedNumber.
      unfold Packet.writeInt8, Packet.write, NodeBuffer.writeUInt8, NodeBuffer.write_le.
      cbv beta iota delta [Packet.mbind Packet.this Packet.lift].
      change (251 <? 0) with false. change (255 <? 251) with false.
      cbn [orb].
      destruct (Z.leb_spec 0 (Packet.offset p + 0)); [|lia].
      destruct (Z.leb_spec (Packet.offset p + 0 + Z.of_nat 1)
                  (NodeBuffer.length (Packet.buffer p))); [lia|].
      reflexivity.
Qed.

(** On the blank packet the marker is written and read back; with the
    cursor at the end of the buffer only [writeNull] returns. *)
Lemma null_marker_in_and_out_of_range :
  (Packet.writeNull blank = Ok (tt, written blank [251])
   /\ Packet.writeInt8 251 blank = Ok (tt, written blank [251])
   /\ Packet.writeLengthCodedNumber VNull blank = Ok (tt, written blank [251])
   /\ Packet.readLengthCodedNumber false false (rewound blank [251])
      = Ok (VNull, written blank [251]))
  /\ (Packet.writeNull full = Ok (tt, Packet.with_offset full 17)
      /\ Packet.writeInt8 251 full = Throw NodeBuffer.out_of_range
      /\ Packet.writeLengthCodedNumber VNull full = Throw NodeBuffer.out_of_range).
Proof.
  split.
  - apply (null_marker blank false false). vm_compute. discriminate.
  - apply (null_marker full false false). vm_compute. discriminate.
Defined.

Lemma writeInt8_rejects (p : Packet.t) (n : Z) :
  n < 0 \/ 255 < n -> Packet.writeInt8 n p = Throw NodeBuffer.out_of_range.
Proof.
  intros Hn. unfold Packet.writeInt8, Packet.write, NodeBuffer.writeUInt8, NodeBuffer.write_le.
  cbv beta iota delta [Packet.mbind Packet.this Packet.lift].
  destruct (Z.ltb_spec n 0), (Z.ltb_spec 255 n); try reflexivity; lia.
Qed.

(** A value that saturates to 2^64 - 1 is written behind the tag FE. *)
Lemma writeLengthCodedNumber_saturated (p : Packet.t) (x : number) :
  room p 9 ->
  Packet.longValue_of (VNum x) = Ok (Some (Long.make (-1) (-1) true)) ->
  Packet.writeLengthCodedNumber (VNum x) p
  = Ok (tt, written p (254 :: repeat 255 8)).
Proof.
  intros Hroom Hx. unfold Packet.writeLengthCodedNumber.
  rewrite Hx. cbn [Packet.lift].
  erewrite mbind_eq; [|reflexivity].
  cbn [Long.make high low]. change (int32 (-1)) with (-1). cbv beta iota.
  change ((-1 =? 0) && (Z.land (-1) (int32 4278190080) =? 0)) with false.
  cbv beta iota.
  destruct Hroom as [H0 H9].
  erewrite mbind_eq.
  2:{ erewrite mbind_eq; [|apply writeInt8_step; [lia|split; lia]].
      erewrite mbind_eq.
      2:{ apply write_step; unfold written; packet_simpl;
          rewrite ?store_length; cbn; lia. }
      erewrite mbind_eq.
      2:{ apply write_step; unfold written; packet_simpl;
          rewrite ?store_length; cbn; lia. }
      erewrite mbind_eq; [|reflexivity]. reflexivity. }
  cbv beta iota. unfold Packet.ret. f_equal. f_equal.
  change (254 :: repeat 255 8) with ([254] ++ ([255; 255; 255; 255] ++ [255; 255; 255; 255])).
  rewrite <- written_written by lia.
  change (NodeBuffer.le_bytes 4 (-1 mod 2 ^ (8 * Z.of_nat 4))) with [255; 255; 255; 255].
  unfold written. packet_simpl.
  unfold Packet.with_offset, Packet.with_buffer.
  cbn -[Z.add Z.of_nat Z.to_nat NodeBuffer.store app].
  f_equal.
  unfold NodeBuffer.store. rewrite list_inserts_app_l.
  rewrite Z.add_0_r. f_equal. cbn [List.length]. lia.
Qed.

(** X8. What [writeLengthCodedNumber] does outside 0 .. 2^64 - 1.  A
    negative number, [-Infinity] included, is rejected with a
    [RangeError] and NaN with an [Error], whatever the packet.  A
    finite number of 2^64 or more is written, where nine bytes fit, as
    2^64 - 1: the tag FE and eight bytes FF. *)
Theorem writeLengthCodedNumber_outside_64_bits (p : Packet.t) (n : Z) :
  (n < 0 -> Packet.writeLengthCodedNumber (VNum (Fin n)) p = Throw NodeBuffer.out_of_range)
  /\ Packet.writeLengthCodedNumber (VNum (Inf true)) p = Throw NodeBuffer.out_of_range
  /\ Packet.writeLengthCodedNumber (VNum NaN) p
     = Throw (Error "Should not reach here or Invalid integer")
  /\ (2 ^ 64 <= n -> room p 9 ->
      Packet.writeLengthCodedNumber (VNum (Fin n)) p
      = Ok (tt, written p (254 :: repeat 255 8))).
Proof.
  split; [|split; [|split]].
  - intros Hneg. unfold Packet.writeLengthCodedNumber, Packet.longValue_of.
    unfold gt. rewrite lt_Fin.
    destruct (Z.ltb_spec 16777215 n); [lia|].
    cbn [Packet.lift]. erewrite mbind_eq; [|reflexivity].
    erewrite mbind_eq; [|reflexivity]. cbn [to_number Packet.lift].
    erewrite mbind_eq; [|reflexivity].
    rewrite lt_Fin. destruct (Z.ltb_spec n 251); [|lia].
    unfold Packet.integer. erewrite mbind_eq; [|reflexivity].
    apply writeInt8_rejects. lia.
  - reflexivity.
  - reflexivity.
  - intros Hbig Hroom. apply writeLengthCodedNumber_saturated; [exact Hroom|].
    unfold Packet.longValue_of, gt. rewrite lt_Fin.
    destruct (Z.ltb_spec 16777215 n); [|lia].
    unfold Long.fromNumber.
    destruct (Z.ltb_spec n 0); [lia|].
    destruct (Z.leb_spec Long.TWO_PWR_64 n); [reflexivity|].
    unfold Long.TWO_PWR_64 in *. lia.
Qed.

(** On the full packet -1 is rejected; on the blank one 2^64 is written
    as 2^64 - 1. *)
Lemma writeLengthCodedNumber_outside_64_bits_examples :
  Packet.writeLengthCodedNumber (VNum (Fin (-1))) full = Throw NodeBuffer.out_of_range
  /\ Packet.writeLengthCodedNumber (VNum (Fin (2 ^ 64))) blank
     = Ok (tt, written blank (254 :: repeat 255 8)).
Proof.
  split.
  - destruct (writeLengthCodedNumber_outside_64_bits full (-1)) as (H & _).
    apply H. lia.
  - destruct (writeLengthCodedNumber_outside_64_bits blank (2 ^ 64)) as (_ & _ & _ & H).
    apply H; [lia|split; vm_compute; discriminate].
Defined.

Lemma invoke_number_toString (n : number) :
  invoke (VNum n) "toString" = Ok (VStr (number_toString n)).
Proof. reflexivity. Qed.

(** X9. The tags of a length-coded integer.  [readLengthCodedNumber]
    throws on the tag FF and when there is no byte at the cursor;
    with nine bytes at hand every other tag is read, and the cursor
    moves by the width the tag stands for. *)
Theorem readLengthCodedNumber_tags (p : Packet.t) (bigNumberStrings signed : bool) :
  bytes (Packet.buffer p) ->
  (Packet.peekByte p = None \/ Packet.peekByte p = Some 255 ->
   Packet.readLengthCodedNumber bigNumberStrings signed p
   = Throw (Error "Should not reach here"))
  /\ (room p 9 -> Packet.peekByte p <> Some 255 ->
      exists tag w v,
        Packet.peekByte p = Some tag /\ tag_width tag = Some w
        /\ Packet.readLengthCodedNumber bigNumberStrings signed p
           = Ok (v, Packet.with_offset p (Packet.offset p + w))).
Proof.
  intros Hbytes. split.
  - intros [H|H]; unfold Packet.readLengthCodedNumber;
      (erewrite mbind_eq; [|apply readInt8_step]);
      unfold Packet.peekByte in H; rewrite H; reflexivity.
  - intros [H0 H9] Hnot. unfold Packet.peekByte in *.
    destruct (NodeBuffer.get (Packet.buffer p) (Packet.offset p)) as [tag|] eqn:Htag.
    2:{ unfold NodeBuffer.get in Htag.
        destruct (Z.ltb_spec (Packet.offset p) 0); [lia|].
        apply lookup_ge_None in Htag. unfold NodeBuffer.length in H9. lia. }
    pose proof (get_byte _ _ _ Hbytes Htag) as Hrange.
    assert (Htag' : tag <> 255) by congruence.
    exists tag. unfold Packet.readLengthCodedNumber.
    erewrite mbind_eq; [|apply readInt8_step]. rewrite Htag.
    unfold tag_width.
    destruct (Z.ltb_spec tag 251) as [Hsmall|Hbig].
    { exists 1, (VNum (Fin tag)). repeat split. }
    unfold Packet.readLengthCodedNumberExt. cbn [Packet.equals].
    destruct (Z.eqb_spec tag 251).
    { exists 1, VNull. repeat split. }
    destruct (Z.eqb_spec tag 252).
    { eexists 3, _. split; [reflexivity|split; [reflexivity|]].
      erewrite mbind_eq; [|apply readInt8_step].
      erewrite mbind_eq; [|apply readInt8_step].
      unfold Packet.ret. f_equal. f_equal. cursor. }
    destruct (Z.eqb_spec tag 253).
    { eexists 4, _. split; [reflexivity|split; [reflexivity|]].
      erewrite mbind_eq; [|apply readInt8_step].
      erewrite mbind_eq; [|apply readInt8_step].
      erewrite mbind_eq; [|apply readInt8_step].
      unfold Packet.ret. f_equal. f_equal. cursor. }
    destruct (Z.eqb_spec tag 254); [|lia].
    exists 9.
    erewrite mbind_eq; [|apply readInt32_step; packet_simpl; lia].
    erewrite mbind_eq; [|apply readInt32_step; packet_simpl; lia].
    packet_simpl.
    replace (Packet.offset p + 1 + 4 + 4) with (Packet.offset p + 9) by lia.
    match goal with
    | |- context [?w =? 0] => destruct (w =? 0);
        [eexists; split; [reflexivity|split; [reflexivity|reflexivity]]|]
    end.
    match goal with
    | |- context [?w <? 2097152] => destruct (w <? 2097152);
        [eexists; split; [reflexivity|split; [reflexivity|reflexivity]]|]
    end.
    rewrite invoke_long_toNumber, invoke_long_toString. cbn [Packet.lift].
    erewrite mbind_eq; [|reflexivity]. erewrite mbind_eq; [|reflexivity].
    unfold PacketParser.number_if_printed_alike. rewrite invoke_number_toString.
    cbn [JS.bind Packet.lift]. erewrite mbind_eq; [|reflexivity].
    eexists; split; [reflexivity|split; [reflexivity|reflexivity]].
Qed.

Ltac prove_bytes :=
  unfold bytes; vm_compute;
  repeat (constructor; [split; [discriminate|reflexivity]|]); constructor.

(** The error frame starts with FF; the frame to read from starts with
    the one-byte integer 5. *)
Lemma readLengthCodedNumber_tags_on_two_frames :
  Packet.readLengthCodedNumber false false error_frame
    = Throw (Error "Should not reach here")
  /\ exists v,
       Packet.readLengthCodedNumber false false read_frame
       = Ok (v, Packet.with_offset read_frame 5).
Proof.
  split.
  - destruct (readLengthCodedNumber_tags error_frame false false) as [H _].
    + prove_bytes.
    + apply H. right. reflexivity.
  - destruct (readLengthCodedNumber_tags read_frame false false) as [_ H].
    + prove_bytes.
    + destruct H as (tag & w & v & Ht & Hw & Hr).
      * split; vm_compute; discriminate.
      * vm_compute. discriminate.
      * exists v. vm_compute in Ht. injection Ht as <-.
        vm_compute in Hw. injection Hw as <-. exact Hr.
Defined.

(** ** Strings up to a zero byte *)

Lemma before_zero_prefix (l : list Z) :
  take (List.length (before_zero l)) l = before_zero l.
Proof.
  induction l as [|c l IH]; [reflexivity|].
  cbn. destruct (c =? 0); [reflexivity|]. cbn. rewrite IH. reflexivity.
Qed.

Lemma before_zero_length (l : list Z) :
  (List.length (before_zero l) <= List.length l)%nat.
Proof.
  induction l as [|c l IH]; [cbn; lia|].
  cbn. destruct (c =? 0); cbn; lia.
Qed.

Lemma before_zero_all (l : list Z) :
  Forall (fun x => x <> 0) l -> before_zero l = l.
Proof.
  induction 1 as [|c l Hc _ IH]; [reflexivity|].
  cbn. destruct (Z.eqb_spec c 0); [contradiction|]. rewrite IH. reflexivity.
Qed.

Lemma scan_before_zero (steps : nat) (b : NodeBuffer.t) (o : Z) :
  0 <= o -> (List.length (drop (Z.to_nat o) b) <= steps)%nat ->
  Packet.scan steps b o
  = o + Z.of_nat (List.length (before_zero (drop (Z.to_nat o) b))).
Proof.
  revert o. induction steps as [|steps IH]; intros o Ho Hsteps.
  - destruct (drop (Z.to_nat o) b); [cbn; lia|cbn in Hsteps; lia].
  - cbn [Packet.scan]. unfold NodeBuffer.get.
    destruct (Z.ltb_spec o 0); [lia|].
    destruct (b !! Z.to_nat o) as [c|] eqn:Hc.
    + rewrite (drop_S b c (Z.to_nat o) Hc) in *. cbn [before_zero].
      destruct (Z.eqb_spec c 0); [cbn; lia|].
      rewrite IH.
      * replace (Z.to_nat (o + 1)) with (S (Z.to_nat o)) by lia. cbn [List.length]. lia.
      * lia.
      * replace (Z.to_nat (o + 1)) with (S (Z.to_nat o)) by lia.
        cbn [List.length] in Hsteps. lia.
    + apply lookup_ge_None in Hc. rewrite drop_ge by lia. cbn. lia.
Qed.

Section NullTerminated.

Variable decode : NodeBuffer.t -> value -> string.

Lemma readNullTerminatedString_step (encoding : value) (p : Packet.t) :
  0 <= Packet.offset p ->
  let s := before_zero (drop (Z.to_nat (Packet.offset p)) (Packet.buffer p)) in
  Packet.readNullTerminatedString decode encoding p
  = Ok (decode s encoding,
        Packet.with_offset p (Packet.offset p + Z.of_nat (List.length s) + 1)).
Proof.
  intros Ho. cbv zeta.
  set (rest := drop (Z.to_nat (Packet.offset p)) (Packet.buffer p)).
  set (s := before_zero rest).
  unfold Packet.readNullTerminatedString.
  cbv beta iota zeta delta [Packet.mbind Packet.this Packet.set_offset Packet.ret].
  rewrite scan_before_zero by (rewrite ?length_drop; lia).
  fold rest. fold s. packet_simpl. do 3 f_equal.
  pose proof (before_zero_length rest) as Hs. fold s in Hs.
  unfold rest in Hs. rewrite length_drop in Hs.
  destruct (Z.le_gt_cases (Packet.offset p) (NodeBuffer.length (Packet.buffer p)))
    as [Hin|Hout].
  - rewrite slice_range by (unfold NodeBuffer.length in *; lia).
    unfold range.
    replace (Z.to_nat (Packet.offset p + Z.of_nat (List.length s) - Packet.offset p))
      with (List.length s) by lia.
    apply before_zero_prefix.
  - assert (Hrest : rest = []).
    { unfold rest. apply drop_ge. unfold NodeBuffer.length in Hout. lia. }
    unfold s. rewrite Hrest. cbn [before_zero List.length].
    unfold NodeBuffer.slice, NodeBuffer.clamp_index.
    destruct (Z.ltb_spec (Packet.offset p + Z.of_nat 0) 0); [lia|].
    destruct (Z.ltb_spec (Packet.offset p) 0); [lia|].
    rewrite !Z.min_r by lia. rewrite Z.sub_diag. reflexivity.
Qed.

(** X10. [readNullTerminatedString] reads up to the first zero byte of
    the buffer, not of the window.  From a cursor that is not negative
    it decodes the bytes before the first zero byte found from there on
    and leaves the cursor one past that zero; the end of the packet
    plays no part.  When no zero byte follows, it decodes everything up
    to the end of the buffer and leaves the cursor one past that
    end. *)
Theorem readNullTerminatedString_scans (encoding : value) (p : Packet.t) :
  0 <= Packet.offset p ->
  let rest := drop (Z.to_nat (Packet.offset p)) (Packet.buffer p) in
  let s := before_zero rest in
  Packet.readNullTerminatedString decode encoding p
  = Ok (decode s encoding,
        Packet.with_offset p (Packet.offset p + Z.of_nat (List.length s) + 1))
  /\ (Forall (fun x => x <> 0) rest ->
      Packet.offset p <= NodeBuffer.length (Packet.buffer p) ->
      Packet.readNullTerminatedString decode encoding p
      = Ok (decode rest encoding,
            Packet.with_offset p (NodeBuffer.length (Packet.buffer p) + 1))).
Proof.
  intros Ho rest s.
  pose proof (readNullTerminatedString_step encoding p Ho) as Hmain.
  cbv zeta in Hmain. fold rest in Hmain. fold s in Hmain.
  split; [exact Hmain|].
  intros Hnone Hin. rewrite Hmain. unfold s.
  rewrite before_zero_all by exact Hnone.
  do 3 f_equal. unfold rest. rewrite length_drop. unfold NodeBuffer.length in *. lia.
Qed.

End NullTerminated.

(** In a buffer that ends after [ab], the string [ab] is returned and
    the cursor ends at 7, one past the six bytes of the buffer. *)
Lemma readNullTerminatedString_scans_unterminated :
  Packet.readNullTerminatedString latin1 (VStr "utf8") unterminated
  = Ok ("ab"%string, Packet.with_offset unterminated 7).
Proof.
  destruct (readNullTerminatedString_scans latin1 (VStr "utf8") unterminated) as [H _].
  - vm_compute. discriminate.
  - exact H.
Defined.

(** ** EOF packets *)

Lemma readInt16LE_lies (b : NodeBuffer.t) (o n : Z) :
  lies_at b o (NodeBuffer.le_bytes 2 n) -> 0 <= n < 65536 ->
  NodeBuffer.readInt16LE b o = Ok (twos_complement 2 n).
Proof.
  intros Hlies Hn.
  assert (Hlen : o + 2 <= NodeBuffer.length b).
  { destruct (lies_at_length _ _ _ Hlies) as [H|H]; [|discriminate].
    rewrite le_bytes_length in H. lia. }
  assert (Ho : 0 <= o) by (destruct Hlies; assumption).
  apply lies_at_range in Hlies. rewrite le_bytes_length in Hlies.
  unfold NodeBuffer.readInt16LE. rewrite bytes_at_range by lia. cbn [JS.bind].
  rewrite Hlies, le_value_bytes_small by (cbn; lia). reflexivity.
Qed.

(** X11. An EOF packet.  On a payload made of the byte FE, a 16-bit
    count of warnings and 16 bits of status flags, [isEOF] holds exactly
    when the packet is shorter than 13 bytes, and [type] then answers
    EOF; [isAlt] holds and [isError] does not.  [eofWarningCount] and
    [eofStatusFlags] return the two fields as signed integers: a value
    of 0x8000 or more comes back negative. *)
Theorem eof_packet (p : Packet.t) (warnings status : Z) :
  lies_at (Packet.buffer p) (Packet.offset p)
    (254 :: NodeBuffer.le_bytes 2 warnings ++ NodeBuffer.le_bytes 2 status) ->
  0 <= warnings < 65536 -> 0 <= status < 65536 ->
  Packet.isEOF p = (Packet.length p <? 13)
  /\ Packet.type p = (if Packet.length p <? 13 then "EOF"%string else EmptyString)
  /\ Packet.isAlt p = true
  /\ Packet.isError p = false
  /\ Packet.eofWarningCount p = Ok (twos_complement 2 warnings)
  /\ Packet.eofStatusFlags p = Ok (twos_complement 2 status).
Proof.
  intros Hlies Hw Hs.
  pose proof (lies_at_head _ _ _ _ Hlies) as Hhead.
  apply lies_at_tail in Hlies. apply lies_at_app in Hlies as [Hwarn Hstat].
  rewrite le_bytes_length in Hstat.
  assert (Heof : Packet.isEOF p = (Packet.length p <? 13)).
  { unfold Packet.isEOF, Packet.peekByte. rewrite Hhead. reflexivity. }
  assert (Herr : Packet.isError p = false).
  { unfold Packet.isError, Packet.peekByte. rewrite Hhead. reflexivity. }
  split; [exact Heof|]. split.
  { unfold Packet.type. rewrite Heof, Herr. unfold Packet.peekByte. rewrite Hhead.
    destruct (Packet.length p <? 13); reflexivity. }
  split; [unfold Packet.isAlt, Packet.peekByte; rewrite Hhead; reflexivity|].
  split; [exact Herr|]. split.
  - unfold Packet.eofWarningCount. apply readInt16LE_lies; assumption.
  - unfold Packet.eofStatusFlags.
    replace (Packet.offset p + 3) with (Packet.offset p + 1 + Z.of_nat 2) by lia.
    apply readInt16LE_lies; assumption.
Qed.

(** The EOF packet with 65535 warnings and the flags 0x8002. *)
Lemma eof_packet_with_high_bits :
  Packet.isEOF eof_frame = true
  /\ Packet.type eof_frame = "EOF"%string
  /\ Packet.isAlt eof_frame = true
  /\ Packet.isError eof_frame = false
  /\ Packet.eofWarningCount eof_frame = Ok (-1)
  /\ Packet.eofStatusFlags eof_frame = Ok (-32766).
Proof.
  apply (eof_packet eof_frame 65535 32770).
  - split; [vm_compute; discriminate|reflexivity].
  - lia.
  - lia.
Defined.

(** ** Cells of the binary protocol *)

Lemma range_width (b : NodeBuffer.t) (o : Z) (k : nat) :
  0 <= o -> o + Z.of_nat k <= NodeBuffer.length b ->
  List.length (range b o (o + Z.of_nat k)) = k.
Proof.
  intros Ho Hk. unfold range. rewrite length_take, length_drop.
  unfold NodeBuffer.length in Hk. lia.
Qed.

Lemma bytes_at_all (bs : list Z) (k : nat) :
  List.length bs = k -> NodeBuffer.bytes_at bs 0 k = Ok bs.
Proof.
  intros Hk. unfold NodeBuffer.bytes_at.
  destruct (Z.leb_spec 0 0) as [_|H0]; [|lia].
  destruct (Z.leb_spec (0 + Z.of_nat k) (NodeBuffer.length bs)) as [_|H1];
    [|unfold NodeBuffer.length in H1; lia].
  cbn [andb]. change (Z.to_nat 0) with 0%nat. rewrite drop_0, take_all by lia.
  reflexivity.
Qed.

Section BinaryCells.

Variable decode : NodeBuffer.t -> value -> string.
Variable UNSIGNED : Z.
Variables (options : BinaryParser.options) (config : BinaryParser.config).

Lemma read_fixed (k : nat) (p : Packet.t) :
  0 <= Packet.offset p ->
  Packet.offset p + Z.of_nat k <= NodeBuffer.length (Packet.buffer p) ->
  BinaryParser.read (BinaryParser.ReadBuffer (Z.of_nat k)) p
  = Ok (CastField.Bytes
          (range (Packet.buffer p) (Packet.offset p) (Packet.offset p + Z.of_nat k)),
        Packet.with_offset p (Packet.offset p + Z.of_nat k)).
Proof.
  intros Ho Hk. unfold BinaryParser.read.
  erewrite mbind_eq; [|apply readBuffer_step].
  rewrite slice_range by lia. reflexivity.
Qed.

(** X12. Integer cells of a binary row.  Without a cast callback, a
    cell of a TINY, SHORT, LONG, INT24 or YEAR column that is not NULL
    is read from 1, 2, 4, 4 or 2 bytes as a little-endian integer:
    unsigned when the column carries the UNSIGNED flag or is a YEAR, in
    two's complement otherwise.  The cursor moves by the width of the
    cell. *)
Theorem binary_integer_cell (field : ColumnDefinition) (i k : nat) (fixed : bool)
    (runtime : list ColumnDefinition) (p : Packet.t) :
  BinaryParser.cast_of options config = None ->
  integer_cell (col_columnType field) = Some (k, fixed) ->
  0 <= Packet.offset p ->
  Packet.offset p + Z.of_nat k <= NodeBuffer.length (Packet.buffer p) ->
  let n := NodeBuffer.le_value
             (range (Packet.buffer p) (Packet.offset p) (Packet.offset p + Z.of_nat k)) in
  let unsigned := negb (Z.land (col_flags field) UNSIGNED =? 0) in
  BinaryParser.cell decode options config runtime i
    (BinaryParser.readCodeFor UNSIGNED field i options config) false p
  = Ok (VNum (Fin (if unsigned || fixed then n else twos_complement k n)),
        Packet.with_offset p (Packet.offset p + Z.of_nat k)).
Proof.
  intros Hcast Htype Ho Hk n unsigned.
  pose proof (range_width _ _ _ Ho Hk) as Hlen.
  unfold BinaryParser.cell. rewrite Hcast.
  unfold BinaryParser.readCodeFor. cbv zeta. fold unsigned.
  destruct (col_columnType field); try discriminate;
    cbn [integer_cell] in Htype; injection Htype as <- <-;
    cbn [BinaryParser.defaultCast BinaryParser.buffer];
    destruct unsigned; cbn [orb];
    (erewrite mbind_eq; [|apply (read_fixed _ p Ho Hk)]);
    cbn [BinaryParser.call BinaryParser.decoder Packet.lift];
    unfold BinaryParser.number, PacketParser.uint8, PacketParser.int8,
      PacketParser.uint16, PacketParser.int16, PacketParser.uint32, PacketParser.int32,
      NodeBuffer.readInt8, NodeBuffer.readUInt16LE, NodeBuffer.readInt16LE,
      NodeBuffer.readUInt32LE, NodeBuffer.readInt32LE;
    cbn [PacketParser.or_zero from_option id];
    rewrite ?(bytes_at_all _ _ Hlen); cbn [JS.bind]; fold n; try reflexivity.
  (* the unsigned TINY is read by indexing *)
  subst n.
  destruct (range (Packet.buffer p) (Packet.offset p) (Packet.offset p + Z.of_nat 1))
    as [|x [|y l]]; try discriminate.
  cbn. rewrite Z.add_0_r. reflexivity.
Qed.

End BinaryCells.

(** The two bytes FE FF of a signed SMALLINT are read as -2. *)
Lemma binary_integer_cell_of_minus_2 :
  BinaryParser.cell latin1 plain_options plain_config [smallint_column] 0
    (BinaryParser.readCodeFor 32 smallint_column 0 plain_options plain_config) false
    smallint_cell
  = Ok (VNum (Fin (-2)), Packet.with_offset smallint_cell 6).
Proof.
  apply (binary_integer_cell latin1 32 plain_options plain_config smallint_column
           0 2 false [smallint_column] smallint_cell).
  - reflexivity.
  - reflexivity.
  - vm_compute. discriminate.
  - vm_compute. discriminate.
Defined.

Section BinaryDatesAndBigints.

Variable decode : NodeBuffer.t -> value -> string.
Variable UNSIGNED : Z.
Variables (options : BinaryParser.options) (config : BinaryParser.config).

(** X13. Date strings of a column with fractional seconds, in a binary
    row.  With [dateStrings], the default cast of a DATE, DATETIME,
    TIMESTAMP or NEWDATE column whose [decimals] is not zero passes
    [decimals] where the decoder takes the length of the cell.  So for
    1 to 3 decimals every cell is decoded to [undefined], and for 4 to
    6 decimals every cell is decoded as a date of four bytes, without
    its time of day. *)
Theorem binary_date_strings_with_decimals (field : ColumnDefinition) (i : nat)
    (b : NodeBuffer.t) :
  date_type (col_columnType field) = true ->
  BinaryParser.c_dateStrings config = true ->
  1 <= col_decimals field <= 6 ->
  exists c,
    BinaryParser.defaultCast (BinaryParser.readCodeFor UNSIGNED field i options config)
      = Some c
    /\ BinaryParser.decoder c b
       = if col_decimals field <=? 3 then Ok VUndefined
         else PacketParser.dateTimeString b (Some 0) (Some 4) None.
Proof.
  intros Htype Hstrings Hdec.
  exists (BinaryParser.DateTimeStringWith (col_decimals field)).
  assert (Hcode : BinaryParser.defaultCast
                    (BinaryParser.readCodeFor UNSIGNED field i options config)
                  = Some (BinaryParser.DateTimeStringWith (col_decimals field))).
  { unfold BinaryParser.readCodeFor. cbv zeta.
    destruct (col_columnType field); try discriminate;
      cbn [BinaryParser.defaultCast]; rewrite Hstrings;
      (destruct (Z.eqb_spec (col_decimals field) 0); [lia|]);
      rewrite int32_small by lia; reflexivity. }
  split; [exact Hcode|].
  cbn [BinaryParser.decoder].
  unfold PacketParser.dateTimeString, PacketParser.arguments.
  destruct (Z.leb_spec (col_decimals field) 3) as [Hfew|Hmany].
  - destruct (Z.ltb_spec 3 (col_decimals field)); [lia|]. reflexivity.
  - destruct (Z.ltb_spec 3 (col_decimals field)); [|lia].
    destruct (Z.ltb_spec 6 (col_decimals field)); [lia|].
    reflexivity.
Qed.

(** X14. BIGINT cells under [supportBigNumbers].  Without a cast
    callback and without [bigNumberStrings], the cell of a LONGLONG
    column that is not NULL is never parsed: whatever the packet, the
    statement compiled for it does not return. *)
Theorem binary_bigint_cell_never_returns (field : ColumnDefinition) (i : nat)
    (runtime : list ColumnDefinition) (p p' : Packet.t) (v : value) :
  BinaryParser.cast_of options config = None ->
  col_columnType field = Types.LONGLONG ->
  BinaryParser.supportBigNumbers options || BinaryParser.c_supportBigNumbers config = true ->
  BinaryParser.bigNumberStrings options || BinaryParser.c_bigNumberStrings config = false ->
  BinaryParser.cell decode options config runtime i
    (BinaryParser.readCodeFor UNSIGNED field i options config) false p
  <> Ok (v, p').
Proof.
  intros Hcast Htype Hbig Hstrings Hcell.
  unfold BinaryParser.cell in Hcell. rewrite Hcast in Hcell.
  unfold BinaryParser.readCodeFor in Hcell. cbv zeta in Hcell.
  rewrite Htype, Hbig, Hstrings in Hcell.
  cbn [BinaryParser.defaultCast BinaryParser.buffer negb] in Hcell.
  apply mbind_Ok in Hcell as (arg & q & Hread & Hcall).
  unfold BinaryParser.read in Hread.
  apply mbind_Ok in Hread as (bs & q' & _ & Hret).
  apply ret_Ok in Hret as [<- _].
  apply lift_Ok in Hcall as [Hcall _].
  destruct (negb (Z.land (col_flags field) UNSIGNED =? 0));
    cbn [BinaryParser.call BinaryParser.decoder] in Hcall;
    revert Hcall; apply ifPossible_throws.
Qed.

End BinaryDatesAndBigints.

(** A DATETIME(3) cell under [dateStrings]: whatever its bytes, the
    default cast answers [undefined]. *)
Lemma binary_date_strings_with_decimals_on_datetime3 :
  exists c,
    BinaryParser.defaultCast
      (BinaryParser.readCodeFor 32 datetime3_column 0 plain_options date_strings)
      = Some c
    /\ BinaryParser.decoder c [228; 7; 1; 2; 3; 4; 5; 64; 226; 1; 0] = Ok VUndefined.
Proof.
  apply (binary_date_strings_with_decimals 32 plain_options date_strings
           datetime3_column 0 [228; 7; 1; 2; 3; 4; 5; 64; 226; 1; 0]).
  - reflexivity.
  - reflexivity.
  - cbn. lia.
Defined.

(** An unsigned BIGINT cell holding 1 is not parsed. *)
Lemma binary_bigint_cell_never_returns_on_1 :
  is_Ok
    (BinaryParser.cell latin1 big_numbers plain_config [bigint_column] 0
       (BinaryParser.readCodeFor 32 bigint_column 0 big_numbers plain_config) false
       bigint_cell)
  = false.
Proof.
  destruct (BinaryParser.cell latin1 big_numbers plain_config [bigint_column] 0
              (BinaryParser.readCodeFor 32 bigint_column 0 big_numbers plain_config) false
              bigint_cell) as [[v p']|e] eqn:Hcell; [|reflexivity].
  exfalso. revert Hcell.
  apply (binary_bigint_cell_never_returns latin1 32 big_numbers plain_config
           bigint_column 0 [bigint_column]); reflexivity.
Defined.

(** ** The accessors of a cast field *)

Section CastFieldAccessors.

Variable decode : NodeBuffer.t -> value -> string.

(** X15. The accessors of a field over a NULL cell.  [buffer()] returns
    an empty buffer, not [null].  [string()] returns [null] in a binary
    row, but in a text row it returns the decoding of the empty buffer
    under the column's own encoding; [toString(encoding)] decodes the
    empty buffer under the encoding it is given. *)
Theorem null_cell_accessors (isBinary : bool) (column : ColumnDefinition)
    (encoding e : value) (defaultCast : option (NodeBuffer.t -> Result value))
    (cell : CastField.cell) :
  cell = CastField.Null \/ cell = CastField.Undefined ->
  let f := CastField.constructor decode isBinary column encoding defaultCast cell in
  CastField.buffer f = []
  /\ CastField.string decode f
     = (if isBinary then Ok VNull else Ok (VStr (decode [] (col_encoding column))))
  /\ CastField.toString decode f (Some e) = decode [] e
  /\ CastField.toString decode f None = decode [] (col_encoding column).
Proof.
  intros [-> | ->] f; subst f; cbn [CastField.constructor];
    unfold CastField.buffer, CastField.string, CastField.toString, CastField.encoding;
    cbn [CastField.fieldBuffer CastField.isBinary CastField.defaultRead
         CastField.forceEncoding CastField.column JS.bind from_option id];
    rewrite or_else_null; destruct isBinary; repeat split.
Qed.

End CastFieldAccessors.

(** A NULL cell of a utf8 column in a text row. *)
Lemma null_cell_accessors_in_a_text_row :
  let f := CastField.constructor latin1 false col1 (VStr "utf8") None CastField.Null in
  CastField.buffer f = []
  /\ CastField.string latin1 f = Ok (VStr "")
  /\ CastField.toString latin1 f (Some (VStr "ascii")) = ""%string
  /\ CastField.toString latin1 f None = ""%string.
Proof.
  apply (null_cell_accessors latin1 false col1 (VStr "utf8") (VStr "ascii") None
           CastField.Null).
  left. reflexivity.
Defined.

(** ** Writing and reading runs of bytes *)

Lemma copy_here_step (b : NodeBuffer.t) (p : Packet.t) :
  0 <= Packet.offset p ->
  PacketWriters.copy_here b p
  = Ok (tt, Packet.with_buffer p
              (NodeBuffer.store (Packet.buffer p) (Z.to_nat (Packet.offset p)) b)).
Proof.
  intros Ho. unfold PacketWriters.copy_here, BufferCopy.copy.
  cbv beta iota delta [Packet.mbind Packet.this Packet.lift Packet.set_buffer].
  destruct (Z.ltb_spec (Packet.offset p) 0); [lia|]. reflexivity.
Qed.

Lemma writeBuffer_step (b : NodeBuffer.t) (p : Packet.t) :
  0 <= Packet.offset p -> PacketWriters.writeBuffer b p = Ok (tt, written p b).
Proof.
  intros Ho. unfold PacketWriters.writeBuffer.
  erewrite mbind_eq; [|apply copy_here_step; exact Ho]. reflexivity.
Qed.

Lemma readBuffer_rewound (p : Packet.t) (xs ys : list Z) :
  room p (Z.of_nat (List.length (xs ++ ys))) ->
  Packet.readBuffer (VNum (Fin (Z.of_nat (List.length ys))))
    (Packet.with_offset (written p (xs ++ ys)) (Packet.offset p + Z.of_nat (List.length xs)))
  = Ok (ys, written p (xs ++ ys)).
Proof.
  intros [H0 H1]. rewrite readBuffer_step. packet_simpl.
  rewrite slice_range.
  - unfold written at 1. packet_simpl.
    rewrite range_stored by first [assumption|rewrite length_app; lia].
    rewrite drop_app_length, take_all by reflexivity.
    do 2 f_equal. unfold written. cursor. rewrite length_app. lia.
  - lia.
  - unfold written. packet_simpl. rewrite store_length.
    rewrite length_app in H1. lia.
Qed.

(** X16. [writeBuffer] and [readBuffer].  From a cursor that is not
    negative, [writeBuffer(b)] always returns and moves the cursor by
    the length of [b]; the buffer of the packet keeps its length, the
    bytes of [b] that do not fit being dropped.  A negative cursor is
    rejected.  Where [b] fits, [readBuffer] with its length reads [b]
    back from the place it was written. *)
Theorem writeBuffer_round_trip (b : NodeBuffer.t) (p : Packet.t) :
  (0 <= Packet.offset p ->
   PacketWriters.writeBuffer b p = Ok (tt, written p b)
   /\ NodeBuffer.length (Packet.buffer (written p b)) = NodeBuffer.length (Packet.buffer p)
   /\ Packet.offset (written p b) = Packet.offset p + NodeBuffer.length b)
  /\ (Packet.offset p < 0 ->
      PacketWriters.writeBuffer b p = Throw NodeBuffer.out_of_range)
  /\ (room p (NodeBuffer.length b) ->
      Packet.readBuffer (VNum (Fin (NodeBuffer.length b))) (rewound p b)
      = Ok (b, written p b)).
Proof.
  split; [|split].
  - intros Ho. split; [apply writeBuffer_step; exact Ho|].
    split; [unfold written; packet_simpl; apply store_length|reflexivity].
  - intros Hneg. unfold PacketWriters.writeBuffer, PacketWriters.copy_here, BufferCopy.copy.
    cbv beta iota delta [Packet.mbind Packet.this Packet.lift Packet.set_buffer].
    destruct (Z.ltb_spec (Packet.offset p) 0); [reflexivity|lia].
  - intros Hroom.
    pose proof (readBuffer_rewound p [] b Hroom) as H.
    cbn [List.length app] in H. rewrite Z.add_0_r in H. exact H.
Qed.

(** Three bytes on the blank packet, and at the end of its buffer. *)
Lemma writeBuffer_round_trip_examples :
  (PacketWriters.writeBuffer [1; 2; 3] blank = Ok (tt, written blank [1; 2; 3])
   /\ Packet.readBuffer (VNum (Fin 3)) (rewound blank [1; 2; 3])
      = Ok ([1; 2; 3], written blank [1; 2; 3]))
  /\ PacketWriters.writeBuffer [1; 2; 3] full = Ok (tt, Packet.with_offset full 19).
Proof.
  split.
  - destruct (writeBuffer_round_trip [1; 2; 3] blank) as (Hw & _ & Hr).
    split.
    + apply Hw. vm_compute. discriminate.
    + apply Hr. split; vm_compute; discriminate.
  - destruct (writeBuffer_round_trip [1; 2; 3] full) as (Hw & _ & _).
    apply Hw. vm_compute. discriminate.
Defined.

Lemma store_same (b : NodeBuffer.t) (o : Z) (bs : list Z) :
  lies_at b o bs -> NodeBuffer.store b (Z.to_nat o) bs = b.
Proof.
  intros Hlies. unfold NodeBuffer.store. apply list_eq. intros i.
  destruct (Nat.lt_ge_cases i (Z.to_nat o)) as [Hlt|Hge].
  - apply list_lookup_inserts_lt. exact Hlt.
  - destruct (Nat.lt_ge_cases i (Z.to_nat o + List.length bs)) as [Hin|Hout].
    + destruct (bs !! (i - Z.to_nat o)%nat) as [x|] eqn:Hx.
      2:{ apply lookup_ge_None in Hx. lia. }
      pose proof (lies_at_get b o bs _ x Hlies Hx) as Hget.
      unfold NodeBuffer.get in Hget.
      destruct (Z.ltb_spec (o + Z.of_nat (i - Z.to_nat o)) 0); [discriminate|].
      destruct Hlies as [Ho _].
      replace (Z.to_nat (o + Z.of_nat (i - Z.to_nat o))) with i in Hget by lia.
      rewrite Hget. rewrite list_lookup_inserts.
      * exact Hx.
      * lia.
      * apply lookup_lt_Some in Hget. exact Hget.
    + apply list_lookup_inserts_ge. lia.
Qed.

Lemma written_same (q : Packet.t) (bs : list Z) :
  lies_at (Packet.buffer q) (Packet.offset q) bs ->
  rewound q bs = q
  /\ written q bs = Packet.with_offset q (Packet.offset q + Z.of_nat (List.length bs)).
Proof.
  intros Hlies. unfold rewound, written. rewrite store_same by exact Hlies.
  rewrite with_buffer_id. packet_simpl. rewrite with_offset_id. split; reflexivity.
Qed.

(** A length-coded integer read where its narrowest form lies. *)
Lemma readLengthCodedNumber_lies (q : Packet.t) (n : Z) :
  lies_at (Packet.buffer q) (Packet.offset q) (narrowest n) ->
  room q 9 -> 0 <= n < 2 ^ 64 ->
  Packet.readLengthCodedNumber false false q
  = Ok (read_back n,
        Packet.with_offset q (Packet.offset q + Z.of_nat (List.length (narrowest n)))).
Proof.
  intros Hlies Hroom Hn.
  destruct (written_same q (narrowest n) Hlies) as [Hre Hwr].
  rewrite <- Hwr. rewrite <- Hre at 1.
  apply readLengthCodedNumber_narrowest; assumption.
Qed.

Lemma read_back_small (n : Z) : n < 2 ^ 53 -> read_back n = VNum (Fin n).
Proof. intros Hn. unfold read_back. destruct (Z.ltb_spec n (2 ^ 53)); [reflexivity|lia]. Qed.

Lemma narrowest_length (n : Z) : (1 <= List.length (narrowest n) <= 9)%nat.
Proof.
  unfold narrowest.
  destruct (n <? 251), (n <? 65536), (n <? 16777216); cbn; lia.
Qed.

Lemma writeBuffer_step' (b : NodeBuffer.t) (p : Packet.t) :
  0 <= Packet.offset p ->
  Packet.mbind (PacketWriters.copy_here b)
    (fun _ => Packet.advance (NodeBuffer.length b)) p
  = Ok (tt, written p b).
Proof. apply writeBuffer_step. Qed.

(** The state of a packet after a length-coded run of bytes has been
    written, seen from the reader's side. *)
Lemma length_coded_read (p : Packet.t) (b : NodeBuffer.t) :
  room p (9 + NodeBuffer.length b) -> NodeBuffer.length b < 2 ^ 53 ->
  let bs := narrowest (NodeBuffer.length b) ++ b in
  Packet.readLengthCodedNumber false false (rewound p bs)
  = Ok (VNum (Fin (NodeBuffer.length b)),
        Packet.with_offset (written p bs)
          (Packet.offset p + Z.of_nat (List.length (narrowest (NodeBuffer.length b)))))
  /\ room p (Z.of_nat (List.length bs)).
Proof.
  intros [H0 H1] Hshort bs.
  pose proof (narrowest_length (NodeBuffer.length b)) as Hnl.
  pose proof (length_nonneg b) as Hb.
  assert (Hroom : room p (Z.of_nat (List.length bs))).
  { split; [exact H0|]. unfold bs. rewrite length_app.
    unfold NodeBuffer.length in *. lia. }
  split; [|exact Hroom].
  pose proof (lies_at_written p bs Hroom) as Hlies.
  apply lies_at_app in Hlies as [Hlies _].
  rewrite (readLengthCodedNumber_lies (rewound p bs) (NodeBuffer.length b)).
  - rewrite read_back_small by lia. reflexivity.
  - exact Hlies.
  - split; [exact H0|]. rewrite rewound_offset, rewound_buffer.
    unfold written. packet_simpl. rewrite store_length. lia.
  - assert (2 ^ 53 < 2 ^ 64) by (vm_compute; reflexivity). lia.
Qed.

(** X17. Round trip of a length-coded buffer.  Where nine bytes and the
    bytes of [b] fit, [writeLengthCodedBuffer(b)] writes the length of
    [b] in its narrowest length-coded form and then [b] itself, and
    [readLengthCodedBuffer] at the same place returns [b], leaving the
    cursor where the writer left it. *)
Theorem length_coded_buffer_round_trip (b : NodeBuffer.t) (p : Packet.t) :
  room p (9 + NodeBuffer.length b) -> NodeBuffer.length b < 2 ^ 53 ->
  let bs := narrowest (NodeBuffer.length b) ++ b in
  PacketWriters.writeLengthCodedBuffer b p = Ok (tt, written p bs)
  /\ Packet.readLengthCodedBuffer (rewound p bs) = Ok (VBuf b, written p bs).
Proof.
  intros Hroom Hshort bs.
  destruct (length_coded_read p b Hroom Hshort) as [Hread Hfits]. fold bs in Hread, Hfits.
  pose proof (length_nonneg b) as Hb.
  destruct Hroom as [H0 H1].
  split.
  - unfold PacketWriters.writeLengthCodedBuffer.
    pose proof (writeLengthCodedNumber_narrowest p (NodeBuffer.length b)) as Hw.
    unfold as_argument in Hw.
    destruct (Z.ltb_spec (NodeBuffer.length b) (2 ^ 53)); [|lia].
    erewrite mbind_eq; [|apply Hw; [split; lia|]].
    2:{ assert (2 ^ 53 < 2 ^ 64) by (vm_compute; reflexivity). lia. }
    rewrite writeBuffer_step' by (unfold written; packet_simpl; lia).
    rewrite written_written by lia. reflexivity.
  - unfold Packet.readLengthCodedBuffer.
    erewrite mbind_eq; [|exact Hread].
    unfold NodeBuffer.length at 1.
    erewrite mbind_eq; [|apply (readBuffer_rewound p _ b Hfits)].
    reflexivity.
Qed.

Lemma written_nil (p : Packet.t) : written p [] = p.
Proof.
  unfold written, NodeBuffer.store. cbn [list_inserts List.length].
  rewrite with_buffer_id, Z.add_0_r. apply with_offset_id.
Qed.

Lemma copy_if_any_step (buf : NodeBuffer.t) (p : Packet.t) :
  room p (NodeBuffer.length buf) ->
  Packet.mbind (PacketWriters.copy_if_any buf)
    (fun _ => Packet.advance (NodeBuffer.length buf)) p
  = Ok (tt, written p buf).
Proof.
  intros [H0 H1]. unfold PacketWriters.copy_if_any.
  cbv beta iota delta [Packet.mbind Packet.this].
  destruct (Z.eqb_spec (NodeBuffer.length (Packet.buffer p)) 0) as [Hempty|Hany].
  - pose proof (length_nonneg buf).
    assert (Hnil : buf = []).
    { destruct buf; [reflexivity|]. unfold NodeBuffer.length in *. cbn in *. lia. }
    subst buf. rewrite written_nil. unfold Packet.ret, Packet.advance.
    cbv beta iota delta [Packet.mbind Packet.this Packet.set_offset].
    change (NodeBuffer.length []) with 0. rewrite Z.add_0_r, with_offset_id. reflexivity.
  - apply writeBuffer_step. exact H0.
Qed.

Lemma lengthCodedNumberLength_narrowest (n : Z) :
  0 <= n ->
  Packet.lengthCodedNumberLength (Fin n)
  = Z.of_nat (List.length (narrowest n))
    + (if (65536 <=? n) && (n <? 16777216) then 1 else 0).
Proof.
  intros Hn. unfold Packet.lengthCodedNumberLength, narrowest. rewrite !lt_Fin.
  destruct (Z.ltb_spec n 251), (Z.ltb_spec n 65536), (Z.ltb_spec n 16777216),
    (Z.leb_spec 65536 n); try lia; reflexivity.
Qed.

Section Strings.

Variable encode : string -> value -> NodeBuffer.t.
Variable decode : NodeBuffer.t -> value -> string.

Lemma writeLengthCodedString_step (s : string) (encoding : value) (p : Packet.t) :
  let buf := encode s encoding in
  room p (9 + NodeBuffer.length buf) -> NodeBuffer.length buf < 2 ^ 53 ->
  PacketWriters.writeLengthCodedString encode s encoding p
  = Ok (tt, written p (narrowest (NodeBuffer.length buf) ++ buf)).
Proof.
  intros buf [H0 H1] Hshort.
  pose proof (length_nonneg buf) as Hb.
  pose proof (narrowest_length (NodeBuffer.length buf)) as Hnl.
  unfold PacketWriters.writeLengthCodedString. cbv zeta. fold buf.
  pose proof (writeLengthCodedNumber_narrowest p (NodeBuffer.length buf)) as Hw.
  unfold as_argument in Hw.
  destruct (Z.ltb_spec (NodeBuffer.length buf) (2 ^ 53)); [|lia].
  erewrite mbind_eq; [|apply Hw; [split; lia|]].
  2:{ assert (2 ^ 53 < 2 ^ 64) by (vm_compute; reflexivity). lia. }
  rewrite copy_if_any_step.
  - rewrite written_written by lia. reflexivity.
  - apply room_written. split; lia.
Qed.

(** X18. Round trip of a length-coded string.  When the decoder undoes
    the encoder on [s], and nine bytes and the encoded bytes fit,
    [writeLengthCodedString(s)] writes the length of the encoded bytes
    in its narrowest length-coded form and then the bytes, and
    [readLengthCodedString] at the same place returns [s]. *)
Theorem length_coded_string_round_trip (s : string) (encoding : value) (p : Packet.t) :
  let buf := encode s encoding in
  let bs := narrowest (NodeBuffer.length buf) ++ buf in
  decode buf encoding = s ->
  room p (9 + NodeBuffer.length buf) -> NodeBuffer.length buf < 2 ^ 53 ->
  PacketWriters.writeLengthCodedString encode s encoding p = Ok (tt, written p bs)
  /\ Packet.readLengthCodedString decode encoding (rewound p bs)
     = Ok (VStr s, written p bs).
Proof.
  intros buf bs Hcodec Hroom Hshort.
  destruct (length_coded_read p buf Hroom Hshort) as [Hread Hfits].
  fold bs in Hread, Hfits.
  pose proof (length_nonneg buf) as Hb.
  pose proof (narrowest_length (NodeBuffer.length buf)) as Hnl.
  destruct Hroom as [H0 H1].
  split.
  - apply writeLengthCodedString_step; [split; assumption|exact Hshort].
  - change (NodeBuffer.length buf) with (Z.of_nat (List.length buf)) in *.
    unfold Packet.readLengthCodedString.
    erewrite mbind_eq; [|exact Hread].
    cbn [Packet.advance_by].
    cbv beta iota delta [Packet.mbind Packet.this Packet.advance Packet.set_offset
                         Packet.ret].
    packet_simpl. rewrite Z.add_simpl_r.
    pose proof (readBuffer_rewound p (narrowest (Z.of_nat (List.length buf))) buf Hfits)
      as Hrb.
    rewrite readBuffer_step in Hrb. injection Hrb as Hslice Hstate.
    cbn [Packet.offset Packet.with_offset Packet.buffer] in Hslice, Hstate.
    fold bs in Hslice, Hstate.
    unfold written at 1. packet_simpl.
    rewrite Hslice, Hcodec, Hstate. reflexivity.
Qed.

End Strings.

(** Three bytes behind their length on the blank packet. *)
Lemma length_coded_buffer_round_trip_of_three_bytes :
  PacketWriters.writeLengthCodedBuffer [1; 2; 3] blank
    = Ok (tt, written blank [3; 1; 2; 3])
  /\ Packet.readLengthCodedBuffer (rewound blank [3; 1; 2; 3])
     = Ok (VBuf [1; 2; 3], written blank [3; 1; 2; 3]).
Proof.
  apply (length_coded_buffer_round_trip [1; 2; 3] blank).
  - split; vm_compute; discriminate.
  - vm_compute. reflexivity.
Defined.

(** The string [abc] behind its length on the blank packet. *)
Lemma length_coded_string_round_trip_of_abc :
  PacketWriters.writeLengthCodedString latin1_bytes "abc" (VStr "utf8") blank
    = Ok (tt, written blank [3; 97; 98; 99])
  /\ Packet.readLengthCodedString latin1 (VStr "utf8") (rewound blank [3; 97; 98; 99])
     = Ok (VStr "abc", written blank [3; 97; 98; 99]).
Proof.
  apply (length_coded_string_round_trip latin1_bytes latin1 "abc" (VStr "utf8") blank).
  - reflexivity.
  - split; vm_compute; discriminate.
  - vm_compute. reflexivity.
Defined.

Lemma copy_if_any_alone (buf : NodeBuffer.t) (p : Packet.t) :
  room p (NodeBuffer.length buf) ->
  PacketWriters.copy_if_any buf p
  = Ok (tt, Packet.with_buffer p
              (NodeBuffer.store (Packet.buffer p) (Z.to_nat (Packet.offset p)) buf)).
Proof.
  intros [H0 H1]. unfold PacketWriters.copy_if_any.
  cbv beta iota delta [Packet.mbind Packet.this].
  destruct (Z.eqb_spec (NodeBuffer.length (Packet.buffer p)) 0) as [Hempty|Hany].
  - pose proof (length_nonneg buf).
    assert (Hnil : buf = []).
    { destruct buf; [reflexivity|]. unfold NodeBuffer.length in *. cbn in *. lia. }
    subst buf. unfold NodeBuffer.store. cbn [list_inserts].
    rewrite with_buffer_id. reflexivity.
  - apply copy_here_step. exact H0.
Qed.

Lemma before_zero_app (xs rest : list Z) :
  Forall (fun x => x <> 0) xs -> before_zero (xs ++ 0 :: rest) = xs.
Proof.
  induction 1 as [|x xs Hx _ IH]; [reflexivity|].
  cbn. destruct (Z.eqb_spec x 0); [contradiction|]. rewrite IH. reflexivity.
Qed.

Lemma lies_at_drop (b : NodeBuffer.t) (o : Z) (bs : list Z) :
  lies_at b o bs -> exists rest, drop (Z.to_nat o) b = bs ++ rest.
Proof.
  intros [_ H]. exists (drop (List.length bs) (drop (Z.to_nat o) b)).
  pose proof (take_drop (List.length bs) (drop (Z.to_nat o) b)) as Htd.
  rewrite H in Htd. symmetry. exact Htd.
Qed.

Section TerminatedStrings.

Variable encode : string -> value -> NodeBuffer.t.
Variable decode : NodeBuffer.t -> value -> string.

(** X19. Round trip of a zero-terminated string.  When the decoder
    undoes the encoder on [s], the encoded bytes hold no zero byte, and
    they fit with one more byte, [writeNullTerminatedString(s)] writes
    the bytes and a zero byte, and [readNullTerminatedString] at the
    same place returns [s], leaving the cursor behind the zero byte. *)
Theorem null_terminated_string_round_trip (s : string) (encoding : value)
    (p : Packet.t) :
  let buf := encode s encoding in
  decode buf encoding = s -> Forall (fun x => x <> 0) buf ->
  room p (NodeBuffer.length buf + 1) ->
  PacketWriters.writeNullTerminatedString encode s encoding p
    = Ok (tt, written p (buf ++ [0]))
  /\ Packet.readNullTerminatedString decode encoding (rewound p (buf ++ [0]))
     = Ok (s, written p (buf ++ [0])).
Proof.
  intros buf Hcodec Hnonzero [H0 H1].
  pose proof (length_nonneg buf) as Hb.
  assert (Hfits : room p (Z.of_nat (List.length (buf ++ [0])))).
  { split; [exact H0|]. rewrite length_app. unfold NodeBuffer.length in *. cbn. lia. }
  split.
  - unfold PacketWriters.writeNullTerminatedString. cbv zeta. fold buf.
    erewrite mbind_eq; [|apply copy_if_any_alone; split; lia].
    erewrite mbind_eq; [|reflexivity].
    change (Packet.with_offset _ _) with (written p buf).
    rewrite writeInt8_step.
    + rewrite written_written by lia. reflexivity.
    + lia.
    + apply room_written. split; unfold NodeBuffer.length in *; lia.
  - rewrite readNullTerminatedString_step by (rewrite rewound_offset; exact H0).
    cbv zeta. rewrite rewound_offset, rewound_buffer.
    destruct (lies_at_drop _ _ _ (lies_at_written p (buf ++ [0]) Hfits)) as [rest Hrest].
    rewrite Hrest, <- app_assoc. cbn [app].
    rewrite before_zero_app by exact Hnonzero.
    rewrite Hcodec. do 2 f_equal.
    unfold rewound, written. cursor. rewrite length_app. cbn. lia.
Qed.

(** X20. [writeString] and [readString].  The empty string writes
    nothing at all, and [null] writes the byte FB.  Any other string is
    written as its encoded bytes, without a length; when the decoder
    undoes the encoder on it, [readString] with the number of those
    bytes reads it back. *)
Theorem writeString_round_trip (s : string) (encoding : value) (p : Packet.t) :
  let buf := encode s encoding in
  s <> EmptyString -> decode buf encoding = s -> room p (NodeBuffer.length buf) ->
  PacketWriters.writeString encode (VStr s) encoding p = Ok (tt, written p buf)
  /\ Packet.readString decode (VNum (Fin (NodeBuffer.length buf))) encoding (rewound p buf)
     = Ok (s, written p buf)
  /\ PacketWriters.writeString encode (VStr "") encoding p = Ok (tt, p)
  /\ PacketWriters.writeString encode VNull encoding p = Packet.writeInt8 251 p.
Proof.
  intros buf Hne Hcodec Hroom.
  split; [|split; [|split; reflexivity]].
  - unfold PacketWriters.writeString.
    destruct s as [|c s]; [contradiction|]. cbn [String.length Nat.eqb].
    cbv zeta. apply copy_if_any_step. exact Hroom.
  - pose proof (readBuffer_rewound p [] buf Hroom) as Hrb.
    cbn [app List.length] in Hrb. rewrite Z.add_0_r in Hrb.
    rewrite readBuffer_step in Hrb. injection Hrb as Hslice.
    unfold Packet.readString, Packet.or_rest.
    erewrite mbind_eq; [|reflexivity]. cbn [Packet.advance_by].
    cbv beta iota delta [Packet.mbind Packet.this Packet.advance Packet.set_offset
                         Packet.ret].
    packet_simpl. rewrite Z.add_simpl_r.
    change (NodeBuffer.length buf) with (Z.of_nat (List.length buf)) in *.
    rewrite rewound_offset, rewound_buffer.
    unfold written at 1. packet_simpl. rewrite Hslice, Hcodec. reflexivity.
Qed.

(** X21. [lengthCodedStringLength] against the bytes written.  Where
    nine bytes and the encoded bytes of [s] fit,
    [writeLengthCodedString(s)] moves the cursor by exactly
    [lengthCodedStringLength(s)], unless the encoded bytes number
    65536 to 16777215: then the helper answers one more than the bytes
    written. *)
Theorem lengthCodedStringLength_counts (s : string) (encoding : value) (p : Packet.t) :
  let slen := NodeBuffer.length (encode s encoding) in
  room p (9 + slen) -> slen < 2 ^ 53 ->
  exists p1,
    PacketWriters.writeLengthCodedString encode s encoding p = Ok (tt, p1)
    /\ PacketWriters.lengthCodedStringLength encode s encoding
       = Packet.offset p1 - Packet.offset p
         + (if (65536 <=? slen) && (slen <? 16777216) then 1 else 0).
Proof.
  intros slen Hroom Hshort.
  eexists. split; [apply writeLengthCodedString_step; assumption|].
  unfold PacketWriters.lengthCodedStringLength. cbv zeta. fold slen.
  rewrite lengthCodedNumberLength_narrowest by apply length_nonneg.
  unfold written. packet_simpl. rewrite length_app.
  unfold slen, NodeBuffer.length. lia.
Qed.

End TerminatedStrings.

(** The string [ab] and its terminator on the blank packet. *)
Lemma null_terminated_string_round_trip_of_ab :
  PacketWriters.writeNullTerminatedString latin1_bytes "ab" (VStr "utf8") blank
    = Ok (tt, written blank [97; 98; 0])
  /\ Packet.readNullTerminatedString latin1 (VStr "utf8") (rewound blank [97; 98; 0])
     = Ok ("ab"%string, written blank [97; 98; 0]).
Proof.
  apply (null_terminated_string_round_trip latin1_bytes latin1 "ab" (VStr "utf8") blank).
  - reflexivity.
  - repeat constructor; discriminate.
  - split; vm_compute; discriminate.
Defined.

(** The string [ab], the empty string and [null] on the blank packet. *)
Lemma writeString_round_trip_of_ab :
  PacketWriters.writeString latin1_bytes (VStr "ab") (VStr "utf8") blank
    = Ok (tt, written blank [97; 98])
  /\ Packet.readString latin1 (VNum (Fin 2)) (VStr "utf8") (rewound blank [97; 98])
     = Ok ("ab"%string, written blank [97; 98])
  /\ PacketWriters.writeString latin1_bytes (VStr "") (VStr "utf8") blank = Ok (tt, blank)
  /\ PacketWriters.writeString latin1_bytes VNull (VStr "utf8") blank
     = Packet.writeInt8 251 blank.
Proof.
  apply (writeString_round_trip latin1_bytes latin1 "ab" (VStr "utf8") blank).
  - discriminate.
  - reflexivity.
  - split; vm_compute; discriminate.
Defined.

(** For [abc] the helper answers 4, the bytes written. *)
Lemma lengthCodedStringLength_counts_abc :
  exists p1,
    PacketWriters.writeLengthCodedString latin1_bytes "abc" (VStr "utf8") blank
      = Ok (tt, p1)
    /\ PacketWriters.lengthCodedStringLength latin1_bytes "abc" (VStr "utf8")
       = Packet.offset p1 - Packet.offset blank + 0.
Proof.
  apply (lengthCodedStringLength_counts latin1_bytes "abc" (VStr "utf8") blank).
  - split; vm_compute; discriminate.
  - vm_compute. reflexivity.
Defined.
(** ** The packet header *)


Lemma writeInt8_no_room (p : Packet.t) (n : Z) :
  NodeBuffer.length (Packet.buffer p) < Packet.offset p + 1 ->
  Packet.writeInt8 n p = Throw NodeBuffer.out_of_range.
Proof.
  intros Hn. unfold Packet.writeInt8, Packet.write, NodeBuffer.writeUInt8, NodeBuffer.write_le.
  cbv beta iota delta [Packet.mbind Packet.this Packet.lift].
  destruct (_ || _); [reflexivity|].
  rewrite Z.add_0_r.
  destruct (Z.leb_spec (Packet.offset p + Z.of_nat 1) (NodeBuffer.length (Packet.buffer p)));
    [lia|].
  rewrite andb_false_r. reflexivity.
Qed.



(** ** Dates on the wire *)

Lemma store_store (b : NodeBuffer.t) (o : nat) (xs ys : list Z) :
  NodeBuffer.store (NodeBuffer.store b o xs) (o + List.length xs) ys
  = NodeBuffer.store b o (xs ++ ys).
Proof.
  unfold NodeBuffer.store. rewrite list_inserts_app_l. f_equal. lia.
Qed.

(** A write behind the bytes [bs] already put at the cursor. *)
Lemma write_appends (k : nat) (lo hi v : Z) (p : Packet.t) (bs : list Z) (at_ : Z) :
  at_ = Z.of_nat (List.length bs) ->
  lo <= v <= hi -> 0 <= v < 2 ^ (8 * Z.of_nat k) ->
  room p (at_ + Z.of_nat k) ->
  Packet.write (NodeBuffer.write_le k lo hi) v at_
    (Packet.with_buffer p (NodeBuffer.store (Packet.buffer p) (Z.to_nat (Packet.offset p)) bs))
  = Ok (tt, Packet.with_buffer p
              (NodeBuffer.store (Packet.buffer p) (Z.to_nat (Packet.offset p))
                 (bs ++ NodeBuffer.le_bytes k v))).
Proof.
  intros -> Hv Hsmall [H0 H1].
  rewrite write_step.
  - packet_simpl. rewrite Z.mod_small by exact Hsmall.
    rewrite <- store_store.
    replace (Z.to_nat (Packet.offset p + Z.of_nat (List.length bs)))
      with (Z.to_nat (Packet.offset p) + List.length bs)%nat by lia.
    reflexivity.
  - exact Hv.
  - packet_simpl. lia.
  - packet_simpl. rewrite store_length. lia.
Qed.

Lemma le_bytes_1 (v : Z) : 0 <= v < 256 -> NodeBuffer.le_bytes 1 v = [v].
Proof. intros H. cbn. rewrite Z.mod_small by exact H. reflexivity. Qed.

(** The next write of [writeDate], behind the bytes already written. *)
Ltac write_next k hi at_ :=
  erewrite mbind_eq;
    [|apply (write_appends k 0 hi _ _ _ at_);
      [reflexivity|lia|cbn; lia
      |match goal with Hr : forall k, _ -> room _ k |- _ => apply Hr; cbn; lia end]].

Lemma writeDate_step (d : PacketWriters.date) (p : Packet.t) :
  wire_date d -> room p 12 ->
  PacketWriters.writeDate d p = Ok (tt, written p (date_bytes d)).
Proof.
  intros (Hy & Hm & Hd & HH & HM & HS & Hms) Hroom.
  assert (Hr : forall k, k <= 12 -> room p k) by (intros k Hk; destruct Hroom; split; lia).
  unfold PacketWriters.writeDate, NodeBuffer.writeUInt8, NodeBuffer.writeUInt16LE,
    NodeBuffer.writeUInt32LE.
  replace p with
    (Packet.with_buffer p (NodeBuffer.store (Packet.buffer p) (Z.to_nat (Packet.offset p)) []))
    at 1 by apply with_buffer_id.
  write_next 1%nat 255 0.
  write_next 2%nat 65535 1.
  write_next 1%nat 255 3.
  write_next 1%nat 255 4.
  write_next 1%nat 255 5.
  write_next 1%nat 255 6.
  write_next 1%nat 255 7.
  write_next 4%nat 4294967295 8.
  rewrite !le_bytes_1 by lia. rewrite <- !app_assoc.
  cbv beta iota delta [Packet.advance Packet.mbind Packet.this Packet.set_offset].
  unfold written, date_bytes. packet_simpl. reflexivity.
Qed.

Lemma bytes_at_lies (b : NodeBuffer.t) (o : Z) (bs : list Z) (k : nat) :
  lies_at b o bs -> List.length bs = k -> (0 < k)%nat ->
  NodeBuffer.bytes_at b o k = Ok bs.
Proof.
  intros Hlies Hk Hpos.
  destruct (lies_at_length _ _ _ Hlies) as [Hlen|Hnil]; [|subst bs; cbn in Hk; lia].
  pose proof Hlies as [Ho Htake].
  rewrite bytes_at_range by lia.
  rewrite <- Hk. rewrite lies_at_range by exact Hlies. reflexivity.
Qed.

(** The date made of the fields [writeDate] took from [d]. *)
Lemma dateTime_lies (b : NodeBuffer.t) (o : Z) (d : PacketWriters.date) :
  wire_date d -> lies_at b o (date_bytes d) ->
  PacketParser.dateTime b (Some (o + 1)) (Some 11)
  = Ok (VDate (mkDate (Fin (PacketWriters.getFullYear d))
                 (Fin (PacketWriters.getMonth d))
                 (Fin (PacketWriters.getDate d))
                 (Fin (PacketWriters.getHours d))
                 (Fin (PacketWriters.getMinutes d))
                 (Fin (PacketWriters.getSeconds d))
                 (PacketWriters.getMilliseconds d * 1000))).
Proof.
  intros (Hy & Hm & Hd & HH & HM & HS & Hms) Hlies.
  pose proof Hlies as [Ho _].
  unfold date_bytes in Hlies.
  apply lies_at_app in Hlies as [_ Hrest]. change (Z.of_nat (List.length [11])) with 1 in Hrest.
  apply lies_at_app in Hrest as [Hyear Hrest]. rewrite le_bytes_length in Hrest.
  change (Z.of_nat 2) with 2 in Hrest.
  apply lies_at_app in Hrest as [Hfields Hmicros].
  cbn [List.length] in Hmicros. change (Z.of_nat 5) with 5 in Hmicros.
  assert (Hget : forall k x,
             [PacketWriters.getMonth d + 1; PacketWriters.getDate d; PacketWriters.getHours d;
              PacketWriters.getMinutes d; PacketWriters.getSeconds d] !! Z.to_nat (k - 2)
             = Some x ->
             2 <= k -> NodeBuffer.get b (k + (o + 1)) = Some x).
  { intros k x Hk H2. rewrite <- (lies_at_get _ _ _ _ x Hfields Hk). f_equal. lia. }
  unfold PacketParser.dateTime, PacketParser.arguments, PacketParser.uint16,
    PacketParser.uint8, PacketParser.uint32, PacketParser.or_zero.
  cbv beta iota zeta. change (3 <? 11) with true. change (6 <? 11) with true.
  change (10 <? 11) with true. cbv beta iota.
  unfold NodeBuffer.readUInt16LE, NodeBuffer.readUInt32LE.
  cbv beta iota delta [from_option id].
  rewrite (bytes_at_lies _ _ _ 2 Hyear) by (rewrite ?le_bytes_length; lia).
  cbn [JS.bind].
  replace (7 + (o + 1)) with (o + 1 + 2 + 5) by lia.
  rewrite (bytes_at_lies _ _ _ 4 Hmicros) by (rewrite ?le_bytes_length; lia).
  cbn [JS.bind].
  rewrite (Hget 2 _ eq_refl), (Hget 3 _ eq_refl), (Hget 4 _ eq_refl),
    (Hget 5 _ eq_refl), (Hget 6 _ eq_refl) by lia.
  rewrite !le_value_bytes_small by (cbn; lia).
  cbn [PacketParser.set NodeBuffer.num_of_byte].
  destruct (Z.eqb_spec (PacketWriters.getDate d) 0) as [H0|_]; [lia|].
  rewrite !orb_true_r, ?orb_true_l. cbn [negb orb].
  replace (sub (Fin (PacketWriters.getMonth d + 1)) (Fin 1))
    with (Fin (PacketWriters.getMonth d)); [reflexivity|].
  unfold sub, neg, add. rewrite of_Z_exact by lia. f_equal. lia.
Qed.

Lemma write_throws (k : nat) (lo hi v at_ : Z) (p : Packet.t) (e : error) :
  Packet.write (NodeBuffer.write_le k lo hi) v at_ p = Throw e -> e = NodeBuffer.out_of_range.
Proof.
  unfold Packet.write, NodeBuffer.write_le.
  cbv beta iota delta [Packet.mbind Packet.this Packet.lift Packet.set_buffer].
  destruct (_ || _); [intros [= <-]; reflexivity|].
  destruct (_ && _); [discriminate|intros [= <-]; reflexivity].
Qed.

Lemma write_rejects (k : nat) (lo hi v at_ : Z) (p : Packet.t) :
  v < lo \/ hi < v ->
  Packet.write (NodeBuffer.write_le k lo hi) v at_ p = Throw NodeBuffer.out_of_range.
Proof.
  intros Hv. unfold Packet.write, NodeBuffer.write_le.
  cbv beta iota delta [Packet.mbind Packet.this Packet.lift].
  destruct (Z.ltb_spec v lo), (Z.ltb_spec hi v); try reflexivity; lia.
Qed.

(** X23. Round trip of a date.  For a date whose year lies in
    0 .. 65535, [writeDate] puts twelve bytes at the cursor, where they
    fit: the length 11, the year, the month counted from 1, the day and
    the time of day, and the milliseconds as microseconds.
    [readDateTime] at the same place builds a [Date] from the very
    fields the getters returned, the month counted from 0 again, and
    leaves the cursor where the writer left it.  A date whose year is
    negative or above 65535 makes [writeDate] throw a [RangeError]. *)
Theorem writeDate_round_trip (d : PacketWriters.date) (p : Packet.t) :
  (wire_date d -> room p 12 ->
   PacketWriters.writeDate d p = Ok (tt, written p (date_bytes d))
   /\ Packet.readDateTime (rewound p (date_bytes d))
      = Ok (VDate (mkDate (Fin (PacketWriters.getFullYear d))
                     (Fin (PacketWriters.getMonth d))
                     (Fin (PacketWriters.getDate d))
                     (Fin (PacketWriters.getHours d))
                     (Fin (PacketWriters.getMinutes d))
                     (Fin (PacketWriters.getSeconds d))
                     (PacketWriters.getMilliseconds d * 1000)),
            written p (date_bytes d)))
  /\ (PacketWriters.getFullYear d < 0 \/ 65535 < PacketWriters.getFullYear d ->
      PacketWriters.writeDate d p = Throw NodeBuffer.out_of_range).
Proof.
  split.
  - intros Hd Hroom. split; [apply writeDate_step; assumption|].
    assert (Hlen : List.length (date_bytes d) = 12%nat)
      by (unfold date_bytes; rewrite !length_app, !le_bytes_length; reflexivity).
    assert (Hlies : lies_at (Packet.buffer (rewound p (date_bytes d))) (Packet.offset p)
                      (date_bytes d))
      by (rewrite rewound_buffer; apply lies_at_written; rewrite Hlen; exact Hroom).
    unfold Packet.readDateTime.
    erewrite mbind_eq; [|apply readInt8_step].
    rewrite rewound_offset.
    rewrite (lies_at_head _ _ 11 _ Hlies).
    cbn [Packet.equals Z.eqb Pos.eqb NodeBuffer.value_of_byte Packet.advance_by].
    cbv beta iota delta [Packet.mbind Packet.advance Packet.this Packet.set_offset
                         Packet.ret Packet.lift].
    packet_simpl.
    replace (Packet.offset p + 1 + 11 - 11) with (Packet.offset p + 1) by lia.
    rewrite (dateTime_lies _ _ d Hd Hlies).
    do 2 f_equal. rewrite <- (rewound_forward p (date_bytes d) 12) by (symmetry; exact Hlen).
    apply with_offset_same. lia.
  - intros Hy. unfold PacketWriters.writeDate, NodeBuffer.writeUInt8, NodeBuffer.writeUInt16LE.
    unfold Packet.mbind at 1.
    destruct (Packet.write (NodeBuffer.write_le 1 0 255) 11 0 p) as [[[] q]|e] eqn:E.
    + unfold Packet.mbind at 1. rewrite write_rejects by exact Hy. reflexivity.
    + apply write_throws in E. subst e. reflexivity.
Qed.

Lemma writeDate_round_trip_examples :
  Packet.readDateTime (rewound blank (date_bytes new_year_2020))
  = Ok (VDate (mkDate (Fin 2020) (Fin 0) (Fin 1) (Fin 0) (Fin 0) (Fin 0) 0),
        written blank (date_bytes new_year_2020))
  /\ PacketWriters.writeDate year_70000 blank = Throw NodeBuffer.out_of_range.
Proof.
  split.
  - destruct (writeDate_round_trip new_year_2020 blank) as [Hround _].
    apply Hround.
    + unfold wire_date. cbn. lia.
    + split; vm_compute; discriminate.
  - destruct (writeDate_round_trip year_70000 blank) as [_ Hthrow].
    apply Hthrow. right. cbn. lia.
Defined.
(** ** Length-coded integers where they just fit *)

(** Reading a length-coded integer needs no more room than its bytes. *)
Lemma readLengthCodedNumber_snug (p : Packet.t) (n : Z) :
  room p (Z.of_nat (List.length (narrowest n))) -> 0 <= n < 2 ^ 64 ->
  Packet.readLengthCodedNumber false false (rewound p (narrowest n))
  = Ok (read_back n, written p (narrowest n)).
Proof.
  intros Hr Hn. unfold rewound.
  pose proof Hr as [Hoff Hroom].
  assert (Hlen : (List.length (narrowest n) <= 9)%nat).
  { unfold narrowest. destruct (n <? 251), (n <? 65536), (n <? 16777216); cbn; lia. }
  assert (Hpos : (0 < List.length (narrowest n))%nat).
  { unfold narrowest. destruct (n <? 251), (n <? 65536), (n <? 16777216); cbn; lia. }
  unfold Packet.readLengthCodedNumber.
  replace (Packet.offset p) with (Packet.offset p + Z.of_nat 0) at 1 by lia.
  erewrite mbind_eq; [|apply readInt8_written; assumption].
  revert Hr Hlen Hpos. unfold narrowest, read_back.
  destruct (Z.ltb_spec n 251) as [H251|H251].
  { intros Hr _ _. cbn [lookup list_lookup].
    destruct (Z.ltb_spec n 251); [|lia].
    destruct (Z.ltb_spec n (2 ^ 53)); [|lia].
    unfold Packet.ret. rewrite written_end by reflexivity. reflexivity. }
  destruct (Z.ltb_spec n 65536) as [H16|H16].
  { intros Hr _ _. cbn [lookup list_lookup]. change (252 <? 251) with false. cbv iota.
    unfold Packet.readLengthCodedNumberExt.
    change (Packet.equals (Some 252) 251) with false.
    change (Packet.equals (Some 252) 252) with true. cbv iota.
    erewrite mbind_eq; [|apply readInt8_written; [assumption|cbn; lia]].
    erewrite mbind_eq; [|apply readInt8_written; [assumption|cbn; lia]].
    cbn [lookup list_lookup NodeBuffer.le_bytes NodeBuffer.num_of_byte].
    assert (0 <= n mod 256 < 256) by (apply Z.mod_pos_bound; lia).
    assert (0 <= n / 256 < 256)
      by (split; [apply Z.div_pos; lia|apply Z.div_lt_upper_bound; lia]).
    rewrite (Z.mod_small (n / 256)) by lia.
    rewrite shl_byte by lia. unfold add.
    change (2 ^ 8) with 256.
    assert (Hn' : n mod 256 + n / 256 * 256 = n)
      by (pose proof (Z.div_mod n 256 ltac:(lia)); lia).
    rewrite Hn', of_Z_exact by lia.
    destruct (Z.ltb_spec n (2 ^ 53)); [|lia].
    unfold Packet.ret. rewrite written_end by reflexivity. reflexivity. }
  destruct (Z.ltb_spec n 16777216) as [H24|H24].
  { intros Hr _ _. cbn [lookup list_lookup]. change (253 <? 251) with false. cbv iota.
    unfold Packet.readLengthCodedNumberExt.
    change (Packet.equals (Some 253) 251) with false.
    change (Packet.equals (Some 253) 252) with false.
    change (Packet.equals (Some 253) 253) with true. cbv iota.
    erewrite mbind_eq; [|apply readInt8_written; [assumption|cbn; lia]].
    erewrite mbind_eq; [|apply readInt8_written; [assumption|cbn; lia]].
    erewrite mbind_eq; [|apply readInt8_written; [assumption|cbn; lia]].
    cbn [lookup list_lookup NodeBuffer.le_bytes NodeBuffer.num_of_byte].
    assert (0 <= n mod 256 < 256) by (apply Z.mod_pos_bound; lia).
    assert (0 <= n / 256 mod 256 < 256) by (apply Z.mod_pos_bound; lia).
    assert (0 <= n / 256 / 256 < 256).
    { rewrite Z.div_div by lia.
      split; [apply Z.div_pos; lia|apply Z.div_lt_upper_bound; lia]. }
    rewrite (Z.mod_small (n / 256 / 256)) by lia.
    rewrite !shl_byte by lia. unfold add.
    change (2 ^ 8) with 256. change (2 ^ 16) with 65536.
    rewrite of_Z_exact by lia.
    assert (Hn' : n mod 256 + n / 256 mod 256 * 256 + n / 256 / 256 * 65536 = n).
    { pose proof (Z.div_mod n 256 ltac:(lia)).
      pose proof (Z.div_mod (n / 256) 256 ltac:(lia)). lia. }
    rewrite Hn', of_Z_exact by lia.
    destruct (Z.ltb_spec n (2 ^ 53)); [|lia].
    unfold Packet.ret. rewrite written_end by reflexivity. reflexivity. }
  intros Hr _ _. cbn [lookup list_lookup]. change (254 <? 251) with false. cbv iota.
  unfold Packet.readLengthCodedNumberExt.
  change (Packet.equals (Some 254) 251) with false.
  change (Packet.equals (Some 254) 252) with false.
  change (Packet.equals (Some 254) 253) with false.
  change (Packet.equals (Some 254) 254) with true. cbv iota.
  rewrite le_bytes_8 in *.
  assert (Hq : 0 <= n / 2 ^ 32 < 2 ^ 32)
    by (split; [apply Z.div_pos; lia|apply Z.div_lt_upper_bound; lia]).
  assert (Hm : 0 <= n mod 2 ^ 32 < 2 ^ 32) by (apply Z.mod_pos_bound; lia).
  assert (Hsum : n / 2 ^ 32 * 2 ^ 32 + n mod 2 ^ 32 = n)
    by (pose proof (Z.div_mod n (2 ^ 32) ltac:(lia)); lia).
  erewrite mbind_eq;
    [|apply readInt32_written; [assumption|cbn [List.length]; rewrite length_app, !le_bytes_length; lia]].
  erewrite mbind_eq;
    [|apply (readInt32_written p _ 5); [assumption|cbn [List.length]; rewrite length_app, !le_bytes_length; lia]].
  assert (Hw0 : NodeBuffer.le_value
            (take 4 (drop 1 (254 :: NodeBuffer.le_bytes 4 (n mod 2 ^ 32)
                                    ++ NodeBuffer.le_bytes 4 (n / 2 ^ 32))))
          = n mod 2 ^ 32).
  { cbn [skipn]. rewrite drop_0, take_app_length' by (rewrite le_bytes_length; reflexivity).
    rewrite le_value_le_bytes. change (256 ^ Z.of_nat 4) with (2 ^ 32).
    apply Z.mod_small. lia. }
  assert (Hw1 : NodeBuffer.le_value
            (take 4 (drop 5 (254 :: NodeBuffer.le_bytes 4 (n mod 2 ^ 32)
                                    ++ NodeBuffer.le_bytes 4 (n / 2 ^ 32))))
          = n / 2 ^ 32).
  { change (drop 5 (254 :: ?l)) with (drop 4 l).
    rewrite drop_app_length' by (rewrite le_bytes_length; reflexivity).
    rewrite take_ge by (rewrite le_bytes_length; lia).
    rewrite le_value_le_bytes. change (256 ^ Z.of_nat 4) with (2 ^ 32).
    apply Z.mod_small. lia. }
  rewrite Hw0, Hw1.
  rewrite written_end
    by (cbn [List.length]; rewrite length_app, !le_bytes_length; reflexivity).
  destruct (Z.eqb_spec (n / 2 ^ 32) 0) as [H0|H0].
  { assert (Hsmall : n mod 2 ^ 32 = n) by lia.
    destruct (Z.ltb_spec n (2 ^ 53)); [|lia].
    rewrite Hsmall. reflexivity. }
  destruct (Z.ltb_spec (n / 2 ^ 32) 2097152) as [H21|H21].
  { assert (n < 2 ^ 53) by (change (2 ^ 53) with (2097152 * 2 ^ 32); nia).
    destruct (Z.ltb_spec n (2 ^ 53)); [|lia].
    unfold mul, add. change 4294967296 with (2 ^ 32).
    rewrite of_Z_exact by nia. rewrite Hsum, of_Z_exact by lia. reflexivity. }
  assert (2 ^ 53 <= n) by (change (2 ^ 53) with (2097152 * 2 ^ 32); nia).
  destruct (Z.ltb_spec n (2 ^ 53)); [lia|].
  destruct (toNumber_unsigned (n mod 2 ^ 32) (n / 2 ^ 32) Hm Hq) as [HtoN HtoS].
  rewrite Hsum in HtoN, HtoS.
  change (negb false) with true.
  erewrite mbind_eq; [|reflexivity].
  erewrite mbind_eq; [|reflexivity].
  rewrite HtoN, HtoS.
  erewrite mbind_eq; [|reflexivity].
  reflexivity.
Qed.

Lemma readLengthCodedNumber_at (q : Packet.t) (n : Z) :
  lies_at (Packet.buffer q) (Packet.offset q) (narrowest n) -> 0 <= n < 2 ^ 64 ->
  Packet.readLengthCodedNumber false false q
  = Ok (read_back n,
        Packet.with_offset q (Packet.offset q + Z.of_nat (List.length (narrowest n)))).
Proof.
  intros Hlies Hn.
  assert (Hroom : room q (Z.of_nat (List.length (narrowest n)))).
  { pose proof Hlies as [Ho _]. split; [exact Ho|].
    destruct (lies_at_length _ _ _ Hlies) as [H|H]; [exact H|].
    pose proof (narrowest_length n) as Hl. rewrite H in Hl. cbn in Hl. lia. }
  destruct (written_same q (narrowest n) Hlies) as [Hre Hwr].
  rewrite <- Hwr. rewrite <- Hre at 1.
  apply readLengthCodedNumber_snug; assumption.
Qed.

(** ** Dates in text *)

Section TextDates.

Variable decode : NodeBuffer.t -> value -> string.

(** [parseInt] without big-number support, on a text shorter than
    fourteen characters. *)
Lemma parseInt_short (negative : bool) (ds : string) (p : Packet.t) :
  let text := integer_text negative ds in
  let len := Z.of_nat (String.length text) in
  all_digits ds = true -> (1 <= String.length ds)%nat -> len < 14 ->
  lies_at (Packet.buffer p) (Packet.offset p) (bytes_of text) ->
  NodeBuffer.length (Packet.buffer p) < 2 ^ 53 ->
  Packet.parseInt decode (VNum (Fin len)) false p
  = Ok ((VNum (Fin (integer_of negative ds)), Packet.ExitLoop),
        Packet.with_offset p (Packet.offset p + len)).
Proof.
  intros text len Hd Hlen Hshort Hlies Hbuf.
  assert (Hlen15 : (1 <= String.length ds <= 15)%nat).
  { split; [exact Hlen|]. unfold len, text in Hshort.
    destruct negative; cbn [integer_text String.length] in Hshort; lia. }
  destruct (scan_integer negative ds _ _ Hd Hlen15 Hlies)
    as ((c & Hc & Hneg) & (d & Hd1 & Hdrange) & Hacc & Hval & Htext).
  fold text in Htext. fold len in Htext.
  set (b := Packet.buffer p) in *. set (o := Packet.offset p) in *.
  set (o1 := if negative then o + 1 else o) in *.
  assert (Hlen0 : 0 < len) by (destruct negative; subst o1; lia).
  assert (Hsteps : Z.to_nat (o + len - o1) = String.length ds) by lia.
  assert (Hplus : (d =? 43) = false) by (apply Z.eqb_neq; lia).
  assert (Hbig : 10 ^ 15 < 2 ^ 53) by (vm_compute; reflexivity).
  assert (Hend : o + len <= NodeBuffer.length b).
  { destruct (lies_at_length _ _ _ Hlies) as [H|H].
    - rewrite bytes_of_length in H. exact H.
    - apply (f_equal (@List.length Z)) in H. rewrite bytes_of_length in H.
      fold text in H. cbn in H. lia. }
  assert (Ho : 0 <= o) by (destruct Hlies; assumption).
  unfold Packet.parseInt.
  cbv beta iota delta [Packet.mbind Packet.this Packet.lift Packet.ret Packet.next_is
    Packet.iterations Packet.advance Packet.set_offset Packet.peekByte Packet.advance_by
    plus to_number add strict_eq num_eqb ge le lt negb andb Packet.toString_ascii_to].
  destruct (Z.ltb_spec len 14) as [_|Hmany]; [|lia]. cbv beta iota.
  fold b o. rewrite of_Z_exact by lia. cbv beta iota.
  destruct (Z.eqb_spec len 0); [lia|].
  fold b o. rewrite Hc. cbn [Packet.equals].
  unfold PacketParser.minus, PacketParser.plus. rewrite Hneg.
  destruct negative; cbv beta iota; packet_simpl; fold b o; subst o1;
    rewrite Hd1; cbn [Packet.equals]; rewrite Hplus; cbv beta iota; packet_simpl;
    rewrite digits_accumulate; packet_simpl; fold b o;
    rewrite Hsteps, Hacc; unfold mul; rewrite of_Z_exact by lia;
    unfold integer_of;
    finish_integer.
Qed.

Lemma digits_value_small (s : string) (k : nat) :
  all_digits s = true -> String.length s = k -> 0 <= digits_value s 0 < 10 ^ Z.of_nat k.
Proof.
  intros Hd <-. pose proof (digits_value_bound s 0 Hd ltac:(lia)). lia.
Qed.

(** X24. [parseDate] on the text of a DATE cell.  A NULL length gives
    [null].  A length other than ten gives an invalid date and leaves
    the cursor right behind the length: the text itself is not
    skipped.  On a length of ten, four digits, a byte, two digits, a
    byte and two digits give [new Date(y, m - 1, d)], whatever the two
    separating bytes are, the cursor ending behind the text; so the
    zero date 0000-00-00 gives [new Date(0, -1, 0)], not an invalid
    date. *)
Theorem parseDate_text (p : Packet.t) :
  (NodeBuffer.get (Packet.buffer p) (Packet.offset p) = Some 251 ->
   PacketDates.parseDate decode p
   = Ok (VNull, Packet.with_offset p (Packet.offset p + 1)))
  /\ (forall n,
        0 <= n < 2 ^ 53 -> n <> 10 ->
        lies_at (Packet.buffer p) (Packet.offset p) (narrowest n) ->
        PacketDates.parseDate decode p
        = Ok (VInvalidDate,
              Packet.with_offset p
                (Packet.offset p + Z.of_nat (List.length (narrowest n)))))
  /\ (forall y m d s1 s2,
        all_digits y = true -> all_digits m = true -> all_digits d = true ->
        String.length y = 4%nat -> String.length m = 2%nat -> String.length d = 2%nat ->
        NodeBuffer.length (Packet.buffer p) < 2 ^ 53 ->
        lies_at (Packet.buffer p) (Packet.offset p) (date_text y s1 m s2 d) ->
        PacketDates.parseDate decode p
        = Ok (PacketDates.new_Date (Fin (digits_value y 0))
                (Fin (digits_value m 0 - 1)) (Fin (digits_value d 0)),
              Packet.with_offset p (Packet.offset p + 11))).
Proof.
  split; [|split].
  - intros Htag. unfold PacketDates.parseDate, Packet.readLengthCodedNumber.
    erewrite mbind_eq; [|erewrite mbind_eq; [|apply readInt8_step]; rewrite Htag; reflexivity].
    reflexivity.
  - intros n Hn Hne Hlies. unfold PacketDates.parseDate.
    erewrite mbind_eq; [|apply readLengthCodedNumber_at; [exact Hlies|lia]].
    rewrite read_back_small by lia. cbn [strict_eq num_eqb].
    destruct (Z.eqb_spec n 10) as [H10|_]; [contradiction|]. reflexivity.
  - intros y m d s1 s2 Hy Hm Hd Ly Lm Ld Hbuf Hlies.
    pose proof Hlies as [Ho _].
    pose proof (lies_at_length _ _ _ Hlies) as [Hlen|Hnil]; [|discriminate].
    unfold date_text in Hlies, Hlen.
    rewrite !length_app, !bytes_of_length, Ly, Lm, Ld in Hlen. cbn in Hlen.
    apply lies_at_app in Hlies as [Hten Hrest]. change (Z.of_nat (List.length [10])) with 1 in Hrest.
    apply lies_at_app in Hrest as [Hys Hrest]. rewrite bytes_of_length, Ly in Hrest.
    apply lies_at_tail in Hrest.
    apply lies_at_app in Hrest as [Hms Hrest]. rewrite bytes_of_length, Lm in Hrest.
    apply lies_at_tail in Hrest.
    pose proof (digits_value_small y 4 Hy Ly) as By.
    pose proof (digits_value_small m 2 Hm Lm) as Bm.
    pose proof (digits_value_small d 2 Hd Ld) as Bd.
    set (o := Packet.offset p) in *.
    unfold PacketDates.parseDate.
    erewrite mbind_eq; [|apply (readLengthCodedNumber_at p 10); [exact Hten|lia]].
    rewrite read_back_small by lia. cbn [strict_eq num_eqb Z.eqb Pos.eqb negb].
    cbv beta iota. change (Z.of_nat (List.length (narrowest 10))) with 1. fold o.
    erewrite mbind_eq.
    2:{ pose proof (parseInt_short false y (Packet.with_offset p (o + 1))) as H.
        cbn [integer_text] in H. rewrite Ly in H. apply H; try assumption; try lia. }
    packet_simpl.
    erewrite mbind_eq; [|reflexivity]. packet_simpl.
    erewrite mbind_eq.
    2:{ pose proof (parseInt_short false m
                      (Packet.with_offset p (o + 1 + Z.of_nat 4 + 1))) as H.
        cbn [integer_text] in H. rewrite Lm in H. apply H; try assumption; try lia. }
    packet_simpl.
    erewrite mbind_eq; [|reflexivity]. packet_simpl.
    erewrite mbind_eq.
    2:{ pose proof (parseInt_short false d
                      (Packet.with_offset p (o + 1 + Z.of_nat 4 + 1 + Z.of_nat 2 + 1))) as H.
        cbn [integer_text] in H. rewrite Ld in H. apply H; try assumption; try lia. }
    packet_simpl.
    cbv beta iota delta [Packet.mbind Packet.lift Packet.ret to_number fst].
    unfold integer_of. rewrite !Z.mul_1_l.
    unfold sub, neg, add. rewrite of_Z_exact by lia.
    replace (o + 1 + Z.of_nat 4 + 1 + Z.of_nat 2 + 1 + Z.of_nat 2) with (o + 11) by lia.
    replace (digits_value m 0 + -1) with (digits_value m 0 - 1) by lia.
    reflexivity.
Qed.

End TextDates.

Lemma parseDate_text_examples :
  PacketDates.parseDate latin1 (Packet.new 0 ([11; 0; 0; 0] ++ zero_date) 0 15)
  = Ok (PacketDates.new_Date (Fin 0) (Fin (-1)) (Fin 0),
        Packet.with_offset (Packet.new 0 ([11; 0; 0; 0] ++ zero_date) 0 15) 15)
  /\ PacketDates.parseDate latin1 (Packet.new 0 ([9; 0; 0; 0] ++ short_date) 0 13)
     = Ok (VInvalidDate,
           Packet.with_offset (Packet.new 0 ([9; 0; 0; 0] ++ short_date) 0 13) 5)
  /\ PacketDates.parseDate latin1 (Packet.new 0 [1; 0; 0; 0; 251] 0 5)
     = Ok (VNull, Packet.with_offset (Packet.new 0 [1; 0; 0; 0; 251] 0 5) 5).
Proof.
  split; [|split].
  - destruct (parseDate_text latin1 (Packet.new 0 ([11; 0; 0; 0] ++ zero_date) 0 15))
      as (_ & _ & Hdate).
    apply (Hdate "0000" "00" "00" 45 45)%string; try reflexivity.
    split; [vm_compute; discriminate|reflexivity].
  - destruct (parseDate_text latin1 (Packet.new 0 ([9; 0; 0; 0] ++ short_date) 0 13))
      as (_ & Hshort & _).
    apply (Hshort 8).
    + lia.
    + discriminate.
    + split; [vm_compute; discriminate|reflexivity].
  - destruct (parseDate_text latin1 (Packet.new 0 [1; 0; 0; 0; 251] 0 5)) as (Hnull & _).
    apply Hnull. reflexivity.
Defined.
(** ** Rows of text *)

Lemma slice_lies (b : NodeBuffer.t) (o : Z) (bs : list Z) :
  lies_at b o bs -> NodeBuffer.slice b o (o + Z.of_nat (List.length bs)) = bs.
Proof.
  intros Hlies. destruct bs as [|x bs].
  - unfold NodeBuffer.slice. rewrite Z.add_0_r, Z.sub_diag. reflexivity.
  - destruct (lies_at_length _ _ _ Hlies) as [Hlen|]; [|discriminate].
    pose proof Hlies as [Ho _].
    rewrite slice_range by lia. apply lies_at_range. exact Hlies.
Qed.

(** One cell of a text row, read as a buffer. *)
Lemma readLengthCodedBuffer_cell (c : option NodeBuffer.t) (p : Packet.t) :
  NodeBuffer.length (Packet.buffer p) < 2 ^ 53 ->
  lies_at (Packet.buffer p) (Packet.offset p) (text_cell c) ->
  Packet.readLengthCodedBuffer p
  = Ok (raw_cell c,
        Packet.with_offset p (Packet.offset p + Z.of_nat (List.length (text_cell c)))).
Proof.
  intros Hbuf Hlies. unfold Packet.readLengthCodedBuffer.
  destruct c as [b|]; cbn [text_cell raw_cell] in *.
  - assert (Hb : 0 <= NodeBuffer.length b < 2 ^ 53).
    { split; [apply length_nonneg|].
      destruct (lies_at_length _ _ _ Hlies) as [H|H].
      - rewrite length_app in H. destruct Hlies as [Ho _].
        unfold NodeBuffer.length in *. lia.
      - apply app_eq_nil in H as [_ ->]. reflexivity. }
    apply lies_at_app in Hlies as [Htag Hbody].
    erewrite mbind_eq; [|apply readLengthCodedNumber_at; [exact Htag|lia]].
    rewrite read_back_small by lia.
    erewrite mbind_eq; [|apply readBuffer_step]. packet_simpl.
    change (NodeBuffer.length b) with (Z.of_nat (List.length b)) in *.
    rewrite (slice_lies _ _ _ Hbody).
    unfold Packet.ret. do 2 f_equal. apply with_offset_same.
    rewrite length_app. lia.
  - unfold Packet.readLengthCodedNumber.
    erewrite mbind_eq;
      [|erewrite mbind_eq; [|apply readInt8_step];
        rewrite (lies_at_head _ _ 251 [] Hlies); reflexivity].
    reflexivity.
Qed.

(** The array of a row whose values went to their columns. *)
Lemma to_result_indices (options : BinaryParser.options) (fields : list ColumnDefinition)
    (values : list value) (i : nat) :
  BinaryParser.rowsAsArray options = true ->
  BinaryParser.nestTables options = BinaryParser.Flat ->
  List.length fields = List.length values ->
  BinaryParser.to_result (zip (places options fields i) values)
  = imap (fun j v => ((i + j)%nat, v)) values.
Proof.
  intros Harray Hflat. revert values i.
  induction fields as [|field fields IH]; intros [|v values] i Hlen; try discriminate;
    [reflexivity|].
  injection Hlen as Hlen. rewrite places_cons. cbn [zip zip_with].
  unfold BinaryParser.to_result. cbn [omap list_omap].
  unfold BinaryParser.lvalue_of at 1. rewrite Harray, Hflat.
  rewrite imap_cons. f_equal; [f_equal; lia|].
  fold (BinaryParser.to_result (zip (places options fields (S i)) values)).
  rewrite IH by exact Hlen. apply imap_ext. intros j w _. cbn. f_equal. lia.
Qed.

Lemma to_result_nested (options : BinaryParser.options) (fields : list ColumnDefinition)
    (values : list value) (i : nat) :
  BinaryParser.nestTables options <> BinaryParser.Flat ->
  BinaryParser.to_result (zip (places options fields i) values) = [].
Proof.
  intros Hnested. revert values i.
  induction fields as [|field fields IH]; intros [|v values] i; try reflexivity.
  rewrite places_cons. cbn [zip zip_with].
  unfold BinaryParser.to_result. cbn [omap list_omap].
  fold (BinaryParser.to_result (zip (places options fields (S i)) values)).
  rewrite IH. unfold BinaryParser.lvalue_of.
  destruct (BinaryParser.nestTables options); [contradiction|reflexivity..].
Qed.

Lemma returned_row_of (options : BinaryParser.options) (fields : list ColumnDefinition)
    (values : list value) :
  List.length fields = List.length values ->
  BinaryParser.returned options (List.length fields) (zip (places options fields 0) values)
  = row_of options fields values.
Proof.
  intros Hlen. unfold BinaryParser.returned, row_of.
  destruct (BinaryParser.rowsAsArray options) eqn:Harray; [|reflexivity].
  destruct (BinaryParser.nestTables options) eqn:Hnest.
  - rewrite to_result_indices by assumption. reflexivity.
  - rewrite to_result_nested by (rewrite Hnest; discriminate). reflexivity.
  - rewrite to_result_nested by (rewrite Hnest; discriminate). reflexivity.
Qed.

Section TextRows.

Variable decode : NodeBuffer.t -> value -> string.
Variable floatAscii : NodeBuffer.t -> option Z -> option Z -> Result value.
Variable geometry : NodeBuffer.t -> option Z -> option Z -> Result value.
Variable parse : NodeBuffer.t -> Result value.
Variables (options : BinaryParser.options) (config : BinaryParser.config).

Lemma columns_raw (runtime : list ColumnDefinition) :
  TextParser.cast options config = BinaryParser.Flag false ->
  forall (fields : list ColumnDefinition) (cells : list (option NodeBuffer.t))
         (i : nat) (p : Packet.t),
    List.length fields = List.length cells ->
    NodeBuffer.length (Packet.buffer p) < 2 ^ 53 ->
    lies_at (Packet.buffer p) (Packet.offset p) (text_row cells) ->
    TextParser.columns decode floatAscii geometry parse options config runtime fields i p
    = Ok (zip (places options fields i) (map raw_cell cells),
          Packet.with_offset p (Packet.offset p + Z.of_nat (List.length (text_row cells)))).
Proof.
  intros Hcast. induction fields as [|field fields IH]; intros cells i p Hlen Hbuf Hlies.
  - destruct cells; [|discriminate]. cbn. rewrite Z.add_0_r, with_offset_id. reflexivity.
  - destruct cells as [|c cells]; [discriminate|].
    injection Hlen as Hlen.
    unfold text_row in *. cbn [map concat] in *.
    apply lies_at_app in Hlies as [Hcell Hrest].
    cbn [TextParser.columns].
    erewrite mbind_eq.
    2:{ unfold TextParser.cell. rewrite Hcast.
        apply readLengthCodedBuffer_cell; [exact Hbuf|exact Hcell]. }
    erewrite mbind_eq; [|apply IH; [exact Hlen|exact Hbuf|exact Hrest]].
    packet_simpl. unfold Packet.ret. rewrite places_cons. cbn [zip zip_with map].
    do 2 f_equal. apply with_offset_same. rewrite length_app. lia.
Qed.

(** X25. A text row without type casting.  With [typeCast] set to
    [false], for the query or, failing that, for the connection, the
    compiled parser reads every cell as it arrived, its bytes in a
    buffer or [null] for the byte FB, assigns it to the place of its
    column, in order, and leaves the cursor behind the last cell.  What
    [new TextRow] then is depends on the options: the object holding
    the cells; with [rowsAsArray] the array of the cells; and with
    [rowsAsArray] and [nestTables] at once an array of as many empty
    elements, the cells having gone to the object that is dropped. *)
Theorem text_row_raw (fields runtime : list ColumnDefinition)
    (cells : list (option NodeBuffer.t)) (p : Packet.t) :
  let behind :=
    Packet.with_offset p (Packet.offset p + Z.of_nat (List.length (text_row cells))) in
  TextParser.cast options config = BinaryParser.Flag false ->
  List.length fields = List.length cells ->
  NodeBuffer.length (Packet.buffer p) < 2 ^ 53 ->
  lies_at (Packet.buffer p) (Packet.offset p) (text_row cells) ->
  TextParser.TextRow decode floatAscii geometry parse options config fields runtime p
  = Ok (zip (places options fields 0) (map raw_cell cells), behind)
  /\ TextParser.compile decode floatAscii geometry parse options config fields runtime p
     = Ok (row_of options fields (map raw_cell cells), behind).
Proof.
  intros behind Hcast Hlen Hbuf Hlies.
  assert (Hrow : TextParser.TextRow decode floatAscii geometry parse options config
                   fields runtime p
                 = Ok (zip (places options fields 0) (map raw_cell cells), behind))
    by (unfold TextParser.TextRow; apply columns_raw; assumption).
  split; [exact Hrow|].
  unfold TextParser.compile. erewrite mbind_eq; [|exact Hrow].
  unfold Packet.ret. rewrite returned_row_of by (rewrite length_map; exact Hlen).
  reflexivity.
Qed.

End TextRows.

Lemma text_row_raw_on_two_columns :
  TextParser.compile latin1 (uninterpreted "floatAscii") (uninterpreted "geometry")
    symbolic_parse plain_options no_type_cast [col0; col1] [col0; col1] text_row_packet
  = Ok (BinaryParser.RowObject
          [(BinaryParser.This "col0", VBuf [52; 50]); (BinaryParser.This "col1", VNull)],
        Packet.with_offset text_row_packet 8)
  /\ TextParser.compile latin1 (uninterpreted "floatAscii") (uninterpreted "geometry")
       symbolic_parse as_array no_type_cast [col0; col1] [col0; col1] text_row_packet
     = Ok (BinaryParser.RowArray 2 [(0%nat, VBuf [52; 50]); (1%nat, VNull)],
           Packet.with_offset text_row_packet 8)
  /\ TextParser.compile latin1 (uninterpreted "floatAscii") (uninterpreted "geometry")
       symbolic_parse as_array_nested no_type_cast [col0; col1] [col0; col1]
       text_row_packet
     = Ok (BinaryParser.RowArray 2 [], Packet.with_offset text_row_packet 8).
Proof.
  assert (Hlies : lies_at (Packet.buffer text_row_packet) (Packet.offset text_row_packet)
                    (text_row [Some (bytes_of "42"); None]))
    by (split; [vm_compute; discriminate|reflexivity]).
  split; [|split].
  - apply (text_row_raw latin1 (uninterpreted "floatAscii") (uninterpreted "geometry")
             symbolic_parse plain_options no_type_cast [col0; col1] [col0; col1]
             [Some (bytes_of "42"); None] text_row_packet);
      [reflexivity|reflexivity|reflexivity|exact Hlies].
  - apply (text_row_raw latin1 (uninterpreted "floatAscii") (uninterpreted "geometry")
             symbolic_parse as_array no_type_cast [col0; col1] [col0; col1]
             [Some (bytes_of "42"); None] text_row_packet);
      [reflexivity|reflexivity|reflexivity|exact Hlies].
  - apply (text_row_raw latin1 (uninterpreted "floatAscii") (uninterpreted "geometry")
             symbolic_parse as_array_nested no_type_cast [col0; col1] [col0; col1]
             [Some (bytes_of "42"); None] text_row_packet);
      [reflexivity|reflexivity|reflexivity|exact Hlies].
Defined.

(** ** Cells of text under the default cast *)

Section TextCells.

Variable decode : NodeBuffer.t -> value -> string.
Variable floatAscii : NodeBuffer.t -> option Z -> option Z -> Result value.
Variable geometry : NodeBuffer.t -> option Z -> option Z -> Result value.
Variable parse : NodeBuffer.t -> Result value.

Lemma cell_bounds (body : NodeBuffer.t) (p : Packet.t) :
  NodeBuffer.length (Packet.buffer p) < 2 ^ 53 ->
  lies_at (Packet.buffer p) (Packet.offset p) (text_cell (Some body)) ->
  0 <= NodeBuffer.length body < 2 ^ 53.
Proof.
  intros Hbuf Hlies. split; [apply length_nonneg|].
  destruct (lies_at_length _ _ _ Hlies) as [H|H].
  - cbn [text_cell] in H. rewrite length_app in H. destruct Hlies as [Ho _].
    unfold NodeBuffer.length in *. lia.
  - cbn [text_cell] in H. apply app_eq_nil in H as [_ ->]. reflexivity.
Qed.

Lemma textField_null (encoding : value) (defaultCast : option TextParser.cast_code)
    (p : Packet.t) :
  NodeBuffer.get (Packet.buffer p) (Packet.offset p) = Some 251 ->
  TextParser.textField decode floatAscii geometry parse encoding defaultCast p
  = Ok (VNull, Packet.with_offset p (Packet.offset p + 1)).
Proof.
  intros Htag. unfold TextParser.textField, Packet.readLengthCodedNumber.
  erewrite mbind_eq;
    [|erewrite mbind_eq; [|apply readInt8_step]; rewrite Htag; reflexivity].
  reflexivity.
Qed.

(** With a default cast the decoder is applied in place, to the buffer
    of the packet, and the cursor is moved past the cell afterwards. *)
Lemma textField_cast (encoding : value) (c : TextParser.cast_code)
    (body : NodeBuffer.t) (p : Packet.t) (v : value) :
  NodeBuffer.length (Packet.buffer p) < 2 ^ 53 ->
  lies_at (Packet.buffer p) (Packet.offset p) (text_cell (Some body)) ->
  TextParser.decoder floatAscii geometry parse c (Packet.buffer p)
    (Some (Packet.offset p
           + Z.of_nat (List.length (narrowest (NodeBuffer.length body)))))
    (Some (NodeBuffer.length body)) = Ok v ->
  TextParser.textField decode floatAscii geometry parse encoding (Some c) p
  = Ok (v, Packet.with_offset p
             (Packet.offset p + Z.of_nat (List.length (text_cell (Some body))))).
Proof.
  intros Hbuf Hlies Hv.
  pose proof (cell_bounds body p Hbuf Hlies) as Hb.
  cbn [text_cell] in *. apply lies_at_app in Hlies as [Htag Hbody].
  unfold TextParser.textField.
  erewrite mbind_eq; [|apply readLengthCodedNumber_at; [exact Htag|lia]].
  rewrite read_back_small by lia.
  cbv beta iota delta [Packet.mbind Packet.this Packet.lift Packet.advance Packet.set_offset
                       Packet.ret].
  packet_simpl. rewrite Hv. packet_simpl.
  do 2 f_equal. apply with_offset_same. rewrite length_app. unfold NodeBuffer.length. lia.
Qed.

(** Without one the bytes of the cell are read and decoded. *)
Lemma textField_plain (encoding : value) (body : NodeBuffer.t) (p : Packet.t) :
  NodeBuffer.length (Packet.buffer p) < 2 ^ 53 ->
  lies_at (Packet.buffer p) (Packet.offset p) (text_cell (Some body)) ->
  TextParser.textField decode floatAscii geometry parse encoding None p
  = Ok (if CastField.passes_through encoding then VBuf body
        else VStr (decode body encoding),
        Packet.with_offset p
          (Packet.offset p + Z.of_nat (List.length (text_cell (Some body))))).
Proof.
  intros Hbuf Hlies.
  pose proof (cell_bounds body p Hbuf Hlies) as Hb.
  cbn [text_cell] in *. apply lies_at_app in Hlies as [Htag Hbody].
  unfold TextParser.textField.
  erewrite mbind_eq; [|apply readLengthCodedNumber_at; [exact Htag|lia]].
  rewrite read_back_small by lia.
  erewrite mbind_eq; [|apply readBuffer_step]. packet_simpl.
  change (NodeBuffer.length body) with (Z.of_nat (List.length body)) in *.
  rewrite (slice_lies _ _ _ Hbody).
  replace (Packet.offset p + Z.of_nat (List.length (narrowest (Z.of_nat (List.length body))))
           + Z.of_nat (List.length body))
    with (Packet.offset p
          + Z.of_nat (List.length (narrowest (Z.of_nat (List.length body)) ++ body)))
    by (rewrite length_app; lia).
  destruct (CastField.passes_through encoding); reflexivity.
Qed.

Variables (options : BinaryParser.options) (config : BinaryParser.config).

Lemma cell_default (runtime : list ColumnDefinition) (i : nat) (field : ColumnDefinition) :
  default_cast (TextParser.cast options config) ->
  TextParser.cell decode floatAscii geometry parse options config runtime i field
  = Packet.mbind
      (Packet.lift
         (BinaryParser.encoding_of runtime
            (TextParser.encoding (TextParser.readCodeFor field i options config))))
      (fun encoding =>
         TextParser.textField decode floatAscii geometry parse encoding
           (TextParser.defaultCast (TextParser.readCodeFor field i options config))).
Proof. intros [H|H]; unfold TextParser.cell; rewrite H; reflexivity. Qed.

Lemma encoding_of_code (runtime : list ColumnDefinition) (i : nat)
    (field column : ColumnDefinition) :
  runtime !! i = Some column ->
  exists encoding,
    BinaryParser.encoding_of runtime
      (TextParser.encoding (TextParser.readCodeFor field i options config))
    = Ok encoding
    /\ (TextParser.defaultCast (TextParser.readCodeFor field i options config) = None ->
        encoding = match col_columnType field with
                   | Types.OTHER _ => col_encoding column
                   | _ => VStr "ascii"
                   end).
Proof.
  intros Hi. unfold TextParser.readCodeFor.
  destruct (col_columnType field); cbn [TextParser.encoding BinaryParser.encoding_of];
    rewrite ?Hi; eexists; (split; [reflexivity|]);
    cbn [TextParser.defaultCast]; intros H; try reflexivity; discriminate.
Qed.

(** X26. Cells of a text row under the default cast, that is with
    [typeCast] left out or [true].  A NULL cell is [null] whatever the
    type of its column.  A cell of a column without a decoder of its
    own is decoded from its bytes: under the encoding of the column
    definition the parser is called with, for the types of strings and
    blobs, where a binary, null or undefined encoding gives the bytes
    themselves; and under ascii for the other types, such as TIME or a
    DECIMAL without [decimalNumbers].  The cursor ends behind the
    cell. *)
Theorem text_cell_default (runtime : list ColumnDefinition) (i : nat)
    (field column : ColumnDefinition) (p : Packet.t) :
  default_cast (TextParser.cast options config) ->
  runtime !! i = Some column ->
  (NodeBuffer.get (Packet.buffer p) (Packet.offset p) = Some 251 ->
   TextParser.cell decode floatAscii geometry parse options config runtime i field p
   = Ok (VNull, Packet.with_offset p (Packet.offset p + 1)))
  /\ (forall body,
        TextParser.defaultCast (TextParser.readCodeFor field i options config) = None ->
        NodeBuffer.length (Packet.buffer p) < 2 ^ 53 ->
        lies_at (Packet.buffer p) (Packet.offset p) (text_cell (Some body)) ->
        TextParser.cell decode floatAscii geometry parse options config runtime i field p
        = Ok (match col_columnType field with
              | Types.OTHER _ =>
                  if CastField.passes_through (col_encoding column) then VBuf body
                  else VStr (decode body (col_encoding column))
              | _ => VStr (decode body (VStr "ascii"))
              end,
              Packet.with_offset p
                (Packet.offset p + Z.of_nat (List.length (text_cell (Some body)))))).
Proof.
  intros Hcast Hi.
  destruct (encoding_of_code runtime i field column Hi) as (encoding & Henc & Hplain).
  rewrite cell_default by exact Hcast.
  split.
  - intros Htag. erewrite mbind_eq; [|unfold Packet.lift; rewrite Henc; reflexivity].
    apply textField_null. exact Htag.
  - intros body Hnone Hbuf Hlies.
    erewrite mbind_eq; [|unfold Packet.lift; rewrite Henc; reflexivity].
    rewrite Hnone, (textField_plain _ body p Hbuf Hlies).
    rewrite (Hplain Hnone).
    destruct (col_columnType field); reflexivity.
Qed.

End TextCells.

Lemma text_cell_default_on_varchar :
  TextParser.cell latin1 (uninterpreted "floatAscii") (uninterpreted "geometry") symbolic_parse
    plain_options plain_config [col1] 0 col1 varchar_packet
  = Ok (VStr "ab", Packet.with_offset varchar_packet 7).
Proof.
  destruct (text_cell_default latin1 (uninterpreted "floatAscii") (uninterpreted "geometry") symbolic_parse
              plain_options plain_config [col1] 0 col1 col1 varchar_packet)
    as [_ Hstring].
  - left. reflexivity.
  - reflexivity.
  - apply (Hstring (bytes_of "ab")).
    + reflexivity.
    + reflexivity.
    + split; [vm_compute; discriminate|reflexivity].
Defined.
(** ** Integer cells of text *)

(** The two decoders of [PacketParser] on the text of an integer of at
    most fifteen digits. *)
Lemma intAscii_decoders (negative : bool) (ds : string) (b : NodeBuffer.t) (o : Z) :
  let text := integer_text negative ds in
  let len := Z.of_nat (String.length text) in
  let n := VNum (Fin (integer_of negative ds)) in
  all_digits ds = true -> (1 <= String.length ds <= 15)%nat ->
  lies_at b o (bytes_of text) ->
  PacketParser.intAsciiSmall b (Some o) (Some len) = n
  /\ PacketParser.intAscii b (Some o) (Some len) = Ok n.
Proof.
  intros text len n Hd Hlen Hlies.
  destruct (scan_integer negative ds _ _ Hd Hlen Hlies)
    as ((c & Hc & Hneg) & (d & Hd1 & Hdrange) & Hacc & Hval & Htext).
  fold text in Htext. fold len in Htext.
  set (o1 := if negative then o + 1 else o) in *.
  assert (Hlen0 : 0 < len) by (destruct negative; subst o1; lia).
  assert (Hsteps : Z.to_nat (o + len - o1) = String.length ds) by lia.
  assert (Hsigned : (if negative then neg (Fin (digits_value ds 0)) else Fin (digits_value ds 0))
                    = Fin (integer_of negative ds)).
  { unfold integer_of. destruct negative; cbn [neg]; f_equal; lia. }
  assert (Hplus : (d =? 43) = false) by (apply Z.eqb_neq; lia).
  split.
  - unfold PacketParser.intAsciiSmall, PacketParser.arguments. cbv zeta.
    destruct (Z.eqb_spec len 0); [lia|].
    rewrite Hc. unfold PacketParser.minus, PacketParser.plus. rewrite Hneg.
    fold o1. rewrite Hd1, Hplus, Hsteps, Hacc. unfold n. f_equal. exact Hsigned.
  - unfold PacketParser.intAscii, PacketParser.arguments. cbv zeta.
    destruct (Z.eqb_spec len 0); [lia|].
    rewrite Hc. unfold PacketParser.minus, PacketParser.plus. rewrite Hneg.
    fold o1. rewrite Hd1, Hplus.
    assert (Hnum : (if negative then len - 1 else len) = Z.of_nat (String.length ds))
      by (destruct negative; subst o1; lia).
    rewrite Hnum.
    destruct (Z.ltb_spec 16 (Z.of_nat (String.length ds))); [lia|].
    destruct (Z.eqb_spec (Z.of_nat (String.length ds)) 16); [lia|].
    cbn [andb]. rewrite Hsteps, Hacc. unfold n. do 2 f_equal. exact Hsigned.
Qed.

Section IntegerCells.

Variable decode : NodeBuffer.t -> value -> string.
Variable floatAscii : NodeBuffer.t -> option Z -> option Z -> Result value.
Variable geometry : NodeBuffer.t -> option Z -> option Z -> Result value.
Variable parse : NodeBuffer.t -> Result value.
Variables (options : BinaryParser.options) (config : BinaryParser.config).

(** X27. Integer cells of a text row under the default cast.  A cell
    of a TINY, SHORT, LONG, INT24 or YEAR column, or of a BIGINT column
    unless big numbers are to come out as strings, that holds an
    optional [-] and one to fifteen digits is returned as the integer
    it denotes, exactly, and the cursor ends behind the cell. *)
Theorem text_integer_cell (runtime : list ColumnDefinition) (i : nat)
    (field : ColumnDefinition) (negative : bool) (ds : string) (p : Packet.t) :
  let body := bytes_of (integer_text negative ds) in
  default_cast (TextParser.cast options config) ->
  integer_column options config (col_columnType field) = true ->
  all_digits ds = true -> (1 <= String.length ds <= 15)%nat ->
  NodeBuffer.length (Packet.buffer p) < 2 ^ 53 ->
  lies_at (Packet.buffer p) (Packet.offset p) (text_cell (Some body)) ->
  TextParser.cell decode floatAscii geometry parse options config runtime i field p
  = Ok (VNum (Fin (integer_of negative ds)),
        Packet.with_offset p
          (Packet.offset p + Z.of_nat (List.length (text_cell (Some body))))).
Proof.
  intros body Hcast Htype Hd Hlen Hbuf Hlies.
  rewrite (cell_default decode floatAscii geometry parse options config runtime i field Hcast).
  assert (Hbody : lies_at (Packet.buffer p)
                    (Packet.offset p
                     + Z.of_nat (List.length (narrowest (NodeBuffer.length body))))
                    body)
    by (cbn [text_cell] in Hlies; apply lies_at_app in Hlies as [_ H]; exact H).
  destruct (intAscii_decoders negative ds _ _ Hd Hlen Hbody) as [Hsmall Hwide].
  assert (Hl : Z.of_nat (String.length (integer_text negative ds)) = NodeBuffer.length body)
    by (unfold body, NodeBuffer.length; rewrite bytes_of_length; reflexivity).
  rewrite Hl in Hsmall, Hwide.
  assert (Hcode : exists c,
             TextParser.readCodeFor field i options config
             = TextParser.mkCode (BinaryParser.Literal "ascii") (Some c)
             /\ TextParser.decoder floatAscii geometry parse c (Packet.buffer p)
                  (Some (Packet.offset p
                         + Z.of_nat (List.length (narrowest (NodeBuffer.length body)))))
                  (Some (NodeBuffer.length body))
                = Ok (VNum (Fin (integer_of negative ds)))).
  { unfold TextParser.readCodeFor, integer_column in *.
    destruct (col_columnType field); try discriminate;
      try (exists TextParser.IntAsciiSmall; split;
           [reflexivity|cbn [TextParser.decoder]; rewrite Hsmall; reflexivity]).
    destruct (_ || _); cbn [andb negb] in Htype.
    - destruct (_ || _); [discriminate|].
      exists TextParser.IntAscii. split; [reflexivity|exact Hwide].
    - exists TextParser.IntAsciiSmall. split;
        [reflexivity|cbn [TextParser.decoder]; rewrite Hsmall; reflexivity]. }
  destruct Hcode as (c & -> & Hdec).
  cbn [TextParser.encoding TextParser.defaultCast BinaryParser.encoding_of].
  erewrite mbind_eq; [|reflexivity].
  apply (textField_cast decode floatAscii geometry parse _ c body p); assumption.
Qed.

End IntegerCells.

Lemma text_integer_cell_of_minus_12 :
  TextParser.cell latin1 (uninterpreted "floatAscii") (uninterpreted "geometry") symbolic_parse
    plain_options plain_config [smallint_column] 0 smallint_column smallint_text
  = Ok (VNum (Fin (-12)), Packet.with_offset smallint_text 8).
Proof.
  apply (text_integer_cell latin1 (uninterpreted "floatAscii") (uninterpreted "geometry") symbolic_parse
           plain_options plain_config [smallint_column] 0 smallint_column true "12"
           smallint_text).
  - left. reflexivity.
  - reflexivity.
  - reflexivity.
  - cbn. lia.
  - reflexivity.
  - split; [vm_compute; discriminate|reflexivity].
Defined.
(** ** Dates of text rows *)

(** [leftPad(6, v) / 1000] has the numerator [v]. *)
Lemma leftPad_numerator (v : Z) :
  0 <= v < 2 ^ 53 ->
  exists padded,
    PacketParser.leftPad 6 (VNum (Fin v)) = Ok padded
    /\ string_to_number padded = Ok (Fin v).
Proof.
  intros Hv. unfold PacketParser.leftPad.
  rewrite invoke_number_toString. cbn [JS.bind].
  rewrite number_toString_exact by lia.
  unfold dec_signed. destruct (Z.ltb_spec v 0); [lia|].
  pose proof (dec_all_digits v) as Hd. pose proof (dec_value v ltac:(lia)) as Hval.
  destruct (Z.leb_spec 6 (Z.of_nat (String.length (dec v)))) as [Hlong|Hshort].
  - eexists. split; [reflexivity|].
    replace (dec v) with (integer_text false (dec v)) by reflexivity.
    rewrite string_to_number_integer by (assumption || lia).
    unfold integer_of. rewrite Hval, Z.mul_1_l. apply f_equal, of_Z_exact. lia.
  - assert (Hne : dec v <> EmptyString).
    { unfold dec. intros Hnil.
      destruct (N.to_uint (Z.to_N v)); discriminate. }
    destruct (dec v) as [|a1 [|a2 [|a3 [|a4 [|a5 [|a6 s]]]]]];
      [contradiction|..|cbn [String.length] in Hshort; lia];
      (eexists; split; [reflexivity|]);
      cbn [all_digits] in Hd; cbn [digits_value] in Hval;
      match goal with
      | |- string_to_number ?x = _ =>
          let y := eval cbv in x in change x with y
      end;
      unfold string_to_number, split_sign;
      change (code "0" =? 45) with false; change (code "0" =? 43) with false;
      cbv beta iota; cbn [all_digits];
      change (is_digit "0") with true; cbn [andb]; rewrite Hd;
      cbn [digits_value]; change (code "0" - 48) with 0;
      apply f_equal; rewrite <- of_Z_exact by lia; apply f_equal; lia.
Qed.

Lemma lies_at_middle (b : NodeBuffer.t) (o : Z) (xs ys zs : list Z) (k : Z) :
  lies_at b o (xs ++ ys ++ zs) -> k = Z.of_nat (List.length xs) ->
  lies_at b (o + k) ys.
Proof.
  intros H ->. apply lies_at_app in H as [_ H]. apply lies_at_app in H as [H _]. exact H.
Qed.

(** A field of decimal digits inside a text, read by [intAsciiSmall]. *)
Lemma field_at (b : NodeBuffer.t) (o : Z) (xs zs : list Z) (ds : string) (k : nat) (at_ : Z) :
  lies_at b o (xs ++ bytes_of ds ++ zs) -> digits_of k ds -> (1 <= k <= 15)%nat ->
  at_ = Z.of_nat (List.length xs) + o ->
  PacketParser.intAsciiSmall b (Some at_) (Some (Z.of_nat k))
  = VNum (Fin (digits_value ds 0)).
Proof.
  intros Hlies [Hd Hlen] Hk ->.
  apply (lies_at_middle _ _ _ _ _ (Z.of_nat (List.length xs))) in Hlies; [|reflexivity].
  replace (Z.of_nat (List.length xs) + o) with (o + Z.of_nat (List.length xs)) by lia.
  destruct (intAscii_decoders false ds b _ Hd ltac:(lia) Hlies) as [Hsmall _].
  cbn [integer_text] in Hsmall. rewrite Hlen in Hsmall. rewrite Hsmall.
  unfold integer_of. rewrite Z.mul_1_l. reflexivity.
Qed.

Lemma date_fields_at (b : NodeBuffer.t) (o : Z) (y m d : string) (rest : list Z) :
  digits_of 4 y -> digits_of 2 m -> digits_of 2 d ->
  lies_at b o (date_chars y m d ++ rest) ->
  PacketParser.intAsciiSmall b (Some o) (Some 4) = VNum (Fin (digits_value y 0))
  /\ PacketParser.intAsciiSmall b (Some (5 + o)) (Some 2) = VNum (Fin (digits_value m 0))
  /\ PacketParser.intAsciiSmall b (Some (8 + o)) (Some 2) = VNum (Fin (digits_value d 0))
  /\ lies_at b (o + 10) rest.
Proof.
  intros Hy Hm Hd Hlies. unfold date_chars in Hlies.
  pose proof Hy as [_ Ly]. pose proof Hm as [_ Lm]. pose proof Hd as [_ Ld].
  split; [|split; [|split]].
  - apply (field_at b o [] (([45] ++ bytes_of m ++ [45] ++ bytes_of d) ++ rest) y 4);
      [rewrite <- !app_assoc in *; exact Hlies|exact Hy|lia|reflexivity].
  - apply (field_at b o (bytes_of y ++ [45]) (([45] ++ bytes_of d) ++ rest) m 2);
      [rewrite <- !app_assoc in *; exact Hlies|exact Hm|lia|].
    rewrite length_app, bytes_of_length, Ly. reflexivity.
  - apply (field_at b o (bytes_of y ++ [45] ++ bytes_of m ++ [45]) rest d 2);
      [rewrite <- !app_assoc in *; exact Hlies|exact Hd|lia|].
    rewrite !length_app, !bytes_of_length, Ly, Lm. reflexivity.
  - apply lies_at_app in Hlies as [_ Hrest].
    rewrite !length_app, !bytes_of_length, Ly, Lm, Ld in Hrest. exact Hrest.
Qed.

Lemma time_fields_at (b : NodeBuffer.t) (o : Z) (H M S_ : string) (rest : list Z) :
  digits_of 2 H -> digits_of 2 M -> digits_of 2 S_ ->
  lies_at b (o + 10) (time_chars H M S_ ++ rest) ->
  PacketParser.intAsciiSmall b (Some (11 + o)) (Some 2) = VNum (Fin (digits_value H 0))
  /\ PacketParser.intAsciiSmall b (Some (14 + o)) (Some 2) = VNum (Fin (digits_value M 0))
  /\ PacketParser.intAsciiSmall b (Some (17 + o)) (Some 2) = VNum (Fin (digits_value S_ 0))
  /\ lies_at b (o + 19) rest.
Proof.
  intros HH HM HS Hlies. unfold time_chars in Hlies.
  pose proof HH as [_ LH]. pose proof HM as [_ LM]. pose proof HS as [_ LS].
  split; [|split; [|split]].
  - apply (field_at b (o + 10) [32] (([58] ++ bytes_of M ++ [58] ++ bytes_of S_) ++ rest) H 2);
      [rewrite <- !app_assoc in *; exact Hlies|exact HH|lia|cbn; lia].
  - apply (field_at b (o + 10) ([32] ++ bytes_of H ++ [58]) (([58] ++ bytes_of S_) ++ rest) M 2);
      [rewrite <- !app_assoc in *; exact Hlies|exact HM|lia|].
    rewrite !length_app, bytes_of_length, LH. cbn. lia.
  - apply (field_at b (o + 10) ([32] ++ bytes_of H ++ [58] ++ bytes_of M ++ [58]) rest S_ 2);
      [rewrite <- !app_assoc in *; exact Hlies|exact HS|lia|].
    rewrite !length_app, !bytes_of_length, LH, LM. cbn. lia.
  - apply lies_at_app in Hlies as [_ Hrest].
    rewrite !length_app, !bytes_of_length, LH, LM, LS in Hrest.
    replace (o + 19) with (o + 10 + Z.of_nat (1 + (2 + (1 + (2 + (1 + 2)))))) by lia.
    exact Hrest.
Qed.

Ltac date_ascii_start :=
  unfold TextDecoders.dateAscii, PacketParser.arguments; cbv beta iota zeta.

Lemma dateAscii_date (b : NodeBuffer.t) (o : Z) (y m d : string) :
  digits_of 4 y -> digits_of 2 m -> digits_of 2 d ->
  lies_at b o (date_chars y m d) ->
  TextDecoders.dateAscii b (Some o) (Some 10)
  = Ok (VDate (mkDate (Fin (digits_value y 0)) (Fin (digits_value m 0))
                 (Fin (digits_value d 0)) (Fin 0) (Fin 0) (Fin 0) 0)).
Proof.
  intros Hy Hm Hd Hlies. rewrite <- (app_nil_r (date_chars y m d)) in Hlies.
  destruct (date_fields_at b o y m d [] Hy Hm Hd Hlies) as (Ey & Em & Ed & _).
  date_ascii_start. change (9 <? 10) with true. change (18 <? 10) with false.
  cbv beta iota. rewrite Ey, Em, Ed. reflexivity.
Qed.

Lemma dateAscii_datetime (b : NodeBuffer.t) (o : Z) (y m d H M S_ : string) :
  digits_of 4 y -> digits_of 2 m -> digits_of 2 d ->
  digits_of 2 H -> digits_of 2 M -> digits_of 2 S_ ->
  lies_at b o (date_chars y m d ++ time_chars H M S_) ->
  TextDecoders.dateAscii b (Some o) (Some 19)
  = Ok (VDate (mkDate (Fin (digits_value y 0)) (Fin (digits_value m 0))
                 (Fin (digits_value d 0)) (Fin (digits_value H 0))
                 (Fin (digits_value M 0)) (Fin (digits_value S_ 0)) 0)).
Proof.
  intros Hy Hm Hd HH HM HS Hlies.
  destruct (date_fields_at b o y m d _ Hy Hm Hd Hlies) as (Ey & Em & Ed & Htime).
  rewrite <- (app_nil_r (time_chars H M S_)) in Htime.
  destruct (time_fields_at b o H M S_ [] HH HM HS Htime) as (EH & EM & ES & _).
  date_ascii_start. change (9 <? 19) with true. change (18 <? 19) with true.
  change (20 <? 19) with false.
  cbv beta iota. rewrite Ey, Em, Ed, EH, EM, ES. reflexivity.
Qed.

Lemma dateAscii_fraction (b : NodeBuffer.t) (o : Z) (y m d H M S_ f : string) (k : nat) :
  digits_of 4 y -> digits_of 2 m -> digits_of 2 d ->
  digits_of 2 H -> digits_of 2 M -> digits_of 2 S_ ->
  digits_of k f -> (1 <= k <= 6)%nat ->
  lies_at b o (date_chars y m d ++ time_chars H M S_ ++ fraction_chars f) ->
  TextDecoders.dateAscii b (Some o) (Some (20 + Z.of_nat k))
  = Ok (VDate (mkDate (Fin (digits_value y 0)) (Fin (digits_value m 0))
                 (Fin (digits_value d 0)) (Fin (digits_value H 0))
                 (Fin (digits_value M 0)) (Fin (digits_value S_ 0))
                 (digits_value f 0))).
Proof.
  intros Hy Hm Hd HH HM HS Hf Hk Hlies.
  destruct (date_fields_at b o y m d _ Hy Hm Hd Hlies) as (Ey & Em & Ed & Htime).
  destruct (time_fields_at b o H M S_ _ HH HM HS Htime) as (EH & EM & ES & Hfrac).
  unfold fraction_chars in Hfrac.
  assert (Ef : PacketParser.intAsciiSmall b (Some (20 + o)) (Some (Z.of_nat k))
               = VNum (Fin (digits_value f 0))).
  { apply (field_at b (o + 19) [46] [] f k);
      [rewrite app_nil_r; exact Hfrac|exact Hf|lia|cbn; lia]. }
  assert (Hsmall : 0 <= digits_value f 0 < 2 ^ 53).
  { destruct Hf as [Hd6 Hl6].
    pose proof (digits_value_bound f 0 Hd6 ltac:(lia)) as Hb.
    assert (10 ^ Z.of_nat (String.length f) <= 10 ^ 6) by (apply Z.pow_le_mono_r; lia).
    assert (10 ^ 6 < 2 ^ 53) by (vm_compute; reflexivity). lia. }
  destruct (leftPad_numerator _ Hsmall) as (padded & Hpad & Hnum).
  date_ascii_start.
  destruct (Z.ltb_spec 9 (20 + Z.of_nat k)); [|lia].
  destruct (Z.ltb_spec 18 (20 + Z.of_nat k)); [|lia].
  destruct (Z.ltb_spec 20 (20 + Z.of_nat k)); [|lia].
  replace (20 + Z.of_nat k - 20) with (Z.of_nat k) by lia.
  rewrite Ey, Em, Ed, EH, EM, ES, Ef. cbn [to_number JS.bind].
  rewrite Hpad. cbn [JS.bind]. rewrite Hnum. reflexivity.
Qed.

Section DateCells.

Variable decode : NodeBuffer.t -> value -> string.
Variable floatAscii : NodeBuffer.t -> option Z -> option Z -> Result value.
Variable geometry : NodeBuffer.t -> option Z -> option Z -> Result value.
Variable parse : NodeBuffer.t -> Result value.
Variables (options : BinaryParser.options) (config : BinaryParser.config).

Lemma date_cell_decoded (runtime : list ColumnDefinition) (i : nat)
    (field : ColumnDefinition) (body : NodeBuffer.t) (len : Z) (v : value) (p : Packet.t) :
  default_cast (TextParser.cast options config) ->
  date_type (col_columnType field) = true ->
  BinaryParser.c_dateStrings config = false ->
  NodeBuffer.length (Packet.buffer p) < 2 ^ 53 ->
  lies_at (Packet.buffer p) (Packet.offset p) (text_cell (Some body)) ->
  len = NodeBuffer.length body ->
  (forall o, lies_at (Packet.buffer p) o body ->
             TextDecoders.dateAscii (Packet.buffer p) (Some o) (Some len) = Ok v) ->
  TextParser.cell decode floatAscii geometry parse options config runtime i field p
  = Ok (v, Packet.with_offset p
             (Packet.offset p + Z.of_nat (List.length (text_cell (Some body))))).
Proof.
  intros Hcast Htype Hstrings Hbuf Hlies -> Hdec.
  rewrite (cell_default decode floatAscii geometry parse options config runtime i field Hcast).
  assert (Hcode : TextParser.readCodeFor field i options config
                  = TextParser.mkCode (BinaryParser.Literal "ascii")
                      (Some TextParser.DateAscii)).
  { unfold TextParser.readCodeFor. rewrite Hstrings.
    destruct (col_columnType field); try discriminate; reflexivity. }
  rewrite Hcode. cbn [TextParser.encoding TextParser.defaultCast BinaryParser.encoding_of].
  erewrite mbind_eq; [|reflexivity].
  apply (textField_cast decode floatAscii geometry parse _ TextParser.DateAscii body p);
    [exact Hbuf|exact Hlies|].
  cbn [TextParser.decoder]. apply Hdec.
  cbn [text_cell] in Hlies. apply lies_at_app in Hlies as [_ H]. exact H.
Qed.

(** X28. Dates of a text row under the default cast, without
    [dateStrings].  A cell [YYYY-MM-DD] of a DATE, NEWDATE, DATETIME or
    TIMESTAMP column is returned as [new Date(y, m, d)] with the month
    as it is written, not counted from zero: January comes out as
    month 1, which is February.  With a time of day the cell gives
    [new Date(y, m, d, H, M, S)], and with a fraction of one to six
    digits the milliseconds are the number those digits denote,
    divided by 1000: the fraction [.500] adds half a millisecond.  The
    cursor ends behind the cell. *)
Theorem text_date_cell (runtime : list ColumnDefinition) (i : nat)
    (field : ColumnDefinition) (p : Packet.t) (y m d H M S_ f : string) (k : nat) :
  let cell := TextParser.cell decode floatAscii geometry parse options config runtime i field in
  let behind body :=
    Packet.with_offset p (Packet.offset p + Z.of_nat (List.length (text_cell (Some body)))) in
  let date H M S_ micros :=
    VDate (mkDate (Fin (digits_value y 0)) (Fin (digits_value m 0))
             (Fin (digits_value d 0)) H M S_ micros) in
  default_cast (TextParser.cast options config) ->
  date_type (col_columnType field) = true ->
  BinaryParser.c_dateStrings config = false ->
  NodeBuffer.length (Packet.buffer p) < 2 ^ 53 ->
  digits_of 4 y -> digits_of 2 m -> digits_of 2 d ->
  (lies_at (Packet.buffer p) (Packet.offset p) (text_cell (Some (date_chars y m d))) ->
   cell p = Ok (date (Fin 0) (Fin 0) (Fin 0) 0, behind (date_chars y m d)))
  /\ (digits_of 2 H -> digits_of 2 M -> digits_of 2 S_ ->
      (lies_at (Packet.buffer p) (Packet.offset p)
         (text_cell (Some (date_chars y m d ++ time_chars H M S_))) ->
       cell p = Ok (date (Fin (digits_value H 0)) (Fin (digits_value M 0))
                      (Fin (digits_value S_ 0)) 0,
                    behind (date_chars y m d ++ time_chars H M S_)))
      /\ (digits_of k f -> (1 <= k <= 6)%nat ->
          lies_at (Packet.buffer p) (Packet.offset p)
            (text_cell (Some (date_chars y m d ++ time_chars H M S_ ++ fraction_chars f))) ->
          cell p = Ok (date (Fin (digits_value H 0)) (Fin (digits_value M 0))
                         (Fin (digits_value S_ 0)) (digits_value f 0),
                       behind (date_chars y m d ++ time_chars H M S_
                               ++ fraction_chars f)))).
Proof.
  intros cell behind date Hcast Htype Hstrings Hbuf Hy Hm Hd.
  pose proof Hy as [_ Ly]. pose proof Hm as [_ Lm]. pose proof Hd as [_ Ld].
  assert (Ldate : List.length (date_chars y m d) = 10%nat)
    by (unfold date_chars; rewrite !length_app, !bytes_of_length, Ly, Lm, Ld; reflexivity).
  split.
  - intros Hlies.
    apply (date_cell_decoded runtime i field (date_chars y m d) 10); try assumption.
    + unfold NodeBuffer.length. rewrite Ldate. reflexivity.
    + intros o Ho. apply dateAscii_date; assumption.
  - intros HH HM HS.
    pose proof HH as [_ LH]. pose proof HM as [_ LM]. pose proof HS as [_ LS].
    assert (Ltime : List.length (time_chars H M S_) = 9%nat)
      by (unfold time_chars; rewrite !length_app, !bytes_of_length, LH, LM, LS; reflexivity).
    split.
    + intros Hlies.
      apply (date_cell_decoded runtime i field (date_chars y m d ++ time_chars H M S_) 19);
        try assumption.
      * unfold NodeBuffer.length. rewrite length_app, Ldate, Ltime. reflexivity.
      * intros o Ho. apply dateAscii_datetime; assumption.
    + intros Hf Hk Hlies. pose proof Hf as [_ Lf].
      apply (date_cell_decoded runtime i field
               (date_chars y m d ++ time_chars H M S_ ++ fraction_chars f)
               (20 + Z.of_nat k));
        try assumption.
      * unfold NodeBuffer.length, fraction_chars.
        rewrite !length_app, Ldate, Ltime, bytes_of_length, Lf. cbn [List.length]. lia.
      * intros o Ho. apply dateAscii_fraction; assumption.
Qed.

End DateCells.

Lemma text_date_cell_on_datetime3 :
  TextParser.cell latin1 (uninterpreted "floatAscii") (uninterpreted "geometry") symbolic_parse
    plain_options plain_config [datetime3_column] 0 datetime3_column datetime3_text
  = Ok (VDate (mkDate (Fin 2020) (Fin 1) (Fin 2) (Fin 3) (Fin 4) (Fin 5) 500),
        Packet.with_offset datetime3_text 28).
Proof.
  assert (Hdigits : forall k s, all_digits s = true -> String.length s = k -> digits_of k s)
    by (intros k s Hd Hl; split; assumption).
  destruct (text_date_cell latin1 (uninterpreted "floatAscii") (uninterpreted "geometry") symbolic_parse
              plain_options plain_config [datetime3_column] 0 datetime3_column
              datetime3_text "2020" "01" "02" "03" "04" "05" "500" 3)
    as [_ Htime].
  - left. reflexivity.
  - reflexivity.
  - reflexivity.
  - reflexivity.
  - apply Hdigits; reflexivity.
  - apply Hdigits; reflexivity.
  - apply Hdigits; reflexivity.
  - destruct Htime as [_ Hfraction].
    + apply Hdigits; reflexivity.
    + apply Hdigits; reflexivity.
    + apply Hdigits; reflexivity.
    + apply Hfraction.
      * apply Hdigits; reflexivity.
      * lia.
      * split; [vm_compute; discriminate|reflexivity].
Defined.
(** ** JSON cells of text rows *)

Section JsonCells.

Variable decode : NodeBuffer.t -> value -> string.
Variable floatAscii : NodeBuffer.t -> option Z -> option Z -> Result value.
Variable geometry : NodeBuffer.t -> option Z -> option Z -> Result value.
Variable parse : NodeBuffer.t -> Result value.
Variables (options : BinaryParser.options) (config : BinaryParser.config).

(** The cell is skipped only once the decoder has returned. *)
Lemma textField_cast_outcome (encoding : value) (c : TextParser.cast_code)
    (body : NodeBuffer.t) (p : Packet.t) :
  NodeBuffer.length (Packet.buffer p) < 2 ^ 53 ->
  lies_at (Packet.buffer p) (Packet.offset p) (text_cell (Some body)) ->
  TextParser.textField decode floatAscii geometry parse encoding (Some c) p
  = match TextParser.decoder floatAscii geometry parse c (Packet.buffer p)
            (Some (Packet.offset p
                   + Z.of_nat (List.length (narrowest (NodeBuffer.length body)))))
            (Some (NodeBuffer.length body)) with
    | Ok v =>
        Ok (v, Packet.with_offset p
                 (Packet.offset p + Z.of_nat (List.length (text_cell (Some body)))))
    | Throw e => Throw e
    end.
Proof.
  intros Hbuf Hlies.
  destruct (TextParser.decoder _ _ _ _ _ _ _) as [v|e] eqn:Hdec.
  - apply (textField_cast decode floatAscii geometry parse _ c body p); assumption.
  - pose proof (cell_bounds body p Hbuf Hlies) as Hb.
    cbn [text_cell] in *. apply lies_at_app in Hlies as [Htag Hbody].
    unfold TextParser.textField.
    erewrite mbind_eq; [|apply readLengthCodedNumber_at; [exact Htag|lia]].
    rewrite read_back_small by lia.
    cbv beta iota delta [Packet.mbind Packet.this Packet.lift Packet.advance
                         Packet.set_offset Packet.ret].
    packet_simpl. rewrite Hdec. reflexivity.
Qed.

(** X29. JSON cells of a text row under the default cast.  The decoder
    is called with the buffer of the packet, the position of the cell
    and its length, and hands [buffer.slice(offset, length)] to
    [JSON.parse]: the length of the cell is taken for the index where
    it ends.  So what is parsed is never a cell that has bytes: it is
    empty when the cell is no longer than the part of the buffer before
    it, and shorter than the cell otherwise.  When [JSON.parse] returns,
    its value is the cell and the cursor ends behind the cell; when it
    throws, so does the parser. *)
Theorem text_json_cell (runtime : list ColumnDefinition) (i : nat)
    (field : ColumnDefinition) (body : NodeBuffer.t) (p : Packet.t) :
  let start :=
    Packet.offset p + Z.of_nat (List.length (narrowest (NodeBuffer.length body))) in
  let parsed := NodeBuffer.slice (Packet.buffer p) start (NodeBuffer.length body) in
  default_cast (TextParser.cast options config) ->
  col_columnType field = Types.JSON ->
  NodeBuffer.length (Packet.buffer p) < 2 ^ 53 ->
  lies_at (Packet.buffer p) (Packet.offset p) (text_cell (Some body)) ->
  TextParser.cell decode floatAscii geometry parse options config runtime i field p
  = match parse parsed with
    | Ok v =>
        Ok (v, Packet.with_offset p
                 (Packet.offset p + Z.of_nat (List.length (text_cell (Some body)))))
    | Throw e => Throw e
    end
  /\ (NodeBuffer.length body <= start -> parsed = [])
  /\ (body <> [] -> (List.length parsed < List.length body)%nat).
Proof.
  intros start parsed Hcast Htype Hbuf Hlies.
  pose proof (narrowest_length (NodeBuffer.length body)) as Htag.
  pose proof Hlies as [Ho _].
  assert (Hstart : 1 <= start) by (unfold start; lia).
  split; [|split].
  - rewrite (cell_default decode floatAscii geometry parse options config runtime i field
               Hcast).
    unfold TextParser.readCodeFor. rewrite Htype.
    cbn [TextParser.encoding TextParser.defaultCast BinaryParser.encoding_of].
    erewrite mbind_eq; [|reflexivity].
    rewrite (textField_cast_outcome _ TextParser.JSON body p Hbuf Hlies).
    reflexivity.
  - intros Hshort. unfold parsed, NodeBuffer.slice, NodeBuffer.clamp_index.
    destruct (Z.ltb_spec start 0); [lia|].
    destruct (Z.ltb_spec (NodeBuffer.length body) 0);
      [pose proof (length_nonneg body); lia|].
    replace (Z.to_nat _) with 0%nat by lia. reflexivity.
  - intros Hne. assert (0 < List.length body)%nat by (destruct body; [contradiction|cbn; lia]).
    unfold parsed, NodeBuffer.slice, NodeBuffer.clamp_index.
    destruct (Z.ltb_spec start 0); [lia|].
    destruct (Z.ltb_spec (NodeBuffer.length body) 0);
      [pose proof (length_nonneg body); lia|].
    rewrite length_take. unfold NodeBuffer.length in *. lia.
Qed.

End JsonCells.

Lemma text_json_cell_on_an_object :
  TextParser.cell latin1 (uninterpreted "floatAscii") (uninterpreted "geometry") symbolic_parse
    plain_options plain_config [json_column] 0 json_column json_text
  = Ok (PacketParser.JSON_parse [123; 34], Packet.with_offset json_text 12).
Proof.
  destruct (text_json_cell latin1 (uninterpreted "floatAscii") (uninterpreted "geometry") symbolic_parse
              plain_options plain_config [json_column] 0 json_column
              [123; 34; 97; 34; 58; 49; 125] json_text)
    as (Hcell & _ & _).
  - left. reflexivity.
  - reflexivity.
  - reflexivity.
  - split; [vm_compute; discriminate|reflexivity].
  - exact Hcell.
Defined.
(** ** Times *)

Lemma dec_nonempty (n : Z) : dec n <> EmptyString.
Proof. unfold dec. destruct (N.to_uint (Z.to_N n)); discriminate. Qed.

Lemma leftPad_2 (n : Z) :
  0 <= n < 2 ^ 53 -> PacketParser.leftPad 2 (VNum (Fin n)) = Ok (padded 2 n).
Proof.
  intros Hn. unfold PacketParser.leftPad, padded.
  rewrite invoke_number_toString. cbn [JS.bind].
  rewrite number_toString_exact by lia.
  unfold dec_signed. destruct (Z.ltb_spec n 0); [lia|].
  pose proof (dec_nonempty n) as Hne.
  destruct (dec n) as [|a1 [|a2 s]]; [contradiction|reflexivity|].
  cbn [String.length]. destruct (Z.leb_spec 2 (Z.of_nat (S (S (String.length s))))); [|lia].
  reflexivity.
Qed.

Lemma leftPad_6 (n : Z) :
  0 <= n < 2 ^ 53 -> PacketParser.leftPad 6 (VNum (Fin n)) = Ok (padded 6 n).
Proof.
  intros Hn. unfold PacketParser.leftPad, padded.
  rewrite invoke_number_toString. cbn [JS.bind].
  rewrite number_toString_exact by lia.
  unfold dec_signed. destruct (Z.ltb_spec n 0); [lia|].
  pose proof (dec_nonempty n) as Hne.
  destruct (dec n) as [|a1 [|a2 [|a3 [|a4 [|a5 [|a6 s]]]]]];
    [contradiction|reflexivity..|].
  cbn [String.length].
  destruct (Z.leb_spec 6 (Z.of_nat (S (S (S (S (S (S (String.length s)))))))));
    [|lia].
  reflexivity.
Qed.

Lemma time_fields_read (b : NodeBuffer.t) (o : Z) (negative : bool) (d H M S_ : Z)
    (us : option Z) :
  time_fields d H M S_ us ->
  lies_at b o (time_bytes negative d H M S_ us) ->
  PacketParser.set (PacketParser.uint8 b (Some o)) = negative
  /\ PacketParser.uint32 b (Some (1 + o)) = Ok d
  /\ PacketParser.uint8 b (Some (5 + o)) = Some H
  /\ PacketParser.uint8 b (Some (6 + o)) = Some M
  /\ PacketParser.uint8 b (Some (7 + o)) = Some S_
  /\ (forall u, us = Some u -> PacketParser.uint32 b (Some (8 + o)) = Ok u).
Proof.
  intros (Hd & HH & HM & HS & Hus) Hlies. unfold time_bytes in Hlies.
  pose proof (lies_at_head _ _ _ _ Hlies) as Hsign.
  apply lies_at_tail in Hlies. apply lies_at_app in Hlies as [Hdays Hrest].
  rewrite le_bytes_length in Hrest. change (Z.of_nat 4) with 4 in Hrest.
  apply lies_at_app in Hrest as [Hhms Hmicros]. cbn [List.length] in Hmicros.
  change (Z.of_nat 3) with 3 in Hmicros.
  unfold PacketParser.uint8, PacketParser.uint32, PacketParser.or_zero.
  cbv beta iota delta [from_option id].
  split; [|split; [|split; [|split; [|split]]]].
  - rewrite Hsign. destruct negative; reflexivity.
  - unfold NodeBuffer.readUInt32LE. replace (1 + o) with (o + 1) by lia.
    rewrite (bytes_at_lies _ _ _ 4 Hdays) by (rewrite ?le_bytes_length; lia).
    cbn [JS.bind]. rewrite le_value_bytes_small by (cbn; lia). reflexivity.
  - replace (5 + o) with (o + 1 + 4 + Z.of_nat 0) by lia.
    apply (lies_at_get _ _ _ _ _ Hhms). reflexivity.
  - replace (6 + o) with (o + 1 + 4 + Z.of_nat 1) by lia.
    apply (lies_at_get _ _ _ _ _ Hhms). reflexivity.
  - replace (7 + o) with (o + 1 + 4 + Z.of_nat 2) by lia.
    apply (lies_at_get _ _ _ _ _ Hhms). reflexivity.
  - intros u ->. cbn [from_option id] in Hus.
    unfold NodeBuffer.readUInt32LE. replace (8 + o) with (o + 1 + 4 + 3) by lia.
    rewrite (bytes_at_lies _ _ _ 4 Hmicros) by (rewrite ?le_bytes_length; lia).
    cbn [JS.bind]. rewrite le_value_bytes_small by (cbn; lia). reflexivity.
Qed.

Lemma time_decoded (b : NodeBuffer.t) (o : Z) (negative : bool) (d H M S_ : Z)
    (us : option Z) :
  let len := Z.of_nat (List.length (time_bytes negative d H M S_ us)) in
  time_fields d H M S_ us ->
  lies_at b o (time_bytes negative d H M S_ us) ->
  Time._time Time.ToString b (Some o) (Some len)
  = Ok (VStr (time_text negative d H M S_ us))
  /\ Time._time Time.ToNumber b (Some o) (Some len)
     = Ok (VNum (Fin (time_ms negative d H M S_ us))).
Proof.
  intros len Hfields Hlies.
  destruct (time_fields_read b o negative d H M S_ us Hfields Hlies)
    as (Esign & Ed & EH & EM & ES & Eus).
  destruct Hfields as (Hd & HH & HM & HS & Hus).
  assert (Hbig : 2 ^ 32 < 2 ^ 53) by (vm_compute; reflexivity).
  assert (Hlen : len = match us with Some _ => 12 | None => 8 end).
  { unfold len, time_bytes. rewrite !length_app, le_bytes_length.
    destruct us; rewrite ?le_bytes_length; reflexivity. }
  assert (Hfieldsread :
            (if 7 <? len then
               do d0 <- PacketParser.uint32 b (Some (1 + o));
               if 11 <? len then
                 do microseconds <- PacketParser.uint32 b (Some (8 + o));
                 Ok (d0, NodeBuffer.value_of_byte (PacketParser.uint8 b (Some (5 + o))),
                     NodeBuffer.value_of_byte (PacketParser.uint8 b (Some (6 + o))),
                     NodeBuffer.value_of_byte (PacketParser.uint8 b (Some (7 + o))),
                     microseconds)
               else Ok (d0, NodeBuffer.value_of_byte (PacketParser.uint8 b (Some (5 + o))),
                        NodeBuffer.value_of_byte (PacketParser.uint8 b (Some (6 + o))),
                        NodeBuffer.value_of_byte (PacketParser.uint8 b (Some (7 + o))), 0)
             else Ok (0, VNum (Fin 0), VNum (Fin 0), VNum (Fin 0), 0))
            = Ok (d, VNum (Fin H), VNum (Fin M), VNum (Fin S_), default 0 us)).
  { rewrite Hlen, Ed, EH, EM, ES. destruct us as [u|].
    - change (7 <? 12) with true. change (11 <? 12) with true. cbv beta iota.
      cbn [JS.bind NodeBuffer.value_of_byte]. rewrite (Eus u eq_refl). reflexivity.
    - reflexivity. }
  assert (Hsign : (if negb (len =? 0) && PacketParser.set (PacketParser.uint8 b (Some o))
                   then -1 else 1) = (if negative then -1 else 1)).
  { rewrite Esign, Hlen. destruct us; reflexivity. }
  set (micro := default 0 us) in *.
  split.
  - unfold Time._time, PacketParser.arguments. cbv beta iota zeta.
    rewrite Hfieldsread, Hsign. cbn [JS.bind]. cbv beta iota.
    assert (Hhours : (do hours <-
                        (if negb (d =? 0) then
                           do h <- to_number (VNum (Fin H));
                           Ok (VNum (add (mul (Fin d) (Fin 24)) h))
                         else Ok (VNum (Fin H)));
                      Time.joined hours) = Ok (dec (d * 24 + H))).
    { destruct (Z.eqb_spec d 0) as [->|Hnz]; cbn [negb JS.bind to_number Time.joined].
      - rewrite number_toString_exact by lia. unfold dec_signed.
        destruct (Z.ltb_spec H 0); [lia|]. reflexivity.
      - unfold mul, add. rewrite of_Z_exact by lia. rewrite of_Z_exact by lia.
        rewrite number_toString_exact by lia. unfold dec_signed.
        destruct (Z.ltb_spec (d * 24 + H) 0); [lia|]. reflexivity. }
    destruct (if negb (d =? 0) then _ else _) as [hours|e]; [|discriminate].
    cbn [JS.bind] in Hhours |- *. rewrite Hhours. cbn [JS.bind].
    rewrite !leftPad_2 by lia. cbn [JS.bind].
    unfold time_text. fold micro.
    destruct (Z.eqb_spec micro 0) as [Hz|Hnz]; cbn [negb JS.bind].
    + destruct negative; reflexivity.
    + rewrite leftPad_6 by lia. cbn [JS.bind]. destruct negative; reflexivity.
  - unfold Time._time, PacketParser.arguments. cbv beta iota zeta.
    rewrite Hfieldsread, Hsign. cbn [JS.bind to_number]. cbv beta iota.
    assert (Hq : 0 <= micro / 1000 < 2 ^ 31).
    { split; [apply Z.div_pos; lia|]. apply Z.div_lt_upper_bound; lia. }
    rewrite Z.quot_div_nonneg by lia. rewrite int32_small by lia.
    unfold time_ms. fold micro.
    unfold mul, add.
    rewrite (of_Z_exact (d * 24)) by lia.
    rewrite (of_Z_exact (H + d * 24)) by lia.
    rewrite (of_Z_exact ((H + d * 24) * 60)) by lia.
    rewrite (of_Z_exact (M + (H + d * 24) * 60)) by lia.
    rewrite (of_Z_exact ((M + (H + d * 24) * 60) * 60)) by lia.
    rewrite (of_Z_exact (S_ + (M + (H + d * 24) * 60) * 60)) by lia.
    rewrite (of_Z_exact ((S_ + (M + (H + d * 24) * 60) * 60) * 1000)) by lia.
    rewrite (of_Z_exact ((S_ + (M + (H + d * 24) * 60) * 60) * 1000 + micro / 1000)) by lia.
    rewrite of_Z_exact by (destruct negative; lia).
    do 3 f_equal. destruct negative; lia.
Qed.

(** X30. TIME values of the binary protocol, read by [readTimeString].
    Behind its length, a value of eight or twelve bytes is returned as
    the text [h:mm:ss], with a [-] in front when the sign byte is set:
    the hours count the days in, 24 each, and are not padded, minutes
    and seconds have two digits, and microseconds that are not zero
    follow a dot in six digits.  With [convertTtoMs] the value is the
    signed number of milliseconds, the microseconds cut down to whole
    milliseconds.  The empty value, of length zero, gives [0:00:00] and
    0.  The cursor ends behind the value. *)
Theorem readTimeString_value (p : Packet.t) (negative : bool) (d H M S_ : Z)
    (us : option Z) :
  let value := time_bytes negative d H M S_ us in
  let len := Z.of_nat (List.length value) in
  (time_fields d H M S_ us ->
   lies_at (Packet.buffer p) (Packet.offset p) ([len] ++ value) ->
   Time.readTimeString false p
   = Ok (VStr (time_text negative d H M S_ us),
         Packet.with_offset p (Packet.offset p + 1 + len))
   /\ Time.readTimeString true p
      = Ok (VNum (Fin (time_ms negative d H M S_ us)),
            Packet.with_offset p (Packet.offset p + 1 + len)))
  /\ (NodeBuffer.get (Packet.buffer p) (Packet.offset p) = Some 0 ->
      Time.readTimeString false p
      = Ok (VStr "0:00:00", Packet.with_offset p (Packet.offset p + 1))
      /\ Time.readTimeString true p
         = Ok (VNum (Fin 0), Packet.with_offset p (Packet.offset p + 1))).
Proof.
  intros value len. split.
  - intros Hfields Hlies.
    pose proof (lies_at_head _ _ _ _ Hlies) as Hlen.
    apply lies_at_tail in Hlies.
    destruct (time_decoded _ _ negative d H M S_ us Hfields Hlies) as [Htext Hms].
    fold value in Htext, Hms. fold len in Htext, Hms.
    split; unfold Time.readTimeString;
      (erewrite mbind_eq; [|apply readInt8_step]);
      rewrite Hlen; cbn [NodeBuffer.value_of_byte Packet.advance_by];
      cbv beta iota delta [Packet.mbind Packet.advance Packet.this Packet.set_offset
                           Packet.ret Packet.lift];
      packet_simpl;
      replace (Packet.offset p + 1 + len - len) with (Packet.offset p + 1) by lia;
      [rewrite Htext|rewrite Hms]; reflexivity.
  - intros Hzero.
    split; unfold Time.readTimeString;
      (erewrite mbind_eq; [|apply readInt8_step]);
      rewrite Hzero; cbn [NodeBuffer.value_of_byte Packet.advance_by];
      cbv beta iota delta [Packet.mbind Packet.advance Packet.this Packet.set_offset
                           Packet.ret Packet.lift];
      packet_simpl; rewrite Z.add_0_r; reflexivity.
Qed.

Lemma readTimeString_value_examples :
  Time.readTimeString false time_cell
  = Ok (VStr "-838:59:59.000500", Packet.with_offset time_cell 17)
  /\ Time.readTimeString true time_cell
     = Ok (VNum (Fin (-3020399000)), Packet.with_offset time_cell 17)
  /\ Time.readTimeString false empty_time_cell
     = Ok (VStr "0:00:00", Packet.with_offset empty_time_cell 5).
Proof.
  destruct (readTimeString_value time_cell true 34 22 59 59 (Some 500)) as [Hvalue _].
  destruct (readTimeString_value empty_time_cell false 0 0 0 0 None) as [_ Hempty].
  destruct Hvalue as [Htext Hms].
  - unfold time_fields. cbn. lia.
  - split; [vm_compute; discriminate|reflexivity].
  - destruct Hempty as [Hzero _]; [reflexivity|].
    split; [exact Htext|split; [exact Hms|exact Hzero]].
Defined.
(** ** The packet of a prepared statement *)


Section Prepare.

Variable encode : string -> value -> NodeBuffer.t.
Variable CharsetToEncoding : Z -> value.
Variable STMT_PREPARE : Z.
Variable allocUnsafe : Z -> NodeBuffer.t.


End Prepare.

